(** * TrainTrack: the status-line parser and the event-window resolver

    A shallow embedding of [app/helpers/train_helper.py],
    [app/services/train_service.py] and the token extraction of
    [app/utils/train_util.py], with the parts of the Python standard
    library they lean on ([re], [html.unescape], [datetime]), followed by the
    properties of the parsing pipeline, of the window resolver and of the
    service.

    Conventions.
    - A Python [str] is a list of Unicode code points ([N]); [u "..."] writes
      an ASCII literal.
    - [None] is [option]'s [None]; a caught exception inside a [try] is the
      [None] of the function that catches it; an exception that escapes is an
      [Raise] of [result].
    - Regular expressions are abstract syntax run by a backtracking matcher
      with the ordered-choice semantics of Python's [re].
    - Wall-clock readings ([datetime.now()], the local UTC offset) and the two
      [fromisoformat] parsers are inputs of the functions that consult them. *)

From Stdlib Require Import List NArith ZArith Bool String Ascii DecimalString Lia.
Import ListNotations.


(** ** Strings *)

Definition char := N.
Definition str := list char.

Definition u (s : string) : str := map N_of_ascii (list_ascii_of_string s).

Fixpoint str_eqb (a b : str) : bool :=
  match a, b with
  | [], [] => true
  | x :: a', y :: b' => N.eqb x y && str_eqb a' b'
  | _, _ => false
  end.

Definition in_ranges (tbl : list (N * N)) (c : char) : bool :=
  existsb (fun r => N.leb (fst r) c && N.leb c (snd r)) tbl.

Definition mem_char (c : char) (l : list char) : bool := existsb (N.eqb c) l.

Fixpoint starts_with (p s : str) : bool :=
  match p, s with
  | [], _ => true
  | x :: p', y :: s' => N.eqb x y && starts_with p' s'
  | _ :: _, [] => false
  end.

Definition ends_with (p s : str) : bool := starts_with (rev p) (rev s).

(** [s[a:b]] for [0 <= a <= b]. *)
Definition slice (s : str) (a b : nat) : str := firstn (b - a) (skipn a s).

Fixpoint lstrip_by (p : char -> bool) (s : str) : str :=
  match s with
  | c :: t => if p c then lstrip_by p t else s
  | [] => []
  end.

Definition rstrip_by (p : char -> bool) (s : str) : str := rev (lstrip_by p (rev s)).

Definition strip_by (p : char -> bool) (s : str) : str := rstrip_by p (lstrip_by p s).

(** [s.replace(a, b)] for single characters. *)
Definition replace_char (a b : char) (s : str) : str :=
  map (fun c => if N.eqb c a then b else c) s.

(** Code points matched by [\s] and stripped by [str.strip()] (Unicode white space). *)
Definition space_ranges : list (N * N) :=
  [(9, 13); (28, 32); (133, 133); (160, 160); (5760, 5760); (8192, 8202);
   (8232, 8233); (8239, 8239); (8287, 8287); (12288, 12288)]%N.

(** Code points matched by [\d]: the decimal digits (category Nd) of Unicode 14.0, the
    version of CPython 3.11.  Every range is a run of the digits 0..9, repeated. *)
Definition digit_ranges : list (N * N) :=
  [(48, 57); (1632, 1641); (1776, 1785); (1984, 1993); (2406, 2415); (2534, 2543);
   (2662, 2671); (2790, 2799); (2918, 2927); (3046, 3055); (3174, 3183); (3302, 3311);
   (3430, 3439); (3558, 3567); (3664, 3673); (3792, 3801); (3872, 3881); (4160, 4169);
   (4240, 4249); (6112, 6121); (6160, 6169); (6470, 6479); (6608, 6617); (6784, 6793);
   (6800, 6809); (6992, 7001); (7088, 7097); (7232, 7241); (7248, 7257); (42528, 42537);
   (43216, 43225); (43264, 43273); (43472, 43481); (43504, 43513); (43600, 43609); (44016, 44025);
   (65296, 65305); (66720, 66729); (68912, 68921); (69734, 69743); (69872, 69881); (69942, 69951);
   (70096, 70105); (70384, 70393); (70736, 70745); (70864, 70873); (71248, 71257); (71360, 71369);
   (71472, 71481); (71904, 71913); (72016, 72025); (72784, 72793); (73040, 73049); (73120, 73129);
   (92768, 92777); (92864, 92873); (93008, 93017); (120782, 120831); (123200, 123209); (123632, 123641);
   (125264, 125273); (130032, 130041)]%N.

(** Code points matched by [\w]: alphanumerics of Unicode 14.0 and the underscore. *)
Definition word_ranges : list (N * N) :=
  [(48, 57); (65, 90); (95, 95); (97, 122); (170, 170); (178, 179);
   (181, 181); (185, 186); (188, 190); (192, 214); (216, 246); (248, 705);
   (710, 721); (736, 740); (748, 748); (750, 750); (880, 884); (886, 887);
   (890, 893); (895, 895); (902, 902); (904, 906); (908, 908); (910, 929);
   (931, 1013); (1015, 1153); (1162, 1327); (1329, 1366); (1369, 1369); (1376, 1416);
   (1488, 1514); (1519, 1522); (1568, 1610); (1632, 1641); (1646, 1647); (1649, 1747);
   (1749, 1749); (1765, 1766); (1774, 1788); (1791, 1791); (1808, 1808); (1810, 1839);
   (1869, 1957); (1969, 1969); (1984, 2026); (2036, 2037); (2042, 2042); (2048, 2069);
   (2074, 2074); (2084, 2084); (2088, 2088); (2112, 2136); (2144, 2154); (2160, 2183);
   (2185, 2190); (2208, 2249); (2308, 2361); (2365, 2365); (2384, 2384); (2392, 2401);
   (2406, 2415); (2417, 2432); (2437, 2444); (2447, 2448); (2451, 2472); (2474, 2480);
   (2482, 2482); (2486, 2489); (2493, 2493); (2510, 2510); (2524, 2525); (2527, 2529);
   (2534, 2545); (2548, 2553); (2556, 2556); (2565, 2570); (2575, 2576); (2579, 2600);
   (2602, 2608); (2610, 2611); (2613, 2614); (2616, 2617); (2649, 2652); (2654, 2654);
   (2662, 2671); (2674, 2676); (2693, 2701); (2703, 2705); (2707, 2728); (2730, 2736);
   (2738, 2739); (2741, 2745); (2749, 2749); (2768, 2768); (2784, 2785); (2790, 2799);
   (2809, 2809); (2821, 2828); (2831, 2832); (2835, 2856); (2858, 2864); (2866, 2867);
   (2869, 2873); (2877, 2877); (2908, 2909); (2911, 2913); (2918, 2927); (2929, 2935);
   (2947, 2947); (2949, 2954); (2958, 2960); (2962, 2965); (2969, 2970); (2972, 2972);
   (2974, 2975); (2979, 2980); (2984, 2986); (2990, 3001); (3024, 3024); (3046, 3058);
   (3077, 3084); (3086, 3088); (3090, 3112); (3114, 3129); (3133, 3133); (3160, 3162);
   (3165, 3165); (3168, 3169); (3174, 3183); (3192, 3198); (3200, 3200); (3205, 3212);
   (3214, 3216); (3218, 3240); (3242, 3251); (3253, 3257); (3261, 3261); (3293, 3294);
   (3296, 3297); (3302, 3311); (3313, 3314); (3332, 3340); (3342, 3344); (3346, 3386);
   (3389, 3389); (3406, 3406); (3412, 3414); (3416, 3425); (3430, 3448); (3450, 3455);
   (3461, 3478); (3482, 3505); (3507, 3515); (3517, 3517); (3520, 3526); (3558, 3567);
   (3585, 3632); (3634, 3635); (3648, 3654); (3664, 3673); (3713, 3714); (3716, 3716);
   (3718, 3722); (3724, 3747); (3749, 3749); (3751, 3760); (3762, 3763); (3773, 3773);
   (3776, 3780); (3782, 3782); (3792, 3801); (3804, 3807); (3840, 3840); (3872, 3891);
   (3904, 3911); (3913, 3948); (3976, 3980); (4096, 4138); (4159, 4169); (4176, 4181);
   (4186, 4189); (4193, 4193); (4197, 4198); (4206, 4208); (4213, 4225); (4238, 4238);
   (4240, 4249); (4256, 4293); (4295, 4295); (4301, 4301); (4304, 4346); (4348, 4680);
   (4682, 4685); (4688, 4694); (4696, 4696); (4698, 4701); (4704, 4744); (4746, 4749);
   (4752, 4784); (4786, 4789); (4792, 4798); (4800, 4800); (4802, 4805); (4808, 4822);
   (4824, 4880); (4882, 4885); (4888, 4954); (4969, 4988); (4992, 5007); (5024, 5109);
   (5112, 5117); (5121, 5740); (5743, 5759); (5761, 5786); (5792, 5866); (5870, 5880);
   (5888, 5905); (5919, 5937); (5952, 5969); (5984, 5996); (5998, 6000); (6016, 6067);
   (6103, 6103); (6108, 6108); (6112, 6121); (6128, 6137); (6160, 6169); (6176, 6264);
   (6272, 6276); (6279, 6312); (6314, 6314); (6320, 6389); (6400, 6430); (6470, 6509);
   (6512, 6516); (6528, 6571); (6576, 6601); (6608, 6618); (6656, 6678); (6688, 6740);
   (6784, 6793); (6800, 6809); (6823, 6823); (6917, 6963); (6981, 6988); (6992, 7001);
   (7043, 7072); (7086, 7141); (7168, 7203); (7232, 7241); (7245, 7293); (7296, 7304);
   (7312, 7354); (7357, 7359); (7401, 7404); (7406, 7411); (7413, 7414); (7418, 7418);
   (7424, 7615); (7680, 7957); (7960, 7965); (7968, 8005); (8008, 8013); (8016, 8023);
   (8025, 8025); (8027, 8027); (8029, 8029); (8031, 8061); (8064, 8116); (8118, 8124);
   (8126, 8126); (8130, 8132); (8134, 8140); (8144, 8147); (8150, 8155); (8160, 8172);
   (8178, 8180); (8182, 8188); (8304, 8305); (8308, 8313); (8319, 8329); (8336, 8348);
   (8450, 8450); (8455, 8455); (8458, 8467); (8469, 8469); (8473, 8477); (8484, 8484);
   (8486, 8486); (8488, 8488); (8490, 8493); (8495, 8505); (8508, 8511); (8517, 8521);
   (8526, 8526); (8528, 8585); (9312, 9371); (9450, 9471); (10102, 10131); (11264, 11492);
   (11499, 11502); (11506, 11507); (11517, 11517); (11520, 11557); (11559, 11559); (11565, 11565);
   (11568, 11623); (11631, 11631); (11648, 11670); (11680, 11686); (11688, 11694); (11696, 11702);
   (11704, 11710); (11712, 11718); (11720, 11726); (11728, 11734); (11736, 11742); (11823, 11823);
   (12293, 12295); (12321, 12329); (12337, 12341); (12344, 12348); (12353, 12438); (12445, 12447);
   (12449, 12538); (12540, 12543); (12549, 12591); (12593, 12686); (12690, 12693); (12704, 12735);
   (12784, 12799); (12832, 12841); (12872, 12879); (12881, 12895); (12928, 12937); (12977, 12991);
   (13312, 19903); (19968, 42124); (42192, 42237); (42240, 42508); (42512, 42539); (42560, 42606);
   (42623, 42653); (42656, 42735); (42775, 42783); (42786, 42888); (42891, 42954); (42960, 42961);
   (42963, 42963); (42965, 42969); (42994, 43009); (43011, 43013); (43015, 43018); (43020, 43042);
   (43056, 43061); (43072, 43123); (43138, 43187); (43216, 43225); (43250, 43255); (43259, 43259);
   (43261, 43262); (43264, 43301); (43312, 43334); (43360, 43388); (43396, 43442); (43471, 43481);
   (43488, 43492); (43494, 43518); (43520, 43560); (43584, 43586); (43588, 43595); (43600, 43609);
   (43616, 43638); (43642, 43642); (43646, 43695); (43697, 43697); (43701, 43702); (43705, 43709);
   (43712, 43712); (43714, 43714); (43739, 43741); (43744, 43754); (43762, 43764); (43777, 43782);
   (43785, 43790); (43793, 43798); (43808, 43814); (43816, 43822); (43824, 43866); (43868, 43881);
   (43888, 44002); (44016, 44025); (44032, 55203); (55216, 55238); (55243, 55291); (63744, 64109);
   (64112, 64217); (64256, 64262); (64275, 64279); (64285, 64285); (64287, 64296); (64298, 64310);
   (64312, 64316); (64318, 64318); (64320, 64321); (64323, 64324); (64326, 64433); (64467, 64829);
   (64848, 64911); (64914, 64967); (65008, 65019); (65136, 65140); (65142, 65276); (65296, 65305);
   (65313, 65338); (65345, 65370); (65382, 65470); (65474, 65479); (65482, 65487); (65490, 65495);
   (65498, 65500); (65536, 65547); (65549, 65574); (65576, 65594); (65596, 65597); (65599, 65613);
   (65616, 65629); (65664, 65786); (65799, 65843); (65856, 65912); (65930, 65931); (66176, 66204);
   (66208, 66256); (66273, 66299); (66304, 66339); (66349, 66378); (66384, 66421); (66432, 66461);
   (66464, 66499); (66504, 66511); (66513, 66517); (66560, 66717); (66720, 66729); (66736, 66771);
   (66776, 66811); (66816, 66855); (66864, 66915); (66928, 66938); (66940, 66954); (66956, 66962);
   (66964, 66965); (66967, 66977); (66979, 66993); (66995, 67001); (67003, 67004); (67072, 67382);
   (67392, 67413); (67424, 67431); (67456, 67461); (67463, 67504); (67506, 67514); (67584, 67589);
   (67592, 67592); (67594, 67637); (67639, 67640); (67644, 67644); (67647, 67669); (67672, 67702);
   (67705, 67742); (67751, 67759); (67808, 67826); (67828, 67829); (67835, 67867); (67872, 67897);
   (67968, 68023); (68028, 68047); (68050, 68096); (68112, 68115); (68117, 68119); (68121, 68149);
   (68160, 68168); (68192, 68222); (68224, 68255); (68288, 68295); (68297, 68324); (68331, 68335);
   (68352, 68405); (68416, 68437); (68440, 68466); (68472, 68497); (68521, 68527); (68608, 68680);
   (68736, 68786); (68800, 68850); (68858, 68899); (68912, 68921); (69216, 69246); (69248, 69289);
   (69296, 69297); (69376, 69415); (69424, 69445); (69457, 69460); (69488, 69505); (69552, 69579);
   (69600, 69622); (69635, 69687); (69714, 69743); (69745, 69746); (69749, 69749); (69763, 69807);
   (69840, 69864); (69872, 69881); (69891, 69926); (69942, 69951); (69956, 69956); (69959, 69959);
   (69968, 70002); (70006, 70006); (70019, 70066); (70081, 70084); (70096, 70106); (70108, 70108);
   (70113, 70132); (70144, 70161); (70163, 70187); (70272, 70278); (70280, 70280); (70282, 70285);
   (70287, 70301); (70303, 70312); (70320, 70366); (70384, 70393); (70405, 70412); (70415, 70416);
   (70419, 70440); (70442, 70448); (70450, 70451); (70453, 70457); (70461, 70461); (70480, 70480);
   (70493, 70497); (70656, 70708); (70727, 70730); (70736, 70745); (70751, 70753); (70784, 70831);
   (70852, 70853); (70855, 70855); (70864, 70873); (71040, 71086); (71128, 71131); (71168, 71215);
   (71236, 71236); (71248, 71257); (71296, 71338); (71352, 71352); (71360, 71369); (71424, 71450);
   (71472, 71483); (71488, 71494); (71680, 71723); (71840, 71922); (71935, 71942); (71945, 71945);
   (71948, 71955); (71957, 71958); (71960, 71983); (71999, 71999); (72001, 72001); (72016, 72025);
   (72096, 72103); (72106, 72144); (72161, 72161); (72163, 72163); (72192, 72192); (72203, 72242);
   (72250, 72250); (72272, 72272); (72284, 72329); (72349, 72349); (72368, 72440); (72704, 72712);
   (72714, 72750); (72768, 72768); (72784, 72812); (72818, 72847); (72960, 72966); (72968, 72969);
   (72971, 73008); (73030, 73030); (73040, 73049); (73056, 73061); (73063, 73064); (73066, 73097);
   (73112, 73112); (73120, 73129); (73440, 73458); (73648, 73648); (73664, 73684); (73728, 74649);
   (74752, 74862); (74880, 75075); (77712, 77808); (77824, 78894); (82944, 83526); (92160, 92728);
   (92736, 92766); (92768, 92777); (92784, 92862); (92864, 92873); (92880, 92909); (92928, 92975);
   (92992, 92995); (93008, 93017); (93019, 93025); (93027, 93047); (93053, 93071); (93760, 93846);
   (93952, 94026); (94032, 94032); (94099, 94111); (94176, 94177); (94179, 94179); (94208, 100343);
   (100352, 101589); (101632, 101640); (110576, 110579); (110581, 110587); (110589, 110590); (110592, 110882);
   (110928, 110930); (110948, 110951); (110960, 111355); (113664, 113770); (113776, 113788); (113792, 113800);
   (113808, 113817); (119520, 119539); (119648, 119672); (119808, 119892); (119894, 119964); (119966, 119967);
   (119970, 119970); (119973, 119974); (119977, 119980); (119982, 119993); (119995, 119995); (119997, 120003);
   (120005, 120069); (120071, 120074); (120077, 120084); (120086, 120092); (120094, 120121); (120123, 120126);
   (120128, 120132); (120134, 120134); (120138, 120144); (120146, 120485); (120488, 120512); (120514, 120538);
   (120540, 120570); (120572, 120596); (120598, 120628); (120630, 120654); (120656, 120686); (120688, 120712);
   (120714, 120744); (120746, 120770); (120772, 120779); (120782, 120831); (122624, 122654); (123136, 123180);
   (123191, 123197); (123200, 123209); (123214, 123214); (123536, 123565); (123584, 123627); (123632, 123641);
   (124896, 124902); (124904, 124907); (124909, 124910); (124912, 124926); (124928, 125124); (125127, 125135);
   (125184, 125251); (125259, 125259); (125264, 125273); (126065, 126123); (126125, 126127); (126129, 126132);
   (126209, 126253); (126255, 126269); (126464, 126467); (126469, 126495); (126497, 126498); (126500, 126500);
   (126503, 126503); (126505, 126514); (126516, 126519); (126521, 126521); (126523, 126523); (126530, 126530);
   (126535, 126535); (126537, 126537); (126539, 126539); (126541, 126543); (126545, 126546); (126548, 126548);
   (126551, 126551); (126553, 126553); (126555, 126555); (126557, 126557); (126559, 126559); (126561, 126562);
   (126564, 126564); (126567, 126570); (126572, 126578); (126580, 126583); (126585, 126588); (126590, 126590);
   (126592, 126601); (126603, 126619); (126625, 126627); (126629, 126633); (126635, 126651); (127232, 127244);
   (130032, 130041); (131072, 173791); (173824, 177976); (177984, 178205); (178208, 183969); (183984, 191456);
   (194560, 195101); (196608, 201546)]%N.

(** [html._invalid_charrefs]: numeric references replaced by a fixed string. *)
Definition invalid_charrefs : list (N * list N) :=
  [(0, [65533]); (13, [13]); (128, [8364]); (129, [129]); (130, [8218]);
   (131, [402]); (132, [8222]); (133, [8230]); (134, [8224]); (135, [8225]);
   (136, [710]); (137, [8240]); (138, [352]); (139, [8249]); (140, [338]);
   (141, [141]); (142, [381]); (143, [143]); (144, [144]); (145, [8216]);
   (146, [8217]); (147, [8220]); (148, [8221]); (149, [8226]); (150, [8211]);
   (151, [8212]); (152, [732]); (153, [8482]); (154, [353]); (155, [8250]);
   (156, [339]); (157, [157]); (158, [382]); (159, [376])]%N.

(** [html._invalid_codepoints]: numeric references replaced by the empty string (as ranges). *)
Definition invalid_codepoints : list (N * N) :=
  [(1, 8); (11, 11); (14, 31); (127, 159); (64976, 65007); (65534, 65535);
   (131070, 131071); (196606, 196607); (262142, 262143); (327678, 327679); (393214, 393215); (458750, 458751);
   (524286, 524287); (589822, 589823); (655358, 655359); (720894, 720895); (786430, 786431); (851966, 851967);
   (917502, 917503); (983038, 983039); (1048574, 1048575); (1114110, 1114111)]%N.

(** [html.entities.html5]: the named character references of HTML 5, name (without the
    ampersand) to replacement text. *)
Definition html5 : list (string * list N) :=
  [("Aacute", [193]); ("aacute", [225]); ("Aacute;", [193]); ("aacute;", [225]);
    ("Abreve;", [258]); ("abreve;", [259]); ("ac;", [8766]); ("acd;", [8767]);
    ("acE;", [8766; 819]); ("Acirc", [194]); ("acirc", [226]); ("Acirc;", [194]);
    ("acirc;", [226]); ("acute", [180]); ("acute;", [180]); ("Acy;", [1040]); ("acy;", [1072]);
    ("AElig", [198]); ("aelig", [230]); ("AElig;", [198]); ("aelig;", [230]); ("af;", [8289]);
    ("Afr;", [120068]); ("afr;", [120094]); ("Agrave", [192]); ("agrave", [224]);
    ("Agrave;", [192]); ("agrave;", [224]); ("alefsym;", [8501]); ("aleph;", [8501]);
    ("Alpha;", [913]); ("alpha;", [945]); ("Amacr;", [256]); ("amacr;", [257]);
    ("amalg;", [10815]); ("AMP", [38]); ("amp", [38]); ("AMP;", [38]); ("amp;", [38]);
    ("And;", [10835]); ("and;", [8743]); ("andand;", [10837]); ("andd;", [10844]);
    ("andslope;", [10840]); ("andv;", [10842]); ("ang;", [8736]); ("ange;", [10660]);
    ("angle;", [8736]); ("angmsd;", [8737]); ("angmsdaa;", [10664]); ("angmsdab;", [10665]);
    ("angmsdac;", [10666]); ("angmsdad;", [10667]); ("angmsdae;", [10668]);
    ("angmsdaf;", [10669]); ("angmsdag;", [10670]); ("angmsdah;", [10671]); ("angrt;", [8735]);
    ("angrtvb;", [8894]); ("angrtvbd;", [10653]); ("angsph;", [8738]); ("angst;", [197]);
    ("angzarr;", [9084]); ("Aogon;", [260]); ("aogon;", [261]); ("Aopf;", [120120]);
    ("aopf;", [120146]); ("ap;", [8776]); ("apacir;", [10863]); ("apE;", [10864]);
    ("ape;", [8778]); ("apid;", [8779]); ("apos;", [39]); ("ApplyFunction;", [8289]);
    ("approx;", [8776]); ("approxeq;", [8778]); ("Aring", [197]); ("aring", [229]);
    ("Aring;", [197]); ("aring;", [229]); ("Ascr;", [119964]); ("ascr;", [119990]);
    ("Assign;", [8788]); ("ast;", [42]); ("asymp;", [8776]); ("asympeq;", [8781]);
    ("Atilde", [195]); ("atilde", [227]); ("Atilde;", [195]); ("atilde;", [227]);
    ("Auml", [196]); ("auml", [228]); ("Auml;", [196]); ("auml;", [228]); ("awconint;", [8755]);
    ("awint;", [10769]); ("backcong;", [8780]); ("backepsilon;", [1014]);
    ("backprime;", [8245]); ("backsim;", [8765]); ("backsimeq;", [8909]);
    ("Backslash;", [8726]); ("Barv;", [10983]); ("barvee;", [8893]); ("Barwed;", [8966]);
    ("barwed;", [8965]); ("barwedge;", [8965]); ("bbrk;", [9141]); ("bbrktbrk;", [9142]);
    ("bcong;", [8780]); ("Bcy;", [1041]); ("bcy;", [1073]); ("bdquo;", [8222]);
    ("becaus;", [8757]); ("Because;", [8757]); ("because;", [8757]); ("bemptyv;", [10672]);
    ("bepsi;", [1014]); ("bernou;", [8492]); ("Bernoullis;", [8492]); ("Beta;", [914]);
    ("beta;", [946]); ("beth;", [8502]); ("between;", [8812]); ("Bfr;", [120069]);
    ("bfr;", [120095]); ("bigcap;", [8898]); ("bigcirc;", [9711]); ("bigcup;", [8899]);
    ("bigodot;", [10752]); ("bigoplus;", [10753]); ("bigotimes;", [10754]);
    ("bigsqcup;", [10758]); ("bigstar;", [9733]); ("bigtriangledown;", [9661]);
    ("bigtriangleup;", [9651]); ("biguplus;", [10756]); ("bigvee;", [8897]);
    ("bigwedge;", [8896]); ("bkarow;", [10509]); ("blacklozenge;", [10731]);
    ("blacksquare;", [9642]); ("blacktriangle;", [9652]); ("blacktriangledown;", [9662]);
    ("blacktriangleleft;", [9666]); ("blacktriangleright;", [9656]); ("blank;", [9251]);
    ("blk12;", [9618]); ("blk14;", [9617]); ("blk34;", [9619]); ("block;", [9608]);
    ("bne;", [61; 8421]); ("bnequiv;", [8801; 8421]); ("bNot;", [10989]); ("bnot;", [8976]);
    ("Bopf;", [120121]); ("bopf;", [120147]); ("bot;", [8869]); ("bottom;", [8869]);
    ("bowtie;", [8904]); ("boxbox;", [10697]); ("boxDL;", [9559]); ("boxDl;", [9558]);
    ("boxdL;", [9557]); ("boxdl;", [9488]); ("boxDR;", [9556]); ("boxDr;", [9555]);
    ("boxdR;", [9554]); ("boxdr;", [9484]); ("boxH;", [9552]); ("boxh;", [9472]);
    ("boxHD;", [9574]); ("boxHd;", [9572]); ("boxhD;", [9573]); ("boxhd;", [9516]);
    ("boxHU;", [9577]); ("boxHu;", [9575]); ("boxhU;", [9576]); ("boxhu;", [9524]);
    ("boxminus;", [8863]); ("boxplus;", [8862]); ("boxtimes;", [8864]); ("boxUL;", [9565]);
    ("boxUl;", [9564]); ("boxuL;", [9563]); ("boxul;", [9496]); ("boxUR;", [9562]);
    ("boxUr;", [9561]); ("boxuR;", [9560]); ("boxur;", [9492]); ("boxV;", [9553]);
    ("boxv;", [9474]); ("boxVH;", [9580]); ("boxVh;", [9579]); ("boxvH;", [9578]);
    ("boxvh;", [9532]); ("boxVL;", [9571]); ("boxVl;", [9570]); ("boxvL;", [9569]);
    ("boxvl;", [9508]); ("boxVR;", [9568]); ("boxVr;", [9567]); ("boxvR;", [9566]);
    ("boxvr;", [9500]); ("bprime;", [8245]); ("Breve;", [728]); ("breve;", [728]);
    ("brvbar", [166]); ("brvbar;", [166]); ("Bscr;", [8492]); ("bscr;", [119991]);
    ("bsemi;", [8271]); ("bsim;", [8765]); ("bsime;", [8909]); ("bsol;", [92]);
    ("bsolb;", [10693]); ("bsolhsub;", [10184]); ("bull;", [8226]); ("bullet;", [8226]);
    ("bump;", [8782]); ("bumpE;", [10926]); ("bumpe;", [8783]); ("Bumpeq;", [8782]);
    ("bumpeq;", [8783]); ("Cacute;", [262]); ("cacute;", [263]); ("Cap;", [8914]);
    ("cap;", [8745]); ("capand;", [10820]); ("capbrcup;", [10825]); ("capcap;", [10827]);
    ("capcup;", [10823]); ("capdot;", [10816]); ("CapitalDifferentialD;", [8517]);
    ("caps;", [8745; 65024]); ("caret;", [8257]); ("caron;", [711]); ("Cayleys;", [8493]);
    ("ccaps;", [10829]); ("Ccaron;", [268]); ("ccaron;", [269]); ("Ccedil", [199]);
    ("ccedil", [231]); ("Ccedil;", [199]); ("ccedil;", [231]); ("Ccirc;", [264]);
    ("ccirc;", [265]); ("Cconint;", [8752]); ("ccups;", [10828]); ("ccupssm;", [10832]);
    ("Cdot;", [266]); ("cdot;", [267]); ("cedil", [184]); ("cedil;", [184]);
    ("Cedilla;", [184]); ("cemptyv;", [10674]); ("cent", [162]); ("cent;", [162]);
    ("CenterDot;", [183]); ("centerdot;", [183]); ("Cfr;", [8493]); ("cfr;", [120096]);
    ("CHcy;", [1063]); ("chcy;", [1095]); ("check;", [10003]); ("checkmark;", [10003]);
    ("Chi;", [935]); ("chi;", [967]); ("cir;", [9675]); ("circ;", [710]); ("circeq;", [8791]);
    ("circlearrowleft;", [8634]); ("circlearrowright;", [8635]); ("circledast;", [8859]);
    ("circledcirc;", [8858]); ("circleddash;", [8861]); ("CircleDot;", [8857]);
    ("circledR;", [174]); ("circledS;", [9416]); ("CircleMinus;", [8854]);
    ("CirclePlus;", [8853]); ("CircleTimes;", [8855]); ("cirE;", [10691]); ("cire;", [8791]);
    ("cirfnint;", [10768]); ("cirmid;", [10991]); ("cirscir;", [10690]);
    ("ClockwiseContourIntegral;", [8754]); ("CloseCurlyDoubleQuote;", [8221]);
    ("CloseCurlyQuote;", [8217]); ("clubs;", [9827]); ("clubsuit;", [9827]); ("Colon;", [8759]);
    ("colon;", [58]); ("Colone;", [10868]); ("colone;", [8788]); ("coloneq;", [8788]);
    ("comma;", [44]); ("commat;", [64]); ("comp;", [8705]); ("compfn;", [8728]);
    ("complement;", [8705]); ("complexes;", [8450]); ("cong;", [8773]); ("congdot;", [10861]);
    ("Congruent;", [8801]); ("Conint;", [8751]); ("conint;", [8750]);
    ("ContourIntegral;", [8750]); ("Copf;", [8450]); ("copf;", [120148]); ("coprod;", [8720]);
    ("Coproduct;", [8720]); ("COPY", [169]); ("copy", [169]); ("COPY;", [169]);
    ("copy;", [169]); ("copysr;", [8471]); ("CounterClockwiseContourIntegral;", [8755]);
    ("crarr;", [8629]); ("Cross;", [10799]); ("cross;", [10007]); ("Cscr;", [119966]);
    ("cscr;", [119992]); ("csub;", [10959]); ("csube;", [10961]); ("csup;", [10960]);
    ("csupe;", [10962]); ("ctdot;", [8943]); ("cudarrl;", [10552]); ("cudarrr;", [10549]);
    ("cuepr;", [8926]); ("cuesc;", [8927]); ("cularr;", [8630]); ("cularrp;", [10557]);
    ("Cup;", [8915]); ("cup;", [8746]); ("cupbrcap;", [10824]); ("CupCap;", [8781]);
    ("cupcap;", [10822]); ("cupcup;", [10826]); ("cupdot;", [8845]); ("cupor;", [10821]);
    ("cups;", [8746; 65024]); ("curarr;", [8631]); ("curarrm;", [10556]);
    ("curlyeqprec;", [8926]); ("curlyeqsucc;", [8927]); ("curlyvee;", [8910]);
    ("curlywedge;", [8911]); ("curren", [164]); ("curren;", [164]); ("curvearrowleft;", [8630]);
    ("curvearrowright;", [8631]); ("cuvee;", [8910]); ("cuwed;", [8911]); ("cwconint;", [8754]);
    ("cwint;", [8753]); ("cylcty;", [9005]); ("Dagger;", [8225]); ("dagger;", [8224]);
    ("daleth;", [8504]); ("Darr;", [8609]); ("dArr;", [8659]); ("darr;", [8595]);
    ("dash;", [8208]); ("Dashv;", [10980]); ("dashv;", [8867]); ("dbkarow;", [10511]);
    ("dblac;", [733]); ("Dcaron;", [270]); ("dcaron;", [271]); ("Dcy;", [1044]);
    ("dcy;", [1076]); ("DD;", [8517]); ("dd;", [8518]); ("ddagger;", [8225]);
    ("ddarr;", [8650]); ("DDotrahd;", [10513]); ("ddotseq;", [10871]); ("deg", [176]);
    ("deg;", [176]); ("Del;", [8711]); ("Delta;", [916]); ("delta;", [948]);
    ("demptyv;", [10673]); ("dfisht;", [10623]); ("Dfr;", [120071]); ("dfr;", [120097]);
    ("dHar;", [10597]); ("dharl;", [8643]); ("dharr;", [8642]); ("DiacriticalAcute;", [180]);
    ("DiacriticalDot;", [729]); ("DiacriticalDoubleAcute;", [733]); ("DiacriticalGrave;", [96]);
    ("DiacriticalTilde;", [732]); ("diam;", [8900]); ("Diamond;", [8900]); ("diamond;", [8900]);
    ("diamondsuit;", [9830]); ("diams;", [9830]); ("die;", [168]); ("DifferentialD;", [8518]);
    ("digamma;", [989]); ("disin;", [8946]); ("div;", [247]); ("divide", [247]);
    ("divide;", [247]); ("divideontimes;", [8903]); ("divonx;", [8903]); ("DJcy;", [1026]);
    ("djcy;", [1106]); ("dlcorn;", [8990]); ("dlcrop;", [8973]); ("dollar;", [36]);
    ("Dopf;", [120123]); ("dopf;", [120149]); ("Dot;", [168]); ("dot;", [729]);
    ("DotDot;", [8412]); ("doteq;", [8784]); ("doteqdot;", [8785]); ("DotEqual;", [8784]);
    ("dotminus;", [8760]); ("dotplus;", [8724]); ("dotsquare;", [8865]);
    ("doublebarwedge;", [8966]); ("DoubleContourIntegral;", [8751]); ("DoubleDot;", [168]);
    ("DoubleDownArrow;", [8659]); ("DoubleLeftArrow;", [8656]);
    ("DoubleLeftRightArrow;", [8660]); ("DoubleLeftTee;", [10980]);
    ("DoubleLongLeftArrow;", [10232]); ("DoubleLongLeftRightArrow;", [10234]);
    ("DoubleLongRightArrow;", [10233]); ("DoubleRightArrow;", [8658]);
    ("DoubleRightTee;", [8872]); ("DoubleUpArrow;", [8657]); ("DoubleUpDownArrow;", [8661]);
    ("DoubleVerticalBar;", [8741]); ("DownArrow;", [8595]); ("Downarrow;", [8659]);
    ("downarrow;", [8595]); ("DownArrowBar;", [10515]); ("DownArrowUpArrow;", [8693]);
    ("DownBreve;", [785]); ("downdownarrows;", [8650]); ("downharpoonleft;", [8643]);
    ("downharpoonright;", [8642]); ("DownLeftRightVector;", [10576]);
    ("DownLeftTeeVector;", [10590]); ("DownLeftVector;", [8637]);
    ("DownLeftVectorBar;", [10582]); ("DownRightTeeVector;", [10591]);
    ("DownRightVector;", [8641]); ("DownRightVectorBar;", [10583]); ("DownTee;", [8868]);
    ("DownTeeArrow;", [8615]); ("drbkarow;", [10512]); ("drcorn;", [8991]); ("drcrop;", [8972]);
    ("Dscr;", [119967]); ("dscr;", [119993]); ("DScy;", [1029]); ("dscy;", [1109]);
    ("dsol;", [10742]); ("Dstrok;", [272]); ("dstrok;", [273]); ("dtdot;", [8945]);
    ("dtri;", [9663]); ("dtrif;", [9662]); ("duarr;", [8693]); ("duhar;", [10607]);
    ("dwangle;", [10662]); ("DZcy;", [1039]); ("dzcy;", [1119]); ("dzigrarr;", [10239]);
    ("Eacute", [201]); ("eacute", [233]); ("Eacute;", [201]); ("eacute;", [233]);
    ("easter;", [10862]); ("Ecaron;", [282]); ("ecaron;", [283]); ("ecir;", [8790]);
    ("Ecirc", [202]); ("ecirc", [234]); ("Ecirc;", [202]); ("ecirc;", [234]);
    ("ecolon;", [8789]); ("Ecy;", [1069]); ("ecy;", [1101]); ("eDDot;", [10871]);
    ("Edot;", [278]); ("eDot;", [8785]); ("edot;", [279]); ("ee;", [8519]); ("efDot;", [8786]);
    ("Efr;", [120072]); ("efr;", [120098]); ("eg;", [10906]); ("Egrave", [200]);
    ("egrave", [232]); ("Egrave;", [200]); ("egrave;", [232]); ("egs;", [10902]);
    ("egsdot;", [10904]); ("el;", [10905]); ("Element;", [8712]); ("elinters;", [9191]);
    ("ell;", [8467]); ("els;", [10901]); ("elsdot;", [10903]); ("Emacr;", [274]);
    ("emacr;", [275]); ("empty;", [8709]); ("emptyset;", [8709]); ("EmptySmallSquare;", [9723]);
    ("emptyv;", [8709]); ("EmptyVerySmallSquare;", [9643]); ("emsp13;", [8196]);
    ("emsp14;", [8197]); ("emsp;", [8195]); ("ENG;", [330]); ("eng;", [331]); ("ensp;", [8194]);
    ("Eogon;", [280]); ("eogon;", [281]); ("Eopf;", [120124]); ("eopf;", [120150]);
    ("epar;", [8917]); ("eparsl;", [10723]); ("eplus;", [10865]); ("epsi;", [949]);
    ("Epsilon;", [917]); ("epsilon;", [949]); ("epsiv;", [1013]); ("eqcirc;", [8790]);
    ("eqcolon;", [8789]); ("eqsim;", [8770]); ("eqslantgtr;", [10902]);
    ("eqslantless;", [10901]); ("Equal;", [10869]); ("equals;", [61]); ("EqualTilde;", [8770]);
    ("equest;", [8799]); ("Equilibrium;", [8652]); ("equiv;", [8801]); ("equivDD;", [10872]);
    ("eqvparsl;", [10725]); ("erarr;", [10609]); ("erDot;", [8787]); ("Escr;", [8496]);
    ("escr;", [8495]); ("esdot;", [8784]); ("Esim;", [10867]); ("esim;", [8770]);
    ("Eta;", [919]); ("eta;", [951]); ("ETH", [208]); ("eth", [240]); ("ETH;", [208]);
    ("eth;", [240]); ("Euml", [203]); ("euml", [235]); ("Euml;", [203]); ("euml;", [235]);
    ("euro;", [8364]); ("excl;", [33]); ("exist;", [8707]); ("Exists;", [8707]);
    ("expectation;", [8496]); ("ExponentialE;", [8519]); ("exponentiale;", [8519]);
    ("fallingdotseq;", [8786]); ("Fcy;", [1060]); ("fcy;", [1092]); ("female;", [9792]);
    ("ffilig;", [64259]); ("fflig;", [64256]); ("ffllig;", [64260]); ("Ffr;", [120073]);
    ("ffr;", [120099]); ("filig;", [64257]); ("FilledSmallSquare;", [9724]);
    ("FilledVerySmallSquare;", [9642]); ("fjlig;", [102; 106]); ("flat;", [9837]);
    ("fllig;", [64258]); ("fltns;", [9649]); ("fnof;", [402]); ("Fopf;", [120125]);
    ("fopf;", [120151]); ("ForAll;", [8704]); ("forall;", [8704]); ("fork;", [8916]);
    ("forkv;", [10969]); ("Fouriertrf;", [8497]); ("fpartint;", [10765]); ("frac12", [189]);
    ("frac12;", [189]); ("frac13;", [8531]); ("frac14", [188]); ("frac14;", [188]);
    ("frac15;", [8533]); ("frac16;", [8537]); ("frac18;", [8539]); ("frac23;", [8532]);
    ("frac25;", [8534]); ("frac34", [190]); ("frac34;", [190]); ("frac35;", [8535]);
    ("frac38;", [8540]); ("frac45;", [8536]); ("frac56;", [8538]); ("frac58;", [8541]);
    ("frac78;", [8542]); ("frasl;", [8260]); ("frown;", [8994]); ("Fscr;", [8497]);
    ("fscr;", [119995]); ("gacute;", [501]); ("Gamma;", [915]); ("gamma;", [947]);
    ("Gammad;", [988]); ("gammad;", [989]); ("gap;", [10886]); ("Gbreve;", [286]);
    ("gbreve;", [287]); ("Gcedil;", [290]); ("Gcirc;", [284]); ("gcirc;", [285]);
    ("Gcy;", [1043]); ("gcy;", [1075]); ("Gdot;", [288]); ("gdot;", [289]); ("gE;", [8807]);
    ("ge;", [8805]); ("gEl;", [10892]); ("gel;", [8923]); ("geq;", [8805]); ("geqq;", [8807]);
    ("geqslant;", [10878]); ("ges;", [10878]); ("gescc;", [10921]); ("gesdot;", [10880]);
    ("gesdoto;", [10882]); ("gesdotol;", [10884]); ("gesl;", [8923; 65024]);
    ("gesles;", [10900]); ("Gfr;", [120074]); ("gfr;", [120100]); ("Gg;", [8921]);
    ("gg;", [8811]); ("ggg;", [8921]); ("gimel;", [8503]); ("GJcy;", [1027]); ("gjcy;", [1107]);
    ("gl;", [8823]); ("gla;", [10917]); ("glE;", [10898]); ("glj;", [10916]);
    ("gnap;", [10890]); ("gnapprox;", [10890]); ("gnE;", [8809]); ("gne;", [10888]);
    ("gneq;", [10888]); ("gneqq;", [8809]); ("gnsim;", [8935]); ("Gopf;", [120126]);
    ("gopf;", [120152]); ("grave;", [96]); ("GreaterEqual;", [8805]);
    ("GreaterEqualLess;", [8923]); ("GreaterFullEqual;", [8807]); ("GreaterGreater;", [10914]);
    ("GreaterLess;", [8823]); ("GreaterSlantEqual;", [10878]); ("GreaterTilde;", [8819]);
    ("Gscr;", [119970]); ("gscr;", [8458]); ("gsim;", [8819]); ("gsime;", [10894]);
    ("gsiml;", [10896]); ("GT", [62]); ("gt", [62]); ("GT;", [62]); ("Gt;", [8811]);
    ("gt;", [62]); ("gtcc;", [10919]); ("gtcir;", [10874]); ("gtdot;", [8919]);
    ("gtlPar;", [10645]); ("gtquest;", [10876]); ("gtrapprox;", [10886]); ("gtrarr;", [10616]);
    ("gtrdot;", [8919]); ("gtreqless;", [8923]); ("gtreqqless;", [10892]); ("gtrless;", [8823]);
    ("gtrsim;", [8819]); ("gvertneqq;", [8809; 65024]); ("gvnE;", [8809; 65024]);
    ("Hacek;", [711]); ("hairsp;", [8202]); ("half;", [189]); ("hamilt;", [8459]);
    ("HARDcy;", [1066]); ("hardcy;", [1098]); ("hArr;", [8660]); ("harr;", [8596]);
    ("harrcir;", [10568]); ("harrw;", [8621]); ("Hat;", [94]); ("hbar;", [8463]);
    ("Hcirc;", [292]); ("hcirc;", [293]); ("hearts;", [9829]); ("heartsuit;", [9829]);
    ("hellip;", [8230]); ("hercon;", [8889]); ("Hfr;", [8460]); ("hfr;", [120101]);
    ("HilbertSpace;", [8459]); ("hksearow;", [10533]); ("hkswarow;", [10534]);
    ("hoarr;", [8703]); ("homtht;", [8763]); ("hookleftarrow;", [8617]);
    ("hookrightarrow;", [8618]); ("Hopf;", [8461]); ("hopf;", [120153]); ("horbar;", [8213]);
    ("HorizontalLine;", [9472]); ("Hscr;", [8459]); ("hscr;", [119997]); ("hslash;", [8463]);
    ("Hstrok;", [294]); ("hstrok;", [295]); ("HumpDownHump;", [8782]); ("HumpEqual;", [8783]);
    ("hybull;", [8259]); ("hyphen;", [8208]); ("Iacute", [205]); ("iacute", [237]);
    ("Iacute;", [205]); ("iacute;", [237]); ("ic;", [8291]); ("Icirc", [206]); ("icirc", [238]);
    ("Icirc;", [206]); ("icirc;", [238]); ("Icy;", [1048]); ("icy;", [1080]); ("Idot;", [304]);
    ("IEcy;", [1045]); ("iecy;", [1077]); ("iexcl", [161]); ("iexcl;", [161]); ("iff;", [8660]);
    ("Ifr;", [8465]); ("ifr;", [120102]); ("Igrave", [204]); ("igrave", [236]);
    ("Igrave;", [204]); ("igrave;", [236]); ("ii;", [8520]); ("iiiint;", [10764]);
    ("iiint;", [8749]); ("iinfin;", [10716]); ("iiota;", [8489]); ("IJlig;", [306]);
    ("ijlig;", [307]); ("Im;", [8465]); ("Imacr;", [298]); ("imacr;", [299]);
    ("image;", [8465]); ("ImaginaryI;", [8520]); ("imagline;", [8464]); ("imagpart;", [8465]);
    ("imath;", [305]); ("imof;", [8887]); ("imped;", [437]); ("Implies;", [8658]);
    ("in;", [8712]); ("incare;", [8453]); ("infin;", [8734]); ("infintie;", [10717]);
    ("inodot;", [305]); ("Int;", [8748]); ("int;", [8747]); ("intcal;", [8890]);
    ("integers;", [8484]); ("Integral;", [8747]); ("intercal;", [8890]);
    ("Intersection;", [8898]); ("intlarhk;", [10775]); ("intprod;", [10812]);
    ("InvisibleComma;", [8291]); ("InvisibleTimes;", [8290]); ("IOcy;", [1025]);
    ("iocy;", [1105]); ("Iogon;", [302]); ("iogon;", [303]); ("Iopf;", [120128]);
    ("iopf;", [120154]); ("Iota;", [921]); ("iota;", [953]); ("iprod;", [10812]);
    ("iquest", [191]); ("iquest;", [191]); ("Iscr;", [8464]); ("iscr;", [119998]);
    ("isin;", [8712]); ("isindot;", [8949]); ("isinE;", [8953]); ("isins;", [8948]);
    ("isinsv;", [8947]); ("isinv;", [8712]); ("it;", [8290]); ("Itilde;", [296]);
    ("itilde;", [297]); ("Iukcy;", [1030]); ("iukcy;", [1110]); ("Iuml", [207]);
    ("iuml", [239]); ("Iuml;", [207]); ("iuml;", [239]); ("Jcirc;", [308]); ("jcirc;", [309]);
    ("Jcy;", [1049]); ("jcy;", [1081]); ("Jfr;", [120077]); ("jfr;", [120103]);
    ("jmath;", [567]); ("Jopf;", [120129]); ("jopf;", [120155]); ("Jscr;", [119973]);
    ("jscr;", [119999]); ("Jsercy;", [1032]); ("jsercy;", [1112]); ("Jukcy;", [1028]);
    ("jukcy;", [1108]); ("Kappa;", [922]); ("kappa;", [954]); ("kappav;", [1008]);
    ("Kcedil;", [310]); ("kcedil;", [311]); ("Kcy;", [1050]); ("kcy;", [1082]);
    ("Kfr;", [120078]); ("kfr;", [120104]); ("kgreen;", [312]); ("KHcy;", [1061]);
    ("khcy;", [1093]); ("KJcy;", [1036]); ("kjcy;", [1116]); ("Kopf;", [120130]);
    ("kopf;", [120156]); ("Kscr;", [119974]); ("kscr;", [120000]); ("lAarr;", [8666]);
    ("Lacute;", [313]); ("lacute;", [314]); ("laemptyv;", [10676]); ("lagran;", [8466]);
    ("Lambda;", [923]); ("lambda;", [955]); ("Lang;", [10218]); ("lang;", [10216]);
    ("langd;", [10641]); ("langle;", [10216]); ("lap;", [10885]); ("Laplacetrf;", [8466]);
    ("laquo", [171]); ("laquo;", [171]); ("Larr;", [8606]); ("lArr;", [8656]);
    ("larr;", [8592]); ("larrb;", [8676]); ("larrbfs;", [10527]); ("larrfs;", [10525]);
    ("larrhk;", [8617]); ("larrlp;", [8619]); ("larrpl;", [10553]); ("larrsim;", [10611]);
    ("larrtl;", [8610]); ("lat;", [10923]); ("lAtail;", [10523]); ("latail;", [10521]);
    ("late;", [10925]); ("lates;", [10925; 65024]); ("lBarr;", [10510]); ("lbarr;", [10508]);
    ("lbbrk;", [10098]); ("lbrace;", [123]); ("lbrack;", [91]); ("lbrke;", [10635]);
    ("lbrksld;", [10639]); ("lbrkslu;", [10637]); ("Lcaron;", [317]); ("lcaron;", [318]);
    ("Lcedil;", [315]); ("lcedil;", [316]); ("lceil;", [8968]); ("lcub;", [123]);
    ("Lcy;", [1051]); ("lcy;", [1083]); ("ldca;", [10550]); ("ldquo;", [8220]);
    ("ldquor;", [8222]); ("ldrdhar;", [10599]); ("ldrushar;", [10571]); ("ldsh;", [8626]);
    ("lE;", [8806]); ("le;", [8804]); ("LeftAngleBracket;", [10216]); ("LeftArrow;", [8592]);
    ("Leftarrow;", [8656]); ("leftarrow;", [8592]); ("LeftArrowBar;", [8676]);
    ("LeftArrowRightArrow;", [8646]); ("leftarrowtail;", [8610]); ("LeftCeiling;", [8968]);
    ("LeftDoubleBracket;", [10214]); ("LeftDownTeeVector;", [10593]);
    ("LeftDownVector;", [8643]); ("LeftDownVectorBar;", [10585]); ("LeftFloor;", [8970]);
    ("leftharpoondown;", [8637]); ("leftharpoonup;", [8636]); ("leftleftarrows;", [8647]);
    ("LeftRightArrow;", [8596]); ("Leftrightarrow;", [8660]); ("leftrightarrow;", [8596]);
    ("leftrightarrows;", [8646]); ("leftrightharpoons;", [8651]);
    ("leftrightsquigarrow;", [8621]); ("LeftRightVector;", [10574]); ("LeftTee;", [8867]);
    ("LeftTeeArrow;", [8612]); ("LeftTeeVector;", [10586]); ("leftthreetimes;", [8907]);
    ("LeftTriangle;", [8882]); ("LeftTriangleBar;", [10703]); ("LeftTriangleEqual;", [8884]);
    ("LeftUpDownVector;", [10577]); ("LeftUpTeeVector;", [10592]); ("LeftUpVector;", [8639]);
    ("LeftUpVectorBar;", [10584]); ("LeftVector;", [8636]); ("LeftVectorBar;", [10578]);
    ("lEg;", [10891]); ("leg;", [8922]); ("leq;", [8804]); ("leqq;", [8806]);
    ("leqslant;", [10877]); ("les;", [10877]); ("lescc;", [10920]); ("lesdot;", [10879]);
    ("lesdoto;", [10881]); ("lesdotor;", [10883]); ("lesg;", [8922; 65024]);
    ("lesges;", [10899]); ("lessapprox;", [10885]); ("lessdot;", [8918]);
    ("lesseqgtr;", [8922]); ("lesseqqgtr;", [10891]); ("LessEqualGreater;", [8922]);
    ("LessFullEqual;", [8806]); ("LessGreater;", [8822]); ("lessgtr;", [8822]);
    ("LessLess;", [10913]); ("lesssim;", [8818]); ("LessSlantEqual;", [10877]);
    ("LessTilde;", [8818]); ("lfisht;", [10620]); ("lfloor;", [8970]); ("Lfr;", [120079]);
    ("lfr;", [120105]); ("lg;", [8822]); ("lgE;", [10897]); ("lHar;", [10594]);
    ("lhard;", [8637]); ("lharu;", [8636]); ("lharul;", [10602]); ("lhblk;", [9604]);
    ("LJcy;", [1033]); ("ljcy;", [1113]); ("Ll;", [8920]); ("ll;", [8810]); ("llarr;", [8647]);
    ("llcorner;", [8990]); ("Lleftarrow;", [8666]); ("llhard;", [10603]); ("lltri;", [9722]);
    ("Lmidot;", [319]); ("lmidot;", [320]); ("lmoust;", [9136]); ("lmoustache;", [9136]);
    ("lnap;", [10889]); ("lnapprox;", [10889]); ("lnE;", [8808]); ("lne;", [10887]);
    ("lneq;", [10887]); ("lneqq;", [8808]); ("lnsim;", [8934]); ("loang;", [10220]);
    ("loarr;", [8701]); ("lobrk;", [10214]); ("LongLeftArrow;", [10229]);
    ("Longleftarrow;", [10232]); ("longleftarrow;", [10229]); ("LongLeftRightArrow;", [10231]);
    ("Longleftrightarrow;", [10234]); ("longleftrightarrow;", [10231]);
    ("longmapsto;", [10236]); ("LongRightArrow;", [10230]); ("Longrightarrow;", [10233]);
    ("longrightarrow;", [10230]); ("looparrowleft;", [8619]); ("looparrowright;", [8620]);
    ("lopar;", [10629]); ("Lopf;", [120131]); ("lopf;", [120157]); ("loplus;", [10797]);
    ("lotimes;", [10804]); ("lowast;", [8727]); ("lowbar;", [95]); ("LowerLeftArrow;", [8601]);
    ("LowerRightArrow;", [8600]); ("loz;", [9674]); ("lozenge;", [9674]); ("lozf;", [10731]);
    ("lpar;", [40]); ("lparlt;", [10643]); ("lrarr;", [8646]); ("lrcorner;", [8991]);
    ("lrhar;", [8651]); ("lrhard;", [10605]); ("lrm;", [8206]); ("lrtri;", [8895]);
    ("lsaquo;", [8249]); ("Lscr;", [8466]); ("lscr;", [120001]); ("Lsh;", [8624]);
    ("lsh;", [8624]); ("lsim;", [8818]); ("lsime;", [10893]); ("lsimg;", [10895]);
    ("lsqb;", [91]); ("lsquo;", [8216]); ("lsquor;", [8218]); ("Lstrok;", [321]);
    ("lstrok;", [322]); ("LT", [60]); ("lt", [60]); ("LT;", [60]); ("Lt;", [8810]);
    ("lt;", [60]); ("ltcc;", [10918]); ("ltcir;", [10873]); ("ltdot;", [8918]);
    ("lthree;", [8907]); ("ltimes;", [8905]); ("ltlarr;", [10614]); ("ltquest;", [10875]);
    ("ltri;", [9667]); ("ltrie;", [8884]); ("ltrif;", [9666]); ("ltrPar;", [10646]);
    ("lurdshar;", [10570]); ("luruhar;", [10598]); ("lvertneqq;", [8808; 65024]);
    ("lvnE;", [8808; 65024]); ("macr", [175]); ("macr;", [175]); ("male;", [9794]);
    ("malt;", [10016]); ("maltese;", [10016]); ("Map;", [10501]); ("map;", [8614]);
    ("mapsto;", [8614]); ("mapstodown;", [8615]); ("mapstoleft;", [8612]);
    ("mapstoup;", [8613]); ("marker;", [9646]); ("mcomma;", [10793]); ("Mcy;", [1052]);
    ("mcy;", [1084]); ("mdash;", [8212]); ("mDDot;", [8762]); ("measuredangle;", [8737]);
    ("MediumSpace;", [8287]); ("Mellintrf;", [8499]); ("Mfr;", [120080]); ("mfr;", [120106]);
    ("mho;", [8487]); ("micro", [181]); ("micro;", [181]); ("mid;", [8739]); ("midast;", [42]);
    ("midcir;", [10992]); ("middot", [183]); ("middot;", [183]); ("minus;", [8722]);
    ("minusb;", [8863]); ("minusd;", [8760]); ("minusdu;", [10794]); ("MinusPlus;", [8723]);
    ("mlcp;", [10971]); ("mldr;", [8230]); ("mnplus;", [8723]); ("models;", [8871]);
    ("Mopf;", [120132]); ("mopf;", [120158]); ("mp;", [8723]); ("Mscr;", [8499]);
    ("mscr;", [120002]); ("mstpos;", [8766]); ("Mu;", [924]); ("mu;", [956]);
    ("multimap;", [8888]); ("mumap;", [8888]); ("nabla;", [8711]); ("Nacute;", [323]);
    ("nacute;", [324]); ("nang;", [8736; 8402]); ("nap;", [8777]); ("napE;", [10864; 824]);
    ("napid;", [8779; 824]); ("napos;", [329]); ("napprox;", [8777]); ("natur;", [9838]);
    ("natural;", [9838]); ("naturals;", [8469]); ("nbsp", [160]); ("nbsp;", [160]);
    ("nbump;", [8782; 824]); ("nbumpe;", [8783; 824]); ("ncap;", [10819]); ("Ncaron;", [327]);
    ("ncaron;", [328]); ("Ncedil;", [325]); ("ncedil;", [326]); ("ncong;", [8775]);
    ("ncongdot;", [10861; 824]); ("ncup;", [10818]); ("Ncy;", [1053]); ("ncy;", [1085]);
    ("ndash;", [8211]); ("ne;", [8800]); ("nearhk;", [10532]); ("neArr;", [8663]);
    ("nearr;", [8599]); ("nearrow;", [8599]); ("nedot;", [8784; 824]);
    ("NegativeMediumSpace;", [8203]); ("NegativeThickSpace;", [8203]);
    ("NegativeThinSpace;", [8203]); ("NegativeVeryThinSpace;", [8203]); ("nequiv;", [8802]);
    ("nesear;", [10536]); ("nesim;", [8770; 824]); ("NestedGreaterGreater;", [8811]);
    ("NestedLessLess;", [8810]); ("NewLine;", [10]); ("nexist;", [8708]); ("nexists;", [8708]);
    ("Nfr;", [120081]); ("nfr;", [120107]); ("ngE;", [8807; 824]); ("nge;", [8817]);
    ("ngeq;", [8817]); ("ngeqq;", [8807; 824]); ("ngeqslant;", [10878; 824]);
    ("nges;", [10878; 824]); ("nGg;", [8921; 824]); ("ngsim;", [8821]); ("nGt;", [8811; 8402]);
    ("ngt;", [8815]); ("ngtr;", [8815]); ("nGtv;", [8811; 824]); ("nhArr;", [8654]);
    ("nharr;", [8622]); ("nhpar;", [10994]); ("ni;", [8715]); ("nis;", [8956]);
    ("nisd;", [8954]); ("niv;", [8715]); ("NJcy;", [1034]); ("njcy;", [1114]);
    ("nlArr;", [8653]); ("nlarr;", [8602]); ("nldr;", [8229]); ("nlE;", [8806; 824]);
    ("nle;", [8816]); ("nLeftarrow;", [8653]); ("nleftarrow;", [8602]);
    ("nLeftrightarrow;", [8654]); ("nleftrightarrow;", [8622]); ("nleq;", [8816]);
    ("nleqq;", [8806; 824]); ("nleqslant;", [10877; 824]); ("nles;", [10877; 824]);
    ("nless;", [8814]); ("nLl;", [8920; 824]); ("nlsim;", [8820]); ("nLt;", [8810; 8402]);
    ("nlt;", [8814]); ("nltri;", [8938]); ("nltrie;", [8940]); ("nLtv;", [8810; 824]);
    ("nmid;", [8740]); ("NoBreak;", [8288]); ("NonBreakingSpace;", [160]); ("Nopf;", [8469]);
    ("nopf;", [120159]); ("not", [172]); ("Not;", [10988]); ("not;", [172]);
    ("NotCongruent;", [8802]); ("NotCupCap;", [8813]); ("NotDoubleVerticalBar;", [8742]);
    ("NotElement;", [8713]); ("NotEqual;", [8800]); ("NotEqualTilde;", [8770; 824]);
    ("NotExists;", [8708]); ("NotGreater;", [8815]); ("NotGreaterEqual;", [8817]);
    ("NotGreaterFullEqual;", [8807; 824]); ("NotGreaterGreater;", [8811; 824]);
    ("NotGreaterLess;", [8825]); ("NotGreaterSlantEqual;", [10878; 824]);
    ("NotGreaterTilde;", [8821]); ("NotHumpDownHump;", [8782; 824]);
    ("NotHumpEqual;", [8783; 824]); ("notin;", [8713]); ("notindot;", [8949; 824]);
    ("notinE;", [8953; 824]); ("notinva;", [8713]); ("notinvb;", [8951]); ("notinvc;", [8950]);
    ("NotLeftTriangle;", [8938]); ("NotLeftTriangleBar;", [10703; 824]);
    ("NotLeftTriangleEqual;", [8940]); ("NotLess;", [8814]); ("NotLessEqual;", [8816]);
    ("NotLessGreater;", [8824]); ("NotLessLess;", [8810; 824]);
    ("NotLessSlantEqual;", [10877; 824]); ("NotLessTilde;", [8820]);
    ("NotNestedGreaterGreater;", [10914; 824]); ("NotNestedLessLess;", [10913; 824]);
    ("notni;", [8716]); ("notniva;", [8716]); ("notnivb;", [8958]); ("notnivc;", [8957]);
    ("NotPrecedes;", [8832]); ("NotPrecedesEqual;", [10927; 824]);
    ("NotPrecedesSlantEqual;", [8928]); ("NotReverseElement;", [8716]);
    ("NotRightTriangle;", [8939]); ("NotRightTriangleBar;", [10704; 824]);
    ("NotRightTriangleEqual;", [8941]); ("NotSquareSubset;", [8847; 824]);
    ("NotSquareSubsetEqual;", [8930]); ("NotSquareSuperset;", [8848; 824]);
    ("NotSquareSupersetEqual;", [8931]); ("NotSubset;", [8834; 8402]);
    ("NotSubsetEqual;", [8840]); ("NotSucceeds;", [8833]); ("NotSucceedsEqual;", [10928; 824]);
    ("NotSucceedsSlantEqual;", [8929]); ("NotSucceedsTilde;", [8831; 824]);
    ("NotSuperset;", [8835; 8402]); ("NotSupersetEqual;", [8841]); ("NotTilde;", [8769]);
    ("NotTildeEqual;", [8772]); ("NotTildeFullEqual;", [8775]); ("NotTildeTilde;", [8777]);
    ("NotVerticalBar;", [8740]); ("npar;", [8742]); ("nparallel;", [8742]);
    ("nparsl;", [11005; 8421]); ("npart;", [8706; 824]); ("npolint;", [10772]);
    ("npr;", [8832]); ("nprcue;", [8928]); ("npre;", [10927; 824]); ("nprec;", [8832]);
    ("npreceq;", [10927; 824]); ("nrArr;", [8655]); ("nrarr;", [8603]);
    ("nrarrc;", [10547; 824]); ("nrarrw;", [8605; 824]); ("nRightarrow;", [8655]);
    ("nrightarrow;", [8603]); ("nrtri;", [8939]); ("nrtrie;", [8941]); ("nsc;", [8833]);
    ("nsccue;", [8929]); ("nsce;", [10928; 824]); ("Nscr;", [119977]); ("nscr;", [120003]);
    ("nshortmid;", [8740]); ("nshortparallel;", [8742]); ("nsim;", [8769]); ("nsime;", [8772]);
    ("nsimeq;", [8772]); ("nsmid;", [8740]); ("nspar;", [8742]); ("nsqsube;", [8930]);
    ("nsqsupe;", [8931]); ("nsub;", [8836]); ("nsubE;", [10949; 824]); ("nsube;", [8840]);
    ("nsubset;", [8834; 8402]); ("nsubseteq;", [8840]); ("nsubseteqq;", [10949; 824]);
    ("nsucc;", [8833]); ("nsucceq;", [10928; 824]); ("nsup;", [8837]); ("nsupE;", [10950; 824]);
    ("nsupe;", [8841]); ("nsupset;", [8835; 8402]); ("nsupseteq;", [8841]);
    ("nsupseteqq;", [10950; 824]); ("ntgl;", [8825]); ("Ntilde", [209]); ("ntilde", [241]);
    ("Ntilde;", [209]); ("ntilde;", [241]); ("ntlg;", [8824]); ("ntriangleleft;", [8938]);
    ("ntrianglelefteq;", [8940]); ("ntriangleright;", [8939]); ("ntrianglerighteq;", [8941]);
    ("Nu;", [925]); ("nu;", [957]); ("num;", [35]); ("numero;", [8470]); ("numsp;", [8199]);
    ("nvap;", [8781; 8402]); ("nVDash;", [8879]); ("nVdash;", [8878]); ("nvDash;", [8877]);
    ("nvdash;", [8876]); ("nvge;", [8805; 8402]); ("nvgt;", [62; 8402]); ("nvHarr;", [10500]);
    ("nvinfin;", [10718]); ("nvlArr;", [10498]); ("nvle;", [8804; 8402]); ("nvlt;", [60; 8402]);
    ("nvltrie;", [8884; 8402]); ("nvrArr;", [10499]); ("nvrtrie;", [8885; 8402]);
    ("nvsim;", [8764; 8402]); ("nwarhk;", [10531]); ("nwArr;", [8662]); ("nwarr;", [8598]);
    ("nwarrow;", [8598]); ("nwnear;", [10535]); ("Oacute", [211]); ("oacute", [243]);
    ("Oacute;", [211]); ("oacute;", [243]); ("oast;", [8859]); ("ocir;", [8858]);
    ("Ocirc", [212]); ("ocirc", [244]); ("Ocirc;", [212]); ("ocirc;", [244]); ("Ocy;", [1054]);
    ("ocy;", [1086]); ("odash;", [8861]); ("Odblac;", [336]); ("odblac;", [337]);
    ("odiv;", [10808]); ("odot;", [8857]); ("odsold;", [10684]); ("OElig;", [338]);
    ("oelig;", [339]); ("ofcir;", [10687]); ("Ofr;", [120082]); ("ofr;", [120108]);
    ("ogon;", [731]); ("Ograve", [210]); ("ograve", [242]); ("Ograve;", [210]);
    ("ograve;", [242]); ("ogt;", [10689]); ("ohbar;", [10677]); ("ohm;", [937]);
    ("oint;", [8750]); ("olarr;", [8634]); ("olcir;", [10686]); ("olcross;", [10683]);
    ("oline;", [8254]); ("olt;", [10688]); ("Omacr;", [332]); ("omacr;", [333]);
    ("Omega;", [937]); ("omega;", [969]); ("Omicron;", [927]); ("omicron;", [959]);
    ("omid;", [10678]); ("ominus;", [8854]); ("Oopf;", [120134]); ("oopf;", [120160]);
    ("opar;", [10679]); ("OpenCurlyDoubleQuote;", [8220]); ("OpenCurlyQuote;", [8216]);
    ("operp;", [10681]); ("oplus;", [8853]); ("Or;", [10836]); ("or;", [8744]);
    ("orarr;", [8635]); ("ord;", [10845]); ("order;", [8500]); ("orderof;", [8500]);
    ("ordf", [170]); ("ordf;", [170]); ("ordm", [186]); ("ordm;", [186]); ("origof;", [8886]);
    ("oror;", [10838]); ("orslope;", [10839]); ("orv;", [10843]); ("oS;", [9416]);
    ("Oscr;", [119978]); ("oscr;", [8500]); ("Oslash", [216]); ("oslash", [248]);
    ("Oslash;", [216]); ("oslash;", [248]); ("osol;", [8856]); ("Otilde", [213]);
    ("otilde", [245]); ("Otilde;", [213]); ("otilde;", [245]); ("Otimes;", [10807]);
    ("otimes;", [8855]); ("otimesas;", [10806]); ("Ouml", [214]); ("ouml", [246]);
    ("Ouml;", [214]); ("ouml;", [246]); ("ovbar;", [9021]); ("OverBar;", [8254]);
    ("OverBrace;", [9182]); ("OverBracket;", [9140]); ("OverParenthesis;", [9180]);
    ("par;", [8741]); ("para", [182]); ("para;", [182]); ("parallel;", [8741]);
    ("parsim;", [10995]); ("parsl;", [11005]); ("part;", [8706]); ("PartialD;", [8706]);
    ("Pcy;", [1055]); ("pcy;", [1087]); ("percnt;", [37]); ("period;", [46]);
    ("permil;", [8240]); ("perp;", [8869]); ("pertenk;", [8241]); ("Pfr;", [120083]);
    ("pfr;", [120109]); ("Phi;", [934]); ("phi;", [966]); ("phiv;", [981]); ("phmmat;", [8499]);
    ("phone;", [9742]); ("Pi;", [928]); ("pi;", [960]); ("pitchfork;", [8916]); ("piv;", [982]);
    ("planck;", [8463]); ("planckh;", [8462]); ("plankv;", [8463]); ("plus;", [43]);
    ("plusacir;", [10787]); ("plusb;", [8862]); ("pluscir;", [10786]); ("plusdo;", [8724]);
    ("plusdu;", [10789]); ("pluse;", [10866]); ("PlusMinus;", [177]); ("plusmn", [177]);
    ("plusmn;", [177]); ("plussim;", [10790]); ("plustwo;", [10791]); ("pm;", [177]);
    ("Poincareplane;", [8460]); ("pointint;", [10773]); ("Popf;", [8473]); ("popf;", [120161]);
    ("pound", [163]); ("pound;", [163]); ("Pr;", [10939]); ("pr;", [8826]); ("prap;", [10935]);
    ("prcue;", [8828]); ("prE;", [10931]); ("pre;", [10927]); ("prec;", [8826]);
    ("precapprox;", [10935]); ("preccurlyeq;", [8828]); ("Precedes;", [8826]);
    ("PrecedesEqual;", [10927]); ("PrecedesSlantEqual;", [8828]); ("PrecedesTilde;", [8830]);
    ("preceq;", [10927]); ("precnapprox;", [10937]); ("precneqq;", [10933]);
    ("precnsim;", [8936]); ("precsim;", [8830]); ("Prime;", [8243]); ("prime;", [8242]);
    ("primes;", [8473]); ("prnap;", [10937]); ("prnE;", [10933]); ("prnsim;", [8936]);
    ("prod;", [8719]); ("Product;", [8719]); ("profalar;", [9006]); ("profline;", [8978]);
    ("profsurf;", [8979]); ("prop;", [8733]); ("Proportion;", [8759]);
    ("Proportional;", [8733]); ("propto;", [8733]); ("prsim;", [8830]); ("prurel;", [8880]);
    ("Pscr;", [119979]); ("pscr;", [120005]); ("Psi;", [936]); ("psi;", [968]);
    ("puncsp;", [8200]); ("Qfr;", [120084]); ("qfr;", [120110]); ("qint;", [10764]);
    ("Qopf;", [8474]); ("qopf;", [120162]); ("qprime;", [8279]); ("Qscr;", [119980]);
    ("qscr;", [120006]); ("quaternions;", [8461]); ("quatint;", [10774]); ("quest;", [63]);
    ("questeq;", [8799]); ("QUOT", [34]); ("quot", [34]); ("QUOT;", [34]); ("quot;", [34]);
    ("rAarr;", [8667]); ("race;", [8765; 817]); ("Racute;", [340]); ("racute;", [341]);
    ("radic;", [8730]); ("raemptyv;", [10675]); ("Rang;", [10219]); ("rang;", [10217]);
    ("rangd;", [10642]); ("range;", [10661]); ("rangle;", [10217]); ("raquo", [187]);
    ("raquo;", [187]); ("Rarr;", [8608]); ("rArr;", [8658]); ("rarr;", [8594]);
    ("rarrap;", [10613]); ("rarrb;", [8677]); ("rarrbfs;", [10528]); ("rarrc;", [10547]);
    ("rarrfs;", [10526]); ("rarrhk;", [8618]); ("rarrlp;", [8620]); ("rarrpl;", [10565]);
    ("rarrsim;", [10612]); ("Rarrtl;", [10518]); ("rarrtl;", [8611]); ("rarrw;", [8605]);
    ("rAtail;", [10524]); ("ratail;", [10522]); ("ratio;", [8758]); ("rationals;", [8474]);
    ("RBarr;", [10512]); ("rBarr;", [10511]); ("rbarr;", [10509]); ("rbbrk;", [10099]);
    ("rbrace;", [125]); ("rbrack;", [93]); ("rbrke;", [10636]); ("rbrksld;", [10638]);
    ("rbrkslu;", [10640]); ("Rcaron;", [344]); ("rcaron;", [345]); ("Rcedil;", [342]);
    ("rcedil;", [343]); ("rceil;", [8969]); ("rcub;", [125]); ("Rcy;", [1056]);
    ("rcy;", [1088]); ("rdca;", [10551]); ("rdldhar;", [10601]); ("rdquo;", [8221]);
    ("rdquor;", [8221]); ("rdsh;", [8627]); ("Re;", [8476]); ("real;", [8476]);
    ("realine;", [8475]); ("realpart;", [8476]); ("reals;", [8477]); ("rect;", [9645]);
    ("REG", [174]); ("reg", [174]); ("REG;", [174]); ("reg;", [174]);
    ("ReverseElement;", [8715]); ("ReverseEquilibrium;", [8651]);
    ("ReverseUpEquilibrium;", [10607]); ("rfisht;", [10621]); ("rfloor;", [8971]);
    ("Rfr;", [8476]); ("rfr;", [120111]); ("rHar;", [10596]); ("rhard;", [8641]);
    ("rharu;", [8640]); ("rharul;", [10604]); ("Rho;", [929]); ("rho;", [961]);
    ("rhov;", [1009]); ("RightAngleBracket;", [10217]); ("RightArrow;", [8594]);
    ("Rightarrow;", [8658]); ("rightarrow;", [8594]); ("RightArrowBar;", [8677]);
    ("RightArrowLeftArrow;", [8644]); ("rightarrowtail;", [8611]); ("RightCeiling;", [8969]);
    ("RightDoubleBracket;", [10215]); ("RightDownTeeVector;", [10589]);
    ("RightDownVector;", [8642]); ("RightDownVectorBar;", [10581]); ("RightFloor;", [8971]);
    ("rightharpoondown;", [8641]); ("rightharpoonup;", [8640]); ("rightleftarrows;", [8644]);
    ("rightleftharpoons;", [8652]); ("rightrightarrows;", [8649]); ("rightsquigarrow;", [8605]);
    ("RightTee;", [8866]); ("RightTeeArrow;", [8614]); ("RightTeeVector;", [10587]);
    ("rightthreetimes;", [8908]); ("RightTriangle;", [8883]); ("RightTriangleBar;", [10704]);
    ("RightTriangleEqual;", [8885]); ("RightUpDownVector;", [10575]);
    ("RightUpTeeVector;", [10588]); ("RightUpVector;", [8638]); ("RightUpVectorBar;", [10580]);
    ("RightVector;", [8640]); ("RightVectorBar;", [10579]); ("ring;", [730]);
    ("risingdotseq;", [8787]); ("rlarr;", [8644]); ("rlhar;", [8652]); ("rlm;", [8207]);
    ("rmoust;", [9137]); ("rmoustache;", [9137]); ("rnmid;", [10990]); ("roang;", [10221]);
    ("roarr;", [8702]); ("robrk;", [10215]); ("ropar;", [10630]); ("Ropf;", [8477]);
    ("ropf;", [120163]); ("roplus;", [10798]); ("rotimes;", [10805]);
    ("RoundImplies;", [10608]); ("rpar;", [41]); ("rpargt;", [10644]); ("rppolint;", [10770]);
    ("rrarr;", [8649]); ("Rrightarrow;", [8667]); ("rsaquo;", [8250]); ("Rscr;", [8475]);
    ("rscr;", [120007]); ("Rsh;", [8625]); ("rsh;", [8625]); ("rsqb;", [93]);
    ("rsquo;", [8217]); ("rsquor;", [8217]); ("rthree;", [8908]); ("rtimes;", [8906]);
    ("rtri;", [9657]); ("rtrie;", [8885]); ("rtrif;", [9656]); ("rtriltri;", [10702]);
    ("RuleDelayed;", [10740]); ("ruluhar;", [10600]); ("rx;", [8478]); ("Sacute;", [346]);
    ("sacute;", [347]); ("sbquo;", [8218]); ("Sc;", [10940]); ("sc;", [8827]);
    ("scap;", [10936]); ("Scaron;", [352]); ("scaron;", [353]); ("sccue;", [8829]);
    ("scE;", [10932]); ("sce;", [10928]); ("Scedil;", [350]); ("scedil;", [351]);
    ("Scirc;", [348]); ("scirc;", [349]); ("scnap;", [10938]); ("scnE;", [10934]);
    ("scnsim;", [8937]); ("scpolint;", [10771]); ("scsim;", [8831]); ("Scy;", [1057]);
    ("scy;", [1089]); ("sdot;", [8901]); ("sdotb;", [8865]); ("sdote;", [10854]);
    ("searhk;", [10533]); ("seArr;", [8664]); ("searr;", [8600]); ("searrow;", [8600]);
    ("sect", [167]); ("sect;", [167]); ("semi;", [59]); ("seswar;", [10537]);
    ("setminus;", [8726]); ("setmn;", [8726]); ("sext;", [10038]); ("Sfr;", [120086]);
    ("sfr;", [120112]); ("sfrown;", [8994]); ("sharp;", [9839]); ("SHCHcy;", [1065]);
    ("shchcy;", [1097]); ("SHcy;", [1064]); ("shcy;", [1096]); ("ShortDownArrow;", [8595]);
    ("ShortLeftArrow;", [8592]); ("shortmid;", [8739]); ("shortparallel;", [8741]);
    ("ShortRightArrow;", [8594]); ("ShortUpArrow;", [8593]); ("shy", [173]); ("shy;", [173]);
    ("Sigma;", [931]); ("sigma;", [963]); ("sigmaf;", [962]); ("sigmav;", [962]);
    ("sim;", [8764]); ("simdot;", [10858]); ("sime;", [8771]); ("simeq;", [8771]);
    ("simg;", [10910]); ("simgE;", [10912]); ("siml;", [10909]); ("simlE;", [10911]);
    ("simne;", [8774]); ("simplus;", [10788]); ("simrarr;", [10610]); ("slarr;", [8592]);
    ("SmallCircle;", [8728]); ("smallsetminus;", [8726]); ("smashp;", [10803]);
    ("smeparsl;", [10724]); ("smid;", [8739]); ("smile;", [8995]); ("smt;", [10922]);
    ("smte;", [10924]); ("smtes;", [10924; 65024]); ("SOFTcy;", [1068]); ("softcy;", [1100]);
    ("sol;", [47]); ("solb;", [10692]); ("solbar;", [9023]); ("Sopf;", [120138]);
    ("sopf;", [120164]); ("spades;", [9824]); ("spadesuit;", [9824]); ("spar;", [8741]);
    ("sqcap;", [8851]); ("sqcaps;", [8851; 65024]); ("sqcup;", [8852]);
    ("sqcups;", [8852; 65024]); ("Sqrt;", [8730]); ("sqsub;", [8847]); ("sqsube;", [8849]);
    ("sqsubset;", [8847]); ("sqsubseteq;", [8849]); ("sqsup;", [8848]); ("sqsupe;", [8850]);
    ("sqsupset;", [8848]); ("sqsupseteq;", [8850]); ("squ;", [9633]); ("Square;", [9633]);
    ("square;", [9633]); ("SquareIntersection;", [8851]); ("SquareSubset;", [8847]);
    ("SquareSubsetEqual;", [8849]); ("SquareSuperset;", [8848]);
    ("SquareSupersetEqual;", [8850]); ("SquareUnion;", [8852]); ("squarf;", [9642]);
    ("squf;", [9642]); ("srarr;", [8594]); ("Sscr;", [119982]); ("sscr;", [120008]);
    ("ssetmn;", [8726]); ("ssmile;", [8995]); ("sstarf;", [8902]); ("Star;", [8902]);
    ("star;", [9734]); ("starf;", [9733]); ("straightepsilon;", [1013]);
    ("straightphi;", [981]); ("strns;", [175]); ("Sub;", [8912]); ("sub;", [8834]);
    ("subdot;", [10941]); ("subE;", [10949]); ("sube;", [8838]); ("subedot;", [10947]);
    ("submult;", [10945]); ("subnE;", [10955]); ("subne;", [8842]); ("subplus;", [10943]);
    ("subrarr;", [10617]); ("Subset;", [8912]); ("subset;", [8834]); ("subseteq;", [8838]);
    ("subseteqq;", [10949]); ("SubsetEqual;", [8838]); ("subsetneq;", [8842]);
    ("subsetneqq;", [10955]); ("subsim;", [10951]); ("subsub;", [10965]); ("subsup;", [10963]);
    ("succ;", [8827]); ("succapprox;", [10936]); ("succcurlyeq;", [8829]);
    ("Succeeds;", [8827]); ("SucceedsEqual;", [10928]); ("SucceedsSlantEqual;", [8829]);
    ("SucceedsTilde;", [8831]); ("succeq;", [10928]); ("succnapprox;", [10938]);
    ("succneqq;", [10934]); ("succnsim;", [8937]); ("succsim;", [8831]); ("SuchThat;", [8715]);
    ("Sum;", [8721]); ("sum;", [8721]); ("sung;", [9834]); ("sup1", [185]); ("sup1;", [185]);
    ("sup2", [178]); ("sup2;", [178]); ("sup3", [179]); ("sup3;", [179]); ("Sup;", [8913]);
    ("sup;", [8835]); ("supdot;", [10942]); ("supdsub;", [10968]); ("supE;", [10950]);
    ("supe;", [8839]); ("supedot;", [10948]); ("Superset;", [8835]); ("SupersetEqual;", [8839]);
    ("suphsol;", [10185]); ("suphsub;", [10967]); ("suplarr;", [10619]); ("supmult;", [10946]);
    ("supnE;", [10956]); ("supne;", [8843]); ("supplus;", [10944]); ("Supset;", [8913]);
    ("supset;", [8835]); ("supseteq;", [8839]); ("supseteqq;", [10950]); ("supsetneq;", [8843]);
    ("supsetneqq;", [10956]); ("supsim;", [10952]); ("supsub;", [10964]); ("supsup;", [10966]);
    ("swarhk;", [10534]); ("swArr;", [8665]); ("swarr;", [8601]); ("swarrow;", [8601]);
    ("swnwar;", [10538]); ("szlig", [223]); ("szlig;", [223]); ("Tab;", [9]);
    ("target;", [8982]); ("Tau;", [932]); ("tau;", [964]); ("tbrk;", [9140]);
    ("Tcaron;", [356]); ("tcaron;", [357]); ("Tcedil;", [354]); ("tcedil;", [355]);
    ("Tcy;", [1058]); ("tcy;", [1090]); ("tdot;", [8411]); ("telrec;", [8981]);
    ("Tfr;", [120087]); ("tfr;", [120113]); ("there4;", [8756]); ("Therefore;", [8756]);
    ("therefore;", [8756]); ("Theta;", [920]); ("theta;", [952]); ("thetasym;", [977]);
    ("thetav;", [977]); ("thickapprox;", [8776]); ("thicksim;", [8764]);
    ("ThickSpace;", [8287; 8202]); ("thinsp;", [8201]); ("ThinSpace;", [8201]);
    ("thkap;", [8776]); ("thksim;", [8764]); ("THORN", [222]); ("thorn", [254]);
    ("THORN;", [222]); ("thorn;", [254]); ("Tilde;", [8764]); ("tilde;", [732]);
    ("TildeEqual;", [8771]); ("TildeFullEqual;", [8773]); ("TildeTilde;", [8776]);
    ("times", [215]); ("times;", [215]); ("timesb;", [8864]); ("timesbar;", [10801]);
    ("timesd;", [10800]); ("tint;", [8749]); ("toea;", [10536]); ("top;", [8868]);
    ("topbot;", [9014]); ("topcir;", [10993]); ("Topf;", [120139]); ("topf;", [120165]);
    ("topfork;", [10970]); ("tosa;", [10537]); ("tprime;", [8244]); ("TRADE;", [8482]);
    ("trade;", [8482]); ("triangle;", [9653]); ("triangledown;", [9663]);
    ("triangleleft;", [9667]); ("trianglelefteq;", [8884]); ("triangleq;", [8796]);
    ("triangleright;", [9657]); ("trianglerighteq;", [8885]); ("tridot;", [9708]);
    ("trie;", [8796]); ("triminus;", [10810]); ("TripleDot;", [8411]); ("triplus;", [10809]);
    ("trisb;", [10701]); ("tritime;", [10811]); ("trpezium;", [9186]); ("Tscr;", [119983]);
    ("tscr;", [120009]); ("TScy;", [1062]); ("tscy;", [1094]); ("TSHcy;", [1035]);
    ("tshcy;", [1115]); ("Tstrok;", [358]); ("tstrok;", [359]); ("twixt;", [8812]);
    ("twoheadleftarrow;", [8606]); ("twoheadrightarrow;", [8608]); ("Uacute", [218]);
    ("uacute", [250]); ("Uacute;", [218]); ("uacute;", [250]); ("Uarr;", [8607]);
    ("uArr;", [8657]); ("uarr;", [8593]); ("Uarrocir;", [10569]); ("Ubrcy;", [1038]);
    ("ubrcy;", [1118]); ("Ubreve;", [364]); ("ubreve;", [365]); ("Ucirc", [219]);
    ("ucirc", [251]); ("Ucirc;", [219]); ("ucirc;", [251]); ("Ucy;", [1059]); ("ucy;", [1091]);
    ("udarr;", [8645]); ("Udblac;", [368]); ("udblac;", [369]); ("udhar;", [10606]);
    ("ufisht;", [10622]); ("Ufr;", [120088]); ("ufr;", [120114]); ("Ugrave", [217]);
    ("ugrave", [249]); ("Ugrave;", [217]); ("ugrave;", [249]); ("uHar;", [10595]);
    ("uharl;", [8639]); ("uharr;", [8638]); ("uhblk;", [9600]); ("ulcorn;", [8988]);
    ("ulcorner;", [8988]); ("ulcrop;", [8975]); ("ultri;", [9720]); ("Umacr;", [362]);
    ("umacr;", [363]); ("uml", [168]); ("uml;", [168]); ("UnderBar;", [95]);
    ("UnderBrace;", [9183]); ("UnderBracket;", [9141]); ("UnderParenthesis;", [9181]);
    ("Union;", [8899]); ("UnionPlus;", [8846]); ("Uogon;", [370]); ("uogon;", [371]);
    ("Uopf;", [120140]); ("uopf;", [120166]); ("UpArrow;", [8593]); ("Uparrow;", [8657]);
    ("uparrow;", [8593]); ("UpArrowBar;", [10514]); ("UpArrowDownArrow;", [8645]);
    ("UpDownArrow;", [8597]); ("Updownarrow;", [8661]); ("updownarrow;", [8597]);
    ("UpEquilibrium;", [10606]); ("upharpoonleft;", [8639]); ("upharpoonright;", [8638]);
    ("uplus;", [8846]); ("UpperLeftArrow;", [8598]); ("UpperRightArrow;", [8599]);
    ("Upsi;", [978]); ("upsi;", [965]); ("upsih;", [978]); ("Upsilon;", [933]);
    ("upsilon;", [965]); ("UpTee;", [8869]); ("UpTeeArrow;", [8613]); ("upuparrows;", [8648]);
    ("urcorn;", [8989]); ("urcorner;", [8989]); ("urcrop;", [8974]); ("Uring;", [366]);
    ("uring;", [367]); ("urtri;", [9721]); ("Uscr;", [119984]); ("uscr;", [120010]);
    ("utdot;", [8944]); ("Utilde;", [360]); ("utilde;", [361]); ("utri;", [9653]);
    ("utrif;", [9652]); ("uuarr;", [8648]); ("Uuml", [220]); ("uuml", [252]); ("Uuml;", [220]);
    ("uuml;", [252]); ("uwangle;", [10663]); ("vangrt;", [10652]); ("varepsilon;", [1013]);
    ("varkappa;", [1008]); ("varnothing;", [8709]); ("varphi;", [981]); ("varpi;", [982]);
    ("varpropto;", [8733]); ("vArr;", [8661]); ("varr;", [8597]); ("varrho;", [1009]);
    ("varsigma;", [962]); ("varsubsetneq;", [8842; 65024]); ("varsubsetneqq;", [10955; 65024]);
    ("varsupsetneq;", [8843; 65024]); ("varsupsetneqq;", [10956; 65024]); ("vartheta;", [977]);
    ("vartriangleleft;", [8882]); ("vartriangleright;", [8883]); ("Vbar;", [10987]);
    ("vBar;", [10984]); ("vBarv;", [10985]); ("Vcy;", [1042]); ("vcy;", [1074]);
    ("VDash;", [8875]); ("Vdash;", [8873]); ("vDash;", [8872]); ("vdash;", [8866]);
    ("Vdashl;", [10982]); ("Vee;", [8897]); ("vee;", [8744]); ("veebar;", [8891]);
    ("veeeq;", [8794]); ("vellip;", [8942]); ("Verbar;", [8214]); ("verbar;", [124]);
    ("Vert;", [8214]); ("vert;", [124]); ("VerticalBar;", [8739]); ("VerticalLine;", [124]);
    ("VerticalSeparator;", [10072]); ("VerticalTilde;", [8768]); ("VeryThinSpace;", [8202]);
    ("Vfr;", [120089]); ("vfr;", [120115]); ("vltri;", [8882]); ("vnsub;", [8834; 8402]);
    ("vnsup;", [8835; 8402]); ("Vopf;", [120141]); ("vopf;", [120167]); ("vprop;", [8733]);
    ("vrtri;", [8883]); ("Vscr;", [119985]); ("vscr;", [120011]); ("vsubnE;", [10955; 65024]);
    ("vsubne;", [8842; 65024]); ("vsupnE;", [10956; 65024]); ("vsupne;", [8843; 65024]);
    ("Vvdash;", [8874]); ("vzigzag;", [10650]); ("Wcirc;", [372]); ("wcirc;", [373]);
    ("wedbar;", [10847]); ("Wedge;", [8896]); ("wedge;", [8743]); ("wedgeq;", [8793]);
    ("weierp;", [8472]); ("Wfr;", [120090]); ("wfr;", [120116]); ("Wopf;", [120142]);
    ("wopf;", [120168]); ("wp;", [8472]); ("wr;", [8768]); ("wreath;", [8768]);
    ("Wscr;", [119986]); ("wscr;", [120012]); ("xcap;", [8898]); ("xcirc;", [9711]);
    ("xcup;", [8899]); ("xdtri;", [9661]); ("Xfr;", [120091]); ("xfr;", [120117]);
    ("xhArr;", [10234]); ("xharr;", [10231]); ("Xi;", [926]); ("xi;", [958]);
    ("xlArr;", [10232]); ("xlarr;", [10229]); ("xmap;", [10236]); ("xnis;", [8955]);
    ("xodot;", [10752]); ("Xopf;", [120143]); ("xopf;", [120169]); ("xoplus;", [10753]);
    ("xotime;", [10754]); ("xrArr;", [10233]); ("xrarr;", [10230]); ("Xscr;", [119987]);
    ("xscr;", [120013]); ("xsqcup;", [10758]); ("xuplus;", [10756]); ("xutri;", [9651]);
    ("xvee;", [8897]); ("xwedge;", [8896]); ("Yacute", [221]); ("yacute", [253]);
    ("Yacute;", [221]); ("yacute;", [253]); ("YAcy;", [1071]); ("yacy;", [1103]);
    ("Ycirc;", [374]); ("ycirc;", [375]); ("Ycy;", [1067]); ("ycy;", [1099]); ("yen", [165]);
    ("yen;", [165]); ("Yfr;", [120092]); ("yfr;", [120118]); ("YIcy;", [1031]);
    ("yicy;", [1111]); ("Yopf;", [120144]); ("yopf;", [120170]); ("Yscr;", [119988]);
    ("yscr;", [120014]); ("YUcy;", [1070]); ("yucy;", [1102]); ("yuml", [255]);
    ("Yuml;", [376]); ("yuml;", [255]); ("Zacute;", [377]); ("zacute;", [378]);
    ("Zcaron;", [381]); ("zcaron;", [382]); ("Zcy;", [1047]); ("zcy;", [1079]);
    ("Zdot;", [379]); ("zdot;", [380]); ("zeetrf;", [8488]); ("ZeroWidthSpace;", [8203]);
    ("Zeta;", [918]); ("zeta;", [950]); ("Zfr;", [8488]); ("zfr;", [120119]); ("ZHcy;", [1046]);
    ("zhcy;", [1078]); ("zigrarr;", [8669]); ("Zopf;", [8484]); ("zopf;", [120171]);
    ("Zscr;", [119989]); ("zscr;", [120015]); ("zwj;", [8205]); ("zwnj;", [8204])]%N%string.
(** ** Character classes of [re] and [str] *)

Definition is_space (c : char) : bool := in_ranges space_ranges c.
Definition is_digit (c : char) : bool := in_ranges digit_ranges c.
Definition is_word (c : char) : bool := in_ranges word_ranges c.

Definition is_ascii_digit (c : char) : bool := N.leb 48 c && N.leb c 57.
Definition is_ascii_upper (c : char) : bool := N.leb 65 c && N.leb c 90.
Definition is_ascii_lower (c : char) : bool := N.leb 97 c && N.leb c 122.
Definition is_ascii_alpha (c : char) : bool := is_ascii_upper c || is_ascii_lower c.
Definition is_hex_digit (c : char) : bool :=
  is_ascii_digit c || (N.leb 65 c && N.leb c 70) || (N.leb 97 c && N.leb c 102).

Definition ascii_lower (c : char) : char := if is_ascii_upper c then (c + 32)%N else c.
Definition ascii_upper (c : char) : char := if is_ascii_lower c then (c - 32)%N else c.

(** Under [re.I] an ASCII letter of the pattern also matches the few other
    code points that case-fold to it: U+0130 and U+0131 for [i], U+017F for
    [s], U+212A for [k]. *)
Definition fold_extra (lo : char) : list char :=
  if N.eqb lo 105 then [304; 305]%N
  else if N.eqb lo 115 then [383]%N
  else if N.eqb lo 107 then [8490]%N
  else [].

(** A literal character of a pattern compiled with [re.I]. *)
Definition ci (c : char) (x : char) : bool :=
  N.eqb (ascii_lower x) (ascii_lower c) || mem_char x (fold_extra (ascii_lower c)).

(** The ASCII letters as [re.I] sees them in [[A-Z]] or [[a-z]]. *)
Definition is_alpha_i (x : char) : bool :=
  is_ascii_alpha x || mem_char x [304; 305; 383; 8490]%N.

(** Decimal value of a digit of [\d]; [int()] reads all of them. *)
Definition digit_value (c : char) : N :=
  match find (fun r => N.leb (fst r) c && N.leb c (snd r)) digit_ranges with
  | Some r => ((c - fst r) mod 10)%N
  | None => 0%N
  end.

(** ** Regular expressions: syntax *)

Inductive re : Type :=
| Eps
| Chr (p : char -> bool)          (* one character of a class *)
| Seq (a b : re)
| Alt (a b : re)                  (* [a|b], left first *)
| Star (greedy : bool) (a : re)   (* [a*] and [a*?] *)
| Grp (i : nat) (a : re)          (* capturing group number [i] *)
| Ahead (a : re)                  (* [(?=a)] *)
| Bnd                             (* [\b] *)
| Eos.                            (* [$] without [re.M] *)

Definition Opt (a : re) : re := Alt a Eps.              (* [a?] *)
Definition Plus (g : bool) (a : re) : re := Seq a (Star g a).

Fixpoint Rep (n : nat) (a : re) : re :=                 (* [a{n}] *)
  match n with
  | O => Eps
  | S n' => Seq a (Rep n' a)
  end.

Fixpoint UpTo (n : nat) (a : re) : re :=                (* [a{0,n}] *)
  match n with
  | O => Eps
  | S n' => Opt (Seq a (UpTo n' a))
  end.

Definition Range (lo hi : nat) (a : re) : re :=         (* [a{lo,hi}] *)
  Seq (Rep lo a) (UpTo (hi - lo) a).

Fixpoint SeqL (l : list re) : re :=
  match l with
  | [] => Eps
  | [a] => a
  | a :: l' => Seq a (SeqL l')
  end.

Fixpoint AltL (l : list re) : re :=
  match l with
  | [] => Chr (fun _ => false)
  | [a] => a
  | a :: l' => Alt a (AltL l')
  end.

(** A literal, case-sensitive and under [re.I]. *)
Definition Lit (s : string) : re := SeqL (map (fun c => Chr (N.eqb c)) (u s)).
Definition LitI (s : string) : re := SeqL (map (fun c => Chr (ci c)) (u s)).

Definition Digit : re := Chr is_digit.                   (* [\d] *)
Definition Space : re := Chr is_space.                   (* [\s] *)
Definition Dot : re := Chr (fun c => negb (N.eqb c 10)). (* [.] without [re.S] *)

(** ** Regular expressions: the backtracking matcher *)

Record state : Type := mkState {
  rest : str;                       (* the subject from the current position on *)
  prev : option char;               (* the character before the position *)
  pos : nat;                        (* the position *)
  caps : list (nat * (nat * nat))   (* groups set so far: number, start, end *)
}.

Definition advance (c : char) (t : str) (st : state) : state :=
  mkState t (Some c) (S (pos st)) (caps st).

Definition set_cap (i a b : nat) (st : state) : state :=
  mkState (rest st) (prev st) (pos st) ((i, (a, b)) :: caps st).

Definition with_caps (st : state) (cs : list (nat * (nat * nat))) : state :=
  mkState (rest st) (prev st) (pos st) cs.

Definition word_at (o : option char) : bool :=
  match o with
  | Some c => is_word c
  | None => false
  end.

Definition at_boundary (st : state) : bool :=
  xorb (word_at (prev st)) (word_at (hd_error (rest st))).

Definition at_end (st : state) : bool :=
  match rest st with
  | [] => true
  | [c] => N.eqb c 10
  | _ => false
  end.

(** The rounds of a [Star]: [body] matches the starred expression once,
    [n] bounds the rounds that are left.  Greedy, another round is tried
    before the continuation; lazy, after it. *)
Fixpoint star_loop (body : state -> (state -> option state) -> option state)
    (g : bool) (k : state -> option state) (n : nat) (st : state) {struct n}
  : option state :=
  match n with
  | O => k st
  | S n' =>
      if g then
        match body st (star_loop body g k n') with
        | Some x => Some x
        | None => k st
        end
      else
        match k st with
        | Some x => Some x
        | None => body st (star_loop body g k n')
        end
  end.

(** [rmatch r st k]: match [r] at [st], then hand the state reached to the
    continuation [k]; when [k] refuses, the next way of matching [r] is
    tried.  A [Star] is bounded by the length of what is left of the subject,
    each of its rounds consuming at least one character. *)
Fixpoint rmatch (r : re) (st : state) (k : state -> option state) {struct r}
  : option state :=
  match r with
  | Eps => k st
  | Chr p =>
      match rest st with
      | c :: t => if p c then k (advance c t st) else None
      | [] => None
      end
  | Seq a b => rmatch a st (fun st1 => rmatch b st1 k)
  | Alt a b =>
      match rmatch a st k with
      | Some x => Some x
      | None => rmatch b st k
      end
  | Star g a => star_loop (rmatch a) g k (List.length (rest st)) st
  | Grp i a => rmatch a st (fun st1 => k (set_cap i (pos st) (pos st1) st1))
  | Ahead a =>
      match rmatch a st Some with
      | Some st1 => k (with_caps st (caps st1))
      | None => None
      end
  | Bnd => if at_boundary st then k st else None
  | Eos => if at_end st then k st else None
  end.

(** What a successful match of [r] does to the state, whichever way the
    matcher found it. *)
Inductive Run : re -> state -> state -> Prop :=
| Run_Eps st : Run Eps st st
| Run_Chr p c t st :
    rest st = c :: t -> p c = true -> Run (Chr p) st (advance c t st)
| Run_Seq a b st st1 st2 : Run a st st1 -> Run b st1 st2 -> Run (Seq a b) st st2
| Run_AltL a b st st1 : Run a st st1 -> Run (Alt a b) st st1
| Run_AltR a b st st1 : Run b st st1 -> Run (Alt a b) st st1
| Run_Star0 g a st : Run (Star g a) st st
| Run_StarS g a st st1 st2 :
    Run a st st1 -> Run (Star g a) st1 st2 -> Run (Star g a) st st2
| Run_Grp i a st st1 :
    Run a st st1 -> Run (Grp i a) st (set_cap i (pos st) (pos st1) st1)
| Run_Ahead a st st1 : Run a st st1 -> Run (Ahead a) st (with_caps st (caps st1))
| Run_Bnd st : at_boundary st = true -> Run Bnd st st
| Run_Eos st : at_end st = true -> Run Eos st st.

(** A match object: where it starts, where it ends, its groups. *)
Record mobj : Type := mkMatch {
  m_start : nat;
  m_end : nat;
  m_caps : list (nat * (nat * nat));
  m_rest : str;                     (* the subject after the match *)
  m_last : option char              (* the character before [m_end] *)
}.

Definition match_at (r : re) (pv : option char) (s : str) (p : nat) : option mobj :=
  match rmatch r (mkState s pv p []) Some with
  | Some st => Some (mkMatch p (pos st) (caps st) (rest st) (prev st))
  | None => None
  end.

(** [re.match(r, s)] *)
Definition re_match (r : re) (s : str) : option mobj := match_at r None s 0.

Fixpoint search_from (r : re) (pv : option char) (s : str) (p : nat) : option mobj :=
  match match_at r pv s p with
  | Some m => Some m
  | None =>
      match s with
      | [] => None
      | c :: t => search_from r (Some c) t (S p)
      end
  end.

(** [re.search(r, s)] *)
Definition re_search (r : re) (s : str) : option mobj := search_from r None s 0.

Fixpoint lookup_cap (i : nat) (cs : list (nat * (nat * nat))) : option (nat * nat) :=
  match cs with
  | [] => None
  | (j, ab) :: cs' => if Nat.eqb i j then Some ab else lookup_cap i cs'
  end.

(** [m.group(i)] on the subject [s]; [None] when the group took no part. *)
Definition group (s : str) (m : mobj) (i : nat) : option str :=
  match lookup_cap i (m_caps m) with
  | Some (a, b) => Some (slice s a b)
  | None => None
  end.

(** [m.group(0)] *)
Definition group0 (s : str) (m : mobj) : str := slice s (m_start m) (m_end m).

(** [re.sub(r, repl, s)] with a function [repl] of the match.  The scan goes
    left to right over non-overlapping matches; after an empty match one
    character is copied. *)
Fixpoint sub_loop (fuel : nat) (r : re) (repl : mobj -> str)
    (pv : option char) (s : str) (p : nat) : str :=
  match fuel with
  | O => s
  | S fuel' =>
      match match_at r pv s p with
      | Some m =>
          if Nat.ltb p (m_end m) then
            repl m ++ sub_loop fuel' r repl (m_last m) (m_rest m) (m_end m)
          else
            match s with
            | [] => repl m
            | c :: t => repl m ++ c :: sub_loop fuel' r repl (Some c) t (S p)
            end
      | None =>
          match s with
          | [] => []
          | c :: t => c :: sub_loop fuel' r repl (Some c) t (S p)
          end
      end
  end.

Definition re_sub (r : re) (repl : mobj -> str) (s : str) : str :=
  sub_loop (S (List.length s)) r repl None s 0.

(** ** Exceptions that escape *)

Inductive exn : Type :=
| TypeError                       (* comparison of a naive with an aware datetime *)
| OverflowError                   (* date arithmetic leaving years 1..9999 *)
| ValidationError                 (* a value the response schema refuses *)
| ValueError                      (* [int] of more than 4300 decimal digits *)
| HTTPException (status : Z) (detail : str).

Inductive result (A : Type) : Type :=
| Ok (a : A)
| Raise (e : exn).
Arguments Ok {A} a.
Arguments Raise {A} e.

Definition bind {A B : Type} (x : result A) (f : A -> result B) : result B :=
  match x with
  | Ok a => f a
  | Raise e => Raise e
  end.

(** ** [datetime]: dates, times, datetimes *)

Local Open Scope Z_scope.

Record date : Type := mkDate { d_year : Z; d_month : Z; d_day : Z }.

(** [tzinfo] is abstracted to the UTC offset in microseconds; [None] is a
    naive value. *)
Record time : Type := mkTime {
  t_hour : Z; t_minute : Z; t_second : Z; t_microsecond : Z;
  t_tzinfo : option Z
}.

Record datetime : Type := mkDT {
  year : Z; month : Z; day : Z;
  hour : Z; minute : Z; second : Z; microsecond : Z;
  tzinfo : option Z
}.

Definition is_leap (y : Z) : bool :=
  (y mod 4 =? 0) && (negb (y mod 100 =? 0) || (y mod 400 =? 0)).

Definition days_in_month (y m : Z) : Z :=
  if m =? 2 then (if is_leap y then 29 else 28)
  else if (m =? 4) || (m =? 6) || (m =? 9) || (m =? 11) then 30
  else 31.

(** The checks of the [date] constructor. *)
Definition valid_date (y m d : Z) : bool :=
  (1 <=? y) && (y <=? 9999) && (1 <=? m) && (m <=? 12) &&
  (1 <=? d) && (d <=? days_in_month y m).

Definition valid_tod (h mi s us : Z) : bool :=
  (0 <=? h) && (h <=? 23) && (0 <=? mi) && (mi <=? 59) &&
  (0 <=? s) && (s <=? 59) && (0 <=? us) && (us <=? 999999).

Definition valid_datetime (t : datetime) : bool :=
  valid_date (year t) (month t) (day t) &&
  valid_tod (hour t) (minute t) (second t) (microsecond t).

Definition valid_time (t : time) : bool :=
  valid_tod (t_hour t) (t_minute t) (t_second t) (t_microsecond t).

(** [dt.date()], [datetime.combine(d, t)], [dt.replace(tzinfo=None)] *)
Definition date_of (t : datetime) : date := mkDate (year t) (month t) (day t).

Definition combine (d : date) (t : time) : datetime :=
  mkDT (d_year d) (d_month d) (d_day d)
       (t_hour t) (t_minute t) (t_second t) (t_microsecond t) (t_tzinfo t).

Definition drop_tz (t : datetime) : datetime :=
  mkDT (year t) (month t) (day t) (hour t) (minute t) (second t) (microsecond t) None.

Definition midnight : time := mkTime 0 0 0 0 None.

(** *** Order *)

Fixpoint lex_cmp (a b : list Z) : comparison :=
  match a, b with
  | x :: a', y :: b' =>
      match x ?= y with
      | Eq => lex_cmp a' b'
      | c => c
      end
  | [], [] => Eq
  | [], _ :: _ => Lt
  | _ :: _, [] => Gt
  end.

Definition fields (t : datetime) : list Z :=
  [year t; month t; day t; hour t; minute t; second t; microsecond t].

(** Days before the first of January of year [y], and the proleptic
    Gregorian ordinal of a date, as [datetime] computes them. *)
Definition days_before_year (y : Z) : Z :=
  (y - 1) * 365 + (y - 1) / 4 - (y - 1) / 100 + (y - 1) / 400.

Fixpoint days_before_month_aux (y : Z) (n : nat) : Z :=
  match n with
  | O => 0
  | S n' => days_before_month_aux y n' + days_in_month y (Z.of_nat n)
  end.

Definition days_before_month (y m : Z) : Z :=
  days_before_month_aux y (Z.to_nat (m - 1)).

Definition ordinal (y m d : Z) : Z := days_before_year y + days_before_month y m + d.

(** Microseconds since the start of year 1, without regard to the offset. *)
Definition micros (t : datetime) : Z :=
  (((ordinal (year t) (month t) (day t) * 24 + hour t) * 60 + minute t) * 60
   + second t) * 1000000 + microsecond t.

(** The three-way comparison behind [<], [<=]: two naive values compare
    field by field, two aware values by their UTC instants, and a naive
    with an aware value raises [TypeError]. *)
Definition dt_cmp (a b : datetime) : result comparison :=
  match tzinfo a, tzinfo b with
  | None, None => Ok (lex_cmp (fields a) (fields b))
  | Some oa, Some ob => Ok ((micros a - oa) ?= (micros b - ob))
  | _, _ => Raise TypeError
  end.

Definition is_lt (c : comparison) : bool := match c with Lt => true | _ => false end.
Definition is_le (c : comparison) : bool := match c with Gt => false | _ => true end.

Definition dt_lt (a b : datetime) : result bool := bind (dt_cmp a b) (fun c => Ok (is_lt c)).
Definition dt_le (a b : datetime) : result bool := bind (dt_cmp a b) (fun c => Ok (is_le c)).

(** [==] never raises: a naive and an aware value are simply different. *)
Definition dt_eqb (a b : datetime) : bool :=
  match dt_cmp a b with
  | Ok Eq => true
  | _ => false
  end.

(** *** Arithmetic *)

Definition next_day (d : date) : result date :=
  if d_day d <? days_in_month (d_year d) (d_month d) then
    Ok (mkDate (d_year d) (d_month d) (d_day d + 1))
  else if d_month d <? 12 then Ok (mkDate (d_year d) (d_month d + 1) 1)
  else if d_year d <? 9999 then Ok (mkDate (d_year d + 1) 1 1)
  else Raise OverflowError.

Definition prev_day (d : date) : result date :=
  if 1 <? d_day d then Ok (mkDate (d_year d) (d_month d) (d_day d - 1))
  else if 1 <? d_month d then
    Ok (mkDate (d_year d) (d_month d - 1) (days_in_month (d_year d) (d_month d - 1)))
  else if 1 <? d_year d then Ok (mkDate (d_year d - 1) 12 31)
  else Raise OverflowError.

Fixpoint iter_days (step : date -> result date) (n : nat) (d : date) : result date :=
  match n with
  | O => Ok d
  | S n' => bind (step d) (iter_days step n')
  end.

(** [d + timedelta(days=n)] *)
Definition add_days (d : date) (n : Z) : result date :=
  if 0 <=? n then iter_days next_day (Z.to_nat n) d
  else iter_days prev_day (Z.to_nat (- n)) d.

Definition day_micros : Z := 86400 * 1000000.

Definition tod_micros (t : datetime) : Z :=
  ((hour t * 60 + minute t) * 60 + second t) * 1000000 + microsecond t.

(** [dt + timedelta(microseconds=delta)]; the offset is kept. *)
Definition add_micros (t : datetime) (delta : Z) : result datetime :=
  let total := tod_micros t + delta in
  let r := total mod day_micros in
  bind (add_days (date_of t) (total / day_micros)) (fun d =>
  Ok (mkDT (d_year d) (d_month d) (d_day d)
           (r / 3600000000) (r / 60000000 mod 60) (r / 1000000 mod 60) (r mod 1000000)
           (tzinfo t))).

(** [dt + timedelta(days=n)] *)
Definition dt_add_days (t : datetime) (n : Z) : result datetime :=
  bind (add_days (date_of t) n) (fun d =>
  Ok (mkDT (d_year d) (d_month d) (d_day d)
           (hour t) (minute t) (second t) (microsecond t) (tzinfo t))).

(** [dt.astimezone(tz)] for an aware [dt] of offset [o] and a fixed-offset
    [tz] of offset [off]: first to UTC, then to the offset of [tz]; either
    step can overflow. *)
Definition astimezone (t : datetime) (o off : Z) : result datetime :=
  bind (add_micros t (- o)) (fun utc =>
  bind (add_micros utc off) (fun loc =>
  Ok (mkDT (year loc) (month loc) (day loc) (hour loc) (minute loc) (second loc)
           (microsecond loc) (Some off)))).

Local Close Scope Z_scope.

(** ** [int], [str.title], [str.lower], formatting *)

(** [int(s)] for a string of decimal digits, white space around it ignored. *)
Definition py_int (s : str) : option Z :=
  let t := strip_by is_space s in
  match t with
  | [] => None
  | _ =>
      if forallb is_digit t
      then Some (fold_left (fun acc c => (acc * 10 + Z.of_N (digit_value c))%Z) t 0%Z)
      else None
  end.

Definition hex_value (c : char) : N :=
  if is_ascii_digit c then (c - 48)%N
  else if N.leb 97 c then (c - 87)%N
  else (c - 55)%N.

(** [int(s, 16)] for a string of hexadecimal digits. *)
Definition py_int16 (s : str) : N :=
  fold_left (fun acc c => (acc * 16 + hex_value c)%N) s 0%N.

(** [sys.int_info.default_max_str_digits]: [int] refuses a decimal string of
    more digits, leading zeros counted; base 16 has no such limit. *)
Definition int_max_str_digits : nat := 4300.

(** [int(s)] for a string of ASCII decimal digits. *)
Definition py_int10 (s : str) : result N :=
  if Nat.ltb int_max_str_digits (List.length s) then Raise ValueError
  else Ok (fold_left (fun acc c => (acc * 10 + (c - 48))%N) s 0%N).

(** [str(n)] for an integer. *)
Definition str_of_Z (z : Z) : str := u (DecimalString.NilZero.string_of_int (Z.to_int z)).

Definition digit_char (z : Z) : char := Z.to_N (48 + z mod 10).

(** [%02d] and [%04d] of a number in range. *)
Definition two_digits (z : Z) : str := [digit_char (z / 10); digit_char z].
Definition four_digits (z : Z) : str :=
  [digit_char (z / 1000); digit_char (z / 100); digit_char (z / 10); digit_char z].

(** Case mappings, given for ASCII and for the four other code points that a
    letter of an [re.I] pattern can match; no other cased character reaches
    [title] or [lower] in this program. *)
Definition is_cased (c : char) : bool :=
  is_ascii_alpha c || mem_char c [304; 305; 383; 8490]%N.

Definition lower_full (c : char) : str :=
  if N.eqb c 304 then [105; 775]%N
  else if N.eqb c 8490 then [107]%N
  else [ascii_lower c].

Definition title_full (c : char) : str :=
  if N.eqb c 305 then [73]%N
  else if N.eqb c 383 then [83]%N
  else [ascii_upper c].

Fixpoint title_from (prev_cased : bool) (s : str) : str :=
  match s with
  | [] => []
  | c :: t => (if prev_cased then lower_full c else title_full c) ++ title_from (is_cased c) t
  end.

(** [s.title()] and [s.lower()] *)
Definition title (s : str) : str := title_from false s.
Definition lower (s : str) : str := flat_map lower_full s.

(** [s.strip()] *)
Definition strip (s : str) : str := strip_by is_space s.

(** Truth value of an optional string: [None] and [""] are false. *)
Definition truthy (o : option str) : bool :=
  match o with
  | Some (_ :: _) => true
  | _ => false
  end.

(** ** [datetime.strptime(s, "%d-%b-%Y %H:%M")] and [strftime("%d-%b-%Y")] *)

Definition rng (a b : N) : re := Chr (fun c => N.leb a c && N.leb c b).

Definition month_names : list string :=
  ["jan"; "feb"; "mar"; "apr"; "may"; "jun"; "jul"; "aug"; "sep"; "oct"; "nov"; "dec"]%string.

(** The pattern [_strptime] compiles the format to (with [re.I]):
    [(?P<d>3[0-1]|[1-2]\d|0[1-9]|[1-9]| [1-9])-(?P<b>jan|...|dec)-(?P<Y>\d\d\d\d)\s+(?P<H>2[0-3]|[0-1]\d|\d):(?P<M>[0-5]\d|\d)] *)
Definition re_d : re :=
  Grp 1 (AltL [ Seq (Lit "3") (rng 48 49); Seq (rng 49 50) Digit;
                Seq (Lit "0") (rng 49 57); rng 49 57; Seq (Lit " ") (rng 49 57) ]).
Definition re_b : re := Grp 2 (AltL (map LitI month_names)).
Definition re_Y : re := Grp 3 (Rep 4 Digit).
Definition re_H : re := Grp 4 (AltL [ Seq (Lit "2") (rng 48 51); Seq (rng 48 49) Digit; Digit ]).
Definition re_M : re := Grp 5 (AltL [ Seq (rng 48 53) Digit; Digit ]).

Definition strptime_re : re :=
  SeqL [ re_d; Lit "-"; re_b; Lit "-"; re_Y; Plus true Space; re_H; Lit ":"; re_M ].

Fixpoint index_of (s : str) (l : list string) (i : Z) : option Z :=
  match l with
  | [] => None
  | x :: l' => if str_eqb (u x) s then Some i else index_of s l' (i + 1)%Z
  end.

(** [None] stands for the [ValueError] that every caller catches. *)
Definition strptime (s : str) : option datetime :=
  match re_match strptime_re s with
  | None => None
  | Some m =>
      if negb (Nat.eqb (m_end m) (List.length s)) then None
      else
        match group s m 1, group s m 2, group s m 3, group s m 4, group s m 5 with
        | Some d, Some b, Some y, Some h, Some mi =>
            match py_int d, index_of (lower b) month_names 1%Z,
                  py_int y, py_int h, py_int mi with
            | Some dd, Some mm, Some yy, Some hh, Some mn =>
                if valid_date yy mm dd then Some (mkDT yy mm dd hh mn 0 0 None) else None
            | _, _, _, _, _ => None
            end
        | _, _, _, _, _ => None
        end
  end.

Definition month_abbr (m : Z) : str :=
  match nth_error month_names (Z.to_nat (m - 1)) with
  | Some n => title (u n)
  | None => []
  end.

(** [dt.strftime("%d-%b-%Y")].  [%Y] writes the year as the C library does,
    without padding: a year below 1000 comes with three digits or fewer. *)
Definition strftime (t : datetime) : str :=
  two_digits (day t) ++ u "-" ++ month_abbr (month t) ++ u "-" ++ str_of_Z (year t).

(** ** [html.unescape] *)

(** [&(#[0-9]+;?|#[xX][0-9a-fA-F]+;?|[^\t\n\f <&#;]{1,32};?)] *)
Definition charref_re : re :=
  Seq (Lit "&")
      (Grp 1 (AltL [ SeqL [Lit "#"; Plus true (Chr is_ascii_digit); Opt (Lit ";")];
                     SeqL [Lit "#"; Chr (fun c => mem_char c (u "xX"));
                           Plus true (Chr is_hex_digit); Opt (Lit ";")];
                     SeqL [Range 1 32 (Chr (fun c => negb (mem_char c [9; 10; 12; 32; 60; 38; 35; 59]%N)));
                           Opt (Lit ";")] ])).

Fixpoint assoc_N (k : N) (l : list (N * str)) : option str :=
  match l with
  | [] => None
  | (k', v) :: l' => if N.eqb k k' then Some v else assoc_N k l'
  end.

Fixpoint html5_get (s : str) (l : list (string * str)) : option str :=
  match l with
  | [] => None
  | (k, v) :: l' => if str_eqb (u k) s then Some v else html5_get s l'
  end.

(** The longest proper prefix of [s], of length [x] down to 2, that names an
    entity, replaced; [x] counts down with [n]. *)
Fixpoint longest_prefix (s : str) (n : nat) : option str :=
  match n with
  | O | 1 => None
  | S n' =>
      match html5_get (firstn n s) html5 with
      | Some v => Some (v ++ skipn n s)
      | None => longest_prefix s n'
      end
  end.

Definition semicolon (c : char) : bool := N.eqb c 59.

(** [_replace_charref], on the text of group 1.  The decimal conversion is
    the one step that can raise. *)
Definition replace_charref (s : str) : result str :=
  match s with
  | 35%N :: t =>
      bind (match t with
            | c :: t' =>
                if mem_char c (u "xX") then Ok (py_int16 (rstrip_by semicolon t'))
                else py_int10 (rstrip_by semicolon t)
            | [] => Ok 0%N
            end) (fun num =>
      Ok (match assoc_N num invalid_charrefs with
          | Some v => v
          | None =>
              if (N.leb 55296 num && N.leb num 57343) || N.ltb 1114111 num then [65533%N]
              else if in_ranges invalid_codepoints num then []
              else [num]
          end))
  | _ =>
      Ok (match html5_get s html5 with
          | Some v => v
          | None =>
              match longest_prefix s (List.length s - 1) with
              | Some v => v
              | None => 38%N :: s
              end
          end)
  end.

(** [re.sub(r, repl, s)] with a function [repl] that can raise: the scan of
    [sub_loop], given up at the first match on which [repl] raises. *)
Fixpoint sub_loop_r (fuel : nat) (r : re) (repl : mobj -> result str)
    (pv : option char) (s : str) (p : nat) : result str :=
  match fuel with
  | O => Ok s
  | S fuel' =>
      match match_at r pv s p with
      | Some m =>
          bind (repl m) (fun w =>
          if Nat.ltb p (m_end m) then
            bind (sub_loop_r fuel' r repl (m_last m) (m_rest m) (m_end m)) (fun t =>
            Ok (w ++ t))
          else
            match s with
            | [] => Ok w
            | c :: t =>
                bind (sub_loop_r fuel' r repl (Some c) t (S p)) (fun t' =>
                Ok (w ++ c :: t'))
            end)
      | None =>
          match s with
          | [] => Ok []
          | c :: t => bind (sub_loop_r fuel' r repl (Some c) t (S p)) (fun t' => Ok (c :: t'))
          end
      end
  end.

Definition re_sub_r (r : re) (repl : mobj -> result str) (s : str) : result str :=
  sub_loop_r (S (List.length s)) r repl None s 0.

Definition unescape (s : str) : result str :=
  if negb (mem_char 38%N s) then Ok s
  else re_sub_r charref_re
         (fun m => match group s m 1 with Some g => replace_charref g | None => Ok [] end) s.

(** * [app/helpers/train_helper.py] *)

(** [today_str], from the reading [now] of the clock. *)
Definition today_str (now : datetime) : str := strftime now.

(** ** [_strip_html] and [extract_status_lines] *)

Definition Any : re := Chr (fun _ => true).             (* [.] with [re.S] *)

(** [(?is)<script.*?>.*?</script>], [(?is)<style.*?>.*?</style>], [<[^>]+>] *)
Definition script_re : re :=
  SeqL [LitI "<script"; Star false Any; Lit ">"; Star false Any; LitI "</script>"].
Definition style_re : re :=
  SeqL [LitI "<style"; Star false Any; Lit ">"; Star false Any; LitI "</style>"].
Definition tag_re : re :=
  SeqL [Lit "<"; Plus true (Chr (fun c => negb (N.eqb c 62))); Lit ">"].

Definition _strip_html (html_text : str) : str :=
  let html_text := re_sub script_re (fun _ => []) html_text in
  let html_text := re_sub style_re (fun _ => []) html_text in
  re_sub tag_re (fun _ => []) html_text.

(** The line boundaries of [str.splitlines]. *)
Definition is_linebreak (c : char) : bool :=
  mem_char c [10; 13; 11; 12; 28; 29; 30; 133; 8232; 8233]%N.

(** [s.splitlines()]; [cur] is the line being read, reversed. *)
Fixpoint splitlines_from (cur : str) (s : str) : list str :=
  match s with
  | [] => match cur with
          | [] => []
          | _ => [rev cur]
          end
  | c :: t =>
      if is_linebreak c then
        rev cur :: splitlines_from []
                     (match c, t with
                      | 13%N, 10%N :: t' => t'
                      | _, _ => t
                      end)
      else splitlines_from (c :: cur) t
  end.

Definition splitlines (s : str) : list str := splitlines_from [] s.

(** [a in b] for strings. *)
Fixpoint contains (a b : str) : bool :=
  starts_with a b ||
  match b with
  | [] => false
  | _ :: b' => contains a b'
  end.

Definition keywords : list string :=
  ["Arrived"; "Arrive"; "Arriving"; "Departed"; "Depart"; "Departure"; "On Time";
   "Yet to start"; "Reached Destination"; "Current Position"; "Last Updates On";
   "Start Date"]%string.

(** The first of equal lines is kept. *)
Fixpoint uniq_lines (seen : list str) (l : list str) : list str :=
  match l with
  | [] => []
  | m :: l' =>
      if existsb (str_eqb m) seen then uniq_lines seen l'
      else m :: uniq_lines (m :: seen) l'
  end.

Definition extract_status_lines (html_text : str) : list str :=
  let text := _strip_html html_text in
  let lines := filter (fun ln => match ln with [] => false | _ => true end)
                      (map strip (splitlines text)) in
  let matches :=
    filter (fun ln => existsb (fun kw => contains (lower (u kw)) (lower ln)) keywords)
           lines in
  uniq_lines [] matches.

(** ** [_clean_line] *)

Definition last_updates_on : string := "Last Updates On".

(** [Last Updates On(?=\d)] *)
Definition glued_re : re := Seq (Lit last_updates_on) (Ahead Digit).

Definition strip_set (c : char) : bool := mem_char c [32; 9; 10; 13; 160]%N.

(** [html.unescape] is the one step that can raise. *)
Definition _clean_line (line : str) : result str :=
  bind (unescape line) (fun line =>
  let line := replace_char 160%N 32%N line in
  let line := re_sub (Plus true Space) (fun _ => u " ") line in
  let line := re_sub glued_re (fun _ => u "Last Updates On ") line in
  Ok (strip_by strip_set line)).

(** ** [_parse_last_update_dt] *)

Definition digits12 : re := Range 1 2 Digit.           (* [\d{1,2}] *)
Definition hhmm : re := SeqL [digits12; Lit ":"; Rep 2 Digit].

(** [Last Updates On\s*(?P<date>\d{1,2}-[A-Za-z]{3}-\d{4})(?:\s+(?P<time>\d{1,2}:\d{2}))?]
    with [re.I]; group 1 is [date], group 2 is [time]. *)
Definition last_update_re : re :=
  SeqL [ LitI last_updates_on; Star true Space;
         Grp 1 (SeqL [digits12; Lit "-"; Rep 3 (Chr is_alpha_i); Lit "-"; Rep 4 Digit]);
         Opt (Seq (Plus true Space) (Grp 2 hhmm)) ].

(** [x or "00:00"] *)
Definition or_midnight (o : option str) : str :=
  if truthy o then match o with Some t => t | None => [] end else u "00:00".

(** The candidate a line contributes: [None] when the pattern is not found
    or the fragment found does not parse. *)
Definition last_update_candidate (ln : str) : option datetime :=
  match re_search last_update_re ln with
  | None => None
  | Some m =>
      match group ln m 1 with
      | Some date => strptime (date ++ u " " ++ or_midnight (group ln m 2))
      | None => None
      end
  end.

Definition naive_cmp (a b : datetime) : comparison := lex_cmp (fields a) (fields b).

(** [max(l)] of a list of naive datetimes: the first of the greatest. *)
Fixpoint max_from (best : datetime) (l : list datetime) : datetime :=
  match l with
  | [] => best
  | x :: l' =>
      max_from (match naive_cmp x best with Gt => x | _ => best end) l'
  end.

Fixpoint candidates (lines : list str) : list datetime :=
  match lines with
  | [] => []
  | ln :: lines' =>
      match last_update_candidate ln with
      | Some t => t :: candidates lines'
      | None => candidates lines'
      end
  end.

Definition _parse_last_update_dt (lines : list str) : option datetime :=
  match candidates lines with
  | [] => None
  | t :: l => Some (max_from t l)
  end.

(** ** [_parse_start_date] *)

(** [Start Date\s*:\s*(?P<date>\d{1,2}-[A-Za-z]{3}-\d{4})] with [re.I] *)
Definition start_date_re : re :=
  SeqL [ LitI "Start Date"; Star true Space; Lit ":"; Star true Space;
         Grp 1 (SeqL [digits12; Lit "-"; Rep 3 (Chr is_alpha_i); Lit "-"; Rep 4 Digit]) ].

Fixpoint _parse_start_date (lines : list str) : option str :=
  match lines with
  | [] => None
  | ln :: lines' =>
      match re_search start_date_re ln with
      | Some m => group ln m 1
      | None => _parse_start_date lines'
      end
  end.

(** ** [_build_event_dt] *)

(** [\d{1,2}-[A-Za-z]{3}-\d{4}$] *)
Definition full_date_re : re :=
  SeqL [digits12; Lit "-"; Rep 3 (Chr is_ascii_alpha); Lit "-"; Rep 4 Digit; Eos].

Definition has_year (date_part : str) : bool :=
  match re_match full_date_re date_part with
  | Some _ => true
  | None => false
  end.

(** [now] is the reading of [datetime.now()]. *)
Definition _build_event_dt (now : datetime)
    (date_part time_part : option str) (last_update_dt : option datetime)
  : option datetime :=
  let time_part := or_midnight time_part in
  if truthy date_part then
    let dp := match date_part with Some d => d | None => [] end in
    let ds :=
      if has_year dp then dp
      else
        let yr := match last_update_dt with
                  | Some lu => year lu
                  | None => year now
                  end in
        dp ++ u "-" ++ str_of_Z yr in
    strptime (ds ++ u " " ++ time_part)
  else
    match last_update_dt with
    | Some lu => strptime (strftime lu ++ u " " ++ time_part)
    | None => None
    end.

(** ** [parse_train_status_html]: the event parser *)

Record event : Type := mkEvent {
  ev_raw : str;
  ev_type : option str;
  ev_station : option str;
  ev_code : option str;
  ev_datetime : option datetime;
  ev_delay : option str
}.

(** [\b(arrived|arrive|arriving|departed|depart|departure)\b] with [re.I] *)
Definition candidate_re : re :=
  SeqL [ Bnd;
         Grp 1 (AltL (map LitI ["arrived"; "arrive"; "arriving";
                                "departed"; "depart"; "departure"]%string));
         Bnd ].

(** [Delay[:\-\s]*\(?\s*(?:Delay\s{0,})?([0-9:]{1,5})\)?] with [re.I]; [\s{0,}] is
    written for the star of the source. *)
Definition delay_re : re :=
  SeqL [ LitI "Delay";
         Star true (Chr (fun c => N.eqb c 58 || N.eqb c 45 || is_space c));
         Opt (Lit "("); Star true Space;
         Opt (Seq (LitI "Delay") (Star true Space));
         Grp 1 (Range 1 5 (Chr (fun c => is_ascii_digit c || N.eqb c 58)));
         Opt (Lit ")") ].

Definition verb : re := Grp 1 (Alt (LitI "Departed") (LitI "Arrived")).
Definition from_at : re := Alt (LitI "from") (LitI "at").
Definition not_paren (c : char) : bool := negb (N.eqb c 40 || N.eqb c 41).

(** [[A-Z0-9]] as [re.I] reads it. *)
Definition code_char (c : char) : bool := is_ascii_digit c || is_alpha_i c.

(** [\b(Departed|Arrived)\b\s+(?:from|at)\s+(?P<station>[^()]+?)\s*\(\s*(?P<code>[A-Z0-9]{1,6})\s*\)]
    with [re.I]; group 2 is [station], group 3 is [code]. *)
Definition tier_a_re : re :=
  SeqL [ Bnd; verb; Bnd; Plus true Space; from_at; Plus true Space;
         Grp 2 (Plus false (Chr not_paren));
         Star true Space; Lit "("; Star true Space;
         Grp 3 (Range 1 6 (Chr code_char));
         Star true Space; Lit ")" ].

(** [\b(Departed|Arrived)\b\s+(?:from|at)\s+(?P<station>.+?)\s+(?:at|on)\b]
    with [re.I]; group 2 is [station]. *)
Definition tier_b_re : re :=
  SeqL [ Bnd; verb; Bnd; Plus true Space; from_at; Plus true Space;
         Grp 2 (Plus false Dot);
         Plus true Space; Alt (LitI "at") (LitI "on"); Bnd ].

(** [\b(on|at)\b$] with [re.I] *)
Definition trailing_re : re :=
  SeqL [ Bnd; Grp 1 (Alt (LitI "on") (LitI "at")); Bnd; Eos ].

(** [\b(Departed|Arrived)\b] with [re.I] *)
Definition tier_c_re : re := SeqL [Bnd; verb; Bnd].

(** [(\d{1,2}:\d{2})] and [(\d{1,2}-[A-Za-z]{3}(?:-\d{4})?)] *)
Definition time_re : re := Grp 1 hhmm.
Definition date_re : re :=
  Grp 1 (SeqL [ digits12; Lit "-"; Rep 3 (Chr is_ascii_alpha);
                Opt (Seq (Lit "-") (Rep 4 Digit)) ]).

(** [m.group(1) if m else None] for a search in the line. *)
Definition token (r : re) (ln : str) : option str :=
  match re_search r ln with
  | Some m => group ln m 1
  | None => None
  end.

(** The timestamp of a line, the same in the three tiers. *)
Definition line_dt (now : datetime) (last_update_dt : option datetime) (ln : str)
  : option datetime :=
  _build_event_dt now (token date_re ln) (token time_re ln) last_update_dt.

Definition opt_map_str (f : str -> str) (o : option str) : option str :=
  match o with
  | Some s => Some (f s)
  | None => None
  end.

(** One round of the loop over the lines: the event appended, if any. *)
Definition parse_line (now : datetime) (last_update_dt : option datetime) (ln : str)
  : option event :=
  match re_search candidate_re ln with
  | None => None
  | Some _ =>
      let delay := token delay_re ln in
      match re_search tier_a_re ln with
      | Some m =>
          let ty := opt_map_str title (group ln m 1) in
          let station := opt_map_str strip (group ln m 2) in
          let code := opt_map_str strip (group ln m 3) in
          let ev := mkEvent ln ty station code (line_dt now last_update_dt ln) delay in
          if truthy ty && truthy station then Some ev else None
      | None =>
          match re_search tier_b_re ln with
          | Some m2 =>
              let ty := opt_map_str title (group ln m2 1) in
              let station :=
                opt_map_str (fun s => strip (re_sub trailing_re (fun _ => []) (strip s)))
                            (group ln m2 2) in
              let ev := mkEvent ln ty station None (line_dt now last_update_dt ln) delay in
              if truthy ty && truthy station then Some ev else None
          | None =>
              match re_search tier_c_re ln with
              | Some mverb =>
                  let ty := opt_map_str title (group ln mverb 1) in
                  let dt := line_dt now last_update_dt ln in
                  let ev := mkEvent ln ty None None dt delay in
                  match dt with
                  | Some _ => if truthy ty then Some ev else None
                  | None => None
                  end
              | None => None
              end
          end
      end
  end.

Fixpoint parse_lines (now : datetime) (last_update_dt : option datetime)
    (lines : list str) : list event :=
  match lines with
  | [] => []
  | ln :: lines' =>
      match parse_line now last_update_dt ln with
      | Some ev => ev :: parse_lines now last_update_dt lines'
      | None => parse_lines now last_update_dt lines'
      end
  end.

(** The deduplication key [(type, station, datetime)] and its equality. *)
Definition key : Type := (option str * option str * option datetime)%type.

Definition key_of (e : event) : key := (ev_type e, ev_station e, ev_datetime e).

Definition opt_eqb {A : Type} (eqb : A -> A -> bool) (a b : option A) : bool :=
  match a, b with
  | Some x, Some y => eqb x y
  | None, None => true
  | _, _ => false
  end.

Definition key_eqb (a b : key) : bool :=
  let '(t1, s1, d1) := a in
  let '(t2, s2, d2) := b in
  opt_eqb str_eqb t1 t2 && opt_eqb str_eqb s1 s2 && opt_eqb dt_eqb d1 d2.
Arguments key_eqb : simpl never.

Fixpoint dedup (seen : list key) (events : list event) : list event :=
  match events with
  | [] => []
  | e :: events' =>
      if existsb (key_eqb (key_of e)) seen then dedup seen events'
      else e :: dedup (key_of e :: seen) events'
  end.

Record parsed : Type := mkParsed {
  start_date : option str;
  last_update : option datetime;
  events : list event
}.

(** A list comprehension over a function that can raise. *)
Fixpoint map_r {A B : Type} (f : A -> result B) (l : list A) : result (list B) :=
  match l with
  | [] => Ok []
  | x :: l' => bind (f x) (fun y => bind (map_r f l') (fun ys => Ok (y :: ys)))
  end.

(** The parser after [extract_status_lines]. *)
Definition parse_train_status (now : datetime) (raw_lines : list str) : result parsed :=
  bind (map_r _clean_line raw_lines) (fun lines =>
  let last_update_dt := _parse_last_update_dt lines in
  Ok (mkParsed (_parse_start_date lines) last_update_dt
               (dedup [] (parse_lines now last_update_dt lines)))).

Definition parse_train_status_html (now : datetime) (html_text : str) : result parsed :=
  parse_train_status now (extract_status_lines html_text).

(** * [app/services/train_service.py] *)

(** The two parsers of the standard library that read a bound; [None] is
    their [ValueError]. *)
Record pylib : Type := mkLib {
  datetime_fromisoformat : str -> option datetime;
  time_fromisoformat : str -> option time
}.

(** What the resolver reads from the clock: [datetime.now()], a naive local
    time, and the UTC offset (in microseconds) of the fixed-offset zone
    [datetime.now().astimezone().tzinfo]. *)
Record clock : Type := mkClock {
  now : datetime;
  local_offset : Z
}.

(** ** [_compute_event_window] *)

(** [local_tz] is never [None], so an aware value is converted to local
    time before its offset is dropped. *)
Definition _normalize_dt (clk : clock) (dt : datetime) : result datetime :=
  match tzinfo dt with
  | None => Ok dt
  | Some o => bind (astimezone dt o (local_offset clk)) (fun loc => Ok (drop_tz loc))
  end.

Definition invalid_bound_detail (raw : str) : str :=
  u "Invalid time format: '" ++ raw ++
  u "'. Use HH:MM[:SS] or ISO datetime (e.g. 2026-01-01T10:30:00 or 2026-01-01T10:30:00Z).".

(** The string the two parsers are given: stripped, a final [Z] replaced
    by [+00:00]. *)
Definition bound_text (raw : str) : str :=
  let s := strip raw in
  if ends_with (u "Z") s then removelast s ++ u "+00:00" else s.

Definition _parse_bound (lib : pylib) (clk : clock) (raw : str)
  : result (option datetime * option time) :=
  let s := bound_text raw in
  match datetime_fromisoformat lib s with
  | Some dt => bind (_normalize_dt clk dt) (fun d => Ok (Some d, None))
  | None =>
      match time_fromisoformat lib s with
      | Some t => Ok (None, Some t)
      | None => Raise (HTTPException 422 (invalid_bound_detail raw))
      end
  end.

Definition parse_opt_bound (lib : pylib) (clk : clock) (raw : option str)
  : result (option datetime * option time) :=
  match raw with
  | Some r => _parse_bound lib clk r
  | None => Ok (None, None)
  end.

Definition _to_datetime (clk : clock) (base_date : date)
    (dt_part : option datetime) (t_part : option time) : datetime :=
  match dt_part with
  | Some d => d
  | None =>
      match t_part with
      | Some t => combine base_date t
      | None => now clk
      end
  end.

(** [if end_dt < start_dt: start_dt, end_dt = end_dt, start_dt] *)
Definition swap_if_inverted (start_dt end_dt : datetime) : result (datetime * datetime) :=
  bind (dt_lt end_dt start_dt) (fun inverted =>
  Ok (if inverted then (end_dt, start_dt) else (start_dt, end_dt))).

Definition is_none {A : Type} (o : option A) : bool :=
  match o with
  | None => true
  | Some _ => false
  end.

Definition is_some {A : Type} (o : option A) : bool := negb (is_none o).

Definition _compute_event_window (lib : pylib) (clk : clock)
    (start_time_raw end_time_raw : option str) : result (datetime * datetime) :=
  let today := date_of (now clk) in
  bind (parse_opt_bound lib clk start_time_raw) (fun sb =>
  bind (parse_opt_bound lib clk end_time_raw) (fun eb =>
  let '(start_dt_raw, start_t_raw) := sb in
  let '(end_dt_raw, end_t_raw) := eb in
  let base_date :=
    match start_dt_raw with
    | Some d => date_of d
    | None => match end_dt_raw with
              | Some d => date_of d
              | None => today
              end
    end in
  match start_time_raw, end_time_raw with
  | None, None =>
      bind (add_days today 1) (fun tomorrow =>
      Ok (combine today midnight, combine tomorrow midnight))
  | None, Some _ =>
      swap_if_inverted (now clk) (_to_datetime clk base_date end_dt_raw end_t_raw)
  | Some _, None =>
      swap_if_inverted (_to_datetime clk base_date start_dt_raw start_t_raw) (now clk)
  | Some _, Some _ =>
      let start_dt := _to_datetime clk base_date start_dt_raw start_t_raw in
      let end_dt := _to_datetime clk base_date end_dt_raw end_t_raw in
      bind (dt_lt end_dt start_dt) (fun inverted =>
      if inverted then
        if is_none start_dt_raw && is_none end_dt_raw
           && is_some start_t_raw && is_some end_t_raw
        then bind (dt_add_days end_dt 1) (fun e => Ok (start_dt, e))
        else Ok (end_dt, start_dt)
      else Ok (start_dt, end_dt))
  end)).

(** ** [get_train_status]: the final filter *)

(** [e.datetime is not None and window_start <= e.datetime < window_end] *)
Definition in_window (window_start window_end : datetime) (e : event) : result bool :=
  match ev_datetime e with
  | None => Ok false
  | Some t =>
      bind (dt_le window_start t) (fun after =>
      if after then dt_lt t window_end else Ok false)
  end.

Fixpoint filter_window (window_start window_end : datetime) (evs : list event)
  : result (list event) :=
  match evs with
  | [] => Ok []
  | e :: evs' =>
      bind (in_window window_start window_end e) (fun keep =>
      bind (filter_window window_start window_end evs') (fun l =>
      Ok (if keep then e :: l else l)))
  end.

(** ** [_validate_train_number] and [get_train_status] *)

Definition _validate_train_number (train_number : Z) : result unit :=
  if (train_number <? 10000)%Z || (99999 <? train_number)%Z
  then Raise (HTTPException 422 (u "train_number must be a 5-digit number (10000-99999)"))
  else Ok tt.

(** What [fetch_train_status_html] does: it returns the page, or raises
    [UpstreamError] with a message, or a [requests.RequestException]. *)
Inductive fetched : Type :=
| Page (html_text : str)
| UpstreamError (message : str)
| RequestException.

(** The event as a [TrainEvent]: the schema admits the types [Arrived] and
    [Departed] only. *)
Definition TrainEvent (e : event) : result event :=
  match ev_type e with
  | None => Ok e
  | Some ty =>
      if str_eqb ty (u "Arrived") || str_eqb ty (u "Departed") then Ok e
      else Raise ValidationError
  end.

Fixpoint TrainEvents (evs : list event) : result (list event) :=
  match evs with
  | [] => Ok []
  | e :: evs' =>
      bind (TrainEvent e) (fun e' =>
      bind (TrainEvents evs') (fun l => Ok (e' :: l)))
  end.

Definition get_train_status (lib : pylib) (clk : clock) (fetch : Z -> fetched)
    (train_number : Z) (start_time end_time : option str) : result parsed :=
  bind (_validate_train_number train_number) (fun _ =>
  match fetch train_number with
  | UpstreamError e => Raise (HTTPException 502 e)
  | RequestException =>
      Raise (HTTPException 502 (u "Upstream request failed while fetching train status"))
  | Page html_text =>
      bind (parse_train_status_html (now clk) html_text) (fun p =>
      bind (TrainEvents (events p)) (fun evs =>
      bind (_compute_event_window lib clk start_time end_time) (fun w =>
      bind (filter_window (fst w) (snd w) evs) (fun evs' =>
      Ok (mkParsed (start_date p) (last_update p) evs')))))
  end).

(** * [app/utils/train_util.py] *)

(** ** [_get_csrf_token]: the token in the text of the response *)

Definition not_quote (c : char) : bool := negb (N.eqb c 39).

(** [name='([^']+)' value='([^']+)'] *)
Definition csrf_re : re :=
  SeqL [ Lit "name='"; Grp 1 (Plus true (Chr not_quote));
         Lit "' value='"; Grp 2 (Plus true (Chr not_quote)); Lit "'" ].

(** What [_get_csrf_token] does with [r.text], the text of the response to
    the token request: the pair [(match.group(1), match.group(2))], or
    [UpstreamError] with its message. *)
Definition _get_csrf_token (r_text : str) : (option str * option str) + str :=
  match re_search csrf_re r_text with
  | None => inr (u "CSRF token not found in upstream response")
  | Some m => inl (group r_text m 1, group r_text m 2)
  end.

(** * Notions used in the statements *)

(** The last character of [w], or [pv] when [w] is empty. *)
Definition last_of (pv : option char) (w : str) : option char :=
  fold_left (fun _ c => Some c) w pv.

(** A run consumes a prefix of what was left, moves the position by its
    length, and only adds groups. *)
Definition Reach (st st' : state) : Prop :=
  exists w new,
    rest st = w ++ rest st' /\ pos st' = pos st + List.length w /\
    prev st' = last_of (prev st) w /\ caps st' = new ++ caps st.

(** [l] is [l'] with some elements left out, the order kept. *)
Inductive Subseq {A : Type} : list A -> list A -> Prop :=
| Subseq_nil : Subseq [] []
| Subseq_keep x l l' : Subseq l l' -> Subseq (x :: l) (x :: l')
| Subseq_drop x l l' : Subseq l l' -> Subseq l (x :: l').

(** The pattern of the anchor tried at offset [k] of a line, and the
    timestamp of the match found there. *)
Definition update_at (ln : str) (k : nat) : option mobj :=
  match_at last_update_re (last_of None (firstn k ln)) (skipn k ln) k.

Definition update_match_at (ln : str) (k : nat) : option datetime :=
  match update_at ln k with
  | None => None
  | Some m =>
      match group ln m 1 with
      | Some date => strptime (date ++ u " " ++ or_midnight (group ln m 2))
      | None => None
      end
  end.

(** A naive datetime, as [strptime] builds them. *)
Definition naive (t : datetime) : Prop := tzinfo t = None.

(** The anchor as the specification words it: the maximum over all the
    matches of all the lines that parse, wherever a match stands in its
    line, and absent when there is none. *)
Definition spec_last_update (lines : list str) (anchor : option datetime) : Prop :=
  match anchor with
  | Some t =>
      (exists ln k, In ln lines /\ update_match_at ln k = Some t) /\
      (forall ln k t', In ln lines -> update_match_at ln k = Some t' ->
                       naive_cmp t' t <> Gt)
  | None => forall ln k, In ln lines -> update_match_at ln k = None
  end.

(** Every white-space character of [s] is a space, and no space is followed
    by white space: what collapsing the white-space runs leaves. *)
Fixpoint norm_ws (s : str) : bool :=
  match s with
  | [] => true
  | c :: t =>
      (if is_space c
       then N.eqb c 32 && match t with
                          | c' :: _ => negb (is_space c')
                          | [] => true
                          end
       else true) && norm_ws t
  end.

(** [Last Updates On] stands at the head of [s], a digit right after it. *)
Definition glued_at (s : str) : bool :=
  starts_with (u last_updates_on) s &&
  match skipn 15 s with
  | d :: _ => is_digit d
  | [] => false
  end.

(** No place of [s] has the label glued to a digit. *)
Fixpoint no_glued (s : str) : bool :=
  negb (glued_at s) &&
  match s with
  | [] => true
  | _ :: t => no_glued t
  end.

(** The two substitutions of [_clean_line], written as plain scans: each
    white-space run becomes one space; a space is put after each glued
    label. *)
Fixpoint collapse (fuel : nat) (s : str) : str :=
  match fuel with
  | O => s
  | S fuel' =>
      match s with
      | [] => []
      | c :: t =>
          if is_space c then 32%N :: collapse fuel' (lstrip_by is_space t)
          else c :: collapse fuel' t
      end
  end.

Fixpoint unglue (fuel : nat) (s : str) : str :=
  match fuel with
  | O => s
  | S fuel' =>
      if glued_at s then u "Last Updates On " ++ unglue fuel' (skipn 15 s)
      else match s with
           | [] => []
           | c :: t => c :: unglue fuel' t
           end
  end.

(** Expressions built from single characters, sequence and choice, and the
    words they match. *)
Fixpoint flat (r : re) : bool :=
  match r with
  | Eps | Chr _ => true
  | Seq a b | Alt a b => flat a && flat b
  | _ => false
  end.

Fixpoint lang (r : re) (w : str) : Prop :=
  match r with
  | Eps => w = []
  | Chr p => exists c, w = [c] /\ p c = true
  | Seq a b => exists w1 w2, w = w1 ++ w2 /\ lang a w1 /\ lang b w2
  | Alt a b => lang a w \/ lang b w
  | _ => False
  end.

(** Expressions that set no group. *)
Fixpoint groupless (r : re) : bool :=
  match r with
  | Eps | Chr _ | Bnd | Eos => true
  | Seq a b | Alt a b => groupless a && groupless b
  | Star _ a | Ahead a => groupless a
  | Grp _ _ => false
  end.

(** One or two digits, as [\d{1,2}] takes them. *)
Definition one_or_two_digits (D : str) : Prop :=
  (exists c, D = [c] /\ is_digit c = true) \/
  (exists c d, D = [c; d] /\ is_digit c = true /\ is_digit d = true).

(** A date token: day, dash, month and, when [Y] is given, dash and year. *)
Definition date_shape (dp D L : str) (Y : option str) : Prop :=
  one_or_two_digits D /\
  List.length L = 3 /\ forallb is_ascii_alpha L = true /\
  match Y with
  | None => dp = D ++ 45%N :: L
  | Some y => List.length y = 4 /\ forallb is_digit y = true /\
              dp = D ++ 45%N :: L ++ 45%N :: y
  end.

(** Expressions without star and lookahead. *)
Fixpoint starfree (r : re) : bool :=
  match r with
  | Eps | Chr _ | Bnd | Eos => true
  | Seq a b | Alt a b => starfree a && starfree b
  | Grp _ a => starfree a
  | Star _ _ | Ahead _ => false
  end.

(** * Notions used in the proofs about the matcher *)

(** Expressions whose every match takes at least one character. *)
Fixpoint nonnull (r : re) : bool :=
  match r with
  | Chr _ => true
  | Seq a b => nonnull a || nonnull b
  | Alt a b => nonnull a && nonnull b
  | Grp _ a => nonnull a
  | _ => false
  end.

(** Expressions in which every starred expression takes at least one
    character and no lookahead sets a group: the expressions of this
    program. *)
Fixpoint tame (r : re) : bool :=
  match r with
  | Eps | Chr _ | Bnd | Eos => true
  | Seq a b | Alt a b => tame a && tame b
  | Grp _ a => tame a
  | Star _ a => nonnull a && tame a
  | Ahead a => groupless a && tame a
  end.

(** Group [i] is not set anywhere in the expression. *)
Fixpoint grp_free (i : nat) (r : re) : bool :=
  match r with
  | Eps | Chr _ | Bnd | Eos => true
  | Seq a b | Alt a b => grp_free i a && grp_free i b
  | Star _ a | Ahead a => grp_free i a
  | Grp j a => negb (Nat.eqb i j) && grp_free i a
  end.

(** What follows the first [c] of [s]. *)
Fixpoint after_char (c : char) (s : str) : option str :=
  match s with
  | [] => None
  | x :: t => if N.eqb x c then Some t else after_char c t
  end.

(** A tag [<...>] stands at the head of [s]: what follows it. *)
Definition tag_end (s : str) : option str :=
  match s with
  | c :: x :: t => if N.eqb c 60 && negb (N.eqb x 62) then after_char 62%N t else None
  | _ => None
  end.

(** No place of [s] has a tag. *)
Fixpoint no_tag (s : str) : bool :=
  match tag_end s with
  | Some _ => false
  | None => match s with
            | [] => true
            | _ :: t => no_tag t
            end
  end.

(** The last substitution of [_strip_html] as a plain scan. *)
Fixpoint strip_tags (fuel : nat) (s : str) : str :=
  match fuel with
  | O => s
  | S fuel' =>
      match tag_end s with
      | Some r => strip_tags fuel' r
      | None => match s with
                | [] => []
                | c :: t => c :: strip_tags fuel' t
                end
      end
  end.

(** The state [st] is a position of the subject [s]: what is left of [s]
    from the position on. *)
Definition Sync (s : str) (st : state) : Prop :=
  exists a, s = a ++ rest st /\ pos st = List.length a.

(** * Properties *)

(** ** Strings and characters *)

Lemma str_eqb_refl (a : str) : str_eqb a a = true.
Proof.
  induction a as [|x a IH]; simpl; [reflexivity|].
  now rewrite N.eqb_refl.
Qed.

Lemma str_eqb_eq (a b : str) : str_eqb a b = true <-> a = b.
Proof.
  split.
  - revert b; induction a as [|x a IH]; intros [|y b]; simpl; try discriminate; auto.
    intros H. apply andb_true_iff in H as [Hx Hab].
    apply N.eqb_eq in Hx. apply IH in Hab. congruence.
  - intros ->. apply str_eqb_refl.
Qed.

Lemma mem_char_In (c : char) (l : str) : mem_char c l = true <-> In c l.
Proof.
  unfold mem_char. rewrite existsb_exists. split.
  - intros [x [Hin Hx]]. apply N.eqb_eq in Hx. now subst.
  - intros H. exists c. split; [assumption | apply N.eqb_refl].
Qed.

(** ** The matcher is sound for [Run] *)

Section Soundness.

Variable k : state -> option state.
Variable x : state.

Lemma star_loop_sound (g : bool) (a : re)
    (IHa : forall st k', rmatch a st k' = Some x ->
                         exists st', Run a st st' /\ k' st' = Some x) :
  forall n st, star_loop (rmatch a) g k n st = Some x ->
               exists st', Run (Star g a) st st' /\ k st' = Some x.
Proof.
  induction n as [|n IHn]; intros st H; simpl in H.
  - exists st. split; [constructor | assumption].
  - assert (Hbody : rmatch a st (star_loop (rmatch a) g k n) = Some x ->
                    exists st', Run (Star g a) st st' /\ k st' = Some x).
    { intros Hb. apply IHa in Hb as [st1 [R1 Hl]].
      apply IHn in Hl as [st2 [R2 Hk]].
      exists st2. split; [eapply Run_StarS; eassumption | assumption]. }
    destruct g.
    + destruct (rmatch a st (star_loop (rmatch a) true k n)) eqn:E.
      * inversion H; subst. now apply Hbody.
      * exists st. split; [constructor | assumption].
    + destruct (k st) eqn:E.
      * inversion H; subst. exists st. split; [constructor | assumption].
      * now apply Hbody.
Qed.

End Soundness.

Lemma rmatch_sound (r : re) :
  forall st k x, rmatch r st k = Some x -> exists st', Run r st st' /\ k st' = Some x.
Proof.
  induction r as [ | p | a IHa b IHb | a IHa b IHb | g a IHa | i a IHa | a IHa | | ];
    intros st k x H; simpl in H.
  - exists st. split; [constructor | assumption].
  - destruct (rest st) as [|c t] eqn:E; [discriminate|].
    destruct (p c) eqn:Ep; [|discriminate].
    exists (advance c t st). split; [now constructor | assumption].
  - apply IHa in H as [st1 [R1 H]]. apply IHb in H as [st2 [R2 H]].
    exists st2. split; [econstructor; eassumption | assumption].
  - destruct (rmatch a st k) eqn:E.
    + inversion H; subst. apply IHa in E as [st1 [R1 E]].
      exists st1. split; [now apply Run_AltL | assumption].
    + apply IHb in H as [st1 [R1 H]].
      exists st1. split; [now apply Run_AltR | assumption].
  - eapply star_loop_sound; [|eassumption]. intros st0 k' Hk. now apply IHa.
  - apply IHa in H as [st1 [R1 H]].
    exists (set_cap i (pos st) (pos st1) st1). split; [now constructor | assumption].
  - destruct (rmatch a st Some) as [st1|] eqn:E; [|discriminate].
    apply IHa in E as [st1' [R1 E]]. inversion E; subst.
    exists (with_caps st (caps st1)). split; [now constructor | assumption].
  - destruct (at_boundary st) eqn:E; [|discriminate].
    exists st. split; [now constructor | assumption].
  - destruct (at_end st) eqn:E; [|discriminate].
    exists st. split; [now constructor | assumption].
Qed.

Lemma Reach_refl (st : state) : Reach st st.
Proof. exists [], []. simpl. repeat split; auto. Qed.

Lemma Reach_trans (a b c : state) : Reach a b -> Reach b c -> Reach a c.
Proof.
  intros (w1 & n1 & R1 & P1 & V1 & C1) (w2 & n2 & R2 & P2 & V2 & C2).
  exists (w1 ++ w2), (n2 ++ n1). repeat split.
  - rewrite R1, R2. now rewrite app_assoc.
  - rewrite P2, P1, length_app. lia.
  - rewrite V2, V1. unfold last_of. now rewrite fold_left_app.
  - rewrite C2, C1. now rewrite app_assoc.
Qed.

Lemma Run_Reach (r : re) (st st' : state) : Run r st st' -> Reach st st'.
Proof.
  induction 1.
  - apply Reach_refl.
  - exists [c], []. simpl. repeat split; auto. lia.
  - eapply Reach_trans; eassumption.
  - assumption.
  - assumption.
  - apply Reach_refl.
  - eapply Reach_trans; eassumption.
  - destruct IHRun as (w & new & R1 & P1 & V1 & C1).
    exists w, ((i, (pos st, pos st1)) :: new). simpl. repeat split; auto.
    now rewrite C1.
  - destruct IHRun as (w & new & R1 & P1 & V1 & C1).
    exists [], new. simpl. repeat split; auto.
  - apply Reach_refl.
  - apply Reach_refl.
Qed.

(** ** The order of naive datetimes *)

Lemma lex_cmp_refl (a : list Z) : lex_cmp a a = Eq.
Proof.
  induction a as [|x a IH]; simpl; [reflexivity|].
  now rewrite Z.compare_refl.
Qed.

Lemma lex_cmp_antisym (a b : list Z) : lex_cmp b a = CompOpp (lex_cmp a b).
Proof.
  revert b; induction a as [|x a IH]; intros [|y b]; simpl; try reflexivity.
  rewrite (Z.compare_antisym x y).
  destruct (Z.compare x y); simpl; auto.
Qed.

Lemma lex_cmp_eq (a b : list Z) :
  List.length a = List.length b -> lex_cmp a b = Eq -> a = b.
Proof.
  revert b; induction a as [|x a IH]; intros [|y b] Hl H; simpl in *;
    try discriminate; auto.
  destruct (Z.compare x y) eqn:E; try discriminate.
  apply Z.compare_eq in E. f_equal; auto.
Qed.

(** [a <= b] and [b <= c] give [a <= c]; the comparison of [a] with [c] is
    [Lt] as soon as one of the two is strict. *)
Lemma lex_cmp_trans (a b c : list Z) :
  lex_cmp a b <> Gt -> lex_cmp b c <> Gt ->
  lex_cmp a c <> Gt /\
  (lex_cmp a b = Lt \/ lex_cmp b c = Lt -> lex_cmp a c = Lt).
Proof.
  revert b c; induction a as [|x a IH]; intros [|y b] [|z c]; simpl;
    try solve [intuition congruence].
  destruct (Z.compare x y) eqn:Exy; destruct (Z.compare y z) eqn:Eyz;
    try solve [intuition congruence].
  - apply Z.compare_eq in Exy, Eyz. subst. rewrite Z.compare_refl. apply IH.
  - apply Z.compare_eq in Exy. subst. rewrite Eyz. intuition congruence.
  - apply Z.compare_eq in Eyz. subst. rewrite Exy. intuition congruence.
  - assert (H : (Z.compare x z) = Lt).
    { pose proof (proj1 (Z.compare_lt_iff x y) Exy).
      pose proof (proj1 (Z.compare_lt_iff y z) Eyz).
      apply Z.compare_lt_iff. lia. }
    rewrite H. intuition congruence.
Qed.

Lemma naive_cmp_refl (a : datetime) : naive_cmp a a = Eq.
Proof. apply lex_cmp_refl. Qed.

Lemma naive_cmp_antisym (a b : datetime) : naive_cmp b a = CompOpp (naive_cmp a b).
Proof. apply lex_cmp_antisym. Qed.

Lemma naive_le_trans (a b c : datetime) :
  naive_cmp a b <> Gt -> naive_cmp b c <> Gt -> naive_cmp a c <> Gt.
Proof. intros H1 H2. now apply (lex_cmp_trans _ _ _ H1 H2). Qed.

Lemma naive_cmp_eq (a b : datetime) :
  naive a -> naive b -> naive_cmp a b = Eq -> a = b.
Proof.
  unfold naive, naive_cmp. intros Ha Hb H.
  apply lex_cmp_eq in H; [|reflexivity].
  destruct a, b; simpl in *. inversion H. congruence.
Qed.

Lemma dt_cmp_naive (a b : datetime) :
  naive a -> naive b -> dt_cmp a b = Ok (naive_cmp a b).
Proof. unfold naive, dt_cmp. now intros -> ->. Qed.

(** ** [dt_eqb] and the key of an event *)

Lemma dt_eqb_refl (a : datetime) : dt_eqb a a = true.
Proof.
  unfold dt_eqb, dt_cmp. destruct (tzinfo a).
  - now rewrite Z.compare_refl.
  - now rewrite lex_cmp_refl.
Qed.

Lemma dt_eqb_sym (a b : datetime) : dt_eqb a b = dt_eqb b a.
Proof.
  unfold dt_eqb, dt_cmp. destruct (tzinfo a), (tzinfo b); try reflexivity.
  - rewrite (Z.compare_antisym (micros a - z) (micros b - z0)).
    now destruct (Z.compare (micros a - z) (micros b - z0)).
  - rewrite (lex_cmp_antisym (fields a) (fields b)).
    now destruct (lex_cmp (fields a) (fields b)).
Qed.

Lemma opt_eqb_sym {A : Type} (eqb : A -> A -> bool) :
  (forall x y, eqb x y = eqb y x) -> forall a b, opt_eqb eqb a b = opt_eqb eqb b a.
Proof. intros H [x|] [y|]; simpl; auto. Qed.

Lemma str_eqb_sym (a b : str) : str_eqb a b = str_eqb b a.
Proof.
  revert b; induction a as [|x a IH]; intros [|y b]; simpl; auto.
  now rewrite IH, N.eqb_sym.
Qed.

Lemma key_eqb_sym (a b : key) : key_eqb a b = key_eqb b a.
Proof.
  destruct a as [[t1 s1] d1], b as [[t2 s2] d2]. unfold key_eqb.
  rewrite (opt_eqb_sym str_eqb str_eqb_sym t1 t2).
  rewrite (opt_eqb_sym str_eqb str_eqb_sym s1 s2).
  now rewrite (opt_eqb_sym dt_eqb dt_eqb_sym d1 d2).
Qed.

Lemma key_eqb_refl (a : key) : key_eqb a a = true.
Proof.
  destruct a as [[[t|] [s|]] [d|]]; unfold key_eqb; simpl;
    rewrite ?str_eqb_refl, ?dt_eqb_refl; reflexivity.
Qed.

(** ** Inversion of [Run], and what [re.search] finds *)

Lemma Run_Seq_inv (a b : re) (st st2 : state) :
  Run (Seq a b) st st2 -> exists st1, Run a st st1 /\ Run b st1 st2.
Proof. inversion 1; subst; eauto. Qed.

Lemma Run_Alt_inv (a b : re) (st st1 : state) :
  Run (Alt a b) st st1 -> Run a st st1 \/ Run b st st1.
Proof. inversion 1; subst; auto. Qed.

Lemma Run_Chr_inv (p : char -> bool) (st st' : state) :
  Run (Chr p) st st' ->
  exists c t, rest st = c :: t /\ p c = true /\ st' = advance c t st.
Proof. inversion 1; subst; eauto. Qed.

Lemma Run_Grp_inv (i : nat) (a : re) (st st' : state) :
  Run (Grp i a) st st' ->
  exists st1, Run a st st1 /\ st' = set_cap i (pos st) (pos st1) st1.
Proof. inversion 1; subst; eauto. Qed.

Lemma Run_Eps_inv (st st' : state) : Run Eps st st' -> st' = st.
Proof. now inversion 1. Qed.

Lemma Run_Bnd_inv (st st' : state) : Run Bnd st st' -> st' = st /\ at_boundary st = true.
Proof. inversion 1; subst; auto. Qed.

Lemma Run_Eos_inv (st st' : state) : Run Eos st st' -> st' = st /\ at_end st = true.
Proof. inversion 1; subst; auto. Qed.

Lemma match_at_Run (r : re) (pv : option char) (s : str) (p : nat) (m : mobj) :
  match_at r pv s p = Some m ->
  exists st', Run r (mkState s pv p []) st' /\
              m = mkMatch p (pos st') (caps st') (rest st') (prev st').
Proof.
  unfold match_at. intros H.
  destruct (rmatch r (mkState s pv p []) Some) as [st|] eqn:E; [|discriminate].
  apply rmatch_sound in E as [st' [R E]]. inversion E; subst st'.
  exists st. split; [assumption | now inversion H].
Qed.

Lemma search_from_sound (r : re) (s : str) :
  forall pv p m,
    search_from r pv s p = Some m ->
    exists pre suf,
      s = pre ++ suf /\
      match_at r (last_of pv pre) suf (p + List.length pre) = Some m.
Proof.
  induction s as [|c s IH]; intros pv p m H; simpl in H.
  - destruct (match_at r pv [] p) eqn:E; [|discriminate].
    exists [], []. simpl. rewrite Nat.add_0_r. split; [reflexivity | congruence].
  - destruct (match_at r pv (c :: s) p) eqn:E.
    + exists [], (c :: s). simpl. rewrite Nat.add_0_r. split; [reflexivity | congruence].
    + apply IH in H as (pre & suf & -> & H).
      exists (c :: pre), suf. simpl. rewrite Nat.add_succ_r. split; [reflexivity | assumption].
Qed.

(** A match found by [re.search]: the subject splits into what comes
    before the match, the text matched and what comes after, and the matcher
    ran over the text from the state at its start. *)
Lemma re_search_inv (r : re) (s : str) (m : mobj) :
  re_search r s = Some m ->
  exists pre w st',
    s = pre ++ w ++ m_rest m /\
    m_start m = List.length pre /\
    m_end m = List.length pre + List.length w /\
    Run r (mkState (w ++ m_rest m) (last_of None pre) (List.length pre) []) st' /\
    rest st' = m_rest m /\ pos st' = m_end m /\ caps st' = m_caps m.
Proof.
  unfold re_search. intros H.
  apply search_from_sound in H as (pre & suf & -> & H). simpl in H.
  apply match_at_Run in H as (st' & R & ->).
  destruct (Run_Reach _ _ _ R) as (w & new & Hrest & Hpos & _ & _). simpl in *.
  exists pre, w, st'. subst suf. repeat split; auto.
Qed.

Lemma slice_app (pre w suf : str) :
  slice (pre ++ w ++ suf) (List.length pre) (List.length pre + List.length w) = w.
Proof.
  unfold slice. rewrite skipn_app, skipn_all, Nat.sub_diag. simpl.
  replace (List.length pre + List.length w - List.length pre) with (List.length w) by lia.
  rewrite firstn_app, firstn_all, Nat.sub_diag. simpl. apply app_nil_r.
Qed.

(** A run over a sequence of single characters. *)
Lemma Run_chars (ps : list (char -> bool)) :
  forall st st',
    Run (SeqL (map Chr ps)) st st' ->
    exists w, List.length w = List.length ps /\
              Forall2 (fun p c => p c = true) ps w /\
              rest st = w ++ rest st' /\
              pos st' = pos st + List.length w /\
              caps st' = caps st.
Proof.
  induction ps as [|p ps IH]; intros st st' R.
  - simpl in R. apply Run_Eps_inv in R. subst. exists []. simpl. repeat split; auto.
  - destruct ps as [|q ps].
    + simpl in R. apply Run_Chr_inv in R as (c & t & Hr & Hp & ->).
      exists [c]. simpl. repeat split; auto. lia.
    + change (SeqL (map Chr (p :: q :: ps)))
        with (Seq (Chr p) (SeqL (map Chr (q :: ps)))) in R.
      apply Run_Seq_inv in R as (st1 & R1 & R2).
      apply Run_Chr_inv in R1 as (c & t & Hr & Hp & ->).
      apply IH in R2 as (w & Hl & Hf & Hr2 & Hp2 & Hc2). simpl in *.
      exists (c :: w). simpl. split; [lia|]. split; [now constructor|].
      split; [rewrite Hr, Hr2; reflexivity|]. split; [lia | assumption].
Qed.

Lemma Run_LitI (s : string) (st st' : state) :
  Run (LitI s) st st' ->
  exists w, List.length w = List.length (u s) /\
            rest st = w ++ rest st' /\
            pos st' = pos st + List.length w /\
            caps st' = caps st.
Proof.
  unfold LitI. rewrite <- (map_map ci Chr). intros R.
  apply Run_chars in R as (w & Hl & _ & Hr & Hp & Hc).
  exists w. rewrite length_map in Hl. auto.
Qed.

(** ** The matcher finds a match when there is one *)

Lemma rmatch_complete (r : re) (st st' : state) :
  Run r st st' -> starfree r = true ->
  forall k, k st' <> None -> rmatch r st k <> None.
Proof.
  induction 1; intros F k Hk; simpl in F; try discriminate; cbn [rmatch].
  - exact Hk.
  - rewrite H, H0. exact Hk.
  - apply andb_true_iff in F as [Fa Fb]. apply IHRun1; [assumption|].
    now apply IHRun2.
  - apply andb_true_iff in F as [Fa Fb].
    specialize (IHRun Fa k Hk). now destruct (rmatch a st k).
  - apply andb_true_iff in F as [Fa Fb].
    destruct (rmatch a st k); [discriminate|]. now apply IHRun.
  - apply IHRun; assumption.
  - now rewrite H.
  - now rewrite H.
Qed.

Lemma search_from_complete (r : re) (pre : str) :
  forall suf pv p,
    match_at r (last_of pv pre) suf (p + List.length pre) <> None ->
    search_from r pv (pre ++ suf) p <> None.
Proof.
  induction pre as [|c pre IH]; intros suf pv p H.
  - simpl in *. rewrite Nat.add_0_r in H.
    destruct suf; simpl; destruct (match_at r pv _ p); congruence.
  - simpl. destruct (match_at r pv (c :: pre ++ suf) p); [discriminate|].
    apply IH. simpl in H. now rewrite Nat.add_succ_r in H.
Qed.

(** A run over single characters, from the characters. *)
Lemma chars_Run (ps : list (char -> bool)) :
  forall w st,
    Forall2 (fun p c => p c = true) ps w ->
    forall t, rest st = w ++ t ->
    Run (SeqL (map Chr ps)) st
        (mkState t (last_of (prev st) w) (pos st + List.length w) (caps st)).
Proof.
  induction ps as [|p ps IH]; intros w st F t Hr.
  - inversion F; subst. destruct st. simpl in *. subst. rewrite Nat.add_0_r. constructor.
  - inversion F as [|p' c ps' w' Hc F']; subst. cbn [app] in Hr.
    assert (Hone : Run (Chr p) st (advance c (w' ++ t) st)) by now constructor.
    destruct ps as [|q ps].
    + inversion F'; subst. simpl. destruct st as [rest0 prev0 pos0 caps0]. simpl in *.
      replace (pos0 + 1) with (S pos0) by lia. exact Hone.
    + change (SeqL (map Chr (p :: q :: ps)))
        with (Seq (Chr p) (SeqL (map Chr (q :: ps)))).
      econstructor; [exact Hone|].
      specialize (IH w' (advance c (w' ++ t) st) F' t eq_refl).
      simpl in IH. cbn [List.length last_of fold_left].
      replace (pos st + S (List.length w')) with (S (pos st + List.length w')) by lia.
      exact IH.
Qed.

(** The same run under another list of classes that accept the word. *)
Lemma Run_chars_state (ps : list (char -> bool)) :
  forall st st',
    Run (SeqL (map Chr ps)) st st' ->
    exists w, Forall2 (fun p c => p c = true) ps w /\
              rest st = w ++ rest st' /\
              st' = mkState (rest st') (last_of (prev st) w)
                            (pos st + List.length w) (caps st).
Proof.
  induction ps as [|p ps IH]; intros st st' R.
  - simpl in R. apply Run_Eps_inv in R. subst. exists []. destruct st. simpl.
    rewrite Nat.add_0_r. repeat split; auto.
  - destruct ps as [|q ps].
    + simpl in R. apply Run_Chr_inv in R as (c & t & Hr & Hp & ->).
      exists [c]. simpl. repeat split; auto.
      unfold advance. f_equal. lia.
    + change (SeqL (map Chr (p :: q :: ps)))
        with (Seq (Chr p) (SeqL (map Chr (q :: ps)))) in R.
      apply Run_Seq_inv in R as (st1 & R1 & R2).
      apply Run_Chr_inv in R1 as (c & t & Hr & Hp & ->).
      apply IH in R2 as (w & Hf & Hr2 & Hst). simpl in *.
      exists (c :: w). split; [now constructor|]. split; [rewrite Hr, Hr2; reflexivity|].
      rewrite Hst at 1. simpl. f_equal. lia.
Qed.

(** Under [re.I] the case of a literal does not matter. *)
Lemma ascii_lower_idem (c : char) : ascii_lower (ascii_lower c) = ascii_lower c.
Proof.
  unfold ascii_lower. destruct (is_ascii_upper c) eqn:E; [|now rewrite E].
  unfold is_ascii_upper in *. apply andb_true_iff in E as [E1 E2].
  apply N.leb_le in E1, E2.
  replace (N.leb 65 (c + 32) && N.leb (c + 32) 90) with false; [reflexivity|].
  symmetry. apply andb_false_iff. right. apply N.leb_gt. lia.
Qed.

Lemma ci_lower (c x : char) : ci (ascii_lower c) x = ci c x.
Proof. unfold ci. now rewrite ascii_lower_idem. Qed.

Lemma Forall2_ci_lower (l : str) (w : str) :
  Forall2 (fun p c => p c = true) (map ci l) w ->
  Forall2 (fun p c => p c = true) (map ci (map ascii_lower l)) w.
Proof.
  revert w; induction l as [|a l IH]; intros w H; inversion H; subst; simpl.
  - constructor.
  - constructor; [now rewrite ci_lower | now apply IH].
Qed.

Lemma Run_LitI_lower (s s' : string) (st st' : state) :
  u s' = map ascii_lower (u s) ->
  Run (LitI s) st st' -> Run (LitI s') st st'.
Proof.
  unfold LitI. intros E R. rewrite <- (map_map ci Chr) in *.
  apply Run_chars_state in R as (w & F & Hr & Hst).
  rewrite Hst, E. apply chars_Run; [now apply Forall2_ci_lower | assumption].
Qed.

(** ** Results of the steps that can raise *)

Lemma bind_Ok {A B : Type} (x : result A) (f : A -> result B) (b : B) :
  bind x f = Ok b -> exists a, x = Ok a /\ f a = Ok b.
Proof. destruct x as [a|e]; simpl; [eauto | discriminate]. Qed.

Lemma map_r_Forall2 {A B : Type} (f : A -> result B) (l : list A) :
  forall ys, map_r f l = Ok ys -> Forall2 (fun x y => f x = Ok y) l ys.
Proof.
  induction l as [|x l IH]; simpl; intros ys H.
  - inversion H. constructor.
  - apply bind_Ok in H as (y & Hy & H). apply bind_Ok in H as (ys' & Hys & H).
    inversion H; subst. constructor; auto.
Qed.

Lemma map_r_In {A B : Type} (f : A -> result B) (l : list A) (ys : list B) (y : B) :
  map_r f l = Ok ys -> In y ys -> exists x, In x l /\ f x = Ok y.
Proof.
  intros H. apply map_r_Forall2 in H. induction H as [|x y0 l ys Hxy F IH]; simpl.
  - contradiction.
  - intros [<- | Hin]; [eauto|]. destruct (IH Hin) as (x' & Hx' & E). eauto.
Qed.

Lemma map_r_length {A B : Type} (f : A -> result B) (l : list A) (ys : list B) :
  map_r f l = Ok ys -> List.length ys = List.length l.
Proof. intros H. apply map_r_Forall2, Forall2_length in H. auto. Qed.

Lemma map_r_total {A B : Type} (f : A -> result B) (l : list A) :
  (forall x, In x l -> exists y, f x = Ok y) -> exists ys, map_r f l = Ok ys.
Proof.
  induction l as [|x l IH]; simpl; intros H; [eauto|].
  destruct (H x (or_introl eq_refl)) as (y & Hy).
  destruct IH as (ys & Hys); [intros x' Hx'; apply H; now right|].
  exists (y :: ys). now rewrite Hy, Hys.
Qed.

(** What [_clean_line] returns, from what [html.unescape] returns. *)
Lemma clean_line_Ok (line y : str) :
  _clean_line line = Ok y <->
  exists z, unescape line = Ok z /\
            y = strip_by strip_set
                  (re_sub glued_re (fun _ => u "Last Updates On ")
                     (re_sub (Plus true Space) (fun _ => u " ")
                        (replace_char 160%N 32%N z))).
Proof.
  unfold _clean_line. split.
  - intros H. apply bind_Ok in H as (z & Hz & H). exists z. split; [exact Hz|].
    now inversion H.
  - intros (z & -> & ->). reflexivity.
Qed.

(** The page parsed: the lines cleaned, then the anchor, the start date and
    the events. *)
Lemma parse_train_status_Ok (now : datetime) (raw_lines : list str) (p : parsed) :
  parse_train_status now raw_lines = Ok p <->
  exists lines,
    map_r _clean_line raw_lines = Ok lines /\
    p = mkParsed (_parse_start_date lines) (_parse_last_update_dt lines)
                 (dedup [] (parse_lines now (_parse_last_update_dt lines) lines)).
Proof.
  unfold parse_train_status. split.
  - intros H. apply bind_Ok in H as (lines & Hl & H). exists lines.
    split; [exact Hl | now inversion H].
  - intros (lines & -> & ->). reflexivity.
Qed.
(** ** Deduplication of events *)

Lemma dedup_subseq (evs : list event) : forall seen, Subseq (dedup seen evs) evs.
Proof.
  induction evs as [|e evs IH]; intros seen; simpl.
  - constructor.
  - destruct (existsb (key_eqb (key_of e)) seen).
    + apply Subseq_drop, IH.
    + apply Subseq_keep, IH.
Qed.

(** What is kept was not seen before. *)
Lemma dedup_fresh (evs : list event) :
  forall seen e, In e (dedup seen evs) -> existsb (key_eqb (key_of e)) seen = false.
Proof.
  induction evs as [|e0 evs IH]; intros seen e Hin; simpl in Hin; [contradiction|].
  destruct (existsb (key_eqb (key_of e0)) seen) eqn:E0.
  - now apply IH.
  - destruct Hin as [<- | Hin]; [assumption|].
    apply IH in Hin. simpl in Hin. now apply orb_false_iff in Hin.
Qed.

Lemma dedup_distinct (evs : list event) :
  forall seen i j ei ej,
    i < j ->
    nth_error (dedup seen evs) i = Some ei ->
    nth_error (dedup seen evs) j = Some ej ->
    key_eqb (key_of ej) (key_of ei) = false.
Proof.
  induction evs as [|e0 evs IH]; intros seen i j ei ej Hij Hi Hj; simpl in *.
  - destruct i; discriminate.
  - destruct (existsb (key_eqb (key_of e0)) seen) eqn:E0.
    + eapply IH; eassumption.
    + destruct j as [|j]; [lia|]. simpl in Hj.
      destruct i as [|i]; simpl in Hi.
      * inversion Hi; subst ei.
        apply nth_error_In, dedup_fresh in Hj. simpl in Hj.
        now apply orb_false_iff in Hj.
      * eapply IH; [|eassumption|eassumption]. lia.
Qed.

Lemma dedup_first (l1 : list event) :
  forall seen e l2,
    (forall x, In x l1 -> key_eqb (key_of e) (key_of x) = false) ->
    existsb (key_eqb (key_of e)) seen = false ->
    In e (dedup seen (l1 ++ e :: l2)).
Proof.
  induction l1 as [|x l1 IH]; intros seen e l2 Hl1 Hseen; simpl.
  - rewrite Hseen. now left.
  - destruct (existsb (key_eqb (key_of x)) seen).
    + apply IH; [|assumption]. intros y Hy. apply Hl1. now right.
    + right. apply IH.
      * intros y Hy. apply Hl1. now right.
      * simpl. rewrite Hseen. rewrite (Hl1 x); [reflexivity | now left].
Qed.

Lemma dedup_cover (evs : list event) :
  forall seen e,
    In e evs ->
    existsb (key_eqb (key_of e)) seen = true \/
    exists e', In e' (dedup seen evs) /\ key_eqb (key_of e) (key_of e') = true.
Proof.
  induction evs as [|e0 evs IH]; intros seen e Hin; [contradiction|].
  simpl. destruct (existsb (key_eqb (key_of e0)) seen) eqn:E0.
  - destruct Hin as [<- | Hin]; [now left | now apply IH].
  - destruct Hin as [<- | Hin].
    + right. exists e0. split; [now left | apply key_eqb_refl].
    + destruct (IH (key_of e0 :: seen) e Hin) as [H | [e' [He' Hk]]].
      * simpl in H. apply orb_true_iff in H as [H | H].
        -- right. exists e0. split; [now left | assumption].
        -- now left.
      * right. exists e'. split; [now right | assumption].
Qed.

(** ** The final filter *)

Lemma dt_le_naive (a b : datetime) :
  naive a -> naive b -> dt_le a b = Ok (is_le (naive_cmp a b)).
Proof. intros Ha Hb. unfold dt_le. now rewrite dt_cmp_naive. Qed.

Lemma dt_lt_naive (a b : datetime) :
  naive a -> naive b -> dt_lt a b = Ok (is_lt (naive_cmp a b)).
Proof. intros Ha Hb. unfold dt_lt. now rewrite dt_cmp_naive. Qed.

Lemma in_window_true (ws we : datetime) (e : event) :
  in_window ws we e = Ok true <->
  exists t, ev_datetime e = Some t /\ dt_le ws t = Ok true /\ dt_lt t we = Ok true.
Proof.
  unfold in_window. destruct (ev_datetime e) as [t|].
  - split.
    + intros H. exists t. split; [reflexivity|].
      destruct (dt_le ws t) as [[|]|]; simpl in H; try discriminate. now split.
    + intros [t' [Ht [H1 H2]]]. inversion Ht; subst t'. now rewrite H1.
  - split; [discriminate|]. intros [t [Ht _]]. discriminate.
Qed.

Lemma filter_window_filter (ws we : datetime) (evs : list event) :
  forall l, filter_window ws we evs = Ok l ->
            l = filter (fun e => match in_window ws we e with
                                 | Ok true => true
                                 | _ => false
                                 end) evs.
Proof.
  induction evs as [|e evs IH]; intros l H; simpl in H.
  - now inversion H.
  - destruct (in_window ws we e) as [keep|] eqn:E; simpl in H; [|discriminate].
    destruct (filter_window ws we evs) as [l'|]; simpl in H; [|discriminate].
    inversion H; subst l. simpl. rewrite E. rewrite <- (IH l' eq_refl).
    now destruct keep.
Qed.

Lemma filter_subseq {A : Type} (f : A -> bool) (l : list A) : Subseq (filter f l) l.
Proof.
  induction l as [|x l IH]; simpl; [constructor|].
  destruct (f x); now constructor.
Qed.

Lemma filter_window_total (ws we : datetime) (evs : list event) :
  naive ws -> naive we ->
  (forall e t, In e evs -> ev_datetime e = Some t -> naive t) ->
  exists l, filter_window ws we evs = Ok l.
Proof.
  intros Hs He. induction evs as [|e evs IH]; intros Hev; simpl.
  - now exists [].
  - destruct IH as [l Hl]. { intros e' t Hin. apply Hev. now right. }
    rewrite Hl. unfold in_window.
    destruct (ev_datetime e) as [t|] eqn:Et; simpl.
    + assert (Ht : naive t) by (apply (Hev e); [now left | assumption]).
      rewrite (dt_le_naive _ _ Hs Ht). simpl.
      destruct (is_le (naive_cmp ws t)).
      * rewrite (dt_lt_naive _ _ Ht He). simpl. eauto.
      * simpl. eauto.
    + eauto.
Qed.

(** C7.  Against a window [window_start, window_end) the final filter keeps
    an event exactly when its timestamp is present and
    [window_start <= timestamp < window_end]; an event without a timestamp
    is never kept; the order of the events is kept.  With a naive window and
    naive timestamps, the only ones the parser builds, the filter does
    return. *)
Theorem window_filter_keeps_exactly (ws we : datetime) (evs : list event) :
  (naive ws -> naive we ->
   (forall e t, In e evs -> ev_datetime e = Some t -> naive t) ->
   exists l, filter_window ws we evs = Ok l) /\
  (forall l, filter_window ws we evs = Ok l ->
     Subseq l evs /\
     (forall e, In e l <->
                In e evs /\
                exists t, ev_datetime e = Some t /\
                          dt_le ws t = Ok true /\ dt_lt t we = Ok true) /\
     (forall e, In e l -> ev_datetime e <> None)).
Proof.
  split; [apply filter_window_total|].
  intros l H. apply filter_window_filter in H. subst l.
  assert (Hchar : forall e,
             In e (filter (fun e => match in_window ws we e with
                                    | Ok true => true
                                    | _ => false
                                    end) evs) <->
             In e evs /\
             exists t, ev_datetime e = Some t /\
                       dt_le ws t = Ok true /\ dt_lt t we = Ok true).
  { intros e. rewrite filter_In, <- in_window_true.
    destruct (in_window ws we e) as [[|]|]; intuition congruence. }
  split; [apply filter_subseq|]. split; [exact Hchar|].
  intros e Hin. apply Hchar in Hin as [_ [t [Ht _]]]. congruence.
Qed.

Lemma window_filter_keeps_exactly_witness :
  filter_window (mkDT 2026 1 16 0 0 0 0 None) (mkDT 2026 1 17 0 0 0 0 None)
    [ mkEvent (u "Departed 10:15") (Some (u "Departed")) None None
              (Some (mkDT 2026 1 16 10 15 0 0 None)) None;
      mkEvent (u "Arrived") (Some (u "Arrived")) None None None None;
      mkEvent (u "Arrived 17-Jan 00:00") (Some (u "Arrived")) None None
              (Some (mkDT 2026 1 17 0 0 0 0 None)) None ]
  = Ok [ mkEvent (u "Departed 10:15") (Some (u "Departed")) None None
                 (Some (mkDT 2026 1 16 10 15 0 0 None)) None ].
Proof.
  destruct (window_filter_keeps_exactly
              (mkDT 2026 1 16 0 0 0 0 None) (mkDT 2026 1 17 0 0 0 0 None)
              [ mkEvent (u "Departed 10:15") (Some (u "Departed")) None None
                        (Some (mkDT 2026 1 16 10 15 0 0 None)) None;
                mkEvent (u "Arrived") (Some (u "Arrived")) None None None None;
                mkEvent (u "Arrived 17-Jan 00:00") (Some (u "Arrived")) None None
                        (Some (mkDT 2026 1 17 0 0 0 0 None)) None ]) as [H _].
  destruct H as [l Hl].
  - reflexivity.
  - reflexivity.
  - intros e t [<- | [<- | [<- | []]]] Ht; inversion Ht; reflexivity.
  - rewrite Hl. vm_compute in Hl. inversion Hl. reflexivity.
Defined.

(** ** The anchor: [_parse_last_update_dt] *)

Lemma max_from_In (l : list datetime) : forall b, In (max_from b l) (b :: l).
Proof.
  induction l as [|x l IH]; intros b; simpl; [now left|].
  destruct (IH (match naive_cmp x b with Gt => x | _ => b end)) as [H | H].
  - rewrite <- H. destruct (naive_cmp x b); auto.
  - auto.
Qed.

Lemma max_from_ge (l : list datetime) :
  forall b x, In x (b :: l) -> naive_cmp x (max_from b l) <> Gt.
Proof.
  induction l as [|y l IH]; intros b x Hin.
  - destruct Hin as [<- | []]. simpl. now rewrite naive_cmp_refl.
  - simpl. set (b' := match naive_cmp y b with Gt => y | _ => b end).
    assert (Hb : naive_cmp b b' <> Gt).
    { unfold b'. destruct (naive_cmp y b) eqn:E;
        rewrite ?naive_cmp_refl; try discriminate.
      rewrite (naive_cmp_antisym y b), E. discriminate. }
    assert (Hy : naive_cmp y b' <> Gt).
    { unfold b'. destruct (naive_cmp y b) eqn:E;
        rewrite ?naive_cmp_refl, ?E; discriminate. }
    destruct Hin as [<- | [<- | Hin]].
    + eapply naive_le_trans; [exact Hb|]. apply IH. now left.
    + eapply naive_le_trans; [exact Hy|]. apply IH. now left.
    + apply IH. now right.
Qed.

Lemma candidates_In (lines : list str) (t : datetime) :
  In t (candidates lines) <->
  exists ln, In ln lines /\ last_update_candidate ln = Some t.
Proof.
  induction lines as [|ln lines IH]; simpl.
  - split; [contradiction | intros [ln [[] _]]].
  - destruct (last_update_candidate ln) as [t0|] eqn:E; simpl; rewrite IH.
    + split.
      * intros [<- | [ln' [Hin H]]]; [exists ln; auto | exists ln'; auto].
      * intros [ln' [[<- | Hin] H]]; [left; congruence | right; eauto].
    + split.
      * intros [ln' [Hin H]]. exists ln'. auto.
      * intros [ln' [[<- | Hin] H]]; [congruence | eauto].
Qed.

Lemma candidates_app (l1 l2 : list str) :
  candidates (l1 ++ l2) = candidates l1 ++ candidates l2.
Proof.
  induction l1 as [|ln l1 IH]; simpl; [reflexivity|].
  destruct (last_update_candidate ln); simpl; now rewrite IH.
Qed.

Lemma last_update_from_line (lines : list str) (t : datetime) :
  _parse_last_update_dt lines = Some t ->
  exists ln, In ln lines /\ last_update_candidate ln = Some t.
Proof.
  unfold _parse_last_update_dt. intros H.
  destruct (candidates lines) as [|b l] eqn:E; [discriminate|].
  inversion H; subst t. apply candidates_In. rewrite E. apply max_from_In.
Qed.

(** [re.search] returns the match at the first offset where the pattern
    matches. *)
Lemma search_from_first (r : re) (k : nat) :
  forall s pv p m,
    k <= List.length s ->
    (forall j, j < k ->
               match_at r (last_of pv (firstn j s)) (skipn j s) (p + j) = None) ->
    match_at r (last_of pv (firstn k s)) (skipn k s) (p + k) = Some m ->
    search_from r pv s p = Some m.
Proof.
  induction k as [|k IH]; intros s pv p m Hk Hnone Hm.
  - simpl in Hm. rewrite Nat.add_0_r in Hm. destruct s; cbn [search_from]; now rewrite Hm.
  - destruct s as [|c t]; [simpl in Hk; lia|].
    cbn [search_from]. pose proof (Hnone 0 ltac:(lia)) as H0.
    simpl in H0. rewrite Nat.add_0_r in H0. rewrite H0.
    apply IH.
    + simpl in Hk. lia.
    + intros j Hj. specialize (Hnone (S j) ltac:(lia)).
      simpl in Hnone. now rewrite Nat.add_succ_r in Hnone.
    + simpl in Hm. now rewrite Nat.add_succ_r in Hm.
Qed.

Lemma search_from_nowhere (r : re) (s : str) :
  forall pv p,
    (forall j, j <= List.length s ->
               match_at r (last_of pv (firstn j s)) (skipn j s) (p + j) = None) ->
    search_from r pv s p = None.
Proof.
  induction s as [|c t IH]; intros pv p Hnone.
  - pose proof (Hnone 0 (Nat.le_refl _)) as H0. simpl in H0.
    rewrite Nat.add_0_r in H0. cbn [search_from]. now rewrite H0.
  - pose proof (Hnone 0 ltac:(lia)) as H0. simpl in H0.
    rewrite Nat.add_0_r in H0. cbn [search_from]. rewrite H0.
    apply IH. intros j Hj. specialize (Hnone (S j) ltac:(simpl; lia)).
    simpl in Hnone. now rewrite Nat.add_succ_r in Hnone.
Qed.

(** The candidate of a line is the timestamp of its first match. *)
Lemma candidate_first_match (ln : str) (k : nat) :
  k <= List.length ln ->
  (forall j, j < k -> update_at ln j = None) ->
  update_at ln k <> None ->
  last_update_candidate ln = update_match_at ln k.
Proof.
  intros Hk Hnone Hm. unfold update_match_at.
  destruct (update_at ln k) as [m|] eqn:E; [|congruence].
  unfold last_update_candidate, re_search.
  now rewrite (search_from_first last_update_re k ln None 0 m Hk Hnone E).
Qed.

Lemma candidate_no_match (ln : str) :
  (forall k, k <= List.length ln -> update_at ln k = None) ->
  last_update_candidate ln = None.
Proof.
  intros H. unfold last_update_candidate, re_search.
  now rewrite (search_from_nowhere last_update_re ln None 0 H).
Qed.

(** C3 (as amended).  A line yields at most one timestamp: the one of its
    first [Last Updates On DD-Mon-YYYY [HH:MM]] match, read with [00:00]
    when the time is missing; later matches of the line are not looked at,
    and a line without match, or whose first match does not parse, yields
    none and changes nothing.  The anchor is the greatest of the timestamps
    that the lines yield, and it is absent exactly when no line yields one.
    Of four lines, one in lower case and without time, one with a date that
    does not exist, and one with a second, later match, the anchor is the
    greatest of the three first matches that parse. *)
Theorem last_update_is_greatest_candidate (lines : list str) :
  (forall ln k,
      k <= List.length ln ->
      (forall j, j < k -> update_at ln j = None) ->
      update_at ln k <> None ->
      last_update_candidate ln = update_match_at ln k) /\
  (forall ln,
      (forall k, k <= List.length ln -> update_at ln k = None) ->
      last_update_candidate ln = None) /\
  (forall ln m date,
      re_search last_update_re ln = Some m -> group ln m 1 = Some date ->
      last_update_candidate ln =
      strptime (date ++ u " " ++ match group ln m 2 with
                                 | Some (c :: t) => c :: t
                                 | _ => u "00:00"
                                 end)) /\
  (_parse_last_update_dt lines = None <->
   forall ln, In ln lines -> last_update_candidate ln = None) /\
  (forall t, _parse_last_update_dt lines = Some t ->
     (exists ln, In ln lines /\ last_update_candidate ln = Some t) /\
     (forall ln t', In ln lines -> last_update_candidate ln = Some t' ->
                    naive_cmp t' t <> Gt)) /\
  (forall l1 ln l2,
      lines = l1 ++ ln :: l2 -> last_update_candidate ln = None ->
      _parse_last_update_dt lines = _parse_last_update_dt (l1 ++ l2)) /\
  _parse_last_update_dt
    [ u "Last Updates On 15-Jan-2026 09:40";
      u "last updates on 16-jan-2026";
      u "Last Updates On 31-Feb-2026 23:00";
      u "Last Updates On 15-Jan-2026 10:00 Last Updates On 17-Jan-2026 10:00" ]
  = Some (mkDT 2026 1 16 0 0 0 0 None).
Proof.
  split; [intros ln k; apply candidate_first_match|].
  split; [intros ln; apply candidate_no_match|].
  split.
  { intros ln m date Hs Hg. unfold last_update_candidate. rewrite Hs, Hg.
    unfold or_midnight, truthy. now destruct (group ln m 2) as [[|c t]|]. }
  split.
  { split.
    - intros H ln Hin. unfold _parse_last_update_dt in H.
      destruct (candidates lines) as [|t l] eqn:E; [|discriminate].
      destruct (last_update_candidate ln) as [t|] eqn:Ec; [|reflexivity].
      assert (Hc : In t (candidates lines)) by (apply candidates_In; eauto).
      rewrite E in Hc. contradiction.
    - intros H. unfold _parse_last_update_dt.
      destruct (candidates lines) as [|t l] eqn:E; [reflexivity|].
      assert (Hc : In t (candidates lines)) by (rewrite E; now left).
      apply candidates_In in Hc as [ln [Hin Hc]]. rewrite (H ln Hin) in Hc.
      discriminate. }
  split.
  { intros t H. split; [now apply last_update_from_line|].
    intros ln t' Hin Hc. unfold _parse_last_update_dt in H.
    destruct (candidates lines) as [|b l] eqn:E; [discriminate|].
    inversion H; subst t. apply max_from_ge. rewrite <- E.
    apply candidates_In. eauto. }
  split.
  { intros l1 ln l2 -> Hc. unfold _parse_last_update_dt.
    rewrite !candidates_app. simpl. now rewrite Hc. }
  vm_compute. reflexivity.
Qed.

(** The line [text Last Updates On 15-Jan-2026 10:00]: the pattern matches
    at offset 5 and nowhere before, and the candidate is the timestamp of
    that match. *)
Lemma last_update_is_greatest_candidate_witness :
  last_update_candidate (u "text Last Updates On 15-Jan-2026 10:00")
  = update_match_at (u "text Last Updates On 15-Jan-2026 10:00") 5 /\
  update_match_at (u "text Last Updates On 15-Jan-2026 10:00") 5
  = Some (mkDT 2026 1 15 10 0 0 0 None).
Proof.
  split; [|vm_compute; reflexivity].
  apply (proj1 (last_update_is_greatest_candidate [])).
  - vm_compute. lia.
  - intros j Hj.
    destruct j as [|[|[|[|[|j]]]]]; [vm_compute; reflexivity .. | lia].
  - vm_compute. discriminate.
Defined.

(** C3 as stated fails: of two matches in one line only the first counts,
    so the anchor is not the maximum over all the matches. *)
Lemma last_update_misses_second_match :
  _parse_last_update_dt
    [u "Last Updates On 15-Jan-2026 09:40 Last Updates On 15-Jan-2026 10:00"]
  = Some (mkDT 2026 1 15 9 40 0 0 None) /\
  update_match_at
    (u "Last Updates On 15-Jan-2026 09:40 Last Updates On 15-Jan-2026 10:00") 34
  = Some (mkDT 2026 1 15 10 0 0 0 None) /\
  ~ spec_last_update
      [u "Last Updates On 15-Jan-2026 09:40 Last Updates On 15-Jan-2026 10:00"]
      (_parse_last_update_dt
         [u "Last Updates On 15-Jan-2026 09:40 Last Updates On 15-Jan-2026 10:00"]).
Proof.
  assert (E1 : _parse_last_update_dt
                 [u "Last Updates On 15-Jan-2026 09:40 Last Updates On 15-Jan-2026 10:00"]
               = Some (mkDT 2026 1 15 9 40 0 0 None)) by (vm_compute; reflexivity).
  assert (E2 : update_match_at
                 (u "Last Updates On 15-Jan-2026 09:40 Last Updates On 15-Jan-2026 10:00")
                 34
               = Some (mkDT 2026 1 15 10 0 0 0 None)) by (vm_compute; reflexivity).
  split; [exact E1|]. split; [exact E2|].
  rewrite E1. intros [_ H].
  apply (H _ 34 _ (or_introl eq_refl) E2). vm_compute. reflexivity.
Qed.
(** ** [strptime] and [strftime] *)

Lemma strptime_naive (s : str) (r : datetime) :
  strptime s = Some r ->
  naive r /\ valid_date (year r) (month r) (day r) = true /\
  second r = 0%Z /\ microsecond r = 0%Z.
Proof.
  unfold strptime. intros H.
  destruct (re_match strptime_re s) as [m|]; [|discriminate].
  destruct (negb (Nat.eqb (m_end m) (List.length s))); [discriminate|].
  destruct (group s m 1), (group s m 2), (group s m 3), (group s m 4), (group s m 5);
    try discriminate.
  destruct (py_int s0), (index_of (lower s1) month_names 1), (py_int s2), (py_int s3),
    (py_int s4); try discriminate.
  destruct (valid_date z1 z0 z) eqn:V; [|discriminate].
  inversion H; subst r. simpl. now repeat split.
Qed.

Lemma in_ranges_false (tbl : list (N * N)) (c : char) :
  Forall (fun r => (c < fst r \/ snd r < c)%N) tbl -> in_ranges tbl c = false.
Proof.
  unfold in_ranges. induction 1 as [|r tbl Hr _ IH]; simpl; [reflexivity|].
  rewrite IH, orb_false_r.
  apply andb_false_iff. rewrite !N.leb_gt. tauto.
Qed.

(** The ASCII digits among the classes. *)
Section AsciiDigit.

Variable c : char.
Hypothesis Hc : (48 <= c <= 57)%N.

Lemma ascii_digit_is_digit : is_digit c = true.
Proof.
  unfold is_digit, in_ranges. apply existsb_exists.
  exists (48, 57)%N. split; [now left|].
  simpl. apply andb_true_iff. rewrite !N.leb_le. lia.
Qed.

Lemma ascii_digit_not_space : is_space c = false.
Proof.
  apply in_ranges_false. unfold space_ranges.
  repeat (constructor; [simpl; lia|]). constructor.
Qed.

Lemma ascii_digit_value : digit_value c = (c - 48)%N.
Proof.
  unfold digit_value, digit_ranges. cbn [find fst snd].
  replace (N.leb 48 c && N.leb c 57) with true.
  - cbn [fst]. apply N.mod_small. lia.
  - symmetry. apply andb_true_iff. rewrite !N.leb_le. lia.
Qed.

End AsciiDigit.

Lemma digit_char_range (z : Z) : (48 <= digit_char z <= 57)%N.
Proof.
  unfold digit_char.
  assert (0 <= z mod 10 < 10)%Z by (apply Z.mod_pos_bound; lia). lia.
Qed.

Lemma digit_char_value (z : Z) : Z.of_N (digit_char z - 48) = (z mod 10)%Z.
Proof.
  unfold digit_char.
  assert (0 <= z mod 10 < 10)%Z by (apply Z.mod_pos_bound; lia). lia.
Qed.

(** [int] of four ASCII digits. *)
Lemma py_int_four (a b c e : char) :
  (48 <= a <= 57)%N -> (48 <= b <= 57)%N -> (48 <= c <= 57)%N -> (48 <= e <= 57)%N ->
  py_int [a; b; c; e] =
  Some (((Z.of_N (a - 48) * 10 + Z.of_N (b - 48)) * 10 + Z.of_N (c - 48)) * 10
        + Z.of_N (e - 48))%Z.
Proof.
  intros Ha Hb Hc He. unfold py_int, strip_by, rstrip_by.
  cbn [lstrip_by]. rewrite (ascii_digit_not_space a Ha).
  cbn [rev app lstrip_by]. rewrite (ascii_digit_not_space e He).
  cbn [rev app forallb fold_left].
  rewrite !ascii_digit_is_digit, !ascii_digit_value by assumption.
  cbn [andb]. f_equal.
Qed.

(** *** Reading back what [strftime] wrote *)

Lemma Z_range_cases (P : Z -> Prop) (lo : Z) (n : nat) :
  (forall i, i < n -> P (lo + Z.of_nat i)%Z) ->
  forall z, (lo <= z < lo + Z.of_nat n)%Z -> P z.
Proof.
  intros H z Hz. replace z with (lo + Z.of_nat (Z.to_nat (z - lo)))%Z by lia.
  apply H. lia.
Qed.

Ltac split_range i Hi :=
  first [ exfalso; lia | destruct i as [|i]; [clear Hi | split_range i Hi] ].

(** Case analysis on [z] in [1..n], the cases left to the caller. *)
Ltac by_range z n :=
  let i := fresh "i" in
  let Hi := fresh "Hi" in
  pattern z; apply (Z_range_cases _ 1 n); [intros i Hi; split_range i Hi | simpl; lia].

Section StrptimeRun.

Variable k : state -> option state.
Variable t : str.

Lemma run_day (d : Z) :
  (1 <= d <= 31)%Z ->
  rmatch re_d (mkState (two_digits d ++ 45%N :: t) None 0 [])
         (fun st1 => rmatch (Lit "-") st1 k)
  = k (mkState t (Some 45%N) 3 [(1, (0, 2))]).
Proof.
  intros H. by_range d 31; vm_compute; destruct (k _); reflexivity.
Qed.

Lemma run_month (m : Z) (cs : list (nat * (nat * nat))) :
  (1 <= m <= 12)%Z ->
  rmatch re_b (mkState (month_abbr m ++ 45%N :: t) (Some 45%N) 3 cs)
         (fun st1 => rmatch (Lit "-") st1 k)
  = k (mkState t (Some 45%N) 7 ((2, (3, 6)) :: cs)).
Proof.
  intros H. by_range m 12; vm_compute; destruct (k _); reflexivity.
Qed.

Lemma run_year (a b c e : char) (pv : option char) (cs : list (nat * (nat * nat))) :
  is_digit a = true -> is_digit b = true -> is_digit c = true -> is_digit e = true ->
  rmatch re_Y (mkState (a :: b :: c :: e :: t) pv 7 cs) k
  = k (mkState t (Some e) 11 ((3, (7, 11)) :: cs)).
Proof.
  intros Ha Hb Hc He. unfold re_Y, Digit.
  cbn [Rep rmatch rest advance pos caps set_cap prev].
  rewrite Ha. cbn [rmatch rest advance pos caps set_cap prev].
  rewrite Hb. cbn [rmatch rest advance pos caps set_cap prev].
  rewrite Hc. cbn [rmatch rest advance pos caps set_cap prev].
  rewrite He. reflexivity.
Qed.

End StrptimeRun.

Lemma run_midnight (pv : option char) (cs : list (nat * (nat * nat))) :
  rmatch (SeqL [Plus true Space; re_H; Lit ":"; re_M])
         (mkState (u " 00:00") pv 11 cs) Some
  = Some (mkState [] (Some 48%N) 17 ((5, (15, 17)) :: (4, (12, 14)) :: cs)).
Proof. vm_compute. reflexivity. Qed.

Lemma month_abbr_shape (m : Z) :
  (1 <= m <= 12)%Z ->
  exists a b c, month_abbr m = [a; b; c] /\
                index_of (lower [a; b; c]) month_names 1 = Some m.
Proof.
  intros H. by_range m 12; vm_compute; eauto.
Qed.

Lemma py_int_two_digits (d : Z) : (1 <= d <= 31)%Z -> py_int (two_digits d) = Some d.
Proof.
  intros H. by_range d 31; vm_compute; reflexivity.
Qed.

Lemma valid_date_bounds (y m d : Z) :
  valid_date y m d = true ->
  (1 <= y <= 9999 /\ 1 <= m <= 12 /\ 1 <= d <= 31)%Z.
Proof.
  unfold valid_date. rewrite !andb_true_iff, !Z.leb_le.
  intros [[[[[H1 H2] H3] H4] H5] H6].
  assert (days_in_month y m <= 31)%Z.
  { unfold days_in_month.
    destruct (m =? 2)%Z; [destruct (is_leap y); lia|].
    destruct ((m =? 4) || (m =? 6) || (m =? 9) || (m =? 11))%Z; lia. }
  lia.
Qed.

Lemma Z_range_forallb (P : Z -> bool) (lo n : Z) :
  forallb P (map (fun i => (lo + Z.of_nat i)%Z) (seq 0 (Z.to_nat n))) = true ->
  forall z, (lo <= z < lo + n)%Z -> P z = true.
Proof.
  intros H z Hz. rewrite forallb_forall in H. apply H.
  apply in_map_iff. exists (Z.to_nat (z - lo)). split; [lia|].
  apply in_seq. lia.
Qed.

Lemma str_of_Z_four (y : Z) : (1000 <= y <= 9999)%Z -> str_of_Z y = four_digits y.
Proof.
  intros H. apply str_eqb_eq.
  apply (Z_range_forallb (fun y => str_eqb (str_of_Z y) (four_digits y)) 1000 9000);
    [vm_compute; reflexivity | lia].
Qed.

Lemma str_of_Z_short (y : Z) :
  (1 <= y <= 999)%Z -> Nat.ltb (List.length (str_of_Z y)) 4 = true.
Proof.
  intros H.
  apply (Z_range_forallb (fun y => Nat.ltb (List.length (str_of_Z y)) 4) 1 999);
    [vm_compute; reflexivity | lia].
Qed.

(** From the year 1000 on, [strftime] writes the year with four digits. *)
Lemma strftime_four (t : datetime) :
  (1000 <= year t <= 9999)%Z ->
  strftime t
  = two_digits (day t) ++ u "-" ++ month_abbr (month t) ++ u "-" ++ four_digits (year t).
Proof. intros H. unfold strftime. now rewrite (str_of_Z_four _ H). Qed.

Lemma four_digits_value (y : Z) :
  (0 <= y <= 9999)%Z ->
  py_int (four_digits y) = Some y.
Proof.
  intros H. unfold four_digits.
  rewrite py_int_four by apply digit_char_range.
  rewrite !digit_char_value. f_equal.
  Z.div_mod_to_equations. lia.
Qed.

(** The date that [strftime] writes, followed by [00:00], reads back as
    the midnight of that date. *)
Lemma strptime_strftime_midnight (lu : datetime) :
  valid_date (year lu) (month lu) (day lu) = true ->
  (1000 <= year lu)%Z ->
  strptime (strftime lu ++ u " " ++ u "00:00")
  = Some (mkDT (year lu) (month lu) (day lu) 0 0 0 0 None).
Proof.
  intros V Y. destruct (valid_date_bounds _ _ _ V) as (Hy & Hm & Hd).
  rewrite strftime_four by lia.
  destruct lu as [y m d hh mi ss us tz]. cbn [year month day] in *.
  set (a := digit_char (y / 1000)). set (b := digit_char (y / 100)).
  set (c := digit_char (y / 10)). set (e := digit_char y).
  assert (Hs : two_digits d ++ u "-" ++ month_abbr m ++ u "-" ++ four_digits y
               ++ u " " ++ u "00:00"
               = two_digits d ++ 45%N :: (month_abbr m ++ 45%N
                   :: (a :: b :: c :: e :: u " 00:00"))) by reflexivity.
  unfold strptime, re_match, match_at.
  replace ((two_digits d ++ u "-" ++ month_abbr m ++ u "-" ++ four_digits y)
           ++ u " " ++ u "00:00")
    with (two_digits d ++ 45%N :: (month_abbr m ++ 45%N
                   :: (a :: b :: c :: e :: u " 00:00")))
    by (rewrite <- Hs, <- !app_assoc; reflexivity).
  change (rmatch strptime_re ?st Some)
    with (rmatch re_d st (fun st1 => rmatch (Lit "-") st1 (fun st2 =>
          rmatch re_b st2 (fun st3 => rmatch (Lit "-") st3 (fun st4 =>
          rmatch re_Y st4 (fun st5 =>
          rmatch (SeqL [Plus true Space; re_H; Lit ":"; re_M]) st5 Some)))))).
  rewrite run_day by assumption.
  rewrite run_month by assumption.
  rewrite run_year by (apply ascii_digit_is_digit, digit_char_range).
  rewrite run_midnight.
  destruct (month_abbr_shape m Hm) as (m1 & m2 & m3 & Hshape & Hidx).
  rewrite Hshape. unfold two_digits.
  cbn [pos caps rest prev m_end m_caps app List.length Nat.eqb negb
       group lookup_cap slice firstn skipn Nat.sub u map list_ascii_of_string].
  rewrite Hidx.
  change [digit_char (d / 10); digit_char d] with (two_digits d).
  rewrite py_int_two_digits by assumption.
  change [a; b; c; e] with (four_digits y).
  rewrite four_digits_value by lia.
  replace (py_int _) with (Some 0%Z) by (vm_compute; reflexivity).
  rewrite V. reflexivity.
Qed.

(** A line with a bare verb passes the filter of the loop. *)
Lemma verb_is_candidate (ln : str) (mv : mobj) :
  re_search tier_c_re ln = Some mv -> re_search candidate_re ln <> None.
Proof.
  intros H. apply re_search_inv in H
    as (pre & w & st' & Hln & _ & _ & R & _ & _ & _).
  rewrite Hln. unfold re_search. apply search_from_complete. simpl.
  unfold match_at.
  enough (Hm : rmatch candidate_re
                      (mkState (w ++ m_rest mv) (last_of None pre) (List.length pre) [])
                      Some <> None)
    by (destruct (rmatch candidate_re _ Some); congruence).
  change tier_c_re with (Seq Bnd (Seq verb Bnd)) in R.
  apply Run_Seq_inv in R as (st1 & R1 & R).
  apply Run_Seq_inv in R as (st2 & R2 & R3).
  apply Run_Grp_inv in R2 as (st3 & R2 & ->).
  assert (RA : Run (AltL (map LitI ["arrived"; "arrive"; "arriving";
                                    "departed"; "depart"; "departure"]%string))
                   st1 st3).
  { apply Run_Alt_inv in R2 as [R2 | R2].
    - apply (Run_LitI_lower "Departed" "departed") in R2; [|reflexivity].
      cbn [AltL map]. apply Run_AltR, Run_AltR, Run_AltR, Run_AltL. exact R2.
    - apply (Run_LitI_lower "Arrived" "arrived") in R2; [|reflexivity].
      cbn [AltL map]. apply Run_AltL. exact R2. }
  apply (rmatch_complete _ _ _
           (Run_Seq _ _ _ _ _ R1
              (Run_Seq _ _ _ _ _ (Run_Grp 1 _ _ _ RA) R3)));
    [reflexivity | discriminate].
Qed.

(** ** The event parser *)

Lemma title_truthy (w : str) : w <> [] -> truthy (Some (title w)) = true.
Proof.
  destruct w as [|c t]; [congruence|]. intros _.
  unfold title. cbn [title_from]. unfold title_full.
  destruct (N.eqb c 305); [reflexivity|].
  destruct (N.eqb c 383); reflexivity.
Qed.

(** The verb of a bare-verb match: group 1 is set, and not empty. *)
Lemma verb_group (ln : str) (m : mobj) :
  re_search tier_c_re ln = Some m ->
  exists w, group ln m 1 = Some w /\ w <> [].
Proof.
  intros H. apply re_search_inv in H
    as (pre & w0 & st' & Hln & Hstart & Hend & R & Hrest & Hpos & Hcaps).
  change tier_c_re with (Seq Bnd (Seq verb Bnd)) in R.
  apply Run_Seq_inv in R as (st1 & R1 & R).
  apply Run_Bnd_inv in R1 as [-> _].
  apply Run_Seq_inv in R as (st2 & R2 & R3).
  apply Run_Bnd_inv in R3 as [-> _].
  apply Run_Grp_inv in R2 as (st3 & R2 & ->).
  assert (Hw : exists w, (List.length w = 8 \/ List.length w = 7) /\
                         w0 ++ m_rest m = w ++ rest st3 /\
                         pos st3 = List.length pre + List.length w).
  { apply Run_Alt_inv in R2 as [R2 | R2]; apply Run_LitI in R2 as (w & Hl & Hr & Hp & _);
      exists w; simpl in *; auto. }
  destruct Hw as (w & Hl & Hr & Hp). simpl in Hrest.
  rewrite Hrest in Hr. apply app_inv_tail in Hr. subst w0.
  exists w. split.
  - unfold group. rewrite <- Hcaps. simpl. rewrite Hp, Hln. now rewrite slice_app.
  - destruct w; simpl in Hl; [lia | discriminate].
Qed.

(** A line that only the bare-verb tier matches: appended exactly when its
    timestamp resolves. *)
Lemma parse_line_tier_c (now : datetime) (lu : option datetime) (ln : str)
    (mv : mobj) :
  re_search tier_a_re ln = None ->
  re_search tier_b_re ln = None ->
  re_search tier_c_re ln = Some mv ->
  parse_line now lu ln =
  match line_dt now lu ln with
  | Some t => Some (mkEvent ln (opt_map_str title (group ln mv 1)) None None (Some t)
                            (token delay_re ln))
  | None => None
  end.
Proof.
  intros Ha Hb Hv. unfold parse_line.
  destruct (re_search candidate_re ln) eqn:Hc;
    [|now apply verb_is_candidate in Hv].
  rewrite Ha, Hb, Hv.
  destruct (verb_group ln mv Hv) as (w & Hw & Hne). rewrite Hw. simpl opt_map_str.
  rewrite (title_truthy w Hne). now destruct (line_dt now lu ln).
Qed.

(** Whatever the tier, the timestamp of an event is the one of its line. *)
Lemma parse_line_datetime (now : datetime) (lu : option datetime) (ln : str) (ev : event) :
  parse_line now lu ln = Some ev -> ev_datetime ev = line_dt now lu ln.
Proof.
  unfold parse_line. intros H.
  destruct (re_search candidate_re ln); [|discriminate].
  destruct (re_search tier_a_re ln) as [ma|].
  { destruct (truthy _ && truthy _); inversion H; reflexivity. }
  destruct (re_search tier_b_re ln) as [mb|].
  { destruct (truthy _ && truthy _); inversion H; reflexivity. }
  destruct (re_search tier_c_re ln) as [mv|]; [|discriminate].
  destruct (line_dt now lu ln); [|discriminate].
  destruct (truthy _); inversion H; reflexivity.
Qed.

Lemma build_no_date_no_anchor (now : datetime) (tp : option str) :
  _build_event_dt now None tp None = None.
Proof. reflexivity. Qed.

Lemma build_no_date_no_time (now lu : datetime) :
  valid_date (year lu) (month lu) (day lu) = true ->
  (1000 <= year lu)%Z ->
  _build_event_dt now None None (Some lu)
  = Some (mkDT (year lu) (month lu) (day lu) 0 0 0 0 None).
Proof.
  intros V Y. unfold _build_event_dt. cbn [truthy or_midnight].
  now apply strptime_strftime_midnight.
Qed.

Lemma max_from_valid (l : list datetime) :
  forall b, Forall (fun t => valid_date (year t) (month t) (day t) = true) (b :: l) ->
            valid_date (year (max_from b l)) (month (max_from b l)) (day (max_from b l)) = true.
Proof.
  intros b H. rewrite Forall_forall in H. apply H. apply max_from_In.
Qed.

(** The anchor, when there is one, is a calendar date read by [strptime]. *)
Lemma last_update_valid (lines : list str) (lu : datetime) :
  _parse_last_update_dt lines = Some lu ->
  naive lu /\ valid_date (year lu) (month lu) (day lu) = true.
Proof.
  intros H.
  destruct (last_update_from_line lines lu H) as [ln [_ Hc]].
  unfold last_update_candidate in Hc.
  destruct (re_search last_update_re ln); [|discriminate].
  destruct (group ln m 1); [|discriminate].
  apply strptime_naive in Hc. tauto.
Qed.

(** C5.  A line that neither the station-and-code tier nor the station tier
    matches yields an event only with a resolved timestamp, and then without
    station and code; when the bare-verb tier matches, the event is appended
    exactly when the timestamp resolves; with no anchor and no date token in
    the line nothing resolves, so the line yields no event.  The line
    [Departed], alone and without anchor, yields none. *)
Theorem bare_verb_needs_timestamp (now : datetime) (lu : option datetime) (ln : str) :
  re_search tier_a_re ln = None ->
  re_search tier_b_re ln = None ->
  (forall ev, parse_line now lu ln = Some ev ->
     ev_station ev = None /\ ev_code ev = None /\
     exists t, ev_datetime ev = Some t /\ line_dt now lu ln = Some t) /\
  (forall mv, re_search tier_c_re ln = Some mv ->
     parse_line now lu ln =
     match line_dt now lu ln with
     | Some t => Some (mkEvent ln (opt_map_str title (group ln mv 1)) None None
                               (Some t) (token delay_re ln))
     | None => None
     end) /\
  (line_dt now lu ln = None -> parse_line now lu ln = None) /\
  (lu = None -> token date_re ln = None -> parse_line now lu ln = None) /\
  parse_line now None (u "Departed") = None /\
  extract_status_lines (u "Departed") = [u "Departed"] /\
  parse_train_status_html now (u "Departed") = Ok (mkParsed None None []).
Proof.
  intros Ha Hb.
  assert (Hnone : line_dt now lu ln = None -> parse_line now lu ln = None).
  { intros Hdt. unfold parse_line. rewrite Ha, Hb, Hdt.
    destruct (re_search candidate_re ln); [|reflexivity].
    now destruct (re_search tier_c_re ln). }
  split; [|split; [|split; [exact Hnone|split]]].
  - intros ev H. unfold parse_line in H. rewrite Ha, Hb in H.
    destruct (re_search candidate_re ln); [|discriminate].
    destruct (re_search tier_c_re ln) as [mv|]; [|discriminate].
    destruct (line_dt now lu ln) as [t|]; [|discriminate].
    destruct (truthy _); inversion H. simpl. eauto.
  - intros mv Hv. now apply parse_line_tier_c.
  - intros -> Hd. apply Hnone. unfold line_dt. rewrite Hd. reflexivity.
  - repeat split; vm_compute; reflexivity.
Qed.

Lemma bare_verb_needs_timestamp_witness :
  re_search tier_a_re (u "Departed 10:15") = None /\
  re_search tier_b_re (u "Departed 10:15") = None /\
  parse_line (mkDT 2026 1 16 9 0 0 0 None) None (u "Departed 10:15") = None.
Proof.
  split; [vm_compute; reflexivity|]. split; [vm_compute; reflexivity|].
  apply (bare_verb_needs_timestamp (mkDT 2026 1 16 9 0 0 0 None) None (u "Departed 10:15"));
    vm_compute; reflexivity.
Defined.

(** ** The window resolver *)

(** C4.  A time-only bound may carry a UTC offset: [09:00Z] becomes
    [09:00+00:00], which [time.fromisoformat] reads as an aware time.  Unlike
    an aware datetime, it is not brought to naive local time, and the
    comparison with [now] raises [TypeError], which is not the validation
    error. *)
Theorem aware_time_bound_raises_type_error (lib : pylib) (clk : clock) :
  naive (now clk) ->
  datetime_fromisoformat lib (u "09:00+00:00") = None ->
  time_fromisoformat lib (u "09:00+00:00") = Some (mkTime 9 0 0 0 (Some 0%Z)) ->
  bound_text (u "09:00Z") = u "09:00+00:00" /\
  _parse_bound lib clk (u "09:00Z") = Ok (None, Some (mkTime 9 0 0 0 (Some 0%Z))) /\
  _compute_event_window lib clk (Some (u "09:00Z")) None = Raise TypeError.
Proof.
  intros Hnow Hd Ht.
  assert (Hb : bound_text (u "09:00Z") = u "09:00+00:00") by (vm_compute; reflexivity).
  assert (Hp : _parse_bound lib clk (u "09:00Z")
               = Ok (None, Some (mkTime 9 0 0 0 (Some 0%Z)))).
  { unfold _parse_bound. rewrite Hb, Hd, Ht. reflexivity. }
  repeat split; try assumption.
  unfold _compute_event_window, parse_opt_bound. rewrite Hp.
  cbn [bind _to_datetime]. unfold swap_if_inverted, dt_lt, dt_cmp.
  unfold naive in Hnow. rewrite Hnow. reflexivity.
Qed.

Lemma aware_time_bound_raises_type_error_witness :
  _compute_event_window
    (mkLib (fun _ => None)
           (fun s => if str_eqb s (u "09:00+00:00")
                     then Some (mkTime 9 0 0 0 (Some 0%Z)) else None))
    (mkClock (mkDT 2026 1 16 9 30 0 0 None) 19800000000%Z)
    (Some (u "09:00Z")) None
  = Raise TypeError.
Proof.
  apply (aware_time_bound_raises_type_error
           (mkLib (fun _ => None)
                  (fun s => if str_eqb s (u "09:00+00:00")
                            then Some (mkTime 9 0 0 0 (Some 0%Z)) else None))
           (mkClock (mkDT 2026 1 16 9 30 0 0 None) 19800000000%Z)
           eq_refl eq_refl eq_refl).
Defined.

(** C2.  Two time-only bounds with different UTC offsets: [23:00-12:00] and
    [01:00+12:00] are both read as aware times of today; the end is before
    the start, it is moved to the next day, and it is still before the
    start. *)
Theorem offset_time_bounds_leave_window_inverted (lib : pylib) :
  datetime_fromisoformat lib (u "23:00-12:00") = None ->
  time_fromisoformat lib (u "23:00-12:00")
  = Some (mkTime 23 0 0 0 (Some (-43200000000)%Z)) ->
  datetime_fromisoformat lib (u "01:00+12:00") = None ->
  time_fromisoformat lib (u "01:00+12:00")
  = Some (mkTime 1 0 0 0 (Some 43200000000%Z)) ->
  let clk := mkClock (mkDT 2026 1 16 9 30 0 0 None) 19800000000%Z in
  let window_start := mkDT 2026 1 16 23 0 0 0 (Some (-43200000000)%Z) in
  let window_end := mkDT 2026 1 17 1 0 0 0 (Some 43200000000%Z) in
  _compute_event_window lib clk (Some (u "23:00-12:00")) (Some (u "01:00+12:00"))
  = Ok (window_start, window_end) /\
  dt_lt window_end window_start = Ok true /\
  dt_le window_start window_end = Ok false.
Proof.
  intros Hd1 Ht1 Hd2 Ht2 clk ws we.
  assert (Hb1 : bound_text (u "23:00-12:00") = u "23:00-12:00") by (vm_compute; reflexivity).
  assert (Hb2 : bound_text (u "01:00+12:00") = u "01:00+12:00") by (vm_compute; reflexivity).
  split; [|split; vm_compute; reflexivity].
  unfold _compute_event_window, parse_opt_bound, _parse_bound.
  rewrite Hb1, Hb2, Hd1, Ht1, Hd2, Ht2. vm_compute. reflexivity.
Qed.

Lemma offset_time_bounds_leave_window_inverted_witness :
  _compute_event_window
    (mkLib (fun _ => None)
           (fun s => if str_eqb s (u "23:00-12:00")
                     then Some (mkTime 23 0 0 0 (Some (-43200000000)%Z))
                     else if str_eqb s (u "01:00+12:00")
                          then Some (mkTime 1 0 0 0 (Some 43200000000%Z))
                          else None))
    (mkClock (mkDT 2026 1 16 9 30 0 0 None) 19800000000%Z)
    (Some (u "23:00-12:00")) (Some (u "01:00+12:00"))
  = Ok (mkDT 2026 1 16 23 0 0 0 (Some (-43200000000)%Z),
        mkDT 2026 1 17 1 0 0 0 (Some 43200000000%Z)).
Proof.
  apply (offset_time_bounds_leave_window_inverted
           (mkLib (fun _ => None)
                  (fun s => if str_eqb s (u "23:00-12:00")
                            then Some (mkTime 23 0 0 0 (Some (-43200000000)%Z))
                            else if str_eqb s (u "01:00+12:00")
                                 then Some (mkTime 1 0 0 0 (Some 43200000000%Z))
                                 else None))
           eq_refl eq_refl eq_refl eq_refl).
Defined.

(** ** The line normalizer *)

(** *** Collapsing white space *)

Lemma lstrip_length (p : char -> bool) (s : str) :
  List.length (lstrip_by p s) <= List.length s.
Proof.
  induction s as [|c t IH]; simpl; [lia|].
  destruct (p c); simpl; lia.
Qed.

(** The rounds of [\s*] from a state: all the white space ahead is taken. *)
Lemma star_spaces (n : nat) :
  forall st, List.length (rest st) <= n ->
             exists st', star_loop (rmatch Space) true Some n st = Some st' /\
                         rest st' = lstrip_by is_space (rest st) /\
                         pos st <= pos st'.
Proof.
  induction n as [|n IH]; intros st Hn.
  - destruct (rest st) eqn:E; [|simpl in Hn; lia].
    exists st. simpl. rewrite E. auto.
  - cbn [star_loop]. unfold Space at 1. cbn [rmatch].
    destruct (rest st) as [|c t] eqn:E.
    + exists st. rewrite E. auto.
    + cbn [lstrip_by]. destruct (is_space c) eqn:Ec.
      * destruct (IH (advance c t st)) as (st' & H & Hr & Hp).
        { simpl in *. lia. }
        fold Space. rewrite H. exists st'. simpl in *. repeat split; auto. lia.
      * exists st. rewrite E. auto.
Qed.

Lemma match_ws_none (pv : option char) (s : str) (p : nat) :
  match s with
  | c :: _ => is_space c = false
  | [] => True
  end ->
  match_at (Plus true Space) pv s p = None.
Proof.
  intros H. unfold match_at, Plus, Space. cbn [rmatch rest].
  destruct s as [|c t]; [reflexivity|]. now rewrite H.
Qed.

Lemma match_ws_some (pv : option char) (c : char) (t : str) (p : nat) :
  is_space c = true ->
  exists m, match_at (Plus true Space) pv (c :: t) p = Some m /\
            m_rest m = lstrip_by is_space t /\ p < m_end m.
Proof.
  intros Hc. unfold match_at, Plus. cbn [rmatch]. unfold Space at 1.
  cbn [rmatch rest]. rewrite Hc.
  destruct (star_spaces (List.length (rest (advance c t (mkState (c :: t) pv p []))))
                        (advance c t (mkState (c :: t) pv p [])) (le_n _))
    as (st' & H & Hr & Hp).
  rewrite H. eexists. split; [reflexivity|]. simpl in *. split; [assumption | lia].
Qed.

Lemma sub_ws_collapse (n : nat) :
  forall pv s p, sub_loop n (Plus true Space) (fun _ => u " ") pv s p = collapse n s.
Proof.
  induction n as [|n IH]; intros pv s p; [reflexivity|].
  cbn [sub_loop collapse]. destruct s as [|c t].
  - now rewrite match_ws_none.
  - destruct (is_space c) eqn:Ec.
    + destruct (match_ws_some pv c t p Ec) as (m & Hm & Hr & Hp).
      rewrite Hm. apply Nat.ltb_lt in Hp. rewrite Hp, Hr, IH. reflexivity.
    + rewrite match_ws_none by assumption. now rewrite IH.
Qed.

Lemma collapse_hd (n : nat) (c : char) (t : str) :
  is_space c = false -> hd_error (collapse n (c :: t)) = Some c.
Proof. intros H. destruct n; simpl; [reflexivity|]. now rewrite H. Qed.

Lemma lstrip_hd (p : char -> bool) (s : str) :
  match lstrip_by p s with
  | c :: _ => p c = false
  | [] => True
  end.
Proof.
  induction s as [|c t IH]; simpl; [exact I|].
  destruct (p c) eqn:E; [assumption | simpl; assumption].
Qed.

Lemma space_is_space : is_space 32%N = true.
Proof. vm_compute. reflexivity. Qed.

Lemma collapse_norm (n : nat) :
  forall s, List.length s < n -> norm_ws (collapse n s) = true.
Proof.
  induction n as [|n IH]; intros s Hn; [lia|].
  destruct s as [|c t]; [reflexivity|]. cbn [collapse].
  destruct (is_space c) eqn:Ec.
  - cbn [norm_ws]. rewrite space_is_space, N.eqb_refl. cbn [andb].
    pose proof (lstrip_length is_space t) as Hl.
    rewrite IH by (simpl in Hn; lia). rewrite andb_true_r.
    pose proof (lstrip_hd is_space t) as Hh.
    destruct (lstrip_by is_space t) as [|c' t'] eqn:E.
    + destruct n; reflexivity.
    + pose proof (collapse_hd n c' t' Hh) as Hc.
      destruct (collapse n (c' :: t')) as [|x r]; [reflexivity|].
      simpl in Hc. inversion Hc; subst x. now rewrite Hh.
  - cbn [norm_ws]. rewrite Ec. cbn [andb]. apply IH. simpl in Hn. lia.
Qed.

Lemma collapse_id (n : nat) :
  forall s, norm_ws s = true -> collapse n s = s.
Proof.
  induction n as [|n IH]; intros s H; [reflexivity|].
  destruct s as [|c t]; [reflexivity|]. cbn [collapse].
  cbn [norm_ws] in H. apply andb_true_iff in H as [Hc Ht].
  destruct (is_space c).
  - apply andb_true_iff in Hc as [Hc Hn]. apply N.eqb_eq in Hc. subst c.
    f_equal. destruct t as [|c' t']; [now destruct n|].
    apply negb_true_iff in Hn. cbn [lstrip_by]. rewrite Hn. now apply IH.
  - f_equal. now apply IH.
Qed.

(** *** The label glued to a digit *)

(** A case-sensitive literal: it matches exactly when it stands at the head
    of what is left. *)
Lemma rmatch_lit (w : str) :
  forall st k,
    rmatch (SeqL (map (fun c => Chr (N.eqb c)) w)) st k =
    if starts_with w (rest st)
    then k (mkState (skipn (List.length w) (rest st)) (last_of (prev st) w)
                    (pos st + List.length w) (caps st))
    else None.
Proof.
  induction w as [|c w IH]; intros st k.
  - destruct st. simpl. now rewrite Nat.add_0_r.
  - assert (Hstep : rmatch (SeqL (map (fun c => Chr (N.eqb c)) (c :: w))) st k
                    = rmatch (Chr (N.eqb c)) st
                             (fun st1 => rmatch (SeqL (map (fun c => Chr (N.eqb c)) w)) st1 k)).
    { destruct w; reflexivity. }
    rewrite Hstep. cbn [rmatch]. destruct (rest st) as [|x t]; [reflexivity|].
    cbn [starts_with]. destruct (N.eqb c x) eqn:E; [|reflexivity].
    apply N.eqb_eq in E. subst x. rewrite IH. cbn [rest advance prev pos caps andb List.length skipn last_of fold_left].
    now rewrite Nat.add_succ_r.
Qed.

Lemma match_glued (pv : option char) (s : str) (p : nat) :
  match_at glued_re pv s p =
  if glued_at s
  then Some (mkMatch p (p + 15) [] (skipn 15 s) (Some 110%N))
  else None.
Proof.
  unfold match_at, glued_re, glued_at, Lit. cbn [rmatch]. rewrite rmatch_lit.
  cbn [rest prev pos caps].
  destruct (starts_with (u last_updates_on) s); [|reflexivity].
  change (List.length (u last_updates_on)) with 15. unfold Digit. cbn [rmatch rest andb].
  destruct (skipn 15 s) as [|d t]; [reflexivity|].
  destruct (is_digit d); reflexivity.
Qed.

Lemma sub_glued_unglue (n : nat) :
  forall pv s p,
    sub_loop n glued_re (fun _ => u "Last Updates On ") pv s p = unglue n s.
Proof.
  induction n as [|n IH]; intros pv s p; [reflexivity|].
  cbn [sub_loop unglue]. rewrite match_glued.
  destruct (glued_at s).
  - cbn [m_end m_rest m_last].
    replace (Nat.ltb p (p + 15)) with true by (symmetry; apply Nat.ltb_lt; lia).
    now rewrite IH.
  - destruct s as [|c t]; [reflexivity|]. now rewrite IH.
Qed.

Lemma glued_at_head (s : str) :
  glued_at s = true -> exists t, s = 76%N :: t.
Proof.
  unfold glued_at. intros H. apply andb_true_iff in H as [H _].
  destruct s as [|c t]; [discriminate|].
  change (u last_updates_on) with (76%N :: u "ast Updates On") in H.
  cbn [starts_with] in H. apply andb_true_iff in H as [H _].
  apply N.eqb_eq in H. subst c. eauto.
Qed.

Lemma unglue_hd (n : nat) (s : str) : hd_error (unglue n s) = hd_error s.
Proof.
  destruct n; [reflexivity|]. cbn [unglue].
  destruct (glued_at s) eqn:G.
  - apply glued_at_head in G as [t ->]. reflexivity.
  - destruct s; reflexivity.
Qed.

(** A prefix without [L] of the result was a prefix of the argument. *)
Lemma unglue_prefix (w : str) :
  Forall (fun x => x <> 76%N) w ->
  forall n s, starts_with w (unglue n s) = true -> starts_with w s = true.
Proof.
  induction 1 as [|x w Hx _ IH]; intros n s H; [reflexivity|].
  destruct n; [exact H|]. cbn [unglue] in H.
  destruct (glued_at s) eqn:G.
  - change (u "Last Updates On ") with (76%N :: u "ast Updates On ") in H.
    cbn [app starts_with] in H. apply andb_true_iff in H as [H _].
    apply N.eqb_eq in H. congruence.
  - destruct s as [|c t]; [discriminate|].
    cbn [starts_with] in *. apply andb_true_iff in H as [H1 H2].
    rewrite H1. cbn [andb]. eapply IH; eassumption.
Qed.

Lemma starts_with_app (a b s : str) :
  starts_with (a ++ b) s = starts_with a s && starts_with b (skipn (List.length a) s).
Proof.
  revert s; induction a as [|x a IH]; intros s; [reflexivity|].
  destruct s as [|y s]; cbn [app starts_with List.length skipn].
  - reflexivity.
  - rewrite IH. now rewrite andb_assoc.
Qed.

Lemma glued_at_spec (s : str) :
  glued_at s = true <->
  exists d, is_digit d = true /\ starts_with (u last_updates_on ++ [d]) s = true.
Proof.
  unfold glued_at. split.
  - intros H. apply andb_true_iff in H as [H1 H2].
    destruct (skipn 15 s) as [|d t] eqn:E; [discriminate|].
    exists d. split; [assumption|].
    rewrite starts_with_app, H1.
    change (List.length (u last_updates_on)) with 15. rewrite E.
    cbn [andb starts_with]. now rewrite N.eqb_refl.
  - intros (d & Hd & H). rewrite starts_with_app in H.
    apply andb_true_iff in H as [H1 H2]. rewrite H1.
    change (List.length (u last_updates_on)) with 15 in H2.
    destruct (skipn 15 s) as [|x t]; [discriminate|].
    cbn [starts_with] in H2. apply andb_true_iff in H2 as [H2 _].
    apply N.eqb_eq in H2. subst x. now rewrite Hd.
Qed.

Lemma digit_not_L (d : char) : is_digit d = true -> d <> 76%N.
Proof. intros H ->. vm_compute in H. discriminate. Qed.

(** A glued label in [c :: unglue n t] was already glued in [c :: t]. *)
Lemma unglue_no_new (n : nat) (c : char) (t : str) :
  glued_at (c :: unglue n t) = true -> glued_at (c :: t) = true.
Proof.
  rewrite !glued_at_spec. intros (d & Hd & H). exists d. split; [assumption|].
  change (u last_updates_on ++ [d]) with (76%N :: (u "ast Updates On" ++ [d])) in *.
  cbn [starts_with] in *. apply andb_true_iff in H as [H1 H2]. rewrite H1. cbn [andb].
  eapply unglue_prefix; [|eassumption].
  apply Forall_app. split.
  - repeat (constructor; [discriminate|]). constructor.
  - constructor; [now apply digit_not_L | constructor].
Qed.

Lemma no_glued_label (s : str) :
  no_glued (u "Last Updates On " ++ s) = no_glued s.
Proof.
  change (u "Last Updates On ") with
    [76; 97; 115; 116; 32; 85; 112; 100; 97; 116; 101; 115; 32; 79; 110; 32]%N.
  cbn [app]. reflexivity.
Qed.
Lemma unglue_no_glued (n : nat) :
  forall s, List.length s < n -> no_glued (unglue n s) = true.
Proof.
  induction n as [|n IH]; intros s Hn; [lia|].
  cbn [unglue]. destruct (glued_at s) eqn:G.
  - rewrite no_glued_label. apply IH.
    apply glued_at_head in G as [t ->].
    rewrite length_skipn. simpl in *. lia.
  - destruct s as [|c t]; [reflexivity|].
    cbn [no_glued]. rewrite IH by (simpl in Hn; lia). rewrite andb_true_r.
    destruct (glued_at (c :: unglue n t)) eqn:G2; [|reflexivity].
    apply unglue_no_new in G2. congruence.
Qed.

Lemma unglue_id (n : nat) :
  forall s, no_glued s = true -> unglue n s = s.
Proof.
  induction n as [|n IH]; intros s H; [reflexivity|].
  cbn [unglue]. destruct s as [|c t].
  - cbn [no_glued] in H. apply andb_true_iff in H as [H _].
    apply negb_true_iff in H. now rewrite H.
  - cbn [no_glued] in H. apply andb_true_iff in H as [H Ht].
    apply negb_true_iff in H. rewrite H. f_equal. now apply IH.
Qed.

Lemma space_chars (c : char) :
  is_space c = true ->
  In c [9; 10; 11; 12; 13; 28; 29; 30; 31; 32; 133; 160; 5760;
        8192; 8193; 8194; 8195; 8196; 8197; 8198; 8199; 8200; 8201; 8202;
        8232; 8233; 8239; 8287; 12288]%N.
Proof.
  unfold is_space, in_ranges, space_ranges. cbn [existsb fst snd].
  rewrite !orb_true_iff, !andb_true_iff, !N.leb_le. cbn [In]. lia.
Qed.

Lemma digit_not_space (d : char) : is_digit d = true -> is_space d = false.
Proof.
  intros Hd. destruct (is_space d) eqn:Hs; [|reflexivity].
  apply space_chars in Hs. cbn [In] in Hs.
  repeat (destruct Hs as [<- | Hs]; [vm_compute in Hd; discriminate|]).
  contradiction.
Qed.

Lemma starts_with_split (w s : str) :
  starts_with w s = true -> s = w ++ skipn (List.length w) s.
Proof.
  revert s; induction w as [|x w IH]; intros s H; [reflexivity|].
  destruct s as [|y s]; [discriminate|]. cbn [starts_with] in H.
  apply andb_true_iff in H as [H1 H2]. apply N.eqb_eq in H1. subst y.
  cbn [app List.length skipn]. f_equal. now apply IH.
Qed.

Lemma norm_ws_suffix (a b : str) : norm_ws (a ++ b) = true -> norm_ws b = true.
Proof.
  induction a as [|c a IH]; intros H; [exact H|].
  cbn [app norm_ws] in H. apply andb_true_iff in H as [_ H]. now apply IH.
Qed.

Lemma norm_ws_prefix (a b : str) : norm_ws (a ++ b) = true -> norm_ws a = true.
Proof.
  induction a as [|c a IH]; intros H; [reflexivity|].
  cbn [app norm_ws] in *. apply andb_true_iff in H as [Hc H].
  rewrite (IH H), andb_true_r.
  destruct (is_space c); [|reflexivity].
  apply andb_true_iff in Hc as [Hc Hn]. rewrite Hc. cbn [andb].
  destruct a as [|c' a]; [reflexivity | exact Hn].
Qed.

Lemma norm_ws_label (d : char) (s : str) :
  norm_ws (u "Last Updates On " ++ d :: s) = negb (is_space d) && norm_ws (d :: s).
Proof.
  change (u "Last Updates On ") with
    [76; 97; 115; 116; 32; 85; 112; 100; 97; 116; 101; 115; 32; 79; 110; 32]%N.
  cbn [app]. reflexivity.
Qed.

Lemma unglue_norm (n : nat) :
  forall s, norm_ws s = true -> norm_ws (unglue n s) = true.
Proof.
  induction n as [|n IH]; intros s H; [exact H|].
  cbn [unglue]. destruct (glued_at s) eqn:G.
  - apply glued_at_spec in G as (d & Hd & G).
    apply starts_with_split in G.
    rewrite length_app in G. change (List.length (u last_updates_on) + List.length [d])
      with 16 in G.
    assert (E : skipn 15 s = d :: skipn 16 s).
    { rewrite G at 1. rewrite <- app_assoc. reflexivity. }
    rewrite E.
    assert (Hn : norm_ws (d :: skipn 16 s) = true).
    { rewrite G in H. rewrite <- app_assoc in H. apply norm_ws_suffix in H. exact H. }
    pose proof (unglue_hd n (d :: skipn 16 s)) as Hh.
    pose proof (IH _ Hn) as Hi.
    destruct (unglue n (d :: skipn 16 s)) as [|x r]; [discriminate|].
    simpl in Hh. inversion Hh; subst x.
    rewrite norm_ws_label, Hi, (digit_not_space d Hd). reflexivity.
  - destruct s as [|c t]; [reflexivity|].
    cbn [norm_ws] in *. apply andb_true_iff in H as [Hc Ht].
    rewrite (IH _ Ht), andb_true_r.
    destruct (is_space c); [|reflexivity].
    apply andb_true_iff in Hc as [Hc Hn]. rewrite Hc. cbn [andb].
    pose proof (unglue_hd n t) as Hh.
    destruct (unglue n t) as [|x r], t as [|y t']; try discriminate; auto.
    simpl in Hh. now inversion Hh; subst.
Qed.

Lemma starts_with_mono (w a b : str) :
  starts_with w a = true -> starts_with w (a ++ b) = true.
Proof.
  revert a; induction w as [|x w IH]; intros a H; [reflexivity|].
  destruct a as [|y a]; [discriminate|]. cbn [app starts_with] in *.
  apply andb_true_iff in H as [H1 H2]. rewrite H1. cbn [andb]. now apply IH.
Qed.

Lemma glued_at_app (a b : str) : glued_at a = true -> glued_at (a ++ b) = true.
Proof.
  rewrite !glued_at_spec. intros (d & Hd & H). exists d. split; [assumption|].
  now apply starts_with_mono.
Qed.

Lemma no_glued_suffix (a b : str) : no_glued (a ++ b) = true -> no_glued b = true.
Proof.
  induction a as [|c a IH]; intros H; [exact H|].
  cbn [app no_glued] in H. apply andb_true_iff in H as [_ H]. now apply IH.
Qed.

Lemma no_glued_prefix (a b : str) : no_glued (a ++ b) = true -> no_glued a = true.
Proof.
  induction a as [|c a IH]; intros H; [reflexivity|].
  cbn [app no_glued] in H. apply andb_true_iff in H as [Hc H].
  cbn [no_glued]. rewrite (IH H), andb_true_r.
  apply negb_true_iff in Hc. apply negb_true_iff.
  destruct (glued_at (c :: a)) eqn:G; [|reflexivity].
  apply (glued_at_app _ b) in G. cbn [app] in G. congruence.
Qed.

(** *** Stripping *)

Lemma lstrip_suffix (p : char -> bool) (s : str) : exists a, s = a ++ lstrip_by p s.
Proof.
  induction s as [|c t [a IH]]; [now exists []|]. simpl.
  destruct (p c); [|now exists []].
  exists (c :: a). simpl. now f_equal.
Qed.

Lemma rstrip_prefix (p : char -> bool) (s : str) : exists b, s = rstrip_by p s ++ b.
Proof.
  unfold rstrip_by. destruct (lstrip_suffix p (rev s)) as [a H].
  exists (rev a). rewrite <- rev_app_distr, <- H. now rewrite rev_involutive.
Qed.

Lemma lstrip_fix (p : char -> bool) (s : str) :
  match s with
  | c :: _ => p c = false
  | [] => True
  end ->
  lstrip_by p s = s.
Proof. destruct s as [|c t]; [reflexivity|]. simpl. now intros ->. Qed.

Lemma lstrip_idem (p : char -> bool) (s : str) :
  lstrip_by p (lstrip_by p s) = lstrip_by p s.
Proof. apply lstrip_fix, lstrip_hd. Qed.

Lemma strip_idem (p : char -> bool) (s : str) :
  strip_by p (strip_by p s) = strip_by p s.
Proof.
  unfold strip_by. set (z := lstrip_by p s).
  assert (Hl : lstrip_by p (rstrip_by p z) = rstrip_by p z).
  { apply lstrip_fix. pose proof (lstrip_hd p s) as Hz. fold z in Hz.
    destruct (rstrip_prefix p z) as [b Hb].
    destruct (rstrip_by p z) as [|c r]; [exact I|].
    rewrite Hb in Hz. exact Hz. }
  rewrite Hl. unfold rstrip_by. now rewrite rev_involutive, lstrip_idem.
Qed.

Lemma norm_ws_no_nbsp (s : str) : norm_ws s = true -> replace_char 160%N 32%N s = s.
Proof.
  induction s as [|c t IH]; intros H; [reflexivity|].
  cbn [norm_ws] in H. apply andb_true_iff in H as [Hc Ht].
  unfold replace_char in *. cbn [map]. rewrite (IH Ht). f_equal.
  destruct (N.eqb c 160) eqn:E; [|reflexivity].
  apply N.eqb_eq in E. subst c. vm_compute in Hc. discriminate.
Qed.

(** What [_clean_line] returns is in normal form for each of the steps that
    follow the decoding of the entities. *)
Lemma clean_line_normal (line y : str) :
  _clean_line line = Ok y ->
  norm_ws y = true /\ no_glued y = true /\ strip_by strip_set y = y.
Proof.
  intros H. apply clean_line_Ok in H as (z0 & _ & ->).
  set (z := replace_char 160%N 32%N z0).
  set (n1 := S (List.length z)).
  set (n2 := S (List.length (collapse n1 z))).
  assert (E : re_sub glued_re (fun _ => u "Last Updates On ")
                (re_sub (Plus true Space) (fun _ => u " ") z)
              = unglue n2 (collapse n1 z)).
  { unfold re_sub. now rewrite sub_ws_collapse, sub_glued_unglue. }
  assert (H1 : norm_ws (unglue n2 (collapse n1 z)) = true).
  { apply unglue_norm, collapse_norm. unfold n1. lia. }
  assert (H2 : no_glued (unglue n2 (collapse n1 z)) = true).
  { apply unglue_no_glued. unfold n2. lia. }
  rewrite E. unfold strip_by at 1 2.
  destruct (lstrip_suffix strip_set (unglue n2 (collapse n1 z))) as [a Ha].
  destruct (rstrip_prefix strip_set (lstrip_by strip_set (unglue n2 (collapse n1 z))))
    as [b Hb].
  rewrite Ha in H1, H2. apply norm_ws_suffix in H1. apply no_glued_suffix in H2.
  rewrite Hb in H1, H2. apply norm_ws_prefix in H1. apply no_glued_prefix in H2.
  split; [exact H1|]. split; [exact H2|]. apply strip_idem.
Qed.

(** A line in normal form that [html.unescape] leaves as it is goes through
    [_clean_line] unchanged. *)
Lemma clean_line_fixed (y : str) :
  norm_ws y = true -> no_glued y = true -> strip_by strip_set y = y ->
  unescape y = Ok y -> _clean_line y = Ok y.
Proof.
  intros Hn Hg Hs Hu. unfold _clean_line. rewrite Hu. cbn [bind].
  rewrite (norm_ws_no_nbsp y Hn).
  unfold re_sub. rewrite sub_ws_collapse, (collapse_id _ y Hn).
  rewrite sub_glued_unglue, (unglue_id _ y Hg).
  now rewrite Hs.
Qed.
(** ** What a successful [strptime] has read *)

Lemma Run_lang (r : re) (st st' : state) :
  Run r st st' -> flat r = true ->
  exists w, lang r w /\ rest st = w ++ rest st' /\
            pos st' = pos st + List.length w /\ caps st' = caps st.
Proof.
  induction 1; intros F; simpl in F; try discriminate.
  - exists []. simpl. repeat split; auto.
  - exists [c]. simpl. repeat split; eauto. lia.
  - apply andb_true_iff in F as [Fa Fb].
    destruct (IHRun1 Fa) as (w1 & L1 & R1 & P1 & C1).
    destruct (IHRun2 Fb) as (w2 & L2 & R2 & P2 & C2).
    exists (w1 ++ w2). split; [simpl; eauto|].
    rewrite R1, R2, P2, P1, C2, C1, length_app, app_assoc. repeat split; auto. lia.
  - apply andb_true_iff in F as [Fa Fb].
    destruct (IHRun Fa) as (w & L & R & P & C). exists w. simpl. auto.
  - apply andb_true_iff in F as [Fa Fb].
    destruct (IHRun Fb) as (w & L & R & P & C). exists w. simpl. auto.
Qed.

Lemma Run_groupless (r : re) (st st' : state) :
  Run r st st' -> groupless r = true -> caps st' = caps st.
Proof.
  induction 1; intros G; simpl in G; try discriminate;
    try (apply andb_true_iff in G as [Ga Gb]); simpl; auto;
    rewrite IHRun2, IHRun1; auto.
Qed.

(** A group around a flat expression: the word it took and the span it set. *)
Lemma Run_flat_group (i : nat) (a : re) (st st' : state) :
  Run (Grp i a) st st' -> flat a = true ->
  exists w, lang a w /\ rest st = w ++ rest st' /\
            pos st' = pos st + List.length w /\
            caps st' = (i, (pos st, pos st + List.length w)) :: caps st.
Proof.
  intros R F. apply Run_Grp_inv in R as (st1 & R & ->).
  destruct (Run_lang _ _ _ R F) as (w & L & Hr & Hp & Hc).
  exists w. simpl. rewrite Hp, Hc. auto.
Qed.

Lemma lang_rep_chr (p : char -> bool) (n : nat) :
  forall w, lang (Rep n (Chr p)) w -> List.length w = n /\ forallb p w = true.
Proof.
  induction n as [|n IH]; intros w H; simpl in H.
  - subst. auto.
  - destruct H as (w1 & w2 & -> & (c & -> & Hc) & H2).
    apply IH in H2 as [Hl Hf]. simpl. rewrite Hc, Hf, Hl. auto.
Qed.

(** The words of the day, month and year groups. *)
Lemma lang_day (w : str) :
  lang (AltL [ Seq (Lit "3") (rng 48 49); Seq (rng 49 50) Digit;
               Seq (Lit "0") (rng 49 57); rng 49 57; Seq (Lit " ") (rng 49 57) ]) w ->
  (exists c, w = [c]) \/ (exists c d, w = [c; d] /\ is_digit d = true).
Proof.
  assert (Hr : forall lo hi d, (48 <= lo)%N -> (hi <= 57)%N ->
                               N.leb lo d && N.leb d hi = true -> is_digit d = true).
  { intros lo hi d Hlo Hhi H. apply andb_true_iff in H as [H1 H2].
    apply N.leb_le in H1, H2. apply ascii_digit_is_digit. lia. }
  cbn [AltL lang Lit SeqL map u list_ascii_of_string rng Digit].
  intros [H | [H | [H | [H | H]]]].
  - destruct H as (w1 & w2 & -> & (c & -> & _) & (d & -> & Hd)).
    right. exists c, d. split; [reflexivity|]. eapply Hr; [| |exact Hd]; lia.
  - destruct H as (w1 & w2 & -> & (c & -> & _) & (d & -> & Hd)).
    right. exists c, d. split; [reflexivity | exact Hd].
  - destruct H as (w1 & w2 & -> & (c & -> & _) & (d & -> & Hd)).
    right. exists c, d. split; [reflexivity|]. eapply Hr; [| |exact Hd]; lia.
  - destruct H as (c & -> & _). left. eauto.
  - destruct H as (w1 & w2 & -> & (c & -> & _) & (d & -> & Hd)).
    right. exists c, d. split; [reflexivity|]. eapply Hr; [| |exact Hd]; lia.
Qed.

Lemma lang_month (w : str) : lang (AltL (map LitI month_names)) w -> List.length w = 3.
Proof.
  cbn [AltL map month_names LitI SeqL u list_ascii_of_string lang].
  intros H.
  repeat (destruct H as [H | H];
          [destruct H as (? & ? & -> & (? & -> & _) & ? & ? & -> & (? & -> & _)
                          & (? & -> & _)); reflexivity|]).
  destruct H as (? & ? & -> & (? & -> & _) & ? & ? & -> & (? & -> & _) & (? & -> & _)).
  reflexivity.
Qed.

Lemma Run_dash (c : char) (st st' : state) :
  Run (Chr (N.eqb c)) st st' ->
  rest st = c :: rest st' /\ pos st' = S (pos st) /\ caps st' = caps st.
Proof.
  intros R. apply Run_Chr_inv in R as (x & t & Hr & Hx & ->).
  apply N.eqb_eq in Hx. subst x. simpl. auto.
Qed.

Lemma slice_at (a w b : str) (i j : nat) :
  i = List.length a -> j = List.length a + List.length w ->
  slice (a ++ w ++ b) i j = w.
Proof. intros -> ->. apply slice_app. Qed.

(** A string that [strptime] reads is a day of one or two characters, a
    dash, a month of three, a dash, a year of four digits, and the rest,
    which starts with white space; day, month and year of the result are
    read from these pieces. *)
Lemma strptime_inv (s : str) (r : datetime) :
  strptime s = Some r ->
  exists D L Y T,
    s = D ++ 45%N :: L ++ 45%N :: Y ++ T /\
    ((exists c, D = [c]) \/ (exists c d, D = [c; d] /\ is_digit d = true)) /\
    List.length L = 3 /\ List.length Y = 4 /\ forallb is_digit Y = true /\
    (exists c T', T = c :: T' /\ is_space c = true) /\
    py_int D = Some (day r) /\
    index_of (lower L) month_names 1 = Some (month r) /\
    py_int Y = Some (year r).
Proof.
  unfold strptime, re_match. intros H.
  destruct (match_at strptime_re None s 0) as [m|] eqn:E; [|discriminate].
  apply match_at_Run in E as (st' & R & ->). cbn [m_end m_caps] in H.
  change strptime_re
    with (Seq re_d (Seq (Chr (N.eqb 45)) (Seq re_b (Seq (Chr (N.eqb 45)) (Seq re_Y
          (Seq (Seq Space (Star true Space)) (Seq re_H (Seq (Chr (N.eqb 58)) re_M))))))))
    in R.
  apply Run_Seq_inv in R as (s1 & R1 & R).
  apply Run_Seq_inv in R as (s2 & R2 & R).
  apply Run_Seq_inv in R as (s3 & R3 & R).
  apply Run_Seq_inv in R as (s4 & R4 & R).
  apply Run_Seq_inv in R as (s5 & R5 & R).
  apply Run_Seq_inv in R as (s6 & R6 & R).
  apply Run_Seq_inv in R as (s7 & R7 & R).
  apply Run_Seq_inv in R as (s8 & R8 & R9).
  apply Run_flat_group in R1 as (D & LD & Hr1 & Hp1 & Hc1); [|reflexivity].
  apply Run_dash in R2 as (Hr2 & Hp2 & Hc2).
  apply Run_flat_group in R3 as (L & LL & Hr3 & Hp3 & Hc3); [|reflexivity].
  apply Run_dash in R4 as (Hr4 & Hp4 & Hc4).
  apply Run_flat_group in R5 as (Y & LY & Hr5 & Hp5 & Hc5); [|reflexivity].
  pose proof (Run_groupless _ _ _ R6 eq_refl) as Hc6.
  apply Run_Seq_inv in R6 as (s5' & R6a & _).
  apply Run_Chr_inv in R6a as (sp & T' & Hr6 & Hsp & _).
  apply Run_Grp_inv in R7 as (s7' & R7 & ->).
  pose proof (Run_groupless _ _ _ R7 eq_refl) as Hc7.
  apply Run_dash in R8 as (_ & _ & Hc8).
  apply Run_Grp_inv in R9 as (s9' & R9 & ->).
  pose proof (Run_groupless _ _ _ R9 eq_refl) as Hc9.
  simpl in Hr1, Hp1, Hc1, Hc8.
  apply lang_day in LD. apply lang_month in LL.
  apply lang_rep_chr in LY as [LY FY].
  assert (Hs : s = D ++ 45%N :: L ++ 45%N :: Y ++ sp :: T').
  { rewrite Hr1, Hr2, Hr3, Hr4, Hr5, Hr6. reflexivity. }
  exists D, L, Y, (sp :: T').
  assert (G1 : group s (mkMatch 0 (pos (set_cap 5 (pos s8) (pos s9') s9'))
                                (caps (set_cap 5 (pos s8) (pos s9') s9'))
                                (rest (set_cap 5 (pos s8) (pos s9') s9'))
                                (prev (set_cap 5 (pos s8) (pos s9') s9'))) 1 = Some D).
  { unfold group. cbn [m_caps caps set_cap lookup_cap Nat.eqb].
    rewrite Hc9, Hc8. cbn [caps set_cap lookup_cap Nat.eqb].
    rewrite Hc7, Hc6, Hc5, Hc4, Hc3, Hc2, Hc1. cbn [lookup_cap Nat.eqb].
    f_equal. rewrite Hs.
    apply (slice_at [] D (45%N :: L ++ 45%N :: Y ++ sp :: T')); simpl; lia. }
  assert (G2 : group s (mkMatch 0 (pos (set_cap 5 (pos s8) (pos s9') s9'))
                                (caps (set_cap 5 (pos s8) (pos s9') s9'))
                                (rest (set_cap 5 (pos s8) (pos s9') s9'))
                                (prev (set_cap 5 (pos s8) (pos s9') s9'))) 2 = Some L).
  { unfold group. cbn [m_caps caps set_cap lookup_cap Nat.eqb].
    rewrite Hc9, Hc8. cbn [caps set_cap lookup_cap Nat.eqb].
    rewrite Hc7, Hc6, Hc5, Hc4, Hc3. cbn [lookup_cap Nat.eqb].
    f_equal. rewrite Hs.
    replace (D ++ 45%N :: L ++ 45%N :: Y ++ sp :: T')
      with ((D ++ [45%N]) ++ L ++ (45%N :: Y ++ sp :: T'))
      by (rewrite <- app_assoc; reflexivity).
    apply slice_at; rewrite ?length_app; simpl; lia. }
  assert (G3 : group s (mkMatch 0 (pos (set_cap 5 (pos s8) (pos s9') s9'))
                                (caps (set_cap 5 (pos s8) (pos s9') s9'))
                                (rest (set_cap 5 (pos s8) (pos s9') s9'))
                                (prev (set_cap 5 (pos s8) (pos s9') s9'))) 3 = Some Y).
  { unfold group. cbn [m_caps caps set_cap lookup_cap Nat.eqb].
    rewrite Hc9, Hc8. cbn [caps set_cap lookup_cap Nat.eqb].
    rewrite Hc7, Hc6, Hc5. cbn [lookup_cap Nat.eqb].
    f_equal. rewrite Hs.
    replace (D ++ 45%N :: L ++ 45%N :: Y ++ sp :: T')
      with ((D ++ 45%N :: L ++ [45%N]) ++ Y ++ (sp :: T'))
      by (rewrite <- !app_assoc; simpl; rewrite <- !app_assoc; reflexivity).
    apply slice_at; rewrite ?length_app; simpl; rewrite ?length_app; simpl; lia. }
  rewrite G1, G2, G3 in H.
  destruct (negb _); [discriminate|].
  destruct (group s _ 4) as [h|]; [|discriminate].
  destruct (group s _ 5) as [mi|]; [|discriminate].
  destruct (py_int D) as [dd|]; [|discriminate].
  destruct (index_of (lower L) month_names 1) as [mm|]; [|discriminate].
  destruct (py_int Y) as [yy|]; [|discriminate].
  destruct (py_int h) as [hh|]; [|discriminate].
  destruct (py_int mi) as [mn|]; [|discriminate].
  destruct (valid_date yy mm dd); [|discriminate].
  inversion H; subst r. cbn [day month year].
  repeat split; eauto.
Qed.

(** *** Lining a date up with what [strptime] read *)

Lemma app_eq_length (a a' b b' : str) :
  List.length a = List.length a' -> a ++ b = a' ++ b' -> a = a' /\ b = b'.
Proof.
  revert a'; induction a as [|x a IH]; intros [|y a'] Hl H; simpl in *;
    try discriminate; auto.
  inversion H; subst. destruct (IH a') as [-> ->]; auto.
Qed.

Lemma dash_not_digit : is_digit 45%N = false.
Proof. vm_compute. reflexivity. Qed.

(** Day and month of two readings of the same string agree. *)
Lemma align_day_month (D L R D' L' R' : str) :
  D ++ 45%N :: L ++ 45%N :: R = D' ++ 45%N :: L' ++ 45%N :: R' ->
  ((exists c, D = [c]) \/ (exists c d, D = [c; d] /\ is_digit d = true)) ->
  ((exists c, D' = [c]) \/ (exists c d, D' = [c; d] /\ is_digit d = true)) ->
  List.length L = 3 -> List.length L' = 3 ->
  D = D' /\ L = L' /\ R = R'.
Proof.
  intros H HD HD' HL HL'.
  assert (E : D = D' /\ L ++ 45%N :: R = L' ++ 45%N :: R').
  { destruct HD as [[c ->] | (c & d & -> & Hd)];
      destruct HD' as [[c' ->] | (c' & d' & -> & Hd')]; simpl in H.
    - inversion H; subst. auto.
    - inversion H; subst. rewrite dash_not_digit in Hd'. discriminate.
    - inversion H; subst. rewrite dash_not_digit in Hd. discriminate.
    - inversion H; subst. auto. }
  destruct E as [-> E]. split; [reflexivity|].
  apply app_eq_length in E as [-> E]; [|congruence].
  inversion E; subst. auto.
Qed.

Lemma space_not_digit : is_digit 32%N = false.
Proof. vm_compute. reflexivity. Qed.

(** Four digits cannot start a string whose first four characters hold a
    space. *)
Lemma four_digits_before_space (Y T Ys tp : str) :
  List.length Y = 4 -> forallb is_digit Y = true ->
  List.length Ys < 4 ->
  Y ++ T = Ys ++ 32%N :: tp -> False.
Proof.
  intros HY FY HYs H.
  destruct Y as [|a [|b [|c [|e [|]]]]]; try discriminate.
  simpl in FY. rewrite !andb_true_iff in FY. destruct FY as (Ha & Hb & Hc & He & _).
  destruct Ys as [|a' [|b' [|c' [|e' Ys]]]]; simpl in *; try lia;
    inversion H; subst; rewrite space_not_digit in *; discriminate.
Qed.

(** What [strptime] reads after [strftime]: the year was written with four
    digits, and the date read back is the date written, whatever time
    follows it. *)
Lemma strptime_strftime_year (lu : datetime) (tp : str) (r : datetime) :
  valid_date (year lu) (month lu) (day lu) = true ->
  strptime (strftime lu ++ u " " ++ tp) = Some r ->
  (1000 <= year lu)%Z /\
  year r = year lu /\ month r = month lu /\ day r = day lu.
Proof.
  intros V H. destruct (valid_date_bounds _ _ _ V) as (Hy & Hm & Hd).
  apply strptime_inv in H
    as (D & L & Y & T & Hs & HD & HL & HY & FY & _ & PD & PL & PY).
  destruct (month_abbr_shape (month lu) Hm) as (m1 & m2 & m3 & Hshape & Hidx).
  unfold strftime in Hs. rewrite Hshape in Hs.
  change ((two_digits (day lu) ++ u "-" ++ [m1; m2; m3] ++ u "-" ++ str_of_Z (year lu))
          ++ u " " ++ tp)
    with (two_digits (day lu) ++ 45%N :: [m1; m2; m3]
          ++ 45%N :: (str_of_Z (year lu) ++ 32%N :: tp)) in Hs.
  symmetry in Hs. apply align_day_month in Hs as (-> & -> & Hs); auto.
  - destruct (Z_lt_le_dec (year lu) 1000) as [Hlt | Hge].
    + exfalso. apply (four_digits_before_space Y T (str_of_Z (year lu)) tp); auto.
      apply Nat.ltb_lt, str_of_Z_short. lia.
    + rewrite str_of_Z_four in Hs by lia.
      apply app_eq_length in Hs as [-> _]; [|assumption].
      rewrite py_int_two_digits in PD by assumption.
      rewrite four_digits_value in PY by lia.
      rewrite Hidx in PL. inversion PD. inversion PL. inversion PY. auto.
  - right. unfold two_digits. eexists _, _. split; [reflexivity|].
    apply ascii_digit_is_digit, digit_char_range.
Qed.


(** Below the year 1000 [strftime] writes fewer than four digits, and
    [strptime] does not read the date back. *)
Lemma strptime_strftime_short_year (lu : datetime) (tp : str) :
  valid_date (year lu) (month lu) (day lu) = true ->
  (year lu < 1000)%Z ->
  strptime (strftime lu ++ u " " ++ tp) = None.
Proof.
  intros V Y. destruct (strptime (strftime lu ++ u " " ++ tp)) as [r|] eqn:E; [|reflexivity].
  apply strptime_strftime_year in E as [H _]; [lia | exact V].
Qed.


(** ** Date tokens *)


Lemma lang_digits12 (D : str) : lang digits12 D -> one_or_two_digits D.
Proof.
  cbn [digits12 Range Rep UpTo Opt Nat.sub lang Digit].
  intros (w1 & w2 & -> & (w3 & w4 & -> & (c & -> & Hc) & ->) & H).
  destruct H as [(w5 & w6 & -> & (d & -> & Hd) & ->) | ->].
  - right. exists c, d. auto.
  - left. exists c. auto.
Qed.



(** A token with its year has a year for [has_year]. *)
Lemma has_year_full (dp D L Y : str) : date_shape dp D L (Some Y) -> has_year dp = true.
Proof.
  intros (HD & HL & FL & HY & FY & ->).
  destruct L as [|l1 [|l2 [|l3 [|]]]]; try discriminate.
  destruct Y as [|y1 [|y2 [|y3 [|y4 [|]]]]]; try discriminate.
  cbn [forallb] in FL, FY.
  apply andb_true_iff in FL as [F1 FL]. apply andb_true_iff in FL as [F2 FL].
  apply andb_true_iff in FL as [F3 _].
  apply andb_true_iff in FY as [G1 FY]. apply andb_true_iff in FY as [G2 FY].
  apply andb_true_iff in FY as [G3 FY]. apply andb_true_iff in FY as [G4 _].
  unfold has_year, re_match, match_at, full_date_re.
  change (Lit "-") with (Chr (N.eqb 45)).
  destruct HD as [(c & -> & Hc) | (c & d & -> & Hc & Hd)];
    cbn [app SeqL digits12 Range Rep UpTo Opt Nat.sub Digit];
    repeat progress (cbn -[is_digit is_ascii_alpha];
                     rewrite ?Hc, ?Hd, ?F1, ?F2, ?F3, ?G1, ?G2, ?G3, ?G4, ?dash_not_digit);
    reflexivity.
Qed.





(** C9.  The code of the station-and-code tier is written [[A-Z0-9]{1,6}],
    but the whole pattern is compiled with [re.I]: a lower-case code is
    accepted, and kept as it stands. *)
Theorem tier_a_accepts_lowercase_code (now : datetime) :
  parse_line now None (u "Arrived at New Delhi (ndls) 30-Dec-2025 10:00")
  = Some (mkEvent (u "Arrived at New Delhi (ndls) 30-Dec-2025 10:00")
                  (Some (u "Arrived")) (Some (u "New Delhi")) (Some (u "ndls"))
                  (Some (mkDT 2025 12 30 10 0 0 0 None)) None) /\
  forallb (fun c => is_ascii_upper c || is_ascii_digit c) (u "ndls") = false.
Proof. split; vm_compute; reflexivity. Qed.

(** ** A bare verb and the anchor *)

Lemma build_no_date_short_year (now lu : datetime) (tp : option str) :
  valid_date (year lu) (month lu) (day lu) = true ->
  (year lu < 1000)%Z ->
  _build_event_dt now None tp (Some lu) = None.
Proof.
  intros V Y. unfold _build_event_dt. cbn [truthy].
  now apply strptime_strftime_short_year.
Qed.

(** C10.  A line that reaches the bare-verb tier and holds neither a date
    token nor a time token.  With an anchor of the year 1000 or later it
    yields an event, the timestamp being the anchor's date at 00:00.  With
    an anchor before the year 1000 it yields none: [strftime] writes the
    year with fewer than four digits and [strptime] does not read it back.
    Without anchor it yields none.  The page [Last Updates On 05-Jan-0999
    10:00], [Train Departed] has an anchor and no event. *)
Theorem bare_verb_with_short_year_anchor (now : datetime) (lines : list str) (ln : str)
    (mv : mobj) :
  re_search tier_a_re ln = None ->
  re_search tier_b_re ln = None ->
  re_search tier_c_re ln = Some mv ->
  token date_re ln = None ->
  token time_re ln = None ->
  match _parse_last_update_dt lines with
  | Some lu =>
      exists w,
        group ln mv 1 = Some w /\
        parse_line now (Some lu) ln =
        if (1000 <=? year lu)%Z
        then Some (mkEvent ln (Some (title w)) None None
                           (Some (mkDT (year lu) (month lu) (day lu) 0 0 0 0 None))
                           (token delay_re ln))
        else None
  | None => parse_line now None ln = None
  end /\
  parse_train_status now [u "Last Updates On 05-Jan-0999 10:00"; u "Train Departed"]
  = Ok (mkParsed None (Some (mkDT 999 1 5 10 0 0 0 None)) []).
Proof.
  intros Ha Hb Hv Hd Ht. split; [|vm_compute; reflexivity].
  destruct (_parse_last_update_dt lines) as [lu|] eqn:Hlu.
  - destruct (verb_group ln mv Hv) as (w & Hw & _). exists w. split; [assumption|].
    rewrite (parse_line_tier_c now (Some lu) ln mv Ha Hb Hv).
    unfold line_dt. rewrite Hd, Ht.
    destruct (last_update_valid lines lu Hlu) as [_ V].
    destruct (Z.leb_spec 1000 (year lu)) as [Y | Y].
    + rewrite build_no_date_no_time by assumption. now rewrite Hw.
    + now rewrite build_no_date_short_year.
  - rewrite (parse_line_tier_c now None ln mv Ha Hb Hv).
    unfold line_dt. now rewrite Hd.
Qed.

Lemma bare_verb_with_short_year_anchor_witness :
  _parse_last_update_dt [u "Last Updates On 05-Jan-0999 10:00"]
  = Some (mkDT 999 1 5 10 0 0 0 None) /\
  parse_line (mkDT 2026 1 16 9 0 0 0 None) (Some (mkDT 999 1 5 10 0 0 0 None))
             (u "Train Departed") = None.
Proof.
  pose proof (bare_verb_with_short_year_anchor
                (mkDT 2026 1 16 9 0 0 0 None)
                [u "Last Updates On 05-Jan-0999 10:00"] (u "Train Departed")
                (mkMatch 6 14 [(1, (6, 14))] [] (Some 100%N))
                eq_refl eq_refl eq_refl eq_refl eq_refl) as [H _].
  assert (E : _parse_last_update_dt [u "Last Updates On 05-Jan-0999 10:00"]
              = Some (mkDT 999 1 5 10 0 0 0 None)) by (vm_compute; reflexivity).
  split; [exact E|]. rewrite E in H. destruct H as (w & _ & H). exact H.
Defined.
(** *** Bounds without offset *)

(** A bound that is accepted is a naive datetime or a time. *)
Lemma parse_bound_shape (lib : pylib) (clk : clock) (raw : str)
    (d : option datetime) (t : option time) :
  _parse_bound lib clk raw = Ok (d, t) ->
  (exists x, d = Some x /\ t = None /\ naive x) \/ (d = None /\ exists x, t = Some x).
Proof.
  unfold _parse_bound. intros H.
  destruct (datetime_fromisoformat lib (bound_text raw)) as [x|].
  - left. unfold _normalize_dt in H. destruct (tzinfo x) eqn:E.
    + destruct (astimezone x z (local_offset clk)); simpl in H; inversion H.
      eexists. repeat split.
    + inversion H. exists x. now repeat split.
  - right. destruct (time_fromisoformat lib (bound_text raw)) as [x|]; inversion H.
    split; eauto.
Qed.

Lemma iter_days_error (step : date -> result date) (n : nat) :
  (forall d e, step d = Raise e -> e = OverflowError) ->
  forall d e, iter_days step n d = Raise e -> e = OverflowError.
Proof.
  intros Hstep. induction n as [|n IH]; intros d e H; simpl in H; [discriminate|].
  destruct (step d) as [d'|e'] eqn:E; simpl in H.
  - eapply IH; eassumption.
  - inversion H; subst. eapply Hstep; eassumption.
Qed.

Lemma add_days_error (d : date) (n : Z) (e : exn) :
  add_days d n = Raise e -> e = OverflowError.
Proof.
  unfold add_days. destruct (0 <=? n)%Z; apply iter_days_error.
  - intros d0 e0. unfold next_day.
    destruct (_ <? _)%Z; [discriminate|]. destruct (_ <? _)%Z; [discriminate|].
    destruct (_ <? _)%Z; [discriminate|]. now inversion 1.
  - intros d0 e0. unfold prev_day.
    destruct (_ <? _)%Z; [discriminate|]. destruct (_ <? _)%Z; [discriminate|].
    destruct (_ <? _)%Z; [discriminate|]. now inversion 1.
Qed.

Lemma add_micros_error (t : datetime) (delta : Z) (e : exn) :
  add_micros t delta = Raise e -> e = OverflowError.
Proof.
  unfold add_micros. intros H.
  destruct (add_days (date_of t) ((tod_micros t + delta) / day_micros)) eqn:E;
    simpl in H; [discriminate|].
  inversion H; subst. eapply add_days_error; eassumption.
Qed.

(** Only the overflow of a conversion escapes the datetime branch. *)
Lemma normalize_error (clk : clock) (x : datetime) (e : exn) :
  _normalize_dt clk x = Raise e -> e = OverflowError.
Proof.
  unfold _normalize_dt, astimezone. destruct (tzinfo x) as [z|]; [|discriminate].
  destruct (add_micros x (- z)) as [a|e1] eqn:E1; simpl.
  - destruct (add_micros a (local_offset clk)) as [b|e2] eqn:E2; simpl; [discriminate|].
    intros H; inversion H; subst. eapply add_micros_error; eassumption.
  - intros H; inversion H; subst. eapply add_micros_error; eassumption.
Qed.

(** The validation error is raised exactly when both parsers refuse the
    bound, and it quotes the bound as it was given. *)
Lemma parse_bound_rejects (lib : pylib) (clk : clock) (raw : str) :
  (datetime_fromisoformat lib (bound_text raw) = None /\
   time_fromisoformat lib (bound_text raw) = None) <->
  _parse_bound lib clk raw = Raise (HTTPException 422 (invalid_bound_detail raw)).
Proof.
  unfold _parse_bound. split.
  - now intros [-> ->].
  - destruct (datetime_fromisoformat lib (bound_text raw)) as [x|].
    + destruct (_normalize_dt clk x) as [y|e] eqn:E; simpl; [discriminate|].
      apply normalize_error in E. subst e. discriminate.
    + destruct (time_fromisoformat lib (bound_text raw)); [discriminate | auto].
Qed.

Lemma next_day_later (d d' : date) (t t' : time) :
  next_day d = Ok d' -> naive_cmp (combine d t) (combine d' t') = Lt.
Proof.
  unfold next_day, naive_cmp, combine, fields. cbn [year month day hour minute second microsecond].
  intros H.
  destruct (d_day d <? days_in_month (d_year d) (d_month d))%Z.
  { inversion H; subst d'. cbn [lex_cmp d_year d_month d_day].
    rewrite !Z.compare_refl.
    replace (Z.compare (d_day d) (d_day d + 1)) with Lt; [reflexivity|].
    symmetry. apply Z.compare_lt_iff. lia. }
  destruct (d_month d <? 12)%Z.
  { inversion H; subst d'. cbn [lex_cmp d_year d_month d_day].
    rewrite Z.compare_refl.
    replace (Z.compare (d_month d) (d_month d + 1)) with Lt; [reflexivity|].
    symmetry. apply Z.compare_lt_iff. lia. }
  destruct (d_year d <? 9999)%Z; [|discriminate].
  inversion H; subst d'. cbn [lex_cmp d_year d_month d_day].
  replace (Z.compare (d_year d) (d_year d + 1)) with Lt; [reflexivity|].
  symmetry. apply Z.compare_lt_iff. lia.
Qed.

Lemma add_one_day (d d' : date) : next_day d = Ok d' -> add_days d 1 = Ok d'.
Proof. unfold add_days. simpl. now intros ->. Qed.

Lemma not_lt_le (a b : datetime) : is_lt (naive_cmp b a) = false -> naive_cmp a b <> Gt.
Proof.
  rewrite (naive_cmp_antisym b a). destruct (naive_cmp b a); simpl; congruence.
Qed.

(** Two bounds, no offset on a time-only bound: the resolver returns a
    naive window, built as the decision table says, with [start <= end]. *)
Lemma both_bounds_window (lib : pylib) (clk : clock) (sraw eraw : str)
    (sd ed : option datetime) (st et : option time) (tomorrow : date) :
  _parse_bound lib clk sraw = Ok (sd, st) ->
  _parse_bound lib clk eraw = Ok (ed, et) ->
  (forall t, st = Some t -> t_tzinfo t = None) ->
  (forall t, et = Some t -> t_tzinfo t = None) ->
  next_day (date_of (now clk)) = Ok tomorrow ->
  let base := match sd, ed with
              | Some d, _ => date_of d
              | None, Some d => date_of d
              | None, None => date_of (now clk)
              end in
  let start_dt := _to_datetime clk base sd st in
  let end_dt := _to_datetime clk base ed et in
  let w := if is_lt (naive_cmp end_dt start_dt)
           then match st, et with
                | Some _, Some te => (start_dt, combine tomorrow te)
                | _, _ => (end_dt, start_dt)
                end
           else (start_dt, end_dt) in
  _compute_event_window lib clk (Some sraw) (Some eraw) = Ok w /\
  naive (fst w) /\ naive (snd w) /\ naive_cmp (fst w) (snd w) <> Gt.
Proof.
  intros Hs He Hst Het Htom base start_dt end_dt w.
  unfold _compute_event_window, parse_opt_bound. rewrite Hs, He. cbn [bind].
  apply parse_bound_shape in Hs, He.
  assert (Ns : naive start_dt).
  { destruct Hs as [(x & -> & -> & Nx) | (-> & x & ->)]; [exact Nx|].
    apply (Hst x eq_refl). }
  assert (Ne : naive end_dt).
  { destruct He as [(x & -> & -> & Nx) | (-> & x & ->)]; [exact Nx|].
    apply (Het x eq_refl). }
  fold base. fold start_dt. fold end_dt.
  rewrite (dt_lt_naive _ _ Ne Ns). cbn [bind]. subst w.
  destruct (is_lt (naive_cmp end_dt start_dt)) eqn:Inv.
  - destruct Hs as [(x & -> & -> & Nx) | (-> & x & ->)];
      destruct He as [(x' & -> & -> & Nx') | (-> & x' & ->)];
      cbn [is_none is_some negb andb fst snd];
      try (repeat split; auto; destruct (naive_cmp end_dt start_dt); discriminate).
    subst base start_dt end_dt. cbn [_to_datetime] in *.
    unfold dt_add_days.
    change (date_of (combine (date_of (now clk)) x')) with (date_of (now clk)).
    rewrite (add_one_day _ _ Htom). cbn [bind fst snd].
    repeat split.
    + apply (Hst x eq_refl).
    + apply (Het x' eq_refl).
    + rewrite (next_day_later _ _ x x' Htom). discriminate.
  - cbn [fst snd]. repeat split; auto. now apply not_lt_le.
Qed.

(** ** Scenarios of the specification *)

(** The label glued to the date is set apart, and the anchor is read. *)
Example glued_anchor_line (now : datetime) :
  _clean_line (u "Last Updates On15-Jan-2026 10:00")
  = Ok (u "Last Updates On 15-Jan-2026 10:00") /\
  parse_train_status_html now (u "Last Updates On15-Jan-2026 10:00")
  = Ok (mkParsed None (Some (mkDT 2026 1 15 10 0 0 0 None)) []).
Proof. split; vm_compute; reflexivity. Qed.

(** A stale update line after a fresher one does not win; a time that is
    missing is read as 00:00. *)
Example stale_update_after_fresh :
  _parse_last_update_dt
    [ u "Last Updates On 15-Jan-2026 10:00"; u "Last Updates On 15-Jan-2026 09:40";
      u "Last Updates On 15-Jan-2026"; u "Last Updates On 31-Feb-2026 23:00" ]
  = Some (mkDT 2026 1 15 10 0 0 0 None).
Proof. vm_compute. reflexivity. Qed.

(** A line with a full date, type, station and code. *)
Example full_line_round_trip (now : datetime) :
  parse_line now None (u "Arrived at NEW DELHI (NDLS) on 15-Jan-2026 at 10:05")
  = Some (mkEvent (u "Arrived at NEW DELHI (NDLS) on 15-Jan-2026 at 10:05")
                  (Some (u "Arrived")) (Some (u "NEW DELHI")) (Some (u "NDLS"))
                  (Some (mkDT 2026 1 15 10 5 0 0 None)) None).
Proof. vm_compute. reflexivity. Qed.

(** Two time-only bounds without offset, the end before the start: the end
    moves to the next day. *)
Example nine_to_eight (lib : pylib) :
  datetime_fromisoformat lib (u "09:00") = None ->
  time_fromisoformat lib (u "09:00") = Some (mkTime 9 0 0 0 None) ->
  datetime_fromisoformat lib (u "08:00") = None ->
  time_fromisoformat lib (u "08:00") = Some (mkTime 8 0 0 0 None) ->
  _compute_event_window lib (mkClock (mkDT 2026 1 16 9 30 0 0 None) 19800000000%Z)
                        (Some (u "09:00")) (Some (u "08:00"))
  = Ok (mkDT 2026 1 16 9 0 0 0 None, mkDT 2026 1 17 8 0 0 0 None).
Proof.
  intros Hd1 Ht1 Hd2 Ht2.
  assert (Hb1 : bound_text (u "09:00") = u "09:00") by (vm_compute; reflexivity).
  assert (Hb2 : bound_text (u "08:00") = u "08:00") by (vm_compute; reflexivity).
  unfold _compute_event_window, parse_opt_bound, _parse_bound.
  rewrite Hb1, Hb2, Hd1, Ht1, Hd2, Ht2. vm_compute. reflexivity.
Qed.

(** No bound: today, from midnight to midnight. *)
Example no_bound_is_today (lib : pylib) :
  _compute_event_window lib (mkClock (mkDT 2026 1 16 9 30 0 0 None) 19800000000%Z)
                        None None
  = Ok (mkDT 2026 1 16 0 0 0 0 None, mkDT 2026 1 17 0 0 0 0 None).
Proof. vm_compute. reflexivity. Qed.

(** ** The status lines: [extract_status_lines] *)

Lemma seen_In (m : str) (seen : list str) :
  existsb (str_eqb m) seen = true <-> In m seen.
Proof.
  rewrite existsb_exists. split.
  - intros [x [Hx E]]. apply str_eqb_eq in E. now subst.
  - intros H. exists m. split; [assumption | apply str_eqb_refl].
Qed.

Lemma uniq_lines_In (l : list str) :
  forall seen x, In x (uniq_lines seen l) <-> In x l /\ ~ In x seen.
Proof.
  induction l as [|m l IH]; intros seen x; simpl; [tauto|].
  destruct (existsb (str_eqb m) seen) eqn:E.
  - apply seen_In in E. rewrite IH. split.
    + tauto.
    + intros [[-> | H] Hn]; tauto.
  - assert (Hm : ~ In m seen) by (rewrite <- seen_In; congruence).
    simpl. rewrite IH. simpl. split.
    + intros [<- | [H Hn]]; [tauto|]. split; [tauto|]. intros Hs. apply Hn. now right.
    + intros [[-> | H] Hn]; [now left|].
      destruct (list_eq_dec N.eq_dec m x) as [-> | Hne]; [now left|].
      right. split; [assumption|]. intros [-> | Hs]; tauto.
Qed.

Lemma uniq_lines_NoDup (l : list str) : forall seen, NoDup (uniq_lines seen l).
Proof.
  induction l as [|m l IH]; intros seen; simpl; [constructor|].
  destruct (existsb (str_eqb m) seen); [apply IH|].
  constructor; [|apply IH].
  rewrite uniq_lines_In. intros [_ H]. apply H. now left.
Qed.

Lemma uniq_lines_subseq (l : list str) : forall seen, Subseq (uniq_lines seen l) l.
Proof.
  induction l as [|m l IH]; intros seen; simpl; [constructor|].
  destruct (existsb (str_eqb m) seen); constructor; apply IH.
Qed.

Lemma Subseq_trans {A : Type} (a b c : list A) : Subseq a b -> Subseq b c -> Subseq a c.
Proof.
  intros Hab Hbc. revert a Hab.
  induction Hbc as [|x l l' H IH|x l l' H IH]; intros a Hab.
  - inversion Hab; subst. constructor.
  - inversion Hab; subst.
    + constructor. now apply IH.
    + apply Subseq_drop. now apply IH.
  - apply Subseq_drop. now apply IH.
Qed.

(** After a carriage return, a line feed is skipped with it. *)
Lemma skip_lf_length (c : char) (t : str) :
  List.length (match c, t with
               | 13%N, 10%N :: t' => t'
               | _, _ => t
               end) <= List.length t.
Proof.
  repeat match goal with
         | |- context [match ?x with _ => _ end] => destruct x
         end; simpl; lia.
Qed.

(** The lines of [splitlines] hold no line boundary. *)
Lemma splitlines_from_clean (n : nat) :
  forall s cur,
    List.length s <= n ->
    forallb (fun c => negb (is_linebreak c)) cur = true ->
    forall l, In l (splitlines_from cur s) ->
              forallb (fun c => negb (is_linebreak c)) l = true.
Proof.
  assert (Hrev : forall cur, forallb (fun c => negb (is_linebreak c)) cur = true ->
                             forallb (fun c => negb (is_linebreak c)) (rev cur) = true).
  { intros cur H. rewrite forallb_forall in *. intros x Hx. apply H. now apply in_rev. }
  induction n as [|n IH]; intros s cur Hn Hcur l Hl.
  - destruct s; [|simpl in Hn; lia]. simpl in Hl.
    destruct cur; [contradiction|]. destruct Hl as [<- | []]. now apply Hrev.
  - destruct s as [|c t]; simpl in Hl.
    + destruct cur; [contradiction|]. destruct Hl as [<- | []]. now apply Hrev.
    + simpl in Hn. destruct (is_linebreak c) eqn:E.
      * destruct Hl as [<- | Hl]; [now apply Hrev|].
        apply (IH _ []) in Hl; [assumption| |reflexivity].
        apply (Nat.le_trans _ (List.length t)); [exact (skip_lf_length c t) | lia].
      * apply (IH t (c :: cur)) in Hl; [assumption | lia |].
        simpl. now rewrite E, Hcur.
Qed.

Lemma strip_by_keeps (p q : char -> bool) (s : str) :
  forallb q s = true -> forallb q (strip_by p s) = true.
Proof.
  intros H. unfold strip_by.
  destruct (lstrip_suffix p s) as [a Ha].
  destruct (rstrip_prefix p (lstrip_by p s)) as [b Hb].
  rewrite Ha, Hb in H. rewrite !forallb_app in H.
  apply andb_true_iff in H as [_ H]. now apply andb_true_iff in H as [H _].
Qed.

(** X1.  The status lines are pairwise different, in the order of the
    text, and they are exactly the lines of the tag-free text that, once
    stripped, are not empty and hold one of the keywords, case ignored.  No
    status line starts or ends with white space or holds a line boundary. *)
Theorem status_lines_distinct_keyword_lines (html_text : str) :
  let text_lines := map strip (splitlines (_strip_html html_text)) in
  let out := extract_status_lines html_text in
  NoDup out /\ Subseq out text_lines /\
  (forall ln, In ln out <->
              In ln text_lines /\ ln <> [] /\
              exists kw, In kw keywords /\ contains (lower (u kw)) (lower ln) = true) /\
  (forall ln, In ln out ->
              strip ln = ln /\ forallb (fun c => negb (is_linebreak c)) ln = true).
Proof.
  intros text_lines out.
  assert (Hin : forall ln, In ln out <->
              In ln text_lines /\ ln <> [] /\
              exists kw, In kw keywords /\ contains (lower (u kw)) (lower ln) = true).
  { intros ln. unfold out, extract_status_lines. fold text_lines.
    rewrite uniq_lines_In, !filter_In, existsb_exists. split.
    - intros [[[H1 H2] H3] _]. split; [exact H1|]. split; [|exact H3].
      intros ->. discriminate.
    - intros [H1 [H2 H3]]. split; [|intros []].
      split; [split; [exact H1|] | exact H3].
      destruct ln; [congruence | reflexivity]. }
  split; [apply uniq_lines_NoDup|]. split.
  { unfold out, extract_status_lines. fold text_lines.
    eapply Subseq_trans; [apply uniq_lines_subseq|].
    eapply Subseq_trans; apply filter_subseq. }
  split; [exact Hin|].
  intros ln H. apply Hin in H as [H _]. unfold text_lines in H.
  apply in_map_iff in H as [l [<- Hl]]. split.
  - apply strip_idem.
  - apply strip_by_keeps.
    apply (splitlines_from_clean (List.length (_strip_html html_text))
                                 (_strip_html html_text) []); auto.
Qed.
(** ** The matcher finds a match when there is one: expressions with stars *)

Lemma Run_length (r : re) (st st' : state) :
  Run r st st' -> List.length (rest st') <= List.length (rest st).
Proof.
  intros R. apply Run_Reach in R as (w & new & Hr & _). rewrite Hr, length_app. lia.
Qed.

Lemma Run_consumes (r : re) (st st' : state) :
  Run r st st' -> nonnull r = true ->
  List.length (rest st') < List.length (rest st).
Proof.
  induction 1; intros N; simpl in N; try discriminate.
  - rewrite H. simpl. lia.
  - apply Run_length in H as L1. apply Run_length in H0 as L2.
    apply orb_true_iff in N as [N | N]; [specialize (IHRun1 N) | specialize (IHRun2 N)]; lia.
  - apply andb_true_iff in N as [N _]. auto.
  - apply andb_true_iff in N as [_ N]. auto.
  - simpl. auto.
Qed.

Lemma Run_Ahead_inv (a : re) (st st' : state) :
  Run (Ahead a) st st' -> exists st1, Run a st st1 /\ st' = with_caps st (caps st1).
Proof. inversion 1; subst; eauto. Qed.

Lemma star_loop_complete (g : bool) (a : re) :
  (forall st st' k, Run a st st' -> k st' <> None -> rmatch a st k <> None) ->
  nonnull a = true ->
  forall st st',
    Run (Star g a) st st' ->
    forall k n, List.length (rest st) <= n -> k st' <> None ->
                star_loop (rmatch a) g k n st <> None.
Proof.
  intros Hbody Hnn st st' R. remember (Star g a) as r eqn:Er.
  induction R; inversion Er; subst; intros k n Hn Hk.
  - destruct n; simpl; [exact Hk|]. destruct g.
    + now destruct (rmatch a st _).
    + now destruct (k st).
  - pose proof (Run_consumes _ _ _ R1 Hnn) as Hlt.
    destruct n as [|n]; [lia|]. simpl.
    assert (Hb : rmatch a st (star_loop (rmatch a) g k n) <> None).
    { apply (Hbody st st1); [assumption|]. apply IHR2; [reflexivity | lia | assumption]. }
    destruct g.
    + now destruct (rmatch a st _).
    + now destruct (k st).
Qed.

Lemma rmatch_complete_tame (r : re) :
  tame r = true ->
  forall st st' k, Run r st st' -> k st' <> None -> rmatch r st k <> None.
Proof.
  induction r; intros T st st' k R Hk; simpl in T; cbn [rmatch].
  - apply Run_Eps_inv in R. now subst.
  - apply Run_Chr_inv in R as (c & t & Hr & Hp & ->). now rewrite Hr, Hp.
  - apply andb_true_iff in T as [Ta Tb].
    apply Run_Seq_inv in R as (st1 & R1 & R2).
    apply (IHr1 Ta st st1); [assumption|]. now apply (IHr2 Tb st1 st').
  - apply andb_true_iff in T as [Ta Tb].
    apply Run_Alt_inv in R as [R | R].
    + specialize (IHr1 Ta st st' k R Hk). now destruct (rmatch r1 st k).
    + destruct (rmatch r1 st k); [discriminate|]. now apply (IHr2 Tb st st').
  - apply andb_true_iff in T as [Tn Ta].
    apply (star_loop_complete greedy r (IHr Ta) Tn st st'); auto.
  - apply Run_Grp_inv in R as (st1 & R & ->).
    now apply (IHr T st st1).
  - apply andb_true_iff in T as [Tg Ta].
    apply Run_Ahead_inv in R as (st1 & R & ->).
    destruct (rmatch r st Some) as [x|] eqn:E.
    + apply rmatch_sound in E as (x' & Rx & Ex). inversion Ex; subst x'.
      rewrite (Run_groupless _ _ _ Rx Tg).
      now rewrite <- (Run_groupless _ _ _ R Tg).
    + exfalso. now apply (IHr Ta st st1 Some R).
  - apply Run_Bnd_inv in R as [-> H]. now rewrite H.
  - apply Run_Eos_inv in R as [-> H]. now rewrite H.
Qed.

(** A match at a position, from a run. *)
Lemma match_at_complete (r : re) (pv : option char) (s : str) (p : nat) (st' : state) :
  tame r = true -> Run r (mkState s pv p []) st' -> match_at r pv s p <> None.
Proof.
  intros T R. unfold match_at.
  pose proof (rmatch_complete_tame r T _ _ Some R) as H.
  destruct (rmatch r _ Some); [discriminate|]. exfalso. apply H; [discriminate | reflexivity].
Qed.

(** *** Stars of a single class *)

Lemma Run_star_chr (g : bool) (p : char -> bool) (st st' : state) :
  Run (Star g (Chr p)) st st' ->
  exists w, forallb p w = true /\ rest st = w ++ rest st' /\
            st' = mkState (rest st') (last_of (prev st) w)
                          (pos st + List.length w) (caps st).
Proof.
  intros R. remember (Star g (Chr p)) as r eqn:Er.
  induction R; inversion Er; subst.
  - exists []. destruct st. simpl. rewrite Nat.add_0_r. auto.
  - apply Run_Chr_inv in R1 as (c & t & Hr & Hp & ->).
    destruct (IHR2 eq_refl) as (w & Hw & Hr2 & Hst). simpl in *.
    exists (c :: w). simpl. rewrite Hp, Hw, Hr, Hr2. repeat split.
    rewrite Hst at 1. f_equal. lia.
Qed.

Lemma star_chr_Run (g : bool) (p : char -> bool) (w : str) :
  forall st t,
    forallb p w = true -> rest st = w ++ t ->
    Run (Star g (Chr p)) st
        (mkState t (last_of (prev st) w) (pos st + List.length w) (caps st)).
Proof.
  induction w as [|c w IH]; intros st t Hw Hr.
  - destruct st. simpl in *. subst. rewrite Nat.add_0_r. constructor.
  - simpl in Hw. apply andb_true_iff in Hw as [Hc Hw].
    eapply Run_StarS.
    + constructor; [exact Hr | exact Hc].
    + specialize (IH (advance c (w ++ t) st) t Hw eq_refl). simpl in IH.
      cbn [List.length last_of fold_left].
      replace (pos st + S (List.length w)) with (S (pos st + List.length w)) by lia.
      exact IH.
Qed.

(** *** Groups that an expression does not set *)

Lemma Run_grp_free (i : nat) (r : re) (st st' : state) :
  Run r st st' -> grp_free i r = true ->
  lookup_cap i (caps st') = lookup_cap i (caps st).
Proof.
  induction 1; intros F; simpl in F; auto.
  - apply andb_true_iff in F as [Fa Fb]. now rewrite IHRun2, IHRun1.
  - apply andb_true_iff in F as [Fa Fb]. auto.
  - apply andb_true_iff in F as [Fa Fb]. auto.
  - now rewrite IHRun2, IHRun1.
  - apply andb_true_iff in F as [Fn Fa]. simpl.
    apply negb_true_iff in Fn. rewrite Fn. auto.
Qed.
(** ** Tags: [_strip_html] *)

Lemma after_char_split (c : char) (s r : str) :
  after_char c s = Some r <->
  exists w, s = w ++ c :: r /\ forallb (fun x => negb (N.eqb x c)) w = true.
Proof.
  revert r. induction s as [|x t IH]; intros r; simpl.
  - split; [discriminate|]. intros [[|? ?] [H _]]; discriminate.
  - destruct (N.eqb x c) eqn:E.
    + apply N.eqb_eq in E. subst x. split.
      * intros H. inversion H; subst. now exists [].
      * intros [[|y w] [H Hw]]; simpl in *.
        -- now inversion H.
        -- inversion H; subst y. now rewrite N.eqb_refl in Hw.
    + rewrite IH. split.
      * intros [w [-> Hw]]. exists (x :: w). simpl. now rewrite E, Hw.
      * intros [[|y w] [H Hw]]; simpl in *.
        -- inversion H; subst. now rewrite N.eqb_refl in E.
        -- inversion H; subst. apply andb_true_iff in Hw as [_ Hw]. eauto.
Qed.

Lemma after_char_length (c : char) (s r : str) :
  after_char c s = Some r -> List.length r < List.length s.
Proof.
  intros H. apply after_char_split in H as [w [-> _]]. rewrite length_app. simpl. lia.
Qed.

Lemma after_char_none (c : char) (s : str) :
  after_char c s = None <-> mem_char c s = false.
Proof.
  unfold mem_char. induction s as [|x t IH]; simpl; [tauto|].
  rewrite (N.eqb_sym c x). destruct (N.eqb x c); simpl; [split; discriminate | exact IH].
Qed.

Lemma tag_end_length (s r : str) : tag_end s = Some r -> List.length r + 3 <= List.length s.
Proof.
  unfold tag_end. destruct s as [|c [|x t]]; try discriminate.
  destruct (_ && _); [|discriminate]. intros H. apply after_char_length in H. simpl. lia.
Qed.

(** The runs of the tag pattern. *)
Lemma Run_tag (s : str) (pv : option char) (p : nat) (cs : list (nat * (nat * nat)))
    (st' : state) :
  Run tag_re (mkState s pv p cs) st' ->
  exists r, tag_end s = Some r /\
            st' = mkState r (Some 62%N) (p + (List.length s - List.length r)) cs.
Proof.
  intros R.
  change tag_re with (Seq (Chr (N.eqb 60))
                          (Seq (Seq (Chr (fun c => negb (N.eqb c 62)))
                                    (Star true (Chr (fun c => negb (N.eqb c 62)))))
                               (Chr (N.eqb 62)))) in R.
  apply Run_Seq_inv in R as (st1 & R1 & R).
  apply Run_Seq_inv in R as (st3 & R & R4).
  apply Run_Seq_inv in R as (st2 & R2 & R3).
  apply Run_Chr_inv in R1 as (c & t & Hr & Hc & ->). simpl in Hr. subst s.
  apply Run_Chr_inv in R2 as (x & t2 & Hr & Hx & ->). simpl in Hr. subst t.
  apply Run_star_chr in R3 as (w & Hw & Hr & Hst). simpl in Hr, Hst.
  apply Run_Chr_inv in R4 as (e & t4 & Hr4 & He & ->).
  apply N.eqb_eq in Hc, He. subst c e. rewrite Hr4 in Hr. subst t2.
  exists t4. split.
  - unfold tag_end. simpl. rewrite Hx. simpl. apply after_char_split. now exists w.
  - rewrite Hst. unfold advance. cbn [rest prev pos caps]. f_equal.
    cbn [List.length]. rewrite length_app. cbn [List.length]. lia.
Qed.

Lemma tag_Run (s r : str) (pv : option char) (p : nat) :
  tag_end s = Some r -> exists st', Run tag_re (mkState s pv p []) st'.
Proof.
  unfold tag_end. destruct s as [|c [|x t]]; try discriminate.
  destruct (N.eqb c 60) eqn:Ec; [|discriminate].
  destruct (negb (N.eqb x 62)) eqn:Ex; [|discriminate]. simpl.
  intros H. apply after_char_split in H as [w [-> Hw]].
  apply N.eqb_eq in Ec. subst c.
  change tag_re with (Seq (Chr (N.eqb 60))
                          (Seq (Seq (Chr (fun c => negb (N.eqb c 62)))
                                    (Star true (Chr (fun c => negb (N.eqb c 62)))))
                               (Chr (N.eqb 62)))).
  eexists. econstructor; [now constructor|].
  econstructor; [econstructor; [now constructor|]|].
  - apply (star_chr_Run true _ w); [exact Hw | reflexivity].
  - now constructor.
Qed.

Lemma match_tag (pv : option char) (s : str) (p : nat) :
  match_at tag_re pv s p =
  match tag_end s with
  | Some r => Some (mkMatch p (p + (List.length s - List.length r)) [] r (Some 62%N))
  | None => None
  end.
Proof.
  destruct (match_at tag_re pv s p) as [m|] eqn:E.
  - apply match_at_Run in E as (st' & R & ->).
    apply Run_tag in R as (r & -> & ->). reflexivity.
  - destruct (tag_end s) as [r|] eqn:T; [|reflexivity].
    destruct (tag_Run s r pv p T) as [st' R].
    now apply match_at_complete in R.
Qed.

Lemma sub_tags_scan (n : nat) :
  forall pv s p, sub_loop n tag_re (fun _ => []) pv s p = strip_tags n s.
Proof.
  induction n as [|n IH]; intros pv s p; [reflexivity|].
  simpl. rewrite match_tag. destruct (tag_end s) as [r|] eqn:T.
  - apply tag_end_length in T. cbn [m_end m_rest m_last].
    replace (p <? p + (List.length s - List.length r)) with true
      by (symmetry; apply Nat.ltb_lt; lia).
    simpl. apply IH.
  - destruct s; [reflexivity|]. now rewrite IH.
Qed.

Lemma strip_tags_plain (n : nat) :
  forall s, mem_char 62%N s = false -> strip_tags n s = s.
Proof.
  induction n as [|n IH]; intros s H; [reflexivity|]. simpl.
  assert (T : tag_end s = None).
  { unfold tag_end. destruct s as [|c [|x t]]; try reflexivity.
    destruct (_ && _); [|reflexivity]. apply after_char_none.
    unfold mem_char in *. simpl in H. apply orb_false_iff in H as [_ H].
    now apply orb_false_iff in H as [_ H]. }
  rewrite T. destruct s as [|c t]; [reflexivity|]. f_equal. apply IH.
  unfold mem_char in *. simpl in H. now apply orb_false_iff in H as [_ H].
Qed.

Lemma strip_tags_no_tag (n : nat) :
  forall s, List.length s < n -> no_tag (strip_tags n s) = true.
Proof.
  induction n as [|n IH]; intros s Hn; [lia|]. simpl.
  destruct (tag_end s) as [r|] eqn:T.
  - apply IH. apply tag_end_length in T. lia.
  - destruct s as [|c t]; [reflexivity|]. simpl in Hn.
    assert (Ht : no_tag (strip_tags n t) = true) by (apply IH; lia).
    cbn [no_tag]. fold no_tag. rewrite Ht.
    enough (E : tag_end (c :: strip_tags n t) = None) by now rewrite E.
    unfold tag_end in T |- *.
    destruct t as [|x t'].
    { destruct n; reflexivity. }
    destruct (N.eqb c 60); [|now destruct (strip_tags n (x :: t'))].
    destruct (N.eqb x 62) eqn:Ex.
    + apply N.eqb_eq in Ex. subst x.
      destruct n as [|n']; [simpl in Hn; lia|].
      cbn [strip_tags].
      assert (E : tag_end (@cons char 62%N t') = None)
        by (unfold tag_end; destruct t'; reflexivity).
      rewrite E. reflexivity.
    + simpl in T. apply after_char_none in T.
      rewrite strip_tags_plain.
      * rewrite Ex. simpl. now apply after_char_none.
      * unfold mem_char in *. cbn [existsb]. rewrite (N.eqb_sym 62 x), Ex. exact T.
Qed.

Lemma no_tag_search (s : str) :
  no_tag s = true -> forall pv p, search_from tag_re pv s p = None.
Proof.
  induction s as [|c t IH]; intros H pv p; cbn [search_from]; rewrite match_tag;
    cbn [no_tag] in H; fold no_tag in H.
  - now destruct (tag_end []).
  - destruct (tag_end (c :: t)); [discriminate|]. now apply IH.
Qed.

(** *** A substitution by the empty string only deletes *)

Lemma Subseq_refl {A : Type} (l : list A) : Subseq l l.
Proof. induction l; now constructor. Qed.

Lemma Subseq_suffix {A : Type} (w l l' : list A) : Subseq l l' -> Subseq l (w ++ l').
Proof. induction w; simpl; [auto|]. intros H. apply Subseq_drop. auto. Qed.

Lemma sub_deletes (r : re) (n : nat) :
  forall pv s p, Subseq (sub_loop n r (fun _ => []) pv s p) s.
Proof.
  induction n as [|n IH]; intros pv s p; simpl; [apply Subseq_refl|].
  destruct (match_at r pv s p) as [m|] eqn:E.
  - destruct (p <? m_end m).
    + simpl. apply match_at_Run in E as (st' & R & ->). simpl.
      apply Run_Reach in R as (w & new & Hr & _). simpl in Hr. rewrite Hr.
      apply Subseq_suffix, IH.
    + destruct s; simpl; constructor. apply IH.
  - destruct s; constructor. apply IH.
Qed.

(** X2.  [_strip_html] only deletes characters, and it leaves no tag
    [<...>] behind: one pass is enough. *)
Theorem strip_html_leaves_no_tag (html_text : str) :
  Subseq (_strip_html html_text) html_text /\
  re_search tag_re (_strip_html html_text) = None.
Proof.
  unfold _strip_html, re_sub. split.
  - eapply Subseq_trans; [apply sub_deletes|].
    eapply Subseq_trans; apply sub_deletes.
  - rewrite sub_tags_scan. apply no_tag_search. apply strip_tags_no_tag. lia.
Qed.
(** *** Literals *)

Lemma Forall2_map_l {A B C : Type} (f : A -> B) (P : B -> C -> Prop) (l : list A) :
  forall w, Forall2 P (map f l) w <-> Forall2 (fun a c => P (f a) c) l w.
Proof.
  induction l as [|a l IH]; intros w; simpl.
  - split; inversion 1; constructor.
  - split; inversion 1; subst; constructor; auto; now apply IH.
Qed.

Lemma Run_LitI_chars (s : string) (st st' : state) :
  Run (LitI s) st st' ->
  exists w, Forall2 (fun a c => ci a c = true) (u s) w /\
            rest st = w ++ rest st' /\
            st' = mkState (rest st') (last_of (prev st) w)
                          (pos st + List.length w) (caps st).
Proof.
  unfold LitI. rewrite <- (map_map ci Chr). intros R.
  apply Run_chars_state in R as (w & F & Hr & Hst).
  exists w. split; [now apply Forall2_map_l in F | auto].
Qed.

Lemma Run_Lit_chars (s : string) (st st' : state) :
  Run (Lit s) st st' ->
  rest st = u s ++ rest st' /\
  st' = mkState (rest st') (last_of (prev st) (u s))
                (pos st + List.length (u s)) (caps st).
Proof.
  unfold Lit. rewrite <- (map_map N.eqb Chr). intros R.
  apply Run_chars_state in R as (w & F & Hr & Hst).
  apply Forall2_map_l in F.
  assert (E : u s = w).
  { clear -F. induction F as [|a c l w H F IH]; [reflexivity|].
    apply N.eqb_eq in H. now subst. }
  rewrite E. auto.
Qed.

(** A character that is no letter matches itself only under [re.I]. *)
Lemma ci_plain (a c : char) :
  is_ascii_alpha a = false -> ci a c = true -> c = a.
Proof.
  unfold ci, is_ascii_alpha, fold_extra, ascii_lower, is_ascii_upper, is_ascii_lower.
  intros Ha H.
  apply orb_false_iff in Ha as [Hu Hl].
  rewrite Hu in H.
  destruct (N.eqb a 105) eqn:E1; [apply N.eqb_eq in E1; subst; discriminate|].
  destruct (N.eqb a 115) eqn:E2; [apply N.eqb_eq in E2; subst; discriminate|].
  destruct (N.eqb a 107) eqn:E3; [apply N.eqb_eq in E3; subst; discriminate|].
  simpl in H. rewrite orb_false_r in H.
  destruct (N.leb 65 c && N.leb c 90) eqn:Ec; apply N.eqb_eq in H; [|assumption].
  apply andb_true_iff in Ec as [H1 H2]. apply N.leb_le in H1, H2.
  apply andb_false_iff in Hl. destruct Hl as [Hl | Hl]; apply N.leb_gt in Hl; lia.
Qed.

(** *** Text without [<] *)

Lemma sub_loop_no_match (r : re) (repl : mobj -> str) (n : nat) :
  forall pv s p,
    (forall pv' p' a b, s = a ++ b -> match_at r pv' b p' = None) ->
    sub_loop n r repl pv s p = s.
Proof.
  induction n as [|n IH]; intros pv s p H; [reflexivity|]. simpl.
  rewrite (H pv p [] s eq_refl). destruct s as [|c t]; [reflexivity|].
  f_equal. apply IH. intros pv' p' a b E. apply (H pv' p' (c :: a) b).
  now rewrite E.
Qed.

Lemma no_lt_no_match (r : re) (s : str) :
  (forall st st', Run r st st' -> exists t, rest st = 60%N :: t) ->
  mem_char 60%N s = false ->
  forall pv' p' a b, s = a ++ b -> match_at r pv' b p' = None.
Proof.
  intros Hr Hs pv' p' a b E.
  destruct (match_at r pv' b p') as [m|] eqn:M; [|reflexivity].
  apply match_at_Run in M as (st' & R & _).
  apply Hr in R as [t Ht]. simpl in Ht. subst.
  assert (In 60%N (a ++ 60%N :: t)) by (apply in_or_app; right; now left).
  apply mem_char_In in H. congruence.
Qed.

Lemma script_starts (tag close : string) (st st' : state) :
  Run (SeqL [LitI (String "<" tag); Star false Any; Lit ">"; Star false Any; LitI close])
      st st' ->
  exists t, rest st = 60%N :: t.
Proof.
  cbn [SeqL]. intros R. apply Run_Seq_inv in R as (st1 & R & _).
  apply Run_LitI_chars in R as (w & F & Hr & _).
  change (u (String "<" tag)) with (60%N :: u tag) in F.
  inversion F as [|a c l w' Hc F']; subst.
  apply ci_plain in Hc; [|reflexivity]. subst c. simpl in Hr. eauto.
Qed.

Lemma tag_starts (st st' : state) : Run tag_re st st' -> exists t, rest st = 60%N :: t.
Proof.
  unfold tag_re. cbn [SeqL]. intros R. apply Run_Seq_inv in R as (st1 & R & _).
  apply Run_Lit_chars in R as [Hr _]. simpl in Hr. eauto.
Qed.

(** X3.  A text without [<] goes through [_strip_html] unchanged. *)
Theorem strip_html_keeps_plain_text (html_text : str) :
  mem_char 60%N html_text = false -> _strip_html html_text = html_text.
Proof.
  intros H. unfold _strip_html, re_sub.
  rewrite (sub_loop_no_match script_re) by (apply no_lt_no_match; [apply script_starts | exact H]).
  rewrite (sub_loop_no_match style_re) by (apply no_lt_no_match; [apply script_starts | exact H]).
  apply sub_loop_no_match, no_lt_no_match; [apply tag_starts | exact H].
Qed.

Lemma strip_html_keeps_plain_text_witness :
  _strip_html (u "Arrived at NEW DELHI (NDLS) > 10:05") =
  u "Arrived at NEW DELHI (NDLS) > 10:05".
Proof.
  apply (strip_html_keeps_plain_text (u "Arrived at NEW DELHI (NDLS) > 10:05")).
  reflexivity.
Defined.
(** ** The start date: [_parse_start_date] *)

(** What a match of the start-date pattern has read: the label, a colon
    with white space around it, and the date, which is group 1. *)
Lemma start_date_match (ln : str) (m : mobj) :
  re_search start_date_re ln = Some m ->
  exists pre lbl s1 s2 d post D L Y,
    ln = pre ++ (lbl ++ s1 ++ 58%N :: s2) ++ d ++ post /\
    Forall2 (fun a c => ci a c = true) (u "Start Date") lbl /\
    forallb is_space s1 = true /\ forallb is_space s2 = true /\
    group ln m 1 = Some d /\
    d = D ++ 45%N :: L ++ 45%N :: Y /\
    one_or_two_digits D /\
    List.length L = 3 /\ forallb is_alpha_i L = true /\
    List.length Y = 4 /\ forallb is_digit Y = true.
Proof.
  intros H. apply re_search_inv in H
    as (pre & w & st' & Hln & Hstart & Hend & R & Hrest & Hpos & Hcaps).
  unfold start_date_re in R. cbn [SeqL] in R.
  apply Run_Seq_inv in R as (st1 & R1 & R).
  apply Run_Seq_inv in R as (st2 & R2 & R).
  apply Run_Seq_inv in R as (st3 & R3 & R).
  apply Run_Seq_inv in R as (st4 & R4 & R5).
  apply Run_LitI_chars in R1 as (lbl & Fl & Hr1 & Hst1).
  apply Run_star_chr in R2 as (s1 & Hs1 & Hr2 & Hst2).
  apply Run_Lit_chars in R3 as (Hr3 & Hst3).
  apply Run_star_chr in R4 as (s2 & Hs2 & Hr4 & Hst4).
  apply Run_flat_group in R5 as (d & Ld & Hr5 & Hp5 & Hc5); [|reflexivity].
  simpl in Hr1.
  assert (Hp4 : pos st4 = List.length pre + List.length lbl + List.length s1 + 1
                          + List.length s2).
  { rewrite Hst4. cbn [pos]. rewrite Hst3. cbn [pos]. rewrite Hst2. cbn [pos].
    rewrite Hst1. cbn [pos]. reflexivity. }
  assert (Hc4 : caps st4 = []).
  { rewrite Hst4. cbn [caps]. rewrite Hst3. cbn [caps]. rewrite Hst2. cbn [caps].
    rewrite Hst1. reflexivity. }
  assert (Hw : w ++ m_rest m = (lbl ++ s1 ++ 58%N :: s2) ++ d ++ m_rest m).
  { rewrite Hr1, Hr2, Hr3, Hr4, Hr5, Hrest. simpl. rewrite <- !app_assoc. simpl.
    reflexivity. }
  cbn [SeqL lang] in Ld.
  destruct Ld as (D & w1 & -> & HD & Ld). apply lang_digits12 in HD.
  change (Lit "-") with (Chr (N.eqb 45)) in Ld. cbn [lang] in Ld.
  destruct Ld as (w2 & w3 & -> & (c & -> & Hc) & L & w4 & -> & HL & w5 & Y & -> &
                  (c' & -> & Hc') & HY).
  apply N.eqb_eq in Hc, Hc'. subst c c'.
  apply lang_rep_chr in HL as [HL FL]. apply lang_rep_chr in HY as [HY FY].
  exists pre, lbl, s1, s2, (D ++ [45%N] ++ L ++ [45%N] ++ Y), (m_rest m), D, L, Y.
  split; [now rewrite Hln, Hw|]. split; [assumption|].
  split; [assumption|]. split; [assumption|]. split.
  - unfold group. rewrite <- Hcaps, Hc5. simpl lookup_cap.
    rewrite Hln, Hw, app_assoc. apply f_equal.
    apply slice_at; rewrite Hp4, !length_app; cbn [List.length];
      rewrite ?length_app; cbn [List.length]; unfold str, char in *; lia.
  - repeat split; auto.
Qed.

(** X4.  The start date is the date text of the first line that holds
    the label [Start Date], a colon and a date of the shape
    [d-Mon-yyyy] or [dd-Mon-yyyy] (label and month in any case); it is not
    checked to be a calendar date.  It is absent exactly when no line has a
    match. *)
Theorem start_date_is_first_match (lines : list str) :
  match _parse_start_date lines with
  | Some d =>
      exists l1 ln l2 pre lbl s1 s2 post D L Y,
        lines = l1 ++ ln :: l2 /\
        Forall (fun l => re_search start_date_re l = None) l1 /\
        ln = pre ++ (lbl ++ s1 ++ 58%N :: s2) ++ d ++ post /\
        Forall2 (fun a c => ci a c = true) (u "Start Date") lbl /\
        forallb is_space s1 = true /\ forallb is_space s2 = true /\
        d = D ++ 45%N :: L ++ 45%N :: Y /\
        one_or_two_digits D /\
        List.length L = 3 /\ forallb is_alpha_i L = true /\
        List.length Y = 4 /\ forallb is_digit Y = true
  | None => Forall (fun l => re_search start_date_re l = None) lines
  end.
Proof.
  induction lines as [|ln lines IH]; simpl; [constructor|].
  destruct (re_search start_date_re ln) as [m|] eqn:E.
  - destruct (start_date_match ln m E)
      as (pre & lbl & s1 & s2 & d & post & D & L & Y & Hln & Fl & Hs1 & Hs2 & Hg & Hd & H).
    rewrite Hg. exists [], ln, lines, pre, lbl, s1, s2, post, D, L, Y.
    repeat split; try tauto. constructor.
  - destruct (_parse_start_date lines) as [d|].
    + destruct IH as (l1 & ln' & l2 & pre & lbl & s1 & s2 & post & D & L & Y & Hl & Hn & H).
      exists (ln :: l1), ln', l2, pre, lbl, s1, s2, post, D, L, Y.
      split; [now rewrite Hl|]. split; [now constructor | exact H].
    + now constructor.
Qed.
(** ** The anchor does not depend on the order of the lines *)

Lemma candidate_naive (lines : list str) (x : datetime) :
  In x (candidates lines) -> naive x.
Proof.
  intros H. apply candidates_In in H as (ln & _ & H).
  unfold last_update_candidate in H.
  destruct (re_search last_update_re ln); [|discriminate].
  destruct (group ln m 1); [|discriminate].
  now apply strptime_naive in H.
Qed.

(** A candidate that no candidate exceeds is the anchor. *)
Lemma anchor_unique (lines : list str) (x : datetime) :
  In x (candidates lines) ->
  (forall y, In y (candidates lines) -> naive_cmp y x <> Gt) ->
  _parse_last_update_dt lines = Some x.
Proof.
  intros Hx Hmax. unfold _parse_last_update_dt.
  destruct (candidates lines) as [|b l] eqn:E; [contradiction|].
  f_equal. rewrite <- E in *.
  assert (Hm : In (max_from b l) (candidates lines)) by (rewrite E; apply max_from_In).
  assert (H1 : naive_cmp x (max_from b l) <> Gt) by (apply max_from_ge; now rewrite <- E).
  specialize (Hmax _ Hm).
  symmetry. apply naive_cmp_eq.
  - now apply (candidate_naive lines).
  - now apply (candidate_naive lines).
  - rewrite (naive_cmp_antisym x (max_from b l)) in Hmax.
    destruct (naive_cmp x (max_from b l)); simpl in *; congruence.
Qed.

Lemma anchor_spec (lines : list str) (x : datetime) :
  _parse_last_update_dt lines = Some x ->
  In x (candidates lines) /\
  forall y, In y (candidates lines) -> naive_cmp y x <> Gt.
Proof.
  unfold _parse_last_update_dt.
  destruct (candidates lines) as [|b l] eqn:E; [discriminate|].
  intros H. inversion H; subst x. split; [apply max_from_In|].
  intros y Hy. now apply max_from_ge.
Qed.

Lemma anchor_none (lines : list str) :
  _parse_last_update_dt lines = None <-> candidates lines = [].
Proof.
  unfold _parse_last_update_dt. destruct (candidates lines); split; congruence.
Qed.

(** X5.  The anchor depends on the set of the lines only, not on their
    order or on repetitions; and the anchor of two lists of lines put
    together is the later of their anchors. *)
Theorem last_update_ignores_line_order :
  (forall l l', (forall ln, In ln l <-> In ln l') ->
                _parse_last_update_dt l = _parse_last_update_dt l') /\
  (forall l1 l2,
      _parse_last_update_dt (l1 ++ l2) =
      match _parse_last_update_dt l1, _parse_last_update_dt l2 with
      | Some a, Some b => Some (match naive_cmp b a with Gt => b | _ => a end)
      | Some a, None => Some a
      | None, o => o
      end).
Proof.
  split.
  - intros l l' Hset.
    assert (Hc : forall x, In x (candidates l) <-> In x (candidates l')).
    { intros x. rewrite !candidates_In. split; intros (ln & Hin & H); exists ln;
        (split; [now apply Hset | assumption]). }
    destruct (_parse_last_update_dt l) as [x|] eqn:E.
    + apply anchor_spec in E as [Hx Hmax]. symmetry. apply anchor_unique.
      * now apply Hc.
      * intros y Hy. apply Hmax. now apply Hc.
    + symmetry. apply anchor_none. apply anchor_none in E.
      destruct (candidates l') as [|y t] eqn:E'; [reflexivity|].
      assert (H : In y (candidates l)) by (apply Hc; now left).
      rewrite E in H. contradiction.
  - intros l1 l2.
    destruct (_parse_last_update_dt l1) as [a|] eqn:E1;
      destruct (_parse_last_update_dt l2) as [b|] eqn:E2.
    + apply anchor_spec in E1 as [Ha Hma]. apply anchor_spec in E2 as [Hb Hmb].
      apply anchor_unique; rewrite candidates_app.
      * apply in_or_app. destruct (naive_cmp b a); auto.
      * intros y Hy. apply in_app_or in Hy as [Hy | Hy].
        -- specialize (Hma y Hy). destruct (naive_cmp b a) eqn:E; try assumption.
           eapply naive_le_trans; [exact Hma|].
           rewrite (naive_cmp_antisym b a), E. discriminate.
        -- specialize (Hmb y Hy). destruct (naive_cmp b a) eqn:E; try assumption;
             (eapply naive_le_trans; [exact Hmb|]; rewrite E; discriminate).
    + apply anchor_spec in E1 as [Ha Hma]. apply anchor_none in E2.
      apply anchor_unique; rewrite candidates_app, E2, app_nil_r; assumption.
    + apply anchor_spec in E2 as [Hb Hmb]. apply anchor_none in E1.
      apply anchor_unique; rewrite candidates_app, E1; assumption.
    + apply anchor_none in E1, E2. apply anchor_none.
      now rewrite candidates_app, E1, E2.
Qed.
(** ** Groups and the subject *)

Lemma Sync_init (pre suf : str) (pv : option char) (cs : list (nat * (nat * nat))) :
  Sync (pre ++ suf) (mkState suf pv (List.length pre) cs).
Proof. now exists pre. Qed.

Lemma Sync_start (s : str) (pv : option char) (cs : list (nat * (nat * nat))) :
  Sync s (mkState s pv 0 cs).
Proof. now exists []. Qed.

Lemma Sync_Run (s : str) (r : re) (st st' : state) :
  Sync s st -> Run r st st' -> Sync s st'.
Proof.
  intros (a & Hs & Hp) R. apply Run_Reach in R as (w & new & Hr & Hp' & _).
  exists (a ++ w). rewrite Hs, Hr, Hp', Hp, length_app, app_assoc. auto.
Qed.

(** A group: the word it took is the slice of the subject that the group
    records. *)
Lemma Run_Grp_word (s : str) (i : nat) (a : re) (st st' : state) :
  Sync s st -> Run (Grp i a) st st' ->
  exists w st1,
    Run a st st1 /\ st' = set_cap i (pos st) (pos st1) st1 /\
    rest st = w ++ rest st1 /\
    lookup_cap i (caps st') = Some (pos st, pos st1) /\
    slice s (pos st) (pos st1) = w.
Proof.
  intros (pre & Hs & Hp) R. apply Run_Grp_inv in R as (st1 & R & ->).
  pose proof (Run_Reach _ _ _ R) as (w & new & Hr & Hp' & _).
  exists w, st1. repeat split; auto.
  - simpl. now rewrite Nat.eqb_refl.
  - rewrite Hs, Hr, Hp', Hp. apply slice_app.
Qed.

(** The group of a match object, from the state the match ended in. *)
Lemma group_of_caps (s : str) (m : mobj) (i a b : nat) :
  lookup_cap i (m_caps m) = Some (a, b) -> group s m i = Some (slice s a b).
Proof. unfold group. now intros ->. Qed.
(** ** The hour and the minute that [strptime] reads *)

Lemma digit_value_lt (c : char) : (digit_value c < 10)%N.
Proof.
  unfold digit_value. destruct (find _ digit_ranges); [|lia].
  apply N.mod_lt. discriminate.
Qed.

Lemma py_int_one (a : char) :
  is_digit a = true -> py_int [a] = Some (Z.of_N (digit_value a)).
Proof.
  intros Ha. unfold py_int, strip_by, rstrip_by. cbn [lstrip_by].
  rewrite (digit_not_space a Ha). cbn [rev app lstrip_by].
  rewrite (digit_not_space a Ha). cbn [rev app forallb fold_left].
  now rewrite Ha.
Qed.

Lemma py_int_two (a b : char) :
  is_digit a = true -> is_digit b = true ->
  py_int [a; b] = Some (Z.of_N (digit_value a) * 10 + Z.of_N (digit_value b))%Z.
Proof.
  intros Ha Hb. unfold py_int, strip_by, rstrip_by. cbn [lstrip_by].
  rewrite (digit_not_space a Ha). cbn [rev app lstrip_by].
  rewrite (digit_not_space b Hb). cbn [rev app forallb fold_left].
  now rewrite Ha, Hb.
Qed.

Lemma rng_digit (lo hi c : N) :
  (48 <= lo)%N -> (hi <= 57)%N -> N.leb lo c && N.leb c hi = true ->
  is_digit c = true /\ (lo - 48 <= digit_value c <= hi - 48)%N.
Proof.
  intros Hlo Hhi H. apply andb_true_iff in H as [H1 H2]. apply N.leb_le in H1, H2.
  split; [apply ascii_digit_is_digit; lia|].
  rewrite ascii_digit_value by lia. lia.
Qed.

Ltac some_eq P :=
  match type of P with
  | Some ?a = Some ?b =>
      let E := fresh "E" in
      assert (E : a = b)
        by exact (f_equal (fun o => match o with Some z => z | None => a end) P);
      clear P
  end.

Lemma lang_hour (w : str) (h : Z) :
  lang (AltL [ Seq (Lit "2") (rng 48 51); Seq (rng 48 49) Digit; Digit ]) w ->
  py_int w = Some h -> (0 <= h <= 23)%Z.
Proof.
  change (Lit "2") with (Chr (N.eqb 50)). cbn [AltL lang rng Digit].
  intros [H | [H | H]] P.
  - destruct H as (w1 & w2 & -> & (c & -> & Hc) & (d & -> & Hd)).
    apply N.eqb_eq in Hc. subst c.
    apply rng_digit in Hd as [Hd Hv]; [|lia|lia].
    cbn [app] in P. rewrite py_int_two in P by (auto; apply ascii_digit_is_digit; lia).
    rewrite (ascii_digit_value 50%N) in P by lia. some_eq P. lia.
  - destruct H as (w1 & w2 & -> & (c & -> & Hc) & (d & -> & Hd)).
    apply rng_digit in Hc as [Hc Hv]; [|lia|lia].
    cbn [app] in P. rewrite py_int_two in P by auto. some_eq P.
    pose proof (digit_value_lt d). lia.
  - destruct H as (d & -> & Hd). rewrite py_int_one in P by auto. some_eq P.
    pose proof (digit_value_lt d). lia.
Qed.

Lemma lang_minute (w : str) (m : Z) :
  lang (AltL [ Seq (rng 48 53) Digit; Digit ]) w ->
  py_int w = Some m -> (0 <= m <= 59)%Z.
Proof.
  cbn [AltL lang rng Digit]. intros [H | H] P.
  - destruct H as (w1 & w2 & -> & (c & -> & Hc) & (d & -> & Hd)).
    apply rng_digit in Hc as [Hc Hv]; [|lia|lia].
    cbn [app] in P. rewrite py_int_two in P by auto. some_eq P.
    pose proof (digit_value_lt d). lia.
  - destruct H as (d & -> & Hd). rewrite py_int_one in P by auto. some_eq P.
    pose proof (digit_value_lt d). lia.
Qed.

Lemma strptime_time (s : str) (r : datetime) :
  strptime s = Some r -> (0 <= hour r <= 23)%Z /\ (0 <= minute r <= 59)%Z.
Proof.
  unfold strptime, re_match. intros H.
  destruct (match_at strptime_re None s 0) as [m|] eqn:E; [|discriminate].
  apply match_at_Run in E as (st' & R & ->).
  pose proof (Sync_start s None []) as S0.
  assert (R' : exists s5 s6 s7 s8,
             Run (Seq re_d (Seq (Chr (N.eqb 45)) (Seq re_b (Seq (Chr (N.eqb 45)) re_Y))))
                 (mkState s None 0 []) s5 /\
             Run (Seq Space (Star true Space)) s5 s6 /\
             Run re_H s6 s7 /\ Run (Chr (N.eqb 58)) s7 s8 /\ Run re_M s8 st').
  { change strptime_re
      with (Seq re_d (Seq (Chr (N.eqb 45)) (Seq re_b (Seq (Chr (N.eqb 45)) (Seq re_Y
            (Seq (Seq Space (Star true Space)) (Seq re_H (Seq (Chr (N.eqb 58)) re_M))))))))
      in R.
    apply Run_Seq_inv in R as (s1 & R1 & R).
    apply Run_Seq_inv in R as (s2 & R2 & R).
    apply Run_Seq_inv in R as (s3 & R3 & R).
    apply Run_Seq_inv in R as (s4 & R4 & R).
    apply Run_Seq_inv in R as (s5 & R5 & R).
    apply Run_Seq_inv in R as (s6 & R6 & R).
    apply Run_Seq_inv in R as (s7 & R7 & R).
    apply Run_Seq_inv in R as (s8 & R8 & R9).
    exists s5, s6, s7, s8. repeat split; auto.
    repeat (econstructor; eauto). }
  clear R. destruct R' as (s5 & s6 & s7 & s8 & R5 & R6 & R7 & R8 & R9).
  pose proof (Sync_Run _ _ _ _ (Sync_Run _ _ _ _ S0 R5) R6) as S6.
  pose proof (Sync_Run _ _ _ _ (Sync_Run _ _ _ _ S6 R7) R8) as S8.
  destruct (Run_Grp_word s 4 _ _ _ S6 R7) as (wh & s7' & Rh & -> & Hrh & Hlh & Hsh).
  destruct (Run_Grp_word s 5 _ _ _ S8 R9) as (wm & s9' & Rm & -> & Hrm & Hlm & Hsm).
  assert (G4 : lookup_cap 4 (caps (set_cap 5 (pos s8) (pos s9') s9'))
               = Some (pos s6, pos s7')).
  { rewrite <- Hlh. cbn [caps set_cap lookup_cap Nat.eqb].
    rewrite (Run_groupless _ _ _ Rm eq_refl).
    apply (Run_grp_free 4 _ _ _ R8 eq_refl). }
  apply Run_lang in Rh as (wh' & Lh & Hrh' & _); [|reflexivity].
  rewrite Hrh in Hrh'. apply app_inv_tail in Hrh'. subst wh'.
  apply Run_lang in Rm as (wm' & Lm & Hrm' & _); [|reflexivity].
  rewrite Hrm in Hrm'. apply app_inv_tail in Hrm'. subst wm'.
  unfold group in H. cbn [m_end m_caps] in H. rewrite G4, Hlm, Hsh, Hsm in H.
  destruct (negb _); [discriminate|].
  destruct (lookup_cap 1 _) as [[a1 b1]|]; [|discriminate].
  destruct (lookup_cap 2 _) as [[a2 b2]|]; [|discriminate].
  destruct (lookup_cap 3 _) as [[a3 b3]|]; [|discriminate].
  set (d := slice s a1 b1) in H. set (b := slice s a2 b2) in H.
  set (y := slice s a3 b3) in H.
  destruct (py_int d) as [dd|]; [|discriminate].
  destruct (index_of (lower b) month_names 1) as [mm|]; [|discriminate].
  destruct (py_int y) as [yy|]; [|discriminate].
  destruct (py_int wh) as [hh|] eqn:Ph; [|discriminate].
  destruct (py_int wm) as [mn|] eqn:Pm; [|discriminate].
  destruct (valid_date yy mm dd); [|discriminate].
  inversion H; subst r. cbn [hour minute].
  split; [eapply lang_hour | eapply lang_minute]; eassumption.
Qed.

Lemma build_dt_calendar (now : datetime)
    (date_part time_part : option str) (last_update_dt : option datetime)
    (r : datetime) :
  _build_event_dt now date_part time_part last_update_dt = Some r ->
  naive r /\ valid_datetime r = true /\ second r = 0%Z /\ microsecond r = 0%Z.
Proof.
  intros H.
  assert (S : exists s, strptime s = Some r).
  { unfold _build_event_dt in H. destruct (truthy date_part); [eauto|].
    destruct last_update_dt; [eauto | discriminate]. }
  destruct S as [s S].
  destruct (strptime_naive s r S) as (N & V & Hs & Hu).
  destruct (strptime_time s r S) as (Hh & Hm).
  repeat split; auto.
  unfold valid_datetime, valid_tod. rewrite V, Hs, Hu. simpl.
  repeat (apply andb_true_iff; split); apply Z.leb_le; lia.
Qed.

(** X6.  Whatever the tokens and the anchor, a timestamp that
    [_build_event_dt] returns is a naive datetime of the calendar, with hour
    and minute in range and no seconds. *)
Theorem event_timestamp_is_calendar_minute (now : datetime)
    (date_part time_part : option str) (last_update_dt : option datetime)
    (r : datetime) :
  _build_event_dt now date_part time_part last_update_dt = Some r ->
  naive r /\ valid_datetime r = true /\ second r = 0%Z /\ microsecond r = 0%Z.
Proof. apply build_dt_calendar. Qed.

Lemma event_timestamp_is_calendar_minute_witness :
  _build_event_dt (mkDT 2026 3 1 8 0 0 0 None) (Some (u "20-Jan")) (Some (u "10:30"))
                  (Some (mkDT 2026 1 15 10 0 0 0 None))
  = Some (mkDT 2026 1 20 10 30 0 0 None) /\
  naive (mkDT 2026 1 20 10 30 0 0 None) /\
  valid_datetime (mkDT 2026 1 20 10 30 0 0 None) = true.
Proof.
  assert (E : _build_event_dt (mkDT 2026 3 1 8 0 0 0 None) (Some (u "20-Jan"))
                              (Some (u "10:30")) (Some (mkDT 2026 1 15 10 0 0 0 None))
              = Some (mkDT 2026 1 20 10 30 0 0 None)) by (vm_compute; reflexivity).
  split; [exact E|].
  destruct (event_timestamp_is_calendar_minute _ _ _ _ _ E) as (N & V & _).
  split; assumption.
Defined.
(** ** The verb of an event *)

Lemma ci_cases (a c : char) :
  ci a c = true ->
  c = ascii_lower a \/ c = (ascii_lower a - 32)%N \/ In c (fold_extra (ascii_lower a)).
Proof.
  unfold ci. intros H. apply orb_true_iff in H as [H | H].
  - apply N.eqb_eq in H. unfold ascii_lower at 1 in H.
    destruct (is_ascii_upper c); [right; left; lia | now left].
  - right. right. now apply mem_char_In.
Qed.

(** The spellings that [re.I] accepts for the two verbs, title-cased. *)
Lemma title_departed (w : str) :
  Forall2 (fun a c => ci a c = true) (u "Departed") w -> title w = u "Departed".
Proof.
  intros F.
  repeat match goal with
         | H : Forall2 _ _ _ |- _ => inversion H; clear H; subst
         end.
  repeat match goal with
         | H : ci _ _ = true |- _ =>
             apply ci_cases in H; simpl in H; destruct H as [-> | [-> | []]]
         end; reflexivity.
Qed.

Lemma title_arrived (w : str) :
  Forall2 (fun a c => ci a c = true) (u "Arrived") w ->
  (mem_char 304%N w = false -> mem_char 305%N w = false -> title w = u "Arrived") /\
  (title w = u "Arrived" \/
   title w = [65; 114; 114; 105; 775; 118; 101; 100]%N \/
   title w = [65; 114; 114; 305; 118; 101; 100]%N).
Proof.
  intros F.
  repeat match goal with
         | H : Forall2 _ _ _ |- _ => inversion H; clear H; subst
         end.
  repeat match goal with
         | H : ci _ _ = true |- _ =>
             apply ci_cases in H; simpl in H;
             first [ destruct H as [-> | [-> | [<- | [<- | []]]]]
                   | destruct H as [-> | [-> | []]] ]
         end;
    (split;
     [ intros H1 H2;
       first [ reflexivity
             | vm_compute in H1; discriminate
             | vm_compute in H2; discriminate ]
     | first [ left; reflexivity
             | right; left; reflexivity
             | right; right; reflexivity ] ]).
Qed.

Lemma mem_char_app (c : char) (a b : str) :
  mem_char c (a ++ b) = mem_char c a || mem_char c b.
Proof. unfold mem_char. apply existsb_app. Qed.

(** Every tier starts with the verb between two word boundaries; what
    follows sets other groups. *)
Lemma verb_of_match (rest_re : re) (ln : str) (m : mobj) :
  grp_free 1 rest_re = true ->
  re_search (Seq Bnd (Seq verb rest_re)) ln = Some m ->
  exists pre w post,
    ln = pre ++ w ++ post /\ group ln m 1 = Some w /\
    (Forall2 (fun a c => ci a c = true) (u "Departed") w \/
     Forall2 (fun a c => ci a c = true) (u "Arrived") w).
Proof.
  intros G H. apply re_search_inv in H
    as (pre & w0 & st' & Hln & Hstart & Hend & R & Hrest & Hpos & Hcaps).
  pose proof (Sync_init pre (w0 ++ m_rest m) (last_of None pre) []) as S0.
  rewrite <- Hln in S0.
  apply Run_Seq_inv in R as (st1 & R1 & R).
  apply Run_Bnd_inv in R1 as [-> _].
  apply Run_Seq_inv in R as (st2 & R2 & R3).
  destruct (Run_Grp_word ln 1 _ _ _ S0 R2) as (w & st3 & Rv & -> & Hr & Hl & Hs).
  exists pre, w, (rest st3). simpl in Hr. split; [now rewrite Hln, Hr|]. split.
  - unfold group. rewrite <- Hcaps, (Run_grp_free 1 _ _ _ R3 G), Hl. now rewrite Hs.
  - apply Run_Alt_inv in Rv as [Rv | Rv];
      apply Run_LitI_chars in Rv as (w' & F & Hr' & _); simpl in Hr';
      rewrite Hr in Hr'; apply app_inv_tail in Hr'; subst w'; auto.
Qed.

(** The type of an event, whichever tier the verb comes from. *)
Lemma verb_title (rest_re : re) (ln : str) (m : mobj) :
  grp_free 1 rest_re = true ->
  re_search (Seq Bnd (Seq verb rest_re)) ln = Some m ->
  exists ty,
    opt_map_str title (group ln m 1) = Some ty /\
    (mem_char 304%N ln = false -> mem_char 305%N ln = false ->
     ty = u "Departed" \/ ty = u "Arrived") /\
    (ty = u "Departed" \/ ty = u "Arrived" \/
     ty = [65; 114; 114; 105; 775; 118; 101; 100]%N \/
     ty = [65; 114; 114; 305; 118; 101; 100]%N).
Proof.
  intros G H. destruct (verb_of_match rest_re ln m G H) as (pre & w & post & Hln & Hg & F).
  exists (title w). rewrite Hg. split; [reflexivity|].
  destruct F as [F | F].
  - rewrite (title_departed w F). auto.
  - destruct (title_arrived w F) as [H1 H2]. split; [|tauto].
    intros N1 N2. right. rewrite Hln, !mem_char_app in N1, N2.
    apply orb_false_iff in N1 as [_ N1]. apply orb_false_iff in N1 as [N1 _].
    apply orb_false_iff in N2 as [_ N2]. apply orb_false_iff in N2 as [N2 _].
    auto.
Qed.
(** ** The fields of an event *)

Lemma lang_upto_chr (p : char -> bool) (n : nat) :
  forall w, lang (UpTo n (Chr p)) w -> List.length w <= n /\ forallb p w = true.
Proof.
  induction n as [|n IH]; intros w H; simpl in H.
  - subst. auto.
  - destruct H as [(w1 & w2 & -> & (c & -> & Hc) & H2) | ->]; [|simpl; split; [lia | auto]].
    apply IH in H2 as [Hl Hf]. simpl. rewrite Hc, Hf. split; [lia | auto].
Qed.

Lemma lang_range_chr (p : char -> bool) (lo hi : nat) (w : str) :
  lang (Range lo hi (Chr p)) w ->
  lo <= List.length w <= lo + (hi - lo) /\ forallb p w = true.
Proof.
  unfold Range. cbn [lang]. intros (w1 & w2 & -> & H1 & H2).
  apply lang_rep_chr in H1 as [L1 F1]. apply lang_upto_chr in H2 as [L2 F2].
  rewrite length_app, forallb_app, F1, F2. split; [lia | reflexivity].
Qed.

Lemma Run_plus_chr (g : bool) (p : char -> bool) (st st' : state) :
  Run (Plus g (Chr p)) st st' ->
  exists w, w <> [] /\ forallb p w = true /\ rest st = w ++ rest st'.
Proof.
  unfold Plus. intros R. apply Run_Seq_inv in R as (st1 & R1 & R2).
  apply Run_Chr_inv in R1 as (c & t & Hr & Hc & ->).
  apply Run_star_chr in R2 as (w & Hw & Hr2 & _). simpl in Hr2.
  exists (c :: w). simpl. rewrite Hc, Hw, Hr, Hr2. repeat split. discriminate.
Qed.

Lemma strip_by_id (p : char -> bool) (s : str) :
  forallb (fun c => negb (p c)) s = true -> strip_by p s = s.
Proof.
  intros H. unfold strip_by, rstrip_by.
  assert (L : forall t, forallb (fun c => negb (p c)) t = true -> lstrip_by p t = t).
  { intros t Ht. apply lstrip_fix. destruct t as [|c t]; [exact I|].
    simpl in Ht. apply andb_true_iff in Ht as [Hc _]. now apply negb_true_iff in Hc. }
  rewrite (L s H), L, rev_involutive; [reflexivity|].
  rewrite forallb_forall in *. intros x Hx. apply H. now apply in_rev.
Qed.

Lemma code_not_space (c : char) : code_char c = true -> is_space c = false.
Proof.
  unfold code_char, is_alpha_i, is_ascii_alpha, is_ascii_digit, is_ascii_upper,
    is_ascii_lower, mem_char. cbn [existsb]. intros H.
  apply in_ranges_false. unfold space_ranges.
  repeat match type of H with
         | (_ || _) = true => apply orb_true_iff in H as [H | H]
         | (_ && _) = true =>
             let H1 := fresh in let H2 := fresh in
             apply andb_true_iff in H as [H1 H2]; apply N.leb_le in H1, H2
         | N.eqb _ _ = true => apply N.eqb_eq in H
         | false = true => discriminate
         end;
    repeat (constructor; [simpl; lia|]); constructor.
Qed.

(** The delay of a line: one to five characters, digits and colons. *)
Lemma delay_shape (ln d : str) :
  token delay_re ln = Some d ->
  1 <= List.length d <= 5 /\
  forallb (fun c => is_ascii_digit c || N.eqb c 58) d = true.
Proof.
  unfold token. intros H.
  destruct (re_search delay_re ln) as [m|] eqn:E; [|discriminate].
  apply re_search_inv in E
    as (pre & w0 & st' & Hln & Hstart & Hend & R & Hrest & Hpos & Hcaps).
  pose proof (Sync_init pre (w0 ++ m_rest m) (last_of None pre) []) as S0.
  rewrite <- Hln in S0.
  unfold delay_re in R. cbn [SeqL] in R.
  apply Run_Seq_inv in R as (st1 & R1 & R). pose proof (Sync_Run _ _ _ _ S0 R1) as S1.
  apply Run_Seq_inv in R as (st2 & R2 & R). pose proof (Sync_Run _ _ _ _ S1 R2) as S2.
  apply Run_Seq_inv in R as (st3 & R3 & R). pose proof (Sync_Run _ _ _ _ S2 R3) as S3.
  apply Run_Seq_inv in R as (st4 & R4 & R). pose proof (Sync_Run _ _ _ _ S3 R4) as S4.
  apply Run_Seq_inv in R as (st5 & R5 & R). pose proof (Sync_Run _ _ _ _ S4 R5) as S5.
  apply Run_Seq_inv in R as (st6 & R6 & R7).
  destruct (Run_Grp_word ln 1 _ _ _ S5 R6) as (w & st6' & Rw & -> & Hr & Hl & Hs).
  unfold group in H.
  rewrite <- Hcaps, (Run_grp_free 1 _ _ _ R7 eq_refl), Hl, Hs in H.
  inversion H; subst d.
  apply Run_lang in Rw as (w' & L & Hr' & _); [|reflexivity].
  rewrite Hr in Hr'. apply app_inv_tail in Hr'. subst w'.
  apply lang_range_chr in L. simpl in L. exact L.
Qed.

(** The station and the code of the first tier. *)
Lemma tier_a_groups (ln : str) (m : mobj) :
  re_search tier_a_re ln = Some m ->
  exists s c,
    group ln m 2 = Some s /\ group ln m 3 = Some c /\
    s <> [] /\ forallb not_paren s = true /\
    1 <= List.length c <= 6 /\ forallb code_char c = true.
Proof.
  intros E. apply re_search_inv in E
    as (pre & w0 & st' & Hln & Hstart & Hend & R & Hrest & Hpos & Hcaps).
  pose proof (Sync_init pre (w0 ++ m_rest m) (last_of None pre) []) as S0.
  rewrite <- Hln in S0.
  unfold tier_a_re in R. cbn [SeqL] in R.
  apply Run_Seq_inv in R as (st1 & R1 & R). pose proof (Sync_Run _ _ _ _ S0 R1) as S1.
  apply Run_Seq_inv in R as (st2 & R2 & R). pose proof (Sync_Run _ _ _ _ S1 R2) as S2.
  apply Run_Seq_inv in R as (st3 & R3 & R). pose proof (Sync_Run _ _ _ _ S2 R3) as S3.
  apply Run_Seq_inv in R as (st4 & R4 & R). pose proof (Sync_Run _ _ _ _ S3 R4) as S4.
  apply Run_Seq_inv in R as (st5 & R5 & R). pose proof (Sync_Run _ _ _ _ S4 R5) as S5.
  apply Run_Seq_inv in R as (st6 & R6 & R). pose proof (Sync_Run _ _ _ _ S5 R6) as S6.
  apply Run_Seq_inv in R as (st7 & R7 & R). pose proof (Sync_Run _ _ _ _ S6 R7) as S7.
  pose proof (Run_grp_free 2 _ _ _ R eq_refl) as K2.
  apply Run_Seq_inv in R as (st8 & R8 & R). pose proof (Sync_Run _ _ _ _ S7 R8) as S8.
  apply Run_Seq_inv in R as (st9 & R9 & R). pose proof (Sync_Run _ _ _ _ S8 R9) as S9.
  apply Run_Seq_inv in R as (st10 & R10 & R). pose proof (Sync_Run _ _ _ _ S9 R10) as S10.
  apply Run_Seq_inv in R as (st11 & R11 & R).
  pose proof (Run_grp_free 3 _ _ _ R eq_refl) as K3.
  destruct (Run_Grp_word ln 2 _ _ _ S6 R7) as (s & st7' & Rs & -> & Hrs & Hls & Hss).
  destruct (Run_Grp_word ln 3 _ _ _ S10 R11) as (c & st11' & Rc & -> & Hrc & Hlc & Hsc).
  exists s, c. unfold group. rewrite <- Hcaps, K2, K3, Hls, Hlc, Hss, Hsc.
  split; [reflexivity|]. split; [reflexivity|].
  apply Run_plus_chr in Rs as (s' & Hne & Fs & Hrs').
  rewrite Hrs in Hrs'. apply app_inv_tail in Hrs'. subst s'.
  apply Run_lang in Rc as (c' & L & Hrc' & _); [|reflexivity].
  rewrite Hrc in Hrc'. apply app_inv_tail in Hrc'. subst c'.
  apply lang_range_chr in L. simpl in L. tauto.
Qed.

(** The type, in each of the three tiers. *)
Lemma tier_verb_title (ln : str) (m : mobj) :
  re_search tier_a_re ln = Some m \/ re_search tier_b_re ln = Some m \/
  re_search tier_c_re ln = Some m ->
  exists ty,
    opt_map_str title (group ln m 1) = Some ty /\
    (mem_char 304%N ln = false -> mem_char 305%N ln = false ->
     ty = u "Departed" \/ ty = u "Arrived") /\
    (ty = u "Departed" \/ ty = u "Arrived" \/
     ty = [65; 114; 114; 105; 775; 118; 101; 100]%N \/
     ty = [65; 114; 114; 305; 118; 101; 100]%N).
Proof.
  intros [H | [H | H]].
  - apply (verb_title
             (SeqL [ Bnd; Plus true Space; from_at; Plus true Space;
                     Grp 2 (Plus false (Chr not_paren));
                     Star true Space; Lit "("; Star true Space;
                     Grp 3 (Range 1 6 (Chr code_char));
                     Star true Space; Lit ")" ]));
      [reflexivity | exact H].
  - apply (verb_title
             (SeqL [ Bnd; Plus true Space; from_at; Plus true Space;
                     Grp 2 (Plus false Dot);
                     Plus true Space; Alt (LitI "at") (LitI "on"); Bnd ]));
      [reflexivity | exact H].
  - apply (verb_title Bnd); [reflexivity | exact H].
Qed.

Lemma truthy_some (o : option str) :
  truthy o = true -> exists c t, o = Some (c :: t).
Proof. destruct o as [[|c t]|]; try discriminate. eauto. Qed.

(** The type of an event. *)
Lemma event_type (now : datetime) (last_update_dt : option datetime)
    (ln : str) (ev : event) :
  parse_line now last_update_dt ln = Some ev ->
  exists ty,
    ev_type ev = Some ty /\
    (mem_char 304%N ln = false -> mem_char 305%N ln = false ->
     ty = u "Departed" \/ ty = u "Arrived") /\
    (ty = u "Departed" \/ ty = u "Arrived" \/
     ty = [65; 114; 114; 105; 775; 118; 101; 100]%N \/
     ty = [65; 114; 114; 305; 118; 101; 100]%N).
Proof.
  unfold parse_line. intros H.
  destruct (re_search candidate_re ln) as [mc|]; [|discriminate].
  destruct (re_search tier_a_re ln) as [ma|] eqn:Ea.
  { destruct (tier_verb_title ln ma (or_introl Ea)) as (ty & Hty & Hty12).
    rewrite Hty in H. destruct (_ && _); [|discriminate].
    inversion H; subst ev. exists ty. auto. }
  destruct (re_search tier_b_re ln) as [mb|] eqn:Eb.
  { destruct (tier_verb_title ln mb (or_intror (or_introl Eb))) as (ty & Hty & Hty12).
    rewrite Hty in H. destruct (_ && _); [|discriminate].
    inversion H; subst ev. exists ty. auto. }
  destruct (re_search tier_c_re ln) as [mv|] eqn:Ev; [|discriminate].
  destruct (tier_verb_title ln mv (or_intror (or_intror Ev))) as (ty & Hty & Hty12).
  rewrite Hty in H.
  destruct (line_dt now last_update_dt ln) as [t|]; [|discriminate].
  destruct (truthy (Some ty)); [|discriminate].
  inversion H; subst ev. exists ty. auto.
Qed.

(** X7.  Every event keeps its line as [raw] and has a type, which is
    [Departed] or [Arrived] or, when the line spells the verb with U+0130
    or U+0131, one of two other spellings of [Arrived].  A station, when
    present, is not empty and has no white space around it.  A code comes
    with a station free of parentheses, and has one to six characters that
    [re.I] accepts for [[A-Z0-9]].  An event without station has no code and
    has a timestamp.  The delay is the delay token of the line: one to five
    digits and colons. *)
Theorem event_fields (now : datetime) (last_update_dt : option datetime)
    (ln : str) (ev : event) :
  parse_line now last_update_dt ln = Some ev ->
  ev_raw ev = ln /\
  (exists ty,
      ev_type ev = Some ty /\
      (mem_char 304%N ln = false -> mem_char 305%N ln = false ->
       ty = u "Departed" \/ ty = u "Arrived") /\
      (ty = u "Departed" \/ ty = u "Arrived" \/
       ty = [65; 114; 114; 105; 775; 118; 101; 100]%N \/
       ty = [65; 114; 114; 305; 118; 101; 100]%N)) /\
  (forall s, ev_station ev = Some s -> s <> [] /\ strip s = s) /\
  (forall c, ev_code ev = Some c ->
             1 <= List.length c <= 6 /\ forallb code_char c = true /\
             exists s, ev_station ev = Some s /\ forallb not_paren s = true) /\
  (ev_station ev = None -> ev_code ev = None /\ ev_datetime ev <> None) /\
  ev_delay ev = token delay_re ln /\
  (forall d, ev_delay ev = Some d ->
             1 <= List.length d <= 5 /\
             forallb (fun c => is_ascii_digit c || N.eqb c 58) d = true).
Proof.
  unfold parse_line. intros H.
  destruct (re_search candidate_re ln) as [mc|]; [|discriminate].
  assert (D : forall d, token delay_re ln = Some d ->
                        1 <= List.length d <= 5 /\
                        forallb (fun c => is_ascii_digit c || N.eqb c 58) d = true)
    by (intros d; apply delay_shape).
  destruct (re_search tier_a_re ln) as [ma|] eqn:Ea.
  { destruct (tier_verb_title ln ma (or_introl Ea)) as (ty & Hty & Hty1 & Hty2).
    destruct (tier_a_groups ln ma Ea) as (s & c & Hs & Hc & Hne & Fs & Lc & Fc).
    rewrite Hty, Hs, Hc in H. cbn [opt_map_str] in H.
    destruct (truthy (Some ty) && truthy (Some (strip s))) eqn:T; [|discriminate].
    apply andb_true_iff in T as [_ T]. apply truthy_some in T as (x & t & T).
    assert (T' : strip s = x :: t) by congruence.
    assert (Ec : strip c = c).
    { apply strip_by_id. rewrite forallb_forall in *. intros y Hy.
      apply negb_true_iff, code_not_space. auto. }
    inversion H; subst ev. cbn [ev_raw ev_type ev_station ev_code ev_datetime ev_delay].
    split; [reflexivity|]. split; [exists ty; auto|].
    split.
    { intros s0 Hs0. inversion Hs0; subst s0.
      split; [rewrite T'; discriminate | apply strip_idem]. }
    split.
    { intros c0 Hc0. inversion Hc0; subst c0. rewrite Ec.
      split; [lia|]. split; [assumption|].
      eexists. split; [reflexivity|]. now apply strip_by_keeps. }
    split; [discriminate|]. split; [reflexivity | exact D]. }
  destruct (re_search tier_b_re ln) as [mb|] eqn:Eb.
  { destruct (tier_verb_title ln mb (or_intror (or_introl Eb))) as (ty & Hty & Hty1 & Hty2).
    rewrite Hty in H.
    destruct (truthy (Some ty) && truthy _) eqn:T; [|discriminate].
    apply andb_true_iff in T as [_ T]. apply truthy_some in T as (x & t & T).
    inversion H; subst ev. cbn [ev_raw ev_type ev_station ev_code ev_datetime ev_delay].
    split; [reflexivity|]. split; [exists ty; auto|].
    split.
    { intros s0 Hs0. split; [congruence|].
      destruct (group ln mb 2); [|discriminate]. simpl in Hs0.
      inversion Hs0. apply strip_idem. }
    split; [discriminate|].
    split; [rewrite T; discriminate|]. split; [reflexivity | exact D]. }
  destruct (re_search tier_c_re ln) as [mv|] eqn:Ev; [|discriminate].
  destruct (tier_verb_title ln mv (or_intror (or_intror Ev))) as (ty & Hty & Hty1 & Hty2).
  rewrite Hty in H.
  destruct (line_dt now last_update_dt ln) as [t|]; [|discriminate].
  destruct (truthy (Some ty)); [|discriminate].
  inversion H; subst ev. cbn [ev_raw ev_type ev_station ev_code ev_datetime ev_delay].
  split; [reflexivity|]. split; [exists ty; auto|].
  split; [discriminate|]. split; [discriminate|].
  split; [split; [reflexivity | discriminate]|]. split; [reflexivity | exact D].
Qed.

Lemma event_fields_witness :
  parse_line (mkDT 2026 1 16 9 0 0 0 None) None
             (u "Arrived at NEW DELHI (NDLS) on 15-Jan-2026 at 10:05 Delay 00:10")
  = Some (mkEvent (u "Arrived at NEW DELHI (NDLS) on 15-Jan-2026 at 10:05 Delay 00:10")
                  (Some (u "Arrived")) (Some (u "NEW DELHI")) (Some (u "NDLS"))
                  (Some (mkDT 2026 1 15 10 5 0 0 None)) (Some (u "00:10"))) /\
  Some (u "00:10")
  = token delay_re (u "Arrived at NEW DELHI (NDLS) on 15-Jan-2026 at 10:05 Delay 00:10").
Proof.
  assert (E : parse_line (mkDT 2026 1 16 9 0 0 0 None) None
                (u "Arrived at NEW DELHI (NDLS) on 15-Jan-2026 at 10:05 Delay 00:10")
              = Some (mkEvent
                        (u "Arrived at NEW DELHI (NDLS) on 15-Jan-2026 at 10:05 Delay 00:10")
                        (Some (u "Arrived")) (Some (u "NEW DELHI")) (Some (u "NDLS"))
                        (Some (mkDT 2026 1 15 10 5 0 0 None)) (Some (u "00:10"))))
    by (vm_compute; reflexivity).
  split; [exact E|].
  destruct (event_fields _ _ _ _ E) as (_ & _ & _ & _ & _ & H & _). exact H.
Defined.
(** ** The events and the response schema *)

Lemma parse_lines_In (now : datetime) (lu : option datetime) (lines : list str)
    (ev : event) :
  In ev (parse_lines now lu lines) <->
  exists ln, In ln lines /\ parse_line now lu ln = Some ev.
Proof.
  induction lines as [|ln lines IH]; simpl.
  - split; [contradiction | intros [ln [[] _]]].
  - destruct (parse_line now lu ln) as [e|] eqn:E; simpl; rewrite IH.
    + split.
      * intros [<- | [ln' [Hin H]]]; [exists ln; auto | exists ln'; auto].
      * intros [ln' [[<- | Hin] H]]; [left; congruence | right; eauto].
    + split.
      * intros [ln' [Hin H]]. exists ln'. auto.
      * intros [ln' [[<- | Hin] H]]; [congruence | eauto].
Qed.

Lemma Subseq_In {A : Type} (l l' : list A) (x : A) : Subseq l l' -> In x l -> In x l'.
Proof.
  induction 1; simpl; auto.
  - intros [<- | H']; auto.
Qed.

Lemma Subseq_length {A : Type} (l l' : list A) :
  Subseq l l' -> List.length l <= List.length l'.
Proof. induction 1; simpl; lia. Qed.

Lemma Subseq_map {A B : Type} (f : A -> B) (l l' : list A) :
  Subseq l l' -> Subseq (map f l) (map f l').
Proof. induction 1; simpl; now constructor. Qed.

(** An event of the parser comes from one of the cleaned lines. *)
Lemma event_from_line (now : datetime) (raw_lines : list str) (p : parsed) (ev : event) :
  parse_train_status now raw_lines = Ok p ->
  In ev (events p) ->
  exists lines ln,
    map_r _clean_line raw_lines = Ok lines /\ In ln lines /\
    parse_line now (_parse_last_update_dt lines) ln = Some ev.
Proof.
  intros Hp H. apply parse_train_status_Ok in Hp as (lines & Hl & ->).
  cbn [events] in H.
  apply (Subseq_In _ _ _ (dedup_subseq _ [])) in H. apply parse_lines_In in H as (ln & Hin & E).
  now exists lines, ln.
Qed.

Lemma TrainEvents_cases (evs : list event) :
  TrainEvents evs = Ok evs \/ TrainEvents evs = Raise ValidationError.
Proof.
  induction evs as [|e evs IH]; simpl; [now left|].
  unfold TrainEvent. destruct (ev_type e) as [ty|].
  - destruct (_ || _); simpl; [|now right].
    destruct IH as [-> | ->]; simpl; auto.
  - simpl. destruct IH as [-> | ->]; simpl; auto.
Qed.

Lemma TrainEvents_ok (evs : list event) :
  (forall e, In e evs -> ev_type e = Some (u "Departed") \/ ev_type e = Some (u "Arrived")) ->
  TrainEvents evs = Ok evs.
Proof.
  induction evs as [|e evs IH]; intros H; simpl; [reflexivity|].
  rewrite IH by (intros e' He'; apply H; now right).
  unfold TrainEvent. destruct (H e (or_introl eq_refl)) as [-> | ->]; reflexivity.
Qed.

Lemma events_pass_schema (now : datetime) (raw_lines : list str) (p : parsed) :
  parse_train_status now raw_lines = Ok p ->
  (forall raw ln, In raw raw_lines -> _clean_line raw = Ok ln ->
                  mem_char 304%N ln = false /\ mem_char 305%N ln = false) ->
  TrainEvents (events p) = Ok (events p).
Proof.
  intros Hp H. apply TrainEvents_ok. intros e He.
  destruct (event_from_line _ _ _ _ Hp He) as (lines & ln & Hl & Hin & E).
  destruct (map_r_In _ _ _ _ Hl Hin) as (raw & Hraw & Hc).
  destruct (H raw ln Hraw Hc) as [N1 N2].
  destruct (event_type _ _ _ _ E) as (ty & Hty & Hplain & _).
  rewrite Hty. destruct (Hplain N1 N2) as [-> | ->]; auto.
Qed.

(** The timestamps of the events are naive datetimes of the calendar. *)
Lemma events_calendar (now : datetime) (raw_lines : list str) (p : parsed)
    (e : event) (t : datetime) :
  parse_train_status now raw_lines = Ok p ->
  In e (events p) -> ev_datetime e = Some t ->
  naive t /\ valid_datetime t = true.
Proof.
  intros Hp He Ht. destruct (event_from_line _ _ _ _ Hp He) as (lines & ln & _ & _ & E).
  apply parse_line_datetime in E. rewrite Ht in E. symmetry in E.
  unfold line_dt in E. apply build_dt_calendar in E. tauto.
Qed.

(** The events of a list of cleaned lines keep the order of the lines, and
    each has its line as [raw]. *)
Lemma parse_lines_raw (now : datetime) (lu : option datetime) (lines : list str) :
  Subseq (map ev_raw (parse_lines now lu lines)) lines.
Proof.
  induction lines as [|ln lines IH]; simpl; [constructor|].
  destruct (parse_line now lu ln) as [e|] eqn:E; [|now constructor].
  simpl. replace (ev_raw e) with ln; [now constructor|].
  unfold parse_line in E.
  destruct (re_search candidate_re ln); [|discriminate].
  destruct (re_search tier_a_re ln).
  { destruct (_ && _); inversion E; reflexivity. }
  destruct (re_search tier_b_re ln).
  { destruct (_ && _); inversion E; reflexivity. }
  destruct (re_search tier_c_re ln); [|discriminate].
  destruct (line_dt now lu ln); [|discriminate].
  destruct (truthy _); inversion E; reflexivity.
Qed.

(** X8.  The response schema admits the types [Arrived] and [Departed]
    only.  The events of a parsed page pass this check whenever no cleaned
    line holds U+0130 or U+0131; in general the check either passes or raises
    the validation error of the schema, and a line that spells the verb
    [ARRIVED] with U+0130 for the [I] does raise it. *)
Theorem schema_check_of_events (now : datetime) (raw_lines : list str) (p : parsed) :
  parse_train_status now raw_lines = Ok p ->
  ((forall raw ln, In raw raw_lines -> _clean_line raw = Ok ln ->
                   mem_char 304%N ln = false /\ mem_char 305%N ln = false) ->
   TrainEvents (events p) = Ok (events p)) /\
  (TrainEvents (events p) = Ok (events p) \/
   TrainEvents (events p) = Raise ValidationError) /\
  exists p0,
    parse_train_status now [[65; 82; 82; 304; 86; 69; 68]%N ++ u " 15-Jan-2026 10:05"]
    = Ok p0 /\
    TrainEvents (events p0) = Raise ValidationError.
Proof.
  intros Hp. split; [now apply (events_pass_schema now raw_lines)|].
  split; [apply TrainEvents_cases|].
  eexists. split; vm_compute; reflexivity.
Qed.

Lemma schema_check_of_events_witness :
  exists p,
    parse_train_status (mkDT 2026 1 16 9 0 0 0 None)
                       [u "Arrived at New Delhi (NDLS) 15-Jan-2026 10:05"] = Ok p /\
    List.length (events p) = 1 /\
    TrainEvents (events p) = Ok (events p).
Proof.
  eexists. split; [vm_compute; reflexivity|]. split; [reflexivity|].
  refine (proj1 (schema_check_of_events
                   (mkDT 2026 1 16 9 0 0 0 None)
                   [u "Arrived at New Delhi (NDLS) 15-Jan-2026 10:05"] _ _) _).
  - vm_compute. reflexivity.
  - intros raw ln [<- | []] H. vm_compute in H. inversion H; subst ln.
    split; vm_compute; reflexivity.
Defined.

(** X9.  The events of a parsed page come in the order of the lines, at
    most one for each line, and each has its cleaned line as [raw]. *)
Theorem events_follow_lines (now : datetime) (raw_lines : list str) (p : parsed) :
  parse_train_status now raw_lines = Ok p ->
  exists lines,
    map_r _clean_line raw_lines = Ok lines /\
    Subseq (map ev_raw (events p)) lines /\
    List.length (events p) <= List.length raw_lines.
Proof.
  intros Hp. apply parse_train_status_Ok in Hp as (lines & Hl & ->).
  exists lines. split; [exact Hl|]. cbn [events].
  assert (S : Subseq (map ev_raw (dedup [] (parse_lines now (_parse_last_update_dt lines)
                                                        lines))) lines).
  { eapply Subseq_trans; [apply Subseq_map, dedup_subseq | apply parse_lines_raw]. }
  split; [exact S|].
  apply Subseq_length in S. rewrite length_map in S.
  now rewrite <- (map_r_length _ _ _ Hl).
Qed.

Lemma events_follow_lines_witness :
  exists p lines,
    parse_train_status (mkDT 2026 1 16 9 0 0 0 None)
      [u "Start Date: 15-Jan-2026";
       u "Arrived at New Delhi (NDLS) 15-Jan-2026&nbsp;10:05";
       u "Departed from New Delhi (NDLS) 15-Jan-2026 10:20"] = Ok p /\
    map_r _clean_line
      [u "Start Date: 15-Jan-2026";
       u "Arrived at New Delhi (NDLS) 15-Jan-2026&nbsp;10:05";
       u "Departed from New Delhi (NDLS) 15-Jan-2026 10:20"] = Ok lines /\
    map ev_raw (events p)
    = [u "Arrived at New Delhi (NDLS) 15-Jan-2026 10:05";
       u "Departed from New Delhi (NDLS) 15-Jan-2026 10:20"] /\
    Subseq (map ev_raw (events p)) lines.
Proof.
  eexists.
  destruct (events_follow_lines
              (mkDT 2026 1 16 9 0 0 0 None)
              [u "Start Date: 15-Jan-2026";
               u "Arrived at New Delhi (NDLS) 15-Jan-2026&nbsp;10:05";
               u "Departed from New Delhi (NDLS) 15-Jan-2026 10:20"] _
              ltac:(vm_compute; reflexivity)) as (lines & Hl & S & _).
  exists lines. split; [vm_compute; reflexivity|]. split; [exact Hl|].
  split; [vm_compute; reflexivity | exact S].
Defined.
(** ** The deduplication key is the triple *)

Lemma opt_str_eqb_eq (a b : option str) : opt_eqb str_eqb a b = true <-> a = b.
Proof.
  destruct a as [x|], b as [y|]; simpl; try (split; [discriminate | congruence]).
  - rewrite str_eqb_eq. split; congruence.
  - tauto.
Qed.

Lemma dt_eqb_eq (a b : datetime) : naive a -> naive b -> dt_eqb a b = true -> a = b.
Proof.
  intros Na Nb. unfold dt_eqb. rewrite (dt_cmp_naive a b Na Nb).
  destruct (naive_cmp a b) eqn:E; try discriminate.
  intros _. now apply naive_cmp_eq.
Qed.

(** Two events whose timestamps are naive have equal keys exactly when they
    agree on type, station and timestamp. *)
Lemma key_eqb_triple (a b : event) :
  (forall t, ev_datetime a = Some t -> naive t) ->
  (forall t, ev_datetime b = Some t -> naive t) ->
  key_eqb (key_of a) (key_of b) = true <->
  (ev_type a, ev_station a, ev_datetime a) = (ev_type b, ev_station b, ev_datetime b).
Proof.
  intros Na Nb. split.
  - unfold key_eqb, key_of. intros H.
    apply andb_true_iff in H as [H Hd]. apply andb_true_iff in H as [Ht Hs].
    apply opt_str_eqb_eq in Ht, Hs. rewrite Ht, Hs. f_equal.
    destruct (ev_datetime a) as [x|], (ev_datetime b) as [y|]; simpl in Hd;
      try discriminate; [|reflexivity].
    f_equal. apply dt_eqb_eq; auto.
  - intros H. change (key_of a = key_of b) in H. rewrite H. apply key_eqb_refl.
Qed.

(** Of the events kept, only the first event of a key has that key. *)
Lemma dedup_only_first (l1 : list event) :
  forall seen e l2 e',
    (forall x, In x l1 -> key_eqb (key_of e) (key_of x) = false) ->
    existsb (key_eqb (key_of e)) seen = false ->
    In e' (dedup seen (l1 ++ e :: l2)) ->
    key_eqb (key_of e') (key_of e) = true -> e' = e.
Proof.
  induction l1 as [|x l1 IH]; intros seen e l2 e' Hl1 Hseen Hin Hk; simpl in Hin.
  - rewrite Hseen in Hin. destruct Hin as [<- | Hin]; [reflexivity|].
    apply dedup_fresh in Hin. simpl in Hin. apply orb_false_iff in Hin as [Hin _].
    congruence.
  - destruct (existsb (key_eqb (key_of x)) seen) eqn:Ex.
    + apply (IH seen e l2 e'); auto. intros y Hy. apply Hl1. now right.
    + destruct Hin as [<- | Hin].
      * rewrite key_eqb_sym, (Hl1 x) in Hk; [discriminate | now left].
      * apply (IH (key_of x :: seen) e l2 e'); auto.
        -- intros y Hy. apply Hl1. now right.
        -- simpl. rewrite Hseen, (Hl1 x); [reflexivity | now left].
Qed.

Lemma parse_lines_naive (now : datetime) (lu : option datetime) (lines : list str)
    (e : event) (t : datetime) :
  In e (parse_lines now lu lines) -> ev_datetime e = Some t -> naive t.
Proof.
  intros He Ht. apply parse_lines_In in He as (ln & _ & E).
  apply parse_line_datetime in E. rewrite Ht in E. symmetry in E.
  unfold line_dt in E. apply build_dt_calendar in E. tauto.
Qed.

(** C6.  Deduplication keys on the triple (type, station, timestamp) and on
    nothing else: for events with naive timestamps, as the parser builds
    them, two keys are equal exactly when the triples are.  In the list
    returned no two events have the same triple; the events kept stand in
    their original order; the first event of each triple is kept and is the
    only event kept with that triple, so that a later event of the same
    triple is dropped whatever its raw line, code and delay; and every event
    of the input finds its triple among the events kept.  The events of a
    parsed page are the events of its lines, deduplicated, and their
    timestamps are naive. *)
Theorem dedup_first_occurrence_wins (evs : list event) :
  (forall e t, In e evs -> ev_datetime e = Some t -> naive t) ->
  let out := dedup [] evs in
  let triple := fun e : event => (ev_type e, ev_station e, ev_datetime e) in
  (forall a b, In a evs -> In b evs ->
               (key_eqb (key_of a) (key_of b) = true <-> triple a = triple b)) /\
  (forall i j ei ej,
      i < j -> nth_error out i = Some ei -> nth_error out j = Some ej ->
      triple ei <> triple ej) /\
  Subseq out evs /\
  (forall l1 e l2,
      evs = l1 ++ e :: l2 ->
      (forall x, In x l1 -> triple x <> triple e) ->
      In e out /\ forall e', In e' out -> triple e' = triple e -> e' = e) /\
  (forall e, In e evs -> exists e', In e' out /\ triple e' = triple e) /\
  (forall now raw_lines p,
      parse_train_status now raw_lines = Ok p ->
      exists lines,
        map_r _clean_line raw_lines = Ok lines /\
        events p = dedup [] (parse_lines now (_parse_last_update_dt lines) lines) /\
        forall e t, In e (parse_lines now (_parse_last_update_dt lines) lines) ->
                    ev_datetime e = Some t -> naive t).
Proof.
  intros Hn out triple.
  assert (Hin : forall e, In e out -> In e evs)
    by (intros e; apply Subseq_In, dedup_subseq).
  assert (K : forall a b, In a evs -> In b evs ->
                          (key_eqb (key_of a) (key_of b) = true <-> triple a = triple b)).
  { intros a b Ha Hb. apply key_eqb_triple; intros t; [apply (Hn a) | apply (Hn b)]; auto. }
  assert (Kf : forall a b, In a evs -> In b evs -> triple a <> triple b ->
                           key_eqb (key_of a) (key_of b) = false).
  { intros a b Ha Hb Hne. destruct (key_eqb (key_of a) (key_of b)) eqn:E; [|reflexivity].
    apply (K a b Ha Hb) in E. contradiction. }
  split; [exact K|]. split; [|split; [apply dedup_subseq|split; [|split]]].
  - intros i j ei ej Hij Hi Hj Heq.
    pose proof (dedup_distinct evs [] i j ei ej Hij Hi Hj) as D.
    apply nth_error_In in Hi, Hj.
    assert (T : key_eqb (key_of ej) (key_of ei) = true) by (apply K; auto).
    congruence.
  - intros l1 e l2 E Hl1.
    assert (He : In e evs) by (rewrite E; apply in_or_app; right; now left).
    assert (Hk : forall x, In x l1 -> key_eqb (key_of e) (key_of x) = false).
    { intros x Hx. apply Kf; auto.
      - rewrite E. apply in_or_app. now left.
      - intros Q. apply (Hl1 x Hx). now symmetry. }
    split.
    + unfold out. rewrite E. now apply dedup_first.
    + intros e' He' Ht. unfold out in He'. rewrite E in He'.
      apply (dedup_only_first l1 [] e l2 e' Hk eq_refl He').
      apply K; auto. apply Hin. unfold out. now rewrite E.
  - intros e He. destruct (dedup_cover evs [] e He) as [H | (e' & He' & Hk)];
      [discriminate|].
    exists e'. split; [exact He'|]. symmetry. apply K; auto.
  - intros now raw_lines p Hp. apply parse_train_status_Ok in Hp as (lines & Hl & ->).
    exists lines. split; [exact Hl|]. split; [reflexivity|].
    intros e t. apply parse_lines_naive.
Qed.

Lemma dedup_first_occurrence_wins_witness :
  let e1 := mkEvent (u "Arrived at Agra (AGC) 15-Jan-2026 10:05") (Some (u "Arrived"))
                    (Some (u "Agra")) (Some (u "AGC"))
                    (Some (mkDT 2026 1 15 10 5 0 0 None)) None in
  let e2 := mkEvent (u "Arrived at Agra 15-Jan-2026 10:05 Delay 00:10")
                    (Some (u "Arrived")) (Some (u "Agra")) None
                    (Some (mkDT 2026 1 15 10 5 0 0 None)) (Some (u "00:10")) in
  let e3 := mkEvent (u "Arrived at Agra Cantt (AGC) 15-Jan-2026 10:05")
                    (Some (u "Arrived")) (Some (u "Agra Cantt")) (Some (u "AGC"))
                    (Some (mkDT 2026 1 15 10 5 0 0 None)) None in
  dedup [] [e1; e2; e3] = [e1; e3] /\
  In e1 (dedup [] [e1; e2; e3]) /\ ~ In e2 (dedup [] [e1; e2; e3]).
Proof.
  intros e1 e2 e3.
  assert (Hn : forall e t, In e [e1; e2; e3] -> ev_datetime e = Some t -> naive t).
  { intros e t [<- | [<- | [<- | []]]] H; inversion H; reflexivity. }
  destruct (dedup_first_occurrence_wins [e1; e2; e3] Hn) as (_ & _ & _ & F & _).
  destruct (F [] e1 [e2; e3] eq_refl (fun x (H : In x []) => match H with end))
    as [H1 H2].
  split; [vm_compute; reflexivity|]. split; [exact H1|].
  intros H. apply H2 in H; [discriminate | reflexivity].
Defined.
(** ** The window resolver: which bound is which *)

Lemma swap_sym (a b : datetime) :
  naive a \/ naive b -> swap_if_inverted a b = swap_if_inverted b a.
Proof.
  unfold swap_if_inverted, dt_lt, dt_cmp, naive.
  destruct (tzinfo a) as [oa|] eqn:Ea, (tzinfo b) as [ob|] eqn:Eb;
    intros [H | H]; try discriminate; try reflexivity.
  - cbn [bind]. fold (naive_cmp a b). fold (naive_cmp b a).
    rewrite (naive_cmp_antisym a b).
    destruct (naive_cmp a b) eqn:C; cbn [CompOpp is_lt]; try reflexivity.
    apply naive_cmp_eq in C; [now subst | exact Ea | exact Eb].
  - cbn [bind]. fold (naive_cmp a b). fold (naive_cmp b a).
    rewrite (naive_cmp_antisym a b).
    destruct (naive_cmp a b) eqn:C; cbn [CompOpp is_lt]; try reflexivity.
    apply naive_cmp_eq in C; [now subst | exact Ea | exact Eb].
Qed.

(** X10.  A single bound means the same as start and as end: the window
    runs between the bound and now, whichever comes first. *)
Theorem single_bound_either_side (lib : pylib) (clk : clock) (raw : str) :
  naive (now clk) ->
  _compute_event_window lib clk (Some raw) None
  = _compute_event_window lib clk None (Some raw).
Proof.
  intros Hnow. unfold _compute_event_window, parse_opt_bound.
  destruct (_parse_bound lib clk raw) as [[d t]|e]; [|reflexivity].
  cbn [bind]. destruct d as [x|]; apply swap_sym; auto.
Qed.

Lemma single_bound_either_side_witness :
  _compute_event_window
    (mkLib (fun _ => None) (fun _ => Some (mkTime 9 0 0 0 None)))
    (mkClock (mkDT 2026 1 16 9 30 0 0 None) 19800000000%Z)
    (Some (u "09:00")) None
  = _compute_event_window
      (mkLib (fun _ => None) (fun _ => Some (mkTime 9 0 0 0 None)))
      (mkClock (mkDT 2026 1 16 9 30 0 0 None) 19800000000%Z)
      None (Some (u "09:00")).
Proof.
  apply (single_bound_either_side
           (mkLib (fun _ => None) (fun _ => Some (mkTime 9 0 0 0 None)))
           (mkClock (mkDT 2026 1 16 9 30 0 0 None) 19800000000%Z)
           (u "09:00")).
  reflexivity.
Defined.

(** X11.  Two bounds of which one at least is a full date and time can
    change places: the window is the same. *)
Theorem dated_bounds_either_order (lib : pylib) (clk : clock) (a b : str)
    (da : datetime) (rb : option datetime * option time) :
  _parse_bound lib clk a = Ok (Some da, None) ->
  _parse_bound lib clk b = Ok rb ->
  _compute_event_window lib clk (Some a) (Some b)
  = _compute_event_window lib clk (Some b) (Some a).
Proof.
  intros Ha Hb. unfold _compute_event_window, parse_opt_bound.
  rewrite Ha, Hb. cbn [bind]. destruct rb as [db tb].
  apply parse_bound_shape in Ha as [(x & E & _ & Nx) | (E & _)]; [|discriminate].
  inversion E; subst x.
  assert (S : forall B, bind (dt_lt B da) (fun inverted =>
                          if inverted then Ok (B, da) else Ok (da, B))
                        = bind (dt_lt da B) (fun inverted =>
                            if inverted then Ok (da, B) else Ok (B, da))).
  { intros B. pose proof (swap_sym da B (or_introl Nx)) as S.
    unfold swap_if_inverted in S.
    destruct (dt_lt B da) as [[|]|], (dt_lt da B) as [[|]|]; simpl in *; congruence. }
  destruct db as [x|]; cbn [_to_datetime is_none is_some negb andb].
  - rewrite <- (S x). destruct (dt_lt x da) as [[|]|]; reflexivity.
  - destruct tb as [t|]; cbn [is_none is_some negb andb].
    + rewrite <- (S (combine (date_of da) t)).
      destruct (dt_lt _ da) as [[|]|]; reflexivity.
    + rewrite <- (S (now clk)).
      destruct (dt_lt _ da) as [[|]|]; reflexivity.
Qed.

Lemma dated_bounds_either_order_witness :
  _compute_event_window
    (mkLib (fun s => if str_eqb s (u "2026-01-16T10:00")
                     then Some (mkDT 2026 1 16 10 0 0 0 None) else None)
           (fun _ => Some (mkTime 9 0 0 0 None)))
    (mkClock (mkDT 2026 1 16 9 30 0 0 None) 19800000000%Z)
    (Some (u "2026-01-16T10:00")) (Some (u "09:00"))
  = _compute_event_window
      (mkLib (fun s => if str_eqb s (u "2026-01-16T10:00")
                       then Some (mkDT 2026 1 16 10 0 0 0 None) else None)
             (fun _ => Some (mkTime 9 0 0 0 None)))
      (mkClock (mkDT 2026 1 16 9 30 0 0 None) 19800000000%Z)
      (Some (u "09:00")) (Some (u "2026-01-16T10:00")).
Proof.
  apply (dated_bounds_either_order
           (mkLib (fun s => if str_eqb s (u "2026-01-16T10:00")
                            then Some (mkDT 2026 1 16 10 0 0 0 None) else None)
                  (fun _ => Some (mkTime 9 0 0 0 None)))
           (mkClock (mkDT 2026 1 16 9 30 0 0 None) 19800000000%Z)
           (u "2026-01-16T10:00") (u "09:00")
           (mkDT 2026 1 16 10 0 0 0 None) (None, Some (mkTime 9 0 0 0 None)));
    vm_compute; reflexivity.
Defined.
(** ** The window resolver: bounds without offset *)

Lemma parse_bound_error (lib : pylib) (clk : clock) (raw : str) (e : exn) :
  _parse_bound lib clk raw = Raise e ->
  e = OverflowError \/ e = HTTPException 422 (invalid_bound_detail raw).
Proof.
  unfold _parse_bound.
  destruct (datetime_fromisoformat lib (bound_text raw)) as [x|].
  - destruct (_normalize_dt clk x) as [y|e'] eqn:E; simpl; [discriminate|].
    intros H. inversion H; subst. left. eapply normalize_error; eassumption.
  - destruct (time_fromisoformat lib (bound_text raw)); [discriminate|].
    intros H. inversion H. now right.
Qed.

Lemma swap_sorted (a b : datetime) :
  naive a -> naive b ->
  exists w, swap_if_inverted a b = Ok w /\
            naive (fst w) /\ naive (snd w) /\ naive_cmp (fst w) (snd w) <> Gt.
Proof.
  intros Na Nb. unfold swap_if_inverted. rewrite (dt_lt_naive _ _ Nb Na). cbn [bind].
  destruct (is_lt (naive_cmp b a)) eqn:C; eexists; (split; [reflexivity|]);
    cbn [fst snd]; repeat split; auto.
  - destruct (naive_cmp b a); discriminate.
  - now apply not_lt_le.
Qed.

Lemma add_days_one_inv (d d' : date) : add_days d 1 = Ok d' -> next_day d = Ok d'.
Proof.
  unfold add_days. simpl. destruct (next_day d); simpl; congruence.
Qed.

(** What a bound stands for is naive when the bound, if it is read as a
    time, is read as a time without offset. *)
Lemma to_datetime_naive (lib : pylib) (clk : clock) (raw : str) (base : date)
    (d : option datetime) (t : option time) :
  (forall x, _parse_bound lib clk raw = Ok (None, Some x) -> t_tzinfo x = None) ->
  _parse_bound lib clk raw = Ok (d, t) ->
  naive (_to_datetime clk base d t).
Proof.
  intros Hraw H. pose proof H as Hs.
  apply parse_bound_shape in Hs as [(x & -> & -> & Nx) | (-> & x & ->)]; [exact Nx|].
  exact (Hraw x H).
Qed.

(** X12.  When the clock is naive and neither of the bounds given is read
    as a time with an offset, the resolver returns a naive window with
    [start <= end], or it raises the validation error for one of the bounds,
    or the overflow of a date; it never raises the error of a mixed
    comparison. *)
Theorem window_is_ordered_without_offsets (lib : pylib) (clk : clock)
    (start_time_raw end_time_raw : option str) :
  naive (now clk) ->
  (forall raw t, start_time_raw = Some raw \/ end_time_raw = Some raw ->
                 _parse_bound lib clk raw = Ok (None, Some t) -> t_tzinfo t = None) ->
  match _compute_event_window lib clk start_time_raw end_time_raw with
  | Ok w => naive (fst w) /\ naive (snd w) /\ naive_cmp (fst w) (snd w) <> Gt
  | Raise e =>
      e = OverflowError \/
      exists raw, (start_time_raw = Some raw \/ end_time_raw = Some raw) /\
                  e = HTTPException 422 (invalid_bound_detail raw)
  end.
Proof.
  intros Hnow Hb. unfold _compute_event_window.
  destruct start_time_raw as [sraw|], end_time_raw as [eraw|]; cbn [parse_opt_bound].
  - destruct (_parse_bound lib clk sraw) as [[sd st]|e] eqn:Es; cbn [bind].
    2:{ apply parse_bound_error in Es as [-> | ->]; [now left | right; eauto]. }
    destruct (_parse_bound lib clk eraw) as [[ed et]|e] eqn:Ee; cbn [bind].
    2:{ apply parse_bound_error in Ee as [-> | ->]; [now left | right; eauto]. }
    set (base := match sd with
                 | Some d => date_of d
                 | None => match ed with
                           | Some d => date_of d
                           | None => date_of (now clk)
                           end
                 end).
    pose proof (to_datetime_naive lib clk sraw base sd st
                  (fun x => Hb sraw x (or_introl eq_refl)) Es) as Ns.
    pose proof (to_datetime_naive lib clk eraw base ed et
                  (fun x => Hb eraw x (or_intror eq_refl)) Ee) as Ne.
    rewrite (dt_lt_naive _ _ Ne Ns). cbn [bind].
    destruct (is_lt (naive_cmp _ _)) eqn:C.
    + destruct (is_none sd && is_none ed && is_some st && is_some et) eqn:B.
      * destruct sd; [discriminate|]. destruct ed; [discriminate|].
        destruct st as [ts|]; [|discriminate]. destruct et as [te|]; [|discriminate].
        subst base. cbn [_to_datetime] in *. unfold dt_add_days.
        change (date_of (combine (date_of (now clk)) te)) with (date_of (now clk)).
        destruct (add_days (date_of (now clk)) 1) as [d'|e] eqn:A; cbn [bind].
        -- cbn [fst snd]. split; [exact Ns|]. split; [exact Ne|].
           apply add_days_one_inv in A.
           change (naive_cmp (combine (date_of (now clk)) ts) (combine d' te) <> Gt).
           rewrite (next_day_later _ _ ts te A). discriminate.
        -- left. eapply add_days_error; eassumption.
      * cbn [fst snd]. repeat split; auto. destruct (naive_cmp _ _); discriminate.
    + cbn [fst snd]. repeat split; auto. now apply not_lt_le.
  - destruct (_parse_bound lib clk sraw) as [[sd st]|e] eqn:Es; cbn [bind].
    2:{ apply parse_bound_error in Es as [-> | ->]; [now left | right; eauto]. }
    match goal with
    | |- context [swap_if_inverted (_to_datetime clk ?b sd st) _] =>
        pose proof (to_datetime_naive lib clk sraw b sd st
                      (fun x => Hb sraw x (or_introl eq_refl)) Es) as Ns;
        destruct (swap_sorted _ _ Ns Hnow) as (w & -> & H)
    end.
    exact H.
  - destruct (_parse_bound lib clk eraw) as [[ed et]|e] eqn:Ee; cbn [bind].
    2:{ apply parse_bound_error in Ee as [-> | ->]; [now left | right; eauto]. }
    match goal with
    | |- context [swap_if_inverted _ (_to_datetime clk ?b ed et)] =>
        pose proof (to_datetime_naive lib clk eraw b ed et
                      (fun x => Hb eraw x (or_intror eq_refl)) Ee) as Ne;
        destruct (swap_sorted _ _ Hnow Ne) as (w & -> & H)
    end.
    exact H.
  - cbn [bind]. destruct (add_days (date_of (now clk)) 1) as [d'|e] eqn:A; cbn [bind].
    + cbn [fst snd]. split; [reflexivity|]. split; [reflexivity|].
      apply add_days_one_inv in A.
      rewrite (next_day_later _ _ midnight midnight A). discriminate.
    + left. eapply add_days_error; eassumption.
Qed.

Lemma window_is_ordered_without_offsets_witness :
  naive_cmp (mkDT 2026 1 16 9 0 0 0 None) (mkDT 2026 1 17 8 0 0 0 None) <> Gt.
Proof.
  pose proof (window_is_ordered_without_offsets
                (mkLib (fun _ => None)
                       (fun s => if str_eqb s (u "09:00") then Some (mkTime 9 0 0 0 None)
                                 else if str_eqb s (u "08:00") then Some (mkTime 8 0 0 0 None)
                                 else if str_eqb s (u "09:00+00:00")
                                      then Some (mkTime 9 0 0 0 (Some 0%Z))
                                 else None))
                (mkClock (mkDT 2026 1 16 9 30 0 0 None) 19800000000%Z)
                (Some (u "09:00")) (Some (u "08:00")) eq_refl) as H.
  assert (Hb : forall raw t,
             Some (u "09:00") = Some raw \/ Some (u "08:00") = Some raw ->
             _parse_bound
               (mkLib (fun _ => None)
                      (fun s => if str_eqb s (u "09:00") then Some (mkTime 9 0 0 0 None)
                                else if str_eqb s (u "08:00") then Some (mkTime 8 0 0 0 None)
                                else if str_eqb s (u "09:00+00:00")
                                     then Some (mkTime 9 0 0 0 (Some 0%Z))
                                else None))
               (mkClock (mkDT 2026 1 16 9 30 0 0 None) 19800000000%Z) raw
             = Ok (None, Some t) -> t_tzinfo t = None).
  { intros raw t [E | E] P; inversion E; subst raw; vm_compute in P;
      inversion P; reflexivity. }
  specialize (H Hb). vm_compute in H. destruct H as (_ & _ & H). exact H.
Defined.
(** ** No bound: the events of today *)

Lemma lex_cmp_date_time (x1 x2 x3 y1 y2 y3 : Z) (ta tb : list Z) :
  lex_cmp (x1 :: x2 :: x3 :: ta) (y1 :: y2 :: y3 :: tb) =
  match lex_cmp [x1; x2; x3] [y1; y2; y3] with
  | Eq => lex_cmp ta tb
  | c => c
  end.
Proof.
  simpl. destruct (Z.compare x1 y1), (Z.compare x2 y2), (Z.compare x3 y3); reflexivity.
Qed.

Ltac zcmp :=
  repeat match goal with
         | |- context [Z.compare ?a ?b] => destruct (Z.compare_spec a b)
         | H : context [Z.compare ?a ?b] |- _ => destruct (Z.compare_spec a b)
         end.

Lemma midnight_le_time (h mi s us : Z) :
  (0 <= h)%Z -> (0 <= mi)%Z -> (0 <= s)%Z -> (0 <= us)%Z ->
  lex_cmp [0; 0; 0; 0]%Z [h; mi; s; us] <> Gt /\
  lex_cmp [h; mi; s; us] [0; 0; 0; 0]%Z <> Lt.
Proof. intros. cbn [lex_cmp]. split; zcmp; try discriminate; lia. Qed.

Lemma lex3_lt (a b c x y z : Z) :
  lex_cmp [a; b; c] [x; y; z] = Lt <->
  (a < x \/ (a = x /\ (b < y \/ (b = y /\ c < z))))%Z.
Proof.
  cbn [lex_cmp].
  destruct (Z.compare_spec a x), (Z.compare_spec b y), (Z.compare_spec c z);
    split; intros G; try discriminate; try reflexivity; lia.
Qed.

Lemma lex3_le (a b c x y z : Z) :
  lex_cmp [a; b; c] [x; y; z] <> Gt <->
  (a < x \/ (a = x /\ (b < y \/ (b = y /\ c <= z))))%Z.
Proof.
  cbn [lex_cmp].
  destruct (Z.compare_spec a x), (Z.compare_spec b y), (Z.compare_spec c z);
    split; intros G; try discriminate; try congruence; lia.
Qed.

(** Among the dates of the calendar, the dates before tomorrow are the
    dates up to today. *)
Lemma before_next_day (d d' : date) (y m dd : Z) :
  next_day d = Ok d' -> valid_date y m dd = true ->
  (lex_cmp [y; m; dd] [d_year d'; d_month d'; d_day d'] = Lt <->
   lex_cmp [y; m; dd] [d_year d; d_month d; d_day d] <> Gt).
Proof.
  destruct d as [Y M D]. unfold next_day, valid_date. cbn [d_year d_month d_day].
  intros H V. rewrite lex3_lt, lex3_le.
  repeat (apply andb_true_iff in V as [V ?]).
  repeat match goal with
         | H : (_ <=? _)%Z = true |- _ => apply Z.leb_le in H
         end.
  destruct (D <? days_in_month Y M)%Z eqn:E1.
  { inversion H; subst d'. apply Z.ltb_lt in E1. cbn [d_year d_month d_day]. lia. }
  apply Z.ltb_ge in E1.
  destruct (M <? 12)%Z eqn:E2.
  { inversion H; subst d'. apply Z.ltb_lt in E2. cbn [d_year d_month d_day].
    destruct (Z.eq_dec y Y) as [-> | Ny]; [|lia].
    destruct (Z.eq_dec m M) as [-> | Nm]; lia. }
  apply Z.ltb_ge in E2.
  destruct (Y <? 9999)%Z eqn:E3; [|discriminate].
  inversion H; subst d'. cbn [d_year d_month d_day].
  destruct (Z.eq_dec y Y) as [-> | Ny]; [|lia].
  destruct (Z.eq_dec m M) as [-> | Nm]; lia.
Qed.

Lemma in_today (d d' : date) (t : datetime) :
  next_day d = Ok d' -> valid_datetime t = true ->
  (naive_cmp (combine d midnight) t <> Gt /\
   naive_cmp t (combine d' midnight) = Lt) <-> date_of t = d.
Proof.
  intros Hn V. unfold valid_datetime in V. apply andb_true_iff in V as [Vd Vt].
  pose proof (before_next_day d d' _ _ _ Hn Vd) as B.
  unfold valid_tod in Vt.
  repeat (apply andb_true_iff in Vt as [Vt ?]).
  repeat match goal with
         | H : (_ <=? _)%Z = true |- _ => apply Z.leb_le in H
         end.
  destruct (midnight_le_time (hour t) (minute t) (second t) (microsecond t))
    as [T1 T2]; try assumption.
  unfold naive_cmp, fields, combine, midnight.
  cbn [year month day hour minute second microsecond
       t_hour t_minute t_second t_microsecond].
  rewrite (lex_cmp_date_time (d_year d) (d_month d) (d_day d) (year t) (month t) (day t)
             [0; 0; 0; 0]%Z [hour t; minute t; second t; microsecond t]).
  rewrite (lex_cmp_date_time (year t) (month t) (day t) (d_year d') (d_month d') (d_day d')
             [hour t; minute t; second t; microsecond t] [0; 0; 0; 0]%Z).
  split.
  - intros [L U].
    assert (U' : lex_cmp [year t; month t; day t] [d_year d'; d_month d'; d_day d'] = Lt).
    { destruct (lex_cmp [year t; month t; day t] [d_year d'; d_month d'; d_day d']);
        congruence. }
    apply B in U'.
    assert (L' : lex_cmp [d_year d; d_month d; d_day d] [year t; month t; day t] <> Gt).
    { destruct (lex_cmp [d_year d; d_month d; d_day d] [year t; month t; day t]);
        congruence. }
    assert (E : lex_cmp [year t; month t; day t] [d_year d; d_month d; d_day d] = Eq).
    { rewrite (lex_cmp_antisym [year t; month t; day t] [d_year d; d_month d; d_day d])
        in L'.
      destruct (lex_cmp [year t; month t; day t] [d_year d; d_month d; d_day d]);
        simpl in *; congruence. }
    apply lex_cmp_eq in E; [|reflexivity]. inversion E as [[E1 E2 E3]].
    unfold date_of. rewrite E1, E2, E3. destruct d; reflexivity.
  - intros <-. cbn [date_of d_year d_month d_day] in *.
    rewrite lex_cmp_refl in *. split; [exact T1|].
    destruct B as [_ B]. rewrite B by discriminate. reflexivity.
Qed.

(** The filter against the window of today. *)
Lemma today_window_filter (d d' : date) (evs : list event) :
  next_day d = Ok d' ->
  (forall e t, In e evs -> ev_datetime e = Some t ->
               naive t /\ valid_datetime t = true) ->
  exists l,
    filter_window (combine d midnight) (combine d' midnight) evs = Ok l /\
    Subseq l evs /\
    forall e, In e l <-> In e evs /\ exists t, ev_datetime e = Some t /\ date_of t = d.
Proof.
  intros Hn Hev.
  destruct (filter_window_total (combine d midnight) (combine d' midnight) evs)
    as [l Hl]; try reflexivity.
  { intros e t Hin Ht. now apply (Hev e t). }
  exists l. split; [exact Hl|].
  apply filter_window_filter in Hl. subst l. split; [apply filter_subseq|].
  intros e. rewrite filter_In. split.
  - intros [Hin Hw]. split; [exact Hin|].
    destruct (in_window _ _ e) as [[|]|] eqn:W; try discriminate.
    apply in_window_true in W as (t & Ht & L & U).
    destruct (Hev e t Hin Ht) as [Nt Vt]. exists t. split; [exact Ht|].
    rewrite dt_le_naive in L by (reflexivity || assumption).
    rewrite dt_lt_naive in U by (reflexivity || assumption).
    apply (in_today d d' t Hn Vt). split.
    + destruct (naive_cmp (combine d midnight) t); simpl in L; congruence.
    + destruct (naive_cmp t (combine d' midnight)); simpl in U; congruence.
  - intros [Hin (t & Ht & Hd)]. split; [exact Hin|].
    destruct (Hev e t Hin Ht) as [Nt Vt].
    apply (in_today d d' t Hn Vt) in Hd as [L U].
    replace (in_window (combine d midnight) (combine d' midnight) e) with (Ok true);
      [reflexivity|].
    symmetry. apply in_window_true. exists t. split; [exact Ht|].
    rewrite dt_le_naive by (reflexivity || assumption).
    rewrite dt_lt_naive by (reflexivity || assumption).
    rewrite U. split; [|reflexivity].
    destruct (naive_cmp (combine d midnight) t); simpl; congruence.
Qed.

(** X13.  Without bounds the window is today, from midnight to midnight,
    and the filter keeps exactly the events whose timestamp has the date of
    today, in their order.  The timestamps are naive datetimes of the
    calendar, as the parser builds them; the day after today exists. *)
Theorem no_bounds_keep_today (lib : pylib) (clk : clock) (evs : list event)
    (tomorrow : date) :
  next_day (date_of (now clk)) = Ok tomorrow ->
  (forall e t, In e evs -> ev_datetime e = Some t ->
               naive t /\ valid_datetime t = true) ->
  exists w l,
    _compute_event_window lib clk None None = Ok w /\
    w = (combine (date_of (now clk)) midnight, combine tomorrow midnight) /\
    filter_window (fst w) (snd w) evs = Ok l /\
    Subseq l evs /\
    forall e, In e l <->
              In e evs /\
              exists t, ev_datetime e = Some t /\ date_of t = date_of (now clk).
Proof.
  intros Hn Hev.
  destruct (today_window_filter _ _ evs Hn Hev) as (l & Hl & Hs & Hin).
  exists (combine (date_of (now clk)) midnight, combine tomorrow midnight), l.
  split; [|auto].
  unfold _compute_event_window. cbn [parse_opt_bound bind].
  now rewrite (add_one_day _ _ Hn).
Qed.

Lemma no_bounds_keep_today_witness :
  exists l,
    filter_window (mkDT 2026 1 16 0 0 0 0 None) (mkDT 2026 1 17 0 0 0 0 None)
      [ mkEvent (u "Departed 10:15") (Some (u "Departed")) None None
                (Some (mkDT 2026 1 16 10 15 0 0 None)) None;
        mkEvent (u "Arrived 17-Jan 00:00") (Some (u "Arrived")) None None
                (Some (mkDT 2026 1 17 0 0 0 0 None)) None ] = Ok l /\
    l = [ mkEvent (u "Departed 10:15") (Some (u "Departed")) None None
                  (Some (mkDT 2026 1 16 10 15 0 0 None)) None ].
Proof.
  destruct (no_bounds_keep_today
              (mkLib (fun _ => None) (fun _ => None))
              (mkClock (mkDT 2026 1 16 9 30 0 0 None) 19800000000%Z)
              [ mkEvent (u "Departed 10:15") (Some (u "Departed")) None None
                        (Some (mkDT 2026 1 16 10 15 0 0 None)) None;
                mkEvent (u "Arrived 17-Jan 00:00") (Some (u "Arrived")) None None
                        (Some (mkDT 2026 1 17 0 0 0 0 None)) None ]
              (mkDate 2026 1 17) eq_refl) as (w & l & Hw & -> & Hl & _).
  - intros e t [<- | [<- | []]] Ht; inversion Ht; split; reflexivity.
  - exists l. split; [exact Hl|]. vm_compute in Hl. now inversion Hl.
Defined.
(** ** The service: [get_train_status] *)

(** X14.  For a five-digit train number, a page that the upstream
    returns and that the parser reads, and no bounds, the service answers
    with the start date and the anchor of the page and with the events of
    today: the events of the parser whose timestamp has the date of today,
    in their order.  No cleaned line holds U+0130 or U+0131; the day after
    today exists. *)
Theorem status_without_bounds_is_today (lib : pylib) (clk : clock)
    (fetch : Z -> fetched) (train_number : Z) (html_text : str) (tomorrow : date)
    (p : parsed) :
  (10000 <= train_number <= 99999)%Z ->
  fetch train_number = Page html_text ->
  parse_train_status_html (now clk) html_text = Ok p ->
  (forall raw ln, In raw (extract_status_lines html_text) -> _clean_line raw = Ok ln ->
                  mem_char 304%N ln = false /\ mem_char 305%N ln = false) ->
  next_day (date_of (now clk)) = Ok tomorrow ->
  exists evs,
    get_train_status lib clk fetch train_number None None
    = Ok (mkParsed (start_date p) (last_update p) evs) /\
    Subseq evs (events p) /\
    forall e, In e evs <->
              In e (events p) /\
              exists t, ev_datetime e = Some t /\ date_of t = date_of (now clk).
Proof.
  intros Hn Hf Hp Hplain Htom.
  destruct (today_window_filter (date_of (now clk)) tomorrow (events p) Htom)
    as (l & Hl & Hs & Hin).
  { intros e t. apply (events_calendar _ _ _ _ _ Hp). }
  exists l. split; [|auto].
  unfold get_train_status, _validate_train_number.
  replace ((train_number <? 10000)%Z || (99999 <? train_number)%Z) with false
    by (symmetry; apply orb_false_iff; rewrite !Z.ltb_ge; lia).
  cbn [bind]. rewrite Hf, Hp. cbn [bind].
  rewrite (events_pass_schema _ _ _ Hp Hplain).
  cbn [bind]. unfold _compute_event_window. cbn [parse_opt_bound bind].
  rewrite (add_one_day _ _ Htom). cbn [bind fst snd].
  now rewrite Hl.
Qed.

Lemma status_without_bounds_is_today_witness :
  exists evs,
    get_train_status
      (mkLib (fun _ => None) (fun _ => None))
      (mkClock (mkDT 2026 1 16 9 30 0 0 None) 19800000000%Z)
      (fun _ => Page (u "<p>Departed from AGRA (AGC) 16-Jan 08:10</p>"))
      12345 None None
    = Ok (mkParsed None None evs) /\
    List.length evs = 1.
Proof.
  destruct (status_without_bounds_is_today
              (mkLib (fun _ => None) (fun _ => None))
              (mkClock (mkDT 2026 1 16 9 30 0 0 None) 19800000000%Z)
              (fun _ => Page (u "<p>Departed from AGRA (AGC) 16-Jan 08:10</p>"))
              12345 (u "<p>Departed from AGRA (AGC) 16-Jan 08:10</p>")
              (mkDate 2026 1 17)
              (mkParsed None None
                 [mkEvent (u "Departed from AGRA (AGC) 16-Jan 08:10")
                          (Some (u "Departed")) (Some (u "AGRA")) (Some (u "AGC"))
                          (Some (mkDT 2026 1 16 8 10 0 0 None)) None])) as (evs & H & _ & Hin).
  - lia.
  - reflexivity.
  - vm_compute. reflexivity.
  - intros raw ln Hraw Hc. vm_compute in Hraw. destruct Hraw as [<- | []].
    vm_compute in Hc. inversion Hc; subst ln. split; vm_compute; reflexivity.
  - reflexivity.
  - exists evs. split; [exact H|].
    vm_compute in H. now inversion H.
Defined.
(** ** The shape of a cleaned line *)

Lemma norm_ws_In (s : str) (c : char) :
  norm_ws s = true -> In c s -> is_space c = true -> c = 32%N.
Proof.
  induction s as [|x t IH]; simpl; [contradiction|].
  intros N [<- | Hin] Hc.
  - rewrite Hc in N. apply andb_true_iff in N as [N _].
    apply andb_true_iff in N as [N _]. now apply N.eqb_eq in N.
  - apply andb_true_iff in N as [_ N]. auto.
Qed.

Lemma norm_ws_single (a b : str) (x y : char) :
  norm_ws (a ++ x :: y :: b) = true -> is_space x = true -> is_space y = false.
Proof.
  intros N Hx. apply norm_ws_suffix in N. simpl in N. rewrite Hx in N.
  apply andb_true_iff in N as [N _]. apply andb_true_iff in N as [_ N].
  now apply negb_true_iff in N.
Qed.

Lemma rstrip_length (p : char -> bool) (s : str) :
  List.length (rstrip_by p s) <= List.length s.
Proof.
  unfold rstrip_by. rewrite length_rev.
  etransitivity; [apply lstrip_length|]. now rewrite length_rev.
Qed.

Lemma strip_fix_ends (p : char -> bool) (s : str) :
  strip_by p s = s ->
  (forall c t, s = c :: t -> p c = false) /\
  (forall a c, s = a ++ [c] -> p c = false).
Proof.
  intros H. split.
  - intros c t ->. destruct (p c) eqn:E; [|reflexivity]. exfalso.
    assert (L : List.length (strip_by p (c :: t)) <= List.length t).
    { unfold strip_by. etransitivity; [apply rstrip_length|].
      simpl. rewrite E. apply lstrip_length. }
    rewrite H in L. simpl in L. lia.
  - intros a c ->. destruct (p c) eqn:E; [|reflexivity]. exfalso.
    unfold strip_by in H.
    destruct (lstrip_suffix p (a ++ [c])) as [pre Hpre].
    remember (lstrip_by p (a ++ [c])) as z eqn:Ez.
    assert (L : List.length (rstrip_by p z) < List.length (a ++ [c])).
    { destruct z as [|zc zl _] using rev_ind.
      - simpl. rewrite length_app. simpl. lia.
      - assert (zc = c).
        { rewrite app_assoc in Hpre. now apply app_inj_tail in Hpre as [_ ->]. }
        subst zc. unfold rstrip_by. rewrite rev_app_distr. simpl. rewrite E.
        rewrite length_rev.
        pose proof (lstrip_length p (rev zl)) as L1. rewrite length_rev in L1.
        rewrite Hpre, !length_app. simpl. lia. }
    rewrite H in L. lia.
Qed.

Lemma no_glued_search (s : str) :
  no_glued s = true -> forall pv p, search_from glued_re pv s p = None.
Proof.
  induction s as [|c t IH]; intros H pv p; cbn [search_from]; rewrite match_glued.
  - reflexivity.
  - cbn [no_glued] in H. fold no_glued in H.
    apply andb_true_iff in H as [G H]. apply negb_true_iff in G.
    rewrite G. now apply IH.
Qed.

(** X15.  A cleaned line has no white space other than single spaces
    between other characters: every white-space character of it is a space,
    no space follows a space, and the line neither starts nor ends with a
    space or a no-break space.  The label [Last Updates On] is nowhere
    followed at once by a digit. *)
Theorem clean_line_shape (line y : str) :
  _clean_line line = Ok y ->
  (forall c, In c y -> is_space c = true -> c = 32%N) /\
  (forall a b x z, y = a ++ x :: z :: b -> is_space x = true -> is_space z = false) /\
  (forall c t, y = c :: t -> strip_set c = false) /\
  (forall a c, y = a ++ [c] -> strip_set c = false) /\
  re_search glued_re y = None.
Proof.
  intros Hy. destruct (clean_line_normal line y Hy) as (N & G & S).
  split; [intros c; now apply norm_ws_In|].
  split; [intros a b x z E; rewrite E in N; now apply (norm_ws_single a b)|].
  destruct (strip_fix_ends strip_set y S) as [H1 H2].
  split; [exact H1|]. split; [exact H2|].
  now apply no_glued_search.
Qed.

Lemma clean_line_shape_witness :
  _clean_line (u "  Last Updates On15-Jan-2026&nbsp;&nbsp;10:00 ")
  = Ok (u "Last Updates On 15-Jan-2026 10:00") /\
  re_search glued_re (u "Last Updates On 15-Jan-2026 10:00") = None.
Proof.
  assert (E : _clean_line (u "  Last Updates On15-Jan-2026&nbsp;&nbsp;10:00 ")
              = Ok (u "Last Updates On 15-Jan-2026 10:00")) by (vm_compute; reflexivity).
  split; [exact E|].
  exact (proj2 (proj2 (proj2 (proj2 (clean_line_shape _ _ E))))).
Defined.
(** ** Date arithmetic and [_normalize_dt] *)

Local Open Scope Z_scope.

Lemma days_before_month_succ (y m : Z) :
  1 <= m -> days_before_month y (m + 1) = days_before_month y m + days_in_month y m.
Proof.
  intros H. unfold days_before_month.
  replace (m + 1 - 1) with m by lia.
  replace (Z.to_nat m) with (S (Z.to_nat (m - 1))) by lia.
  cbn [days_before_month_aux]. f_equal. f_equal. lia.
Qed.

Lemma days_before_december (y : Z) :
  days_before_month y 12 = 334 + (if is_leap y then 1 else 0).
Proof.
  unfold days_before_month. change (Z.to_nat (12 - 1)) with 11%nat.
  cbn [days_before_month_aux]. unfold days_in_month.
  generalize (is_leap y). intros b. destruct b; vm_compute; reflexivity.
Qed.

Lemma year_length (y : Z) :
  days_before_year (y + 1) = days_before_year y + 365 + (if is_leap y then 1 else 0).
Proof.
  unfold days_before_year, is_leap.
  replace (y + 1 - 1) with y by lia.
  destruct (Z.eqb_spec (y mod 4) 0), (Z.eqb_spec (y mod 100) 0),
    (Z.eqb_spec (y mod 400) 0); cbn [andb orb negb];
    Z.div_mod_to_equations; lia.
Qed.

Lemma days_in_month_bounds (y m : Z) : 28 <= days_in_month y m <= 31.
Proof.
  unfold days_in_month.
  destruct (m =? 2); [destruct (is_leap y); lia|].
  destruct ((m =? 4) || (m =? 6) || (m =? 9) || (m =? 11))%bool; lia.
Qed.

Lemma valid_date_spec (y m d : Z) :
  valid_date y m d = true <->
  1 <= y <= 9999 /\ 1 <= m <= 12 /\ 1 <= d <= days_in_month y m.
Proof.
  unfold valid_date. rewrite !andb_true_iff, !Z.leb_le. tauto.
Qed.

Lemma next_day_ordinal (d d' : date) :
  next_day d = Ok d' ->
  valid_date (d_year d) (d_month d) (d_day d) = true ->
  ordinal (d_year d') (d_month d') (d_day d')
  = ordinal (d_year d) (d_month d) (d_day d) + 1 /\
  valid_date (d_year d') (d_month d') (d_day d') = true.
Proof.
  destruct d as [Y M D]. unfold next_day. cbn [d_year d_month d_day].
  intros H V. apply valid_date_spec in V as (Vy & Vm & Vd).
  destruct (D <? days_in_month Y M) eqn:E1.
  { inversion H; subst d'. apply Z.ltb_lt in E1. cbn [d_year d_month d_day].
    split; [unfold ordinal; lia | apply valid_date_spec; lia]. }
  apply Z.ltb_ge in E1.
  destruct (M <? 12) eqn:E2.
  { inversion H; subst d'. apply Z.ltb_lt in E2. cbn [d_year d_month d_day].
    split.
    - unfold ordinal. rewrite days_before_month_succ by lia. lia.
    - apply valid_date_spec. pose proof (days_in_month_bounds Y (M + 1)). lia. }
  apply Z.ltb_ge in E2.
  destruct (Y <? 9999) eqn:E3; [|discriminate].
  inversion H; subst d'. apply Z.ltb_lt in E3. cbn [d_year d_month d_day].
  assert (M = 12) by lia. subst M.
  split.
  - unfold ordinal. rewrite year_length, days_before_december.
    change (days_before_month (Y + 1) 1) with 0.
    assert (days_in_month Y 12 = 31) by reflexivity. lia.
  - apply valid_date_spec. pose proof (days_in_month_bounds (Y + 1) 1). lia.
Qed.

Lemma prev_day_ordinal (d d' : date) :
  prev_day d = Ok d' ->
  valid_date (d_year d) (d_month d) (d_day d) = true ->
  ordinal (d_year d') (d_month d') (d_day d')
  = ordinal (d_year d) (d_month d) (d_day d) - 1 /\
  valid_date (d_year d') (d_month d') (d_day d') = true.
Proof.
  destruct d as [Y M D]. unfold prev_day. cbn [d_year d_month d_day].
  intros H V. apply valid_date_spec in V as (Vy & Vm & Vd).
  destruct (1 <? D) eqn:E1.
  { inversion H; subst d'. apply Z.ltb_lt in E1. cbn [d_year d_month d_day].
    split; [unfold ordinal; lia | apply valid_date_spec; lia]. }
  apply Z.ltb_ge in E1.
  destruct (1 <? M) eqn:E2.
  { inversion H; subst d'. apply Z.ltb_lt in E2. cbn [d_year d_month d_day].
    split.
    - unfold ordinal.
      pose proof (days_before_month_succ Y (M - 1)) as S.
      replace (M - 1 + 1) with M in S by lia. rewrite S by lia. lia.
    - apply valid_date_spec. pose proof (days_in_month_bounds Y (M - 1)). lia. }
  apply Z.ltb_ge in E2.
  destruct (1 <? Y) eqn:E3; [|discriminate].
  inversion H; subst d'. apply Z.ltb_lt in E3. cbn [d_year d_month d_day].
  assert (M = 1) by lia. assert (D = 1) by lia. subst M D.
  split.
  - unfold ordinal. pose proof (year_length (Y - 1)) as S.
    replace (Y - 1 + 1) with Y in S by lia.
    rewrite S, days_before_december.
    change (days_before_month Y 1) with 0. lia.
  - apply valid_date_spec. assert (days_in_month (Y - 1) 12 = 31) by reflexivity. lia.
Qed.

Lemma iter_days_ordinal (step : date -> result date) (k : Z) :
  (forall d d', step d = Ok d' ->
                valid_date (d_year d) (d_month d) (d_day d) = true ->
                ordinal (d_year d') (d_month d') (d_day d')
                = ordinal (d_year d) (d_month d) (d_day d) + k /\
                valid_date (d_year d') (d_month d') (d_day d') = true) ->
  forall (n : nat) d d',
    iter_days step n d = Ok d' ->
    valid_date (d_year d) (d_month d) (d_day d) = true ->
    ordinal (d_year d') (d_month d') (d_day d')
    = ordinal (d_year d) (d_month d) (d_day d) + k * Z.of_nat n /\
    valid_date (d_year d') (d_month d') (d_day d') = true.
Proof.
  intros Hstep. induction n as [|n IH]; intros d d' H V; simpl in H.
  - inversion H; subst. split; [lia | assumption].
  - destruct (step d) as [d1|] eqn:E; simpl in H; [|discriminate].
    destruct (Hstep _ _ E V) as [O1 V1].
    destruct (IH _ _ H V1) as [O2 V2]. split; [lia | assumption].
Qed.

(** [d + timedelta(days=n)] is the date [n] days later. *)
Lemma add_days_ordinal (d d' : date) (n : Z) :
  add_days d n = Ok d' ->
  valid_date (d_year d) (d_month d) (d_day d) = true ->
  ordinal (d_year d') (d_month d') (d_day d')
  = ordinal (d_year d) (d_month d) (d_day d) + n /\
  valid_date (d_year d') (d_month d') (d_day d') = true.
Proof.
  unfold add_days. intros H V. destruct (0 <=? n) eqn:E.
  - apply Z.leb_le in E.
    destruct (iter_days_ordinal next_day 1 next_day_ordinal _ _ _ H V) as [O V'].
    split; [lia | assumption].
  - apply Z.leb_gt in E.
    destruct (iter_days_ordinal prev_day (-1)) with (n := Z.to_nat (- n)) (d := d) (d' := d')
      as [O V']; auto.
    { intros x x' Hx Vx. destruct (prev_day_ordinal _ _ Hx Vx). split; [lia | assumption]. }
    split; [lia | assumption].
Qed.

Lemma micros_split (t : datetime) :
  micros t = ordinal (year t) (month t) (day t) * day_micros + tod_micros t.
Proof. unfold micros, tod_micros, day_micros. ring. Qed.

(** [dt + timedelta(microseconds=delta)] is [delta] microseconds later. *)
Lemma add_micros_micros (t t' : datetime) (delta : Z) :
  add_micros t delta = Ok t' ->
  valid_date (year t) (month t) (day t) = true ->
  micros t' = micros t + delta /\ valid_datetime t' = true /\ tzinfo t' = tzinfo t.
Proof.
  unfold add_micros. intros H V.
  destruct (add_days (date_of t) ((tod_micros t + delta) / day_micros)) as [d|] eqn:E;
    simpl in H; [|discriminate].
  destruct (add_days_ordinal _ _ _ E V) as [O V'].
  cbn [date_of d_year d_month d_day] in O.
  inversion H; subst t'. clear H.
  set (total := tod_micros t + delta) in *.
  assert (R : 0 <= total mod day_micros < day_micros)
    by (apply Z.mod_pos_bound; reflexivity).
  pose proof (Z.div_mod total day_micros) as DM.
  set (r := total mod day_micros) in *. set (q := total / day_micros) in *.
  split; [|split; [|reflexivity]].
  - rewrite (micros_split t). unfold micros. cbn [year month day hour minute second microsecond].
    rewrite O. unfold day_micros in *.
    assert (((r / 3600000000 * 60 + r / 60000000 mod 60) * 60 + r / 1000000 mod 60)
            * 1000000 + r mod 1000000 = r).
    { clear. Z.div_mod_to_equations. lia. }
    specialize (DM ltac:(discriminate)). fold total. lia.
  - unfold valid_datetime, valid_tod.
    cbn [year month day hour minute second microsecond]. rewrite V'. cbn [andb].
    unfold day_micros in R.
    repeat (apply andb_true_iff; split); apply Z.leb_le;
      clear -R; Z.div_mod_to_equations; lia.
Qed.

Lemma valid_datetime_date (t : datetime) :
  valid_datetime t = true -> valid_date (year t) (month t) (day t) = true.
Proof. unfold valid_datetime. intros H. now apply andb_true_iff in H as [H _]. Qed.

(** [dt.astimezone(tz)] keeps the instant. *)
Lemma astimezone_instant (t t' : datetime) (o off : Z) :
  astimezone t o off = Ok t' ->
  valid_date (year t) (month t) (day t) = true ->
  micros t' - off = micros t - o /\ valid_datetime t' = true /\ tzinfo t' = Some off.
Proof.
  unfold astimezone. intros H V.
  destruct (add_micros t (- o)) as [utc|] eqn:E1; simpl in H; [|discriminate].
  destruct (add_micros utc off) as [loc|] eqn:E2; simpl in H; [|discriminate].
  destruct (add_micros_micros _ _ _ E1 V) as (M1 & V1 & _).
  destruct (add_micros_micros _ _ _ E2 (valid_datetime_date _ V1)) as (M2 & V2 & _).
  inversion H; subst t'. split; [|split; [exact V2 | reflexivity]].
  change (micros loc - off = micros t - o). lia.
Qed.

Local Close Scope Z_scope.

(** X16.  [_normalize_dt] returns a naive datetime.  It leaves a naive
    datetime as it is; an aware datetime of the calendar becomes the local
    time of the same instant, again a datetime of the calendar.  A second
    normalization changes nothing. *)
Theorem normalize_keeps_instant (clk : clock) (dt d : datetime) :
  _normalize_dt clk dt = Ok d ->
  naive d /\
  (tzinfo dt = None -> d = dt) /\
  (forall o, tzinfo dt = Some o ->
             valid_date (year dt) (month dt) (day dt) = true ->
             (micros d - local_offset clk = micros dt - o)%Z /\
             valid_datetime d = true) /\
  _normalize_dt clk d = Ok d.
Proof.
  unfold _normalize_dt. destruct (tzinfo dt) as [o|] eqn:E.
  - destruct (astimezone dt o (local_offset clk)) as [loc|] eqn:A; simpl; [|discriminate].
    intros H. inversion H; subst d. cbn [tzinfo drop_tz].
    split; [reflexivity|]. split; [discriminate|]. split; [|reflexivity].
    intros o' Ho V. inversion Ho; subst o'.
    destruct (astimezone_instant _ _ _ _ A V) as (M & V' & _).
    split; [exact M | exact V'].
  - intros H. inversion H; subst d. rewrite E.
    split; [exact E|]. split; [reflexivity|]. split; [discriminate | reflexivity].
Qed.

Lemma normalize_keeps_instant_witness :
  _normalize_dt (mkClock (mkDT 2026 1 16 9 30 0 0 None) 19800000000%Z)
                (mkDT 2026 1 15 20 0 0 0 (Some 0%Z))
  = Ok (mkDT 2026 1 16 1 30 0 0 None) /\
  naive (mkDT 2026 1 16 1 30 0 0 None).
Proof.
  assert (E : _normalize_dt (mkClock (mkDT 2026 1 16 9 30 0 0 None) 19800000000%Z)
                            (mkDT 2026 1 15 20 0 0 0 (Some 0%Z))
              = Ok (mkDT 2026 1 16 1 30 0 0 None)) by (vm_compute; reflexivity).
  split; [exact E|].
  destruct (normalize_keeps_instant _ _ _ E) as (H & _). exact H.
Defined.
(** ** The text of a bound *)

Lemma lstrip_app_stop (p : char -> bool) (s : str) (c : char) (t : str) :
  p c = false -> lstrip_by p (s ++ c :: t) = lstrip_by p s ++ c :: t.
Proof.
  intros Hc. induction s as [|x s IH]; simpl; [now rewrite Hc|].
  destruct (p x); [exact IH | reflexivity].
Qed.

Lemma rstrip_snoc (p : char -> bool) (s : str) (c : char) :
  p c = false -> rstrip_by p (s ++ [c]) = s ++ [c].
Proof.
  intros Hc. unfold rstrip_by. rewrite rev_app_distr. simpl. rewrite Hc.
  simpl. now rewrite rev_involutive.
Qed.

(** Stripping a string that ends with a word without white space at its
    two ends. *)
Lemma strip_app_word (p : char -> bool) (s w : str) (c e : char) :
  p c = false -> p e = false ->
  strip_by p (s ++ c :: w ++ [e]) = lstrip_by p s ++ c :: w ++ [e].
Proof.
  intros Hc He. unfold strip_by. rewrite lstrip_app_stop by assumption.
  replace (lstrip_by p s ++ c :: w ++ [e]) with ((lstrip_by p s ++ c :: w) ++ [e])
    by (rewrite <- app_assoc; reflexivity).
  now apply rstrip_snoc.
Qed.

Lemma ends_with_snoc (c e : char) (s : str) :
  ends_with [c] (s ++ [e]) = N.eqb c e.
Proof.
  unfold ends_with. rewrite rev_app_distr. simpl. now rewrite andb_true_r.
Qed.

(** X17.  A bound that ends with [Z] is read as the same bound ending
    with [+00:00], and white space around a bound does not count: the two
    parsers are given the same text, so the bound is accepted with the same
    result. *)
Theorem z_suffix_is_utc_offset (lib : pylib) (clk : clock) (s : str) :
  bound_text (s ++ u "Z") = lstrip_by is_space s ++ u "+00:00" /\
  bound_text (s ++ u "Z") = bound_text (s ++ u "+00:00") /\
  (forall r, _parse_bound lib clk (s ++ u "Z") = Ok r <->
             _parse_bound lib clk (s ++ u "+00:00") = Ok r) /\
  (forall raw, bound_text (strip raw) = bound_text raw).
Proof.
  assert (E1 : bound_text (s ++ u "Z") = lstrip_by is_space s ++ u "+00:00").
  { unfold bound_text, strip, strip_by.
    change (u "Z") with [90%N].
    rewrite lstrip_app_stop by reflexivity.
    rewrite rstrip_snoc by reflexivity.
    rewrite ends_with_snoc. cbn [N.eqb Pos.eqb]. now rewrite removelast_last. }
  assert (E2 : bound_text (s ++ u "+00:00") = lstrip_by is_space s ++ u "+00:00").
  { unfold bound_text, strip. change (u "Z") with [90%N].
    change (u "+00:00") with (43%N :: [48; 48; 58; 48]%N ++ [48%N]).
    rewrite strip_app_word by reflexivity.
    match goal with
    | |- context [ends_with ?a ?b] =>
        assert (F : ends_with a b = false)
          by (unfold ends_with; rewrite rev_app_distr; reflexivity);
        rewrite F
    end.
    reflexivity. }
  split; [exact E1|]. split; [now rewrite E1, E2|]. split.
  - intros r. unfold _parse_bound. rewrite E1, E2.
    destruct (datetime_fromisoformat lib _) as [x|].
    + reflexivity.
    + destruct (time_fromisoformat lib _); [reflexivity|]. split; discriminate.
  - intros raw. unfold bound_text, strip. now rewrite strip_idem.
Qed.
(** ** The CSRF token: [_get_csrf_token] *)

(** The text of a token: the name and the value between apostrophes. *)
Lemma quote_split (a b x y : str) :
  forallb not_quote a = true -> forallb not_quote b = true ->
  a ++ 39%N :: x = b ++ 39%N :: y -> a = b /\ x = y.
Proof.
  revert b. induction a as [|c a IH]; intros [|d b] Ha Hb E; simpl in *.
  - inversion E. auto.
  - inversion E; subst d. discriminate.
  - inversion E; subst c. discriminate.
  - inversion E; subst d.
    apply andb_true_iff in Ha as [_ Ha]. apply andb_true_iff in Hb as [_ Hb].
    destruct (IH b Ha Hb H1) as [-> ->]. auto.
Qed.

(** The runs of the token pattern: the subject starts with a pair. *)
Lemma Run_csrf (s : str) (pv : option char) (p : nat) (st' : state) :
  Run csrf_re (mkState s pv p []) st' ->
  exists k v post,
    s = u "name='" ++ k ++ u "' value='" ++ v ++ 39%N :: post /\
    k <> [] /\ v <> [] /\ forallb not_quote k = true /\ forallb not_quote v = true /\
    lookup_cap 1 (caps st') = Some (p + 6, p + 6 + List.length k) /\
    lookup_cap 2 (caps st')
    = Some (p + 15 + List.length k, p + 15 + List.length k + List.length v).
Proof.
  intros R. unfold csrf_re in R. cbn [SeqL] in R.
  apply Run_Seq_inv in R as (st1 & R1 & R).
  apply Run_Seq_inv in R as (st2 & R2 & R).
  apply Run_Seq_inv in R as (st3 & R3 & R).
  apply Run_Seq_inv in R as (st4 & R4 & R5).
  apply Run_Lit_chars in R1 as (Hr1 & Hst1).
  apply Run_Grp_inv in R2 as (st2' & R2 & ->).
  pose proof (Run_groupless _ _ _ R2 eq_refl) as Hc2.
  pose proof (Run_Reach _ _ _ R2) as (k' & new2 & Hk' & Hp2 & _).
  apply Run_plus_chr in R2 as (k & Hkn & Hk & Hr2).
  rewrite Hk' in Hr2. apply app_inv_tail in Hr2. subst k'.
  apply Run_Lit_chars in R3 as (Hr3 & Hst3).
  apply Run_Grp_inv in R4 as (st4' & R4 & ->).
  pose proof (Run_groupless _ _ _ R4 eq_refl) as Hc4.
  pose proof (Run_Reach _ _ _ R4) as (v' & new4 & Hv' & Hp4 & _).
  apply Run_plus_chr in R4 as (v & Hvn & Hv & Hr4).
  rewrite Hv' in Hr4. apply app_inv_tail in Hr4. subst v'.
  apply Run_Lit_chars in R5 as (Hr5 & Hst5).
  cbn [rest prev pos caps set_cap] in *.
  exists k, v, (rest st').
  assert (P1 : pos st1 = p + 6) by (rewrite Hst1; reflexivity).
  assert (C1 : caps st1 = []) by (rewrite Hst1; reflexivity).
  assert (P3 : pos st3 = p + 15 + List.length k).
  { rewrite Hst3. cbn [pos set_cap]. rewrite Hp2, P1. simpl. lia. }
  split.
  { rewrite Hr1, Hk', Hr3, Hv', Hr5. reflexivity. }
  repeat (split; [assumption|]).
  assert (C3 : caps st3 = (1, (pos st1, pos st2')) :: caps st2')
    by (rewrite Hst3; reflexivity).
  assert (C5 : caps st' = (2, (pos st3, pos st4')) :: caps st4')
    by (rewrite Hst5; reflexivity).
  rewrite C5. cbn [lookup_cap Nat.eqb]. rewrite Hc4, C3. cbn [lookup_cap Nat.eqb].
  rewrite Hp4, P3, Hp2, P1. split; reflexivity.
Qed.

Lemma csrf_Run (k v post : str) (pv : option char) (p : nat) :
  k <> [] -> v <> [] -> forallb not_quote k = true -> forallb not_quote v = true ->
  exists st',
    Run csrf_re
        (mkState (u "name='" ++ k ++ u "' value='" ++ v ++ 39%N :: post) pv p []) st'.
Proof.
  intros Hkn Hvn Hk Hv.
  destruct k as [|k0 k]; [congruence|]. destruct v as [|v0 v]; [congruence|].
  simpl in Hk, Hv. apply andb_true_iff in Hk as [Hk0 Hk].
  apply andb_true_iff in Hv as [Hv0 Hv].
  assert (L : forall (w : string) st t,
             rest st = u w ++ t -> exists st', Run (Lit w) st st' /\ rest st' = t).
  { intros w st t Hr. unfold Lit. rewrite <- (map_map N.eqb Chr).
    eexists. split.
    - apply (chars_Run (map N.eqb (u w)) (u w) st); [|exact Hr].
      apply Forall2_map_l. clear. induction (u w); constructor; auto. apply N.eqb_refl.
    - reflexivity. }
  assert (G : forall i (w0 : char) (w t : str) st,
             not_quote w0 = true -> forallb not_quote w = true ->
             rest st = (w0 :: w) ++ t ->
             exists st', Run (Grp i (Plus true (Chr not_quote))) st st' /\ rest st' = t).
  { intros i w0 w t st H0 Hw Hr. eexists. split.
    - constructor. unfold Plus. econstructor.
      + constructor; [exact Hr | exact H0].
      + apply (star_chr_Run true not_quote w); [exact Hw | reflexivity].
    - reflexivity. }
  unfold csrf_re. cbn [SeqL].
  destruct (L "name='"%string (mkState (u "name='" ++ (k0 :: k) ++ u "' value='"
                                          ++ (v0 :: v) ++ 39%N :: post) pv p [])
              ((k0 :: k) ++ u "' value='" ++ (v0 :: v) ++ 39%N :: post) eq_refl)
    as (s1 & R1 & E1).
  destruct (G 1 k0 k (u "' value='" ++ (v0 :: v) ++ 39%N :: post) s1 Hk0 Hk E1)
    as (s2 & R2 & E2).
  destruct (L "' value='"%string s2 ((v0 :: v) ++ 39%N :: post) E2) as (s3 & R3 & E3).
  destruct (G 2 v0 v (39%N :: post) s3 Hv0 Hv E3) as (s4 & R4 & E4).
  destruct (L "'"%string s4 post E4) as (s5 & R5 & E5).
  exists s5. repeat (econstructor; [eassumption|]). exact R5.
Qed.

Lemma nth_app_quote_free (b : str) (suf : str) (n : nat) :
  forallb not_quote b = true -> n < List.length b -> nth n (b ++ suf) 0%N <> 39%N.
Proof.
  revert n. induction b as [|c b IH]; intros n Hb Hn; simpl in *; [lia|].
  apply andb_true_iff in Hb as [Hc Hb].
  destruct n as [|n].
  - intros ->. discriminate.
  - apply IH; [assumption | lia].
Qed.

(** No pair starts inside a text without apostrophe that stands before a
    pair. *)
Lemma search_skips_prefix (pre k v post : str) :
  forallb not_quote pre = true ->
  forall pv p,
    search_from csrf_re pv
      (pre ++ u "name='" ++ k ++ u "' value='" ++ v ++ 39%N :: post) p
    = search_from csrf_re (last_of pv pre)
        (u "name='" ++ k ++ u "' value='" ++ v ++ 39%N :: post) (p + List.length pre).
Proof.
  induction pre as [|c pre IH]; intros Hpre pv p.
  - simpl. now rewrite Nat.add_0_r.
  - cbn [app search_from].
    destruct (match_at csrf_re pv _ p) as [m|] eqn:E.
    + exfalso. apply match_at_Run in E as (st' & R & _).
      apply Run_csrf in R as (k' & v' & post' & Hs & _).
      assert (N5 : nth 5 ((c :: pre ++ u "name=") ++ 39%N :: k ++ u "' value='" ++ v
                          ++ 39%N :: post) 0%N <> 39%N).
      { apply nth_app_quote_free.
        - change (c :: pre ++ u "name=") with ((c :: pre) ++ u "name=").
          rewrite forallb_app, Hpre. reflexivity.
        - simpl. rewrite length_app. simpl. unfold str, char in *. lia. }
      apply N5.
      replace ((c :: pre ++ u "name=") ++ 39%N :: k ++ u "' value='" ++ v ++ 39%N :: post)
        with (c :: pre ++ u "name='" ++ k ++ u "' value='" ++ v ++ 39%N :: post)
        by (simpl; rewrite <- app_assoc; reflexivity).
      rewrite Hs. reflexivity.
    + simpl in Hpre. apply andb_true_iff in Hpre as [_ Hpre].
      rewrite (IH Hpre).
      replace (p + List.length (c :: pre)) with (S p + List.length pre)
        by (simpl; unfold str, char in *; lia).
      reflexivity.
Qed.

Lemma search_from_hit (r : re) (pv : option char) (s : str) (p : nat) (m : mobj) :
  match_at r pv s p = Some m -> search_from r pv s p = Some m.
Proof. intros H. destruct s; cbn [search_from]; now rewrite H. Qed.

(** X18.  [_get_csrf_token] returns a pair exactly when the text holds
    [name='k' value='v'] for some non-empty [k] and [v] without apostrophe.
    The pair returned is such a [k] and [v] of the text; it is the first
    pair when no apostrophe stands before it. *)
Theorem csrf_token_is_first_pair (r_text : str) :
  ((exists t, _get_csrf_token r_text = inl t) <->
   exists pre k v post,
     r_text = pre ++ u "name='" ++ k ++ u "' value='" ++ v ++ 39%N :: post /\
     k <> [] /\ v <> [] /\
     forallb not_quote k = true /\ forallb not_quote v = true) /\
  (forall t, _get_csrf_token r_text = inl t ->
     exists pre k v post,
       t = (Some k, Some v) /\
       r_text = pre ++ u "name='" ++ k ++ u "' value='" ++ v ++ 39%N :: post /\
       k <> [] /\ v <> [] /\
       forallb not_quote k = true /\ forallb not_quote v = true) /\
  (forall pre k v post,
     r_text = pre ++ u "name='" ++ k ++ u "' value='" ++ v ++ 39%N :: post ->
     forallb not_quote pre = true ->
     k <> [] -> v <> [] ->
     forallb not_quote k = true -> forallb not_quote v = true ->
     _get_csrf_token r_text = inl (Some k, Some v)).
Proof.
  assert (Sound : forall t, _get_csrf_token r_text = inl t ->
     exists pre k v post,
       t = (Some k, Some v) /\
       r_text = pre ++ u "name='" ++ k ++ u "' value='" ++ v ++ 39%N :: post /\
       k <> [] /\ v <> [] /\
       forallb not_quote k = true /\ forallb not_quote v = true).
  { unfold _get_csrf_token. intros t H.
    destruct (re_search csrf_re r_text) as [m|] eqn:E; [|discriminate].
    inversion H; subst t. clear H.
    apply re_search_inv in E
      as (pre & w & st' & Hln & Hstart & Hend & R & Hrest & Hpos & Hcaps).
    apply Run_csrf in R as (k & v & post & Hs & Hkn & Hvn & Hk & Hv & C1 & C2).
    exists pre, k, v, post. rewrite Hln, Hs.
    split; [|repeat (split; [assumption || reflexivity|]); assumption].
    unfold group. rewrite <- Hcaps, C1, C2. f_equal; f_equal.
    - replace (pre ++ u "name='" ++ k ++ u "' value='" ++ v ++ 39%N :: post)
        with ((pre ++ u "name='") ++ k ++ (u "' value='" ++ v ++ 39%N :: post))
        by (rewrite <- app_assoc; reflexivity).
      apply slice_at; rewrite !length_app; simpl; unfold str, char in *; lia.
    - replace (pre ++ u "name='" ++ k ++ u "' value='" ++ v ++ 39%N :: post)
        with ((pre ++ u "name='" ++ k ++ u "' value='") ++ v ++ (39%N :: post))
        by (rewrite <- !app_assoc; reflexivity).
      apply slice_at; rewrite !length_app; simpl; rewrite ?length_app; simpl;
        unfold str, char in *; lia. }
  split; [|split; [exact Sound|]].
  - split.
    + intros [t H]. destruct (Sound t H) as (pre & k & v & post & _ & H').
      exists pre, k, v, post. exact H'.
    + intros (pre & k & v & post & Hs & Hkn & Hvn & Hk & Hv).
      unfold _get_csrf_token.
      destruct (re_search csrf_re r_text) as [m|] eqn:E; [eauto|]. exfalso.
      destruct (csrf_Run k v post (last_of None pre) (0 + List.length pre) Hkn Hvn Hk Hv)
        as [st' R].
      apply match_at_complete in R; [|reflexivity].
      apply (search_from_complete csrf_re pre _ None 0) in R.
      unfold re_search in E. rewrite Hs in E. exact (R E).
  - intros pre k v post Hs Hpre Hkn Hvn Hk Hv.
    destruct (csrf_Run k v post (last_of None pre) (0 + List.length pre) Hkn Hvn Hk Hv)
      as [st' R].
    pose proof (match_at_complete csrf_re _ _ _ _ eq_refl R) as M.
    destruct (match_at csrf_re (last_of None pre) _ (0 + List.length pre)) as [m|] eqn:E;
      [|congruence].
    assert (S : re_search csrf_re r_text = Some m).
    { unfold re_search. rewrite Hs, (search_skips_prefix pre k v post Hpre).
      now apply search_from_hit. }
    unfold _get_csrf_token. rewrite S.
    apply match_at_Run in E as (st2 & R2 & ->).
    apply Run_csrf in R2 as (k2 & v2 & post2 & Hs2 & _ & _ & Hk2 & Hv2 & C1 & C2).
    apply app_inv_head in Hs2.
    change (u "' value='") with (39%N :: u " value='") in Hs2.
    apply quote_split in Hs2 as [-> Hs2]; try assumption.
    apply app_inv_head in Hs2.
    apply quote_split in Hs2 as [-> _]; try assumption.
    unfold group. cbn [m_caps]. rewrite C1, C2. f_equal. f_equal; f_equal.
    + rewrite Hs.
      replace (pre ++ u "name='" ++ k2 ++ u "' value='" ++ v2 ++ 39%N :: post)
        with ((pre ++ u "name='") ++ k2 ++ (u "' value='" ++ v2 ++ 39%N :: post))
        by (rewrite <- app_assoc; reflexivity).
      apply slice_at; rewrite !length_app; simpl; unfold str, char in *; lia.
    + rewrite Hs.
      replace (pre ++ u "name='" ++ k2 ++ u "' value='" ++ v2 ++ 39%N :: post)
        with ((pre ++ u "name='" ++ k2 ++ u "' value='") ++ v2 ++ (39%N :: post))
        by (rewrite <- !app_assoc; reflexivity).
      apply slice_at; rewrite !length_app; simpl; rewrite ?length_app; simpl;
        unfold str, char in *; lia.
Qed.
(** ** The time token: hour and minute *)

Ltac by_range0 z n :=
  let i := fresh "i" in
  let Hi := fresh "Hi" in
  pattern z; apply (Z_range_cases _ 0 n); [intros i Hi; split_range i Hi | simpl; lia].

Lemma run_space (d : char) (t : str) (pv : option char) (p : nat)
    (cs : list (nat * (nat * nat))) (k : state -> option state) :
  is_space d = false ->
  rmatch (Plus true Space) (mkState (32%N :: d :: t) pv p cs) k
  = k (mkState (d :: t) (Some 32%N) (S p) cs).
Proof.
  intros Hd. unfold Plus, Space. cbn [rmatch rest]. rewrite space_is_space.
  cbn [advance rest pos caps List.length star_loop rmatch]. now rewrite Hd.
Qed.

Section TimeRun.

Variable k : state -> option state.
Variable t : str.
Variable cs : list (nat * (nat * nat)).

Lemma run_hour (h : Z) :
  (0 <= h <= 23)%Z ->
  rmatch re_H (mkState (two_digits h ++ 58%N :: t) (Some 32%N) 12 cs)
         (fun st1 => rmatch (Lit ":") st1 k)
  = k (mkState t (Some 58%N) 15 ((4, (12, 14)) :: cs)).
Proof.
  intros H. by_range0 h 24; vm_compute; destruct (k _); reflexivity.
Qed.

Lemma run_hour_high (h : Z) :
  (24 <= h <= 99)%Z ->
  rmatch re_H (mkState (two_digits h ++ 58%N :: t) (Some 32%N) 12 cs)
         (fun st1 => rmatch (Lit ":") st1 k)
  = None.
Proof.
  intros H. pattern h. apply (Z_range_cases _ 24 76); [|simpl; lia].
  intros i Hi. split_range i Hi; vm_compute; reflexivity.
Qed.

End TimeRun.

Lemma run_minute (m : Z) (cs : list (nat * (nat * nat))) :
  (0 <= m <= 59)%Z ->
  rmatch re_M (mkState (two_digits m) (Some 58%N) 15 cs) Some
  = Some (mkState [] (Some (digit_char m)) 17 ((5, (15, 17)) :: cs)).
Proof.
  intros H. by_range0 m 60; vm_compute; reflexivity.
Qed.

Lemma run_minute_high (m : Z) (cs : list (nat * (nat * nat))) :
  (60 <= m <= 99)%Z ->
  rmatch re_M (mkState (two_digits m) (Some 58%N) 15 cs) Some
  = Some (mkState [digit_char m] (Some (digit_char (m / 10))) 16 ((5, (15, 16)) :: cs)).
Proof.
  intros H. pattern m. apply (Z_range_cases _ 60 40); [|simpl; lia].
  intros i Hi. split_range i Hi; vm_compute; reflexivity.
Qed.

Lemma py_int_two_digits0 (d : Z) : (0 <= d <= 59)%Z -> py_int (two_digits d) = Some d.
Proof.
  intros H. by_range0 d 60; vm_compute; reflexivity.
Qed.

Lemma digit_char_not_space (z : Z) : is_space (digit_char z) = false.
Proof. apply ascii_digit_not_space, digit_char_range. Qed.

(** The matcher on a date that [strftime] wrote, a space, and a time of
    two and two digits: what is left to do after the space. *)
Lemma strptime_date_space (lu : datetime) (h mi : Z) :
  valid_date (year lu) (month lu) (day lu) = true ->
  (1000 <= year lu)%Z ->
  exists m1 m2 m3 s,
    month_abbr (month lu) = [m1; m2; m3] /\
    index_of (lower [m1; m2; m3]) month_names 1 = Some (month lu) /\
    strftime lu ++ u " " ++ two_digits h ++ u ":" ++ two_digits mi = s /\
    s = two_digits (day lu) ++ 45%N :: m1 :: m2 :: m3 :: 45%N
        :: four_digits (year lu) ++ 32%N :: two_digits h ++ 58%N :: two_digits mi /\
    rmatch strptime_re (mkState s None 0 []) Some
    = rmatch re_H (mkState (two_digits h ++ 58%N :: two_digits mi) (Some 32%N) 12
                           [(3, (7, 11)); (2, (3, 6)); (1, (0, 2))])
             (fun st7 => rmatch (Lit ":") st7 (fun st8 => rmatch re_M st8 Some)).
Proof.
  intros V Y. destruct (valid_date_bounds _ _ _ V) as (Hy & Hm & Hd).
  destruct (month_abbr_shape _ Hm) as (m1 & m2 & m3 & Hshape & Hidx).
  exists m1, m2, m3. eexists. split; [exact Hshape|]. split; [exact Hidx|].
  split; [reflexivity|].
  assert (Hs : strftime lu ++ u " " ++ two_digits h ++ u ":" ++ two_digits mi
               = two_digits (day lu) ++ 45%N :: (month_abbr (month lu) ++ 45%N
                   :: (digit_char (year lu / 1000) :: digit_char (year lu / 100)
                       :: digit_char (year lu / 10) :: digit_char (year lu)
                       :: 32%N :: digit_char (h / 10) :: digit_char h
                       :: 58%N :: two_digits mi))).
  { rewrite strftime_four by lia. rewrite <- !app_assoc. reflexivity. }
  split.
  { rewrite Hs, Hshape. reflexivity. }
  rewrite Hs.
  change (rmatch strptime_re ?st Some)
    with (rmatch re_d st (fun st1 => rmatch (Lit "-") st1 (fun st2 =>
          rmatch re_b st2 (fun st3 => rmatch (Lit "-") st3 (fun st4 =>
          rmatch re_Y st4 (fun st5 => rmatch (Plus true Space) st5 (fun st6 =>
          rmatch re_H st6 (fun st7 => rmatch (Lit ":") st7 (fun st8 =>
          rmatch re_M st8 Some))))))))).
  rewrite run_day by assumption.
  rewrite run_month by assumption.
  rewrite run_year by (apply ascii_digit_is_digit, digit_char_range).
  rewrite run_space by apply digit_char_not_space.
  reflexivity.
Qed.

Lemma strptime_strftime_time (lu : datetime) (h mi : Z) :
  valid_date (year lu) (month lu) (day lu) = true ->
  (1000 <= year lu)%Z ->
  (0 <= h <= 23)%Z -> (0 <= mi <= 59)%Z ->
  strptime (strftime lu ++ u " " ++ two_digits h ++ u ":" ++ two_digits mi)
  = Some (mkDT (year lu) (month lu) (day lu) h mi 0 0 None).
Proof.
  intros V Y Hh Hmi. destruct (valid_date_bounds _ _ _ V) as (Hy & Hm & Hd).
  destruct (strptime_date_space lu h mi V Y) as (m1 & m2 & m3 & s & Hshape & Hidx & -> & Hs & R).
  unfold strptime, re_match, match_at. rewrite R.
  rewrite run_hour by assumption. rewrite run_minute by assumption.
  rewrite Hs. unfold two_digits, four_digits.
  cbn [pos caps rest prev m_end m_caps app List.length Nat.eqb negb
       group lookup_cap slice firstn skipn Nat.sub].
  rewrite Hidx.
  change [digit_char (day lu / 10); digit_char (day lu)] with (two_digits (day lu)).
  rewrite py_int_two_digits by assumption.
  change [digit_char (year lu / 1000); digit_char (year lu / 100);
          digit_char (year lu / 10); digit_char (year lu)] with (four_digits (year lu)).
  rewrite four_digits_value by lia.
  change [digit_char (h / 10); digit_char h] with (two_digits h).
  change [digit_char (mi / 10); digit_char mi] with (two_digits mi).
  rewrite !py_int_two_digits0 by lia.
  rewrite V. reflexivity.
Qed.

Lemma strptime_strftime_bad_time (lu : datetime) (h mi : Z) :
  valid_date (year lu) (month lu) (day lu) = true ->
  (1000 <= year lu)%Z ->
  ((24 <= h <= 99)%Z \/ ((0 <= h <= 23)%Z /\ (60 <= mi <= 99)%Z)) ->
  strptime (strftime lu ++ u " " ++ two_digits h ++ u ":" ++ two_digits mi) = None.
Proof.
  intros V Y Hbad.
  destruct (strptime_date_space lu h mi V Y) as (m1 & m2 & m3 & s & Hshape & Hidx & -> & Hs & R).
  unfold strptime, re_match, match_at. rewrite R.
  destruct Hbad as [Hh | [Hh Hmi]].
  - now rewrite run_hour_high.
  - rewrite run_hour by assumption. rewrite run_minute_high by assumption.
    rewrite Hs. unfold two_digits, four_digits.
    cbn [pos caps rest prev m_end m_caps app List.length Nat.eqb negb]. reflexivity.
Qed.

(** X19.  With no date token and an anchor of the years 1000 to 9999, a
    time token [HH:MM] of two and two ASCII digits becomes the hour and the
    minute of the timestamp, on the date of the anchor, when the hour is at
    most 23 and the minute at most 59; otherwise there is no timestamp. *)
Theorem time_token_is_hour_and_minute (now lu : datetime) (h mi : Z) :
  valid_date (year lu) (month lu) (day lu) = true ->
  (1000 <= year lu)%Z ->
  (0 <= h <= 99)%Z -> (0 <= mi <= 99)%Z ->
  _build_event_dt now None (Some (two_digits h ++ u ":" ++ two_digits mi)) (Some lu)
  = if ((h <=? 23) && (mi <=? 59))%Z
    then Some (mkDT (year lu) (month lu) (day lu) h mi 0 0 None)
    else None.
Proof.
  intros V Y Hh Hmi. unfold _build_event_dt. cbn [truthy or_midnight].
  destruct (Z.leb_spec h 23); cbn [andb].
  - destruct (Z.leb_spec mi 59).
    + apply strptime_strftime_time; auto; lia.
    + apply strptime_strftime_bad_time; auto. right. lia.
  - apply strptime_strftime_bad_time; auto. left. lia.
Qed.

Lemma time_token_is_hour_and_minute_witness :
  _build_event_dt (mkDT 2026 1 16 9 0 0 0 None) None (Some (u "10:15"))
                  (Some (mkDT 2026 1 15 10 0 0 0 None))
  = Some (mkDT 2026 1 15 10 15 0 0 None).
Proof.
  apply (time_token_is_hour_and_minute (mkDT 2026 1 16 9 0 0 0 None)
           (mkDT 2026 1 15 10 0 0 0 None) 10 15);
    [reflexivity | simpl; lia | lia | lia].
Defined.

(** ** [today_str] *)

Lemma month_abbr_alpha (m : Z) :
  (1 <= m <= 12)%Z ->
  List.length (month_abbr m) = 3 /\ forallb is_ascii_alpha (month_abbr m) = true.
Proof. intros H. by_range m 12; vm_compute; auto. Qed.

(** X21.  For a date of the years 1000 to 9999, [today_str] writes eleven
    characters, a date with its year as the event parser wants it: taken as
    the date token of a line, it resolves to the midnight of that date,
    whatever the anchor. *)
Theorem today_str_is_a_full_date (now clock_now : datetime)
    (last_update_dt : option datetime) :
  valid_date (year now) (month now) (day now) = true ->
  (1000 <= year now)%Z ->
  List.length (today_str now) = 11 /\
  has_year (today_str now) = true /\
  _build_event_dt clock_now (Some (today_str now)) None last_update_dt
  = Some (mkDT (year now) (month now) (day now) 0 0 0 0 None).
Proof.
  intros V Y. destruct (valid_date_bounds _ _ _ V) as (Hy & Hm & Hd).
  destruct (month_abbr_alpha _ Hm) as [Ll Fl].
  assert (Ht : today_str now
               = two_digits (day now) ++ u "-" ++ month_abbr (month now) ++ u "-"
                 ++ four_digits (year now))
    by (unfold today_str; apply strftime_four; lia).
  assert (Hy' : has_year (today_str now) = true).
  { rewrite Ht.
    apply (has_year_full _ (two_digits (day now)) (month_abbr (month now))
                         (four_digits (year now))).
    unfold date_shape. split.
    - right. exists (digit_char (day now / 10)), (digit_char (day now)).
      repeat split; apply ascii_digit_is_digit, digit_char_range.
    - split; [exact Ll|]. split; [exact Fl|]. split; [reflexivity|]. split.
      + unfold four_digits. cbn [forallb].
        rewrite !ascii_digit_is_digit by apply digit_char_range. reflexivity.
      + reflexivity. }
  split.
  - rewrite Ht, !length_app, Ll. reflexivity.
  - split; [exact Hy'|].
    unfold _build_event_dt. cbn [or_midnight truthy].
    replace (truthy (Some (today_str now))) with true by reflexivity.
    rewrite Hy'. now apply strptime_strftime_midnight.
Qed.

Lemma today_str_is_a_full_date_witness :
  today_str (mkDT 2026 1 16 9 30 0 0 None) = u "16-Jan-2026" /\
  has_year (today_str (mkDT 2026 1 16 9 30 0 0 None)) = true.
Proof.
  split; [vm_compute; reflexivity|].
  destruct (today_str_is_a_full_date (mkDT 2026 1 16 9 30 0 0 None)
              (mkDT 2026 1 16 9 30 0 0 None) None) as (_ & H & _);
    [reflexivity | simpl; lia | exact H].
Defined.
(** ** The answer of the service *)

Lemma TrainEvents_inv (evs l : list event) :
  TrainEvents evs = Ok l ->
  l = evs /\
  forall e, In e evs ->
            ev_type e = None \/ ev_type e = Some (u "Arrived") \/
            ev_type e = Some (u "Departed").
Proof.
  revert l. induction evs as [|e evs IH]; intros l H; simpl in H.
  - inversion H. split; [reflexivity | contradiction].
  - unfold TrainEvent in H. destruct (ev_type e) as [ty|] eqn:Ety.
    + destruct (str_eqb ty (u "Arrived")) eqn:Ea; cbn [orb bind] in H.
      * destruct (TrainEvents evs) as [l'|]; cbn [bind] in H; [|discriminate].
        destruct (IH l' eq_refl) as [-> Hall]. inversion H. split; [reflexivity|].
        intros e' [<- | Hin]; [|auto]. rewrite Ety. apply str_eqb_eq in Ea. subst. auto.
      * destruct (str_eqb ty (u "Departed")) eqn:Ed; cbn [bind] in H; [|discriminate].
        destruct (TrainEvents evs) as [l'|]; cbn [bind] in H; [|discriminate].
        destruct (IH l' eq_refl) as [-> Hall]. inversion H. split; [reflexivity|].
        intros e' [<- | Hin]; [|auto]. rewrite Ety. apply str_eqb_eq in Ed. subst. auto.
    + cbn [bind] in H.
      destruct (TrainEvents evs) as [l'|]; cbn [bind] in H; [|discriminate].
      destruct (IH l' eq_refl) as [-> Hall]. inversion H. split; [reflexivity|].
      intros e' [<- | Hin]; auto.
Qed.

(** X20.  Whatever the bounds, an answer of the service comes from a
    five-digit train number and a page of the upstream; it carries the start
    date and the anchor of the page as they are, outside the window or not,
    and its events are events of the parser, in their order, each with the
    type [Arrived] or [Departed] and with a timestamp inside the window. *)
Theorem answer_is_filtered_page (lib : pylib) (clk : clock) (fetch : Z -> fetched)
    (train_number : Z) (start_time end_time : option str) (r : parsed) :
  get_train_status lib clk fetch train_number start_time end_time = Ok r ->
  exists html_text p w,
    (10000 <= train_number <= 99999)%Z /\
    fetch train_number = Page html_text /\
    parse_train_status_html (now clk) html_text = Ok p /\
    _compute_event_window lib clk start_time end_time = Ok w /\
    start_date r = start_date p /\ last_update r = last_update p /\
    Subseq (events r) (events p) /\
    forall e, In e (events r) ->
              (ev_type e = Some (u "Arrived") \/ ev_type e = Some (u "Departed")) /\
              exists t, ev_datetime e = Some t /\
                        dt_le (fst w) t = Ok true /\ dt_lt t (snd w) = Ok true.
Proof.
  unfold get_train_status, _validate_train_number. intros H.
  destruct ((train_number <? 10000)%Z || (99999 <? train_number)%Z) eqn:Ev;
    cbn [bind] in H; [discriminate|].
  apply orb_false_iff in Ev as [E1 E2]. apply Z.ltb_ge in E1, E2.
  destruct (fetch train_number) as [html_text| |] eqn:Ef; try discriminate.
  destruct (parse_train_status_html (now clk) html_text) as [p|] eqn:Ep;
    cbn [bind] in H; [|discriminate].
  destruct (TrainEvents _) as [evs|] eqn:Et; cbn [bind] in H; [|discriminate].
  destruct (_compute_event_window lib clk start_time end_time) as [w|] eqn:Ew;
    cbn [bind] in H; [|discriminate].
  destruct (filter_window (fst w) (snd w) evs) as [l|] eqn:El; cbn [bind] in H;
    [|discriminate].
  inversion H; subst r. clear H.
  apply TrainEvents_inv in Et as [-> Hty].
  exists html_text, p, w. split; [lia|]. split; [reflexivity|]. split; [exact Ep|].
  split; [reflexivity|].
  cbn [start_date last_update events]. split; [reflexivity|]. split; [reflexivity|].
  apply filter_window_filter in El. subst l. split; [apply filter_subseq|].
  intros e He. apply filter_In in He as [Hin Hw].
  destruct (in_window (fst w) (snd w) e) as [[|]|] eqn:W; try discriminate.
  apply in_window_true in W. split; [|exact W].
  destruct (Hty e Hin) as [Hn | H']; [|exact H'].
  exfalso. unfold parse_train_status_html in Ep.
  destruct (event_from_line _ _ _ _ Ep Hin) as (lines & ln & _ & _ & Hp).
  apply event_type in Hp as (ty & Hty' & _). congruence.
Qed.

Lemma answer_is_filtered_page_witness :
  exists w,
    _compute_event_window
      (mkLib (fun _ => None) (fun _ => None))
      (mkClock (mkDT 2026 1 16 9 30 0 0 None) 19800000000%Z) None None = Ok w.
Proof.
  destruct (answer_is_filtered_page
              (mkLib (fun _ => None) (fun _ => None))
              (mkClock (mkDT 2026 1 16 9 30 0 0 None) 19800000000%Z)
              (fun _ => Page (u "<p>Departed from AGRA (AGC) 16-Jan 08:10</p>"))
              12345 None None
              (mkParsed None None
                 [mkEvent (u "Departed from AGRA (AGC) 16-Jan 08:10")
                          (Some (u "Departed")) (Some (u "AGRA")) (Some (u "AGC"))
                          (Some (mkDT 2026 1 16 8 10 0 0 None)) None]))
    as (html_text & p & w & _ & _ & _ & H & _).
  - vm_compute. reflexivity.
  - exists w. exact H.
Defined.
(** ** The first tier on a line of the expected form *)

(** A run of characters of a class, up to the first character outside the
    class, is determined by the text. *)
Lemma class_span_unique (q : char -> bool) (a b x y : str) :
  forallb q a = true -> forallb q b = true ->
  match x with c :: _ => q c = false | [] => True end ->
  match y with c :: _ => q c = false | [] => True end ->
  a ++ x = b ++ y -> a = b /\ x = y.
Proof.
  revert b. induction a as [|c a IH]; intros [|d b] Ha Hb Hx Hy E; simpl in *.
  - auto.
  - subst x. apply andb_true_iff in Hb as [Hd _]. congruence.
  - subst y. apply andb_true_iff in Ha as [Hc _]. congruence.
  - inversion E; subst d.
    apply andb_true_iff in Ha as [_ Ha]. apply andb_true_iff in Hb as [_ Hb].
    destruct (IH b Ha Hb Hx Hy H1) as [-> ->]. auto.
Qed.

Lemma lstrip_app_all (p : char -> bool) (a b : str) :
  forallb p a = true -> lstrip_by p (a ++ b) = lstrip_by p b.
Proof.
  induction a as [|c a IH]; simpl; [reflexivity|].
  intros H. apply andb_true_iff in H as [Hc Ha]. rewrite Hc. auto.
Qed.

(** White space after a stripped word is stripped. *)
Lemma strip_app_spaces (p : char -> bool) (s ws : str) :
  strip_by p s = s -> s <> [] -> forallb p ws = true -> strip_by p (s ++ ws) = s.
Proof.
  intros Hs Hne Hws. destruct (strip_fix_ends p s Hs) as [Hhd _].
  destruct s as [|c t]; [congruence|].
  specialize (Hhd c t eq_refl).
  assert (L : lstrip_by p (c :: t) = c :: t) by (simpl; now rewrite Hhd).
  unfold strip_by in *. rewrite L in Hs.
  change ((c :: t) ++ ws) with (c :: t ++ ws).
  assert (L' : lstrip_by p (c :: t ++ ws) = c :: t ++ ws) by (simpl; now rewrite Hhd).
  rewrite L'. unfold rstrip_by in *.
  change (c :: t ++ ws) with ((c :: t) ++ ws). rewrite rev_app_distr.
  rewrite lstrip_app_all; [exact Hs|].
  rewrite forallb_forall in *. intros x Hx. apply Hws. now apply in_rev.
Qed.

(** The word of a group that ends where white space and a closing
    character follow, against a stripped word of the text. *)
Lemma stripped_word (p : char -> bool) (s ws1 w ws2 : str) :
  strip_by p s = s -> s <> [] ->
  forallb p ws1 = true -> forallb p ws2 = true ->
  s ++ ws1 = w ++ ws2 -> strip_by p w = s.
Proof.
  intros Hs Hne H1 H2 E. apply app_eq_app in E as [l [[E1 E2] | [E1 E2]]].
  - destruct (strip_fix_ends p s Hs) as [_ Hlast].
    destruct l as [|c l] using rev_ind.
    + rewrite app_nil_r in E1. now subst.
    + exfalso. rewrite app_assoc in E1. specialize (Hlast _ _ E1).
      rewrite E2, !forallb_app in H2. simpl in H2. rewrite Hlast in H2.
      rewrite !andb_false_r in H2. simpl in H2. discriminate.
  - subst w. apply strip_app_spaces; auto.
    rewrite E2, forallb_app in H1. now apply andb_true_iff in H1 as [H1 _].
Qed.

Lemma rep_Run (p : char -> bool) (w : str) :
  forallb p w = true ->
  forall st t, rest st = w ++ t ->
               exists st', Run (Rep (List.length w) (Chr p)) st st' /\ rest st' = t.
Proof.
  induction w as [|c w IH]; intros Hw st t Hr; simpl.
  - exists st. split; [constructor | exact Hr].
  - simpl in Hw. apply andb_true_iff in Hw as [Hc Hw].
    destruct (IH Hw (advance c (w ++ t) st) t eq_refl) as (st' & R & Hr').
    exists st'. split; [|exact Hr'].
    econstructor; [|exact R]. now constructor.
Qed.

Lemma upto_Run (p : char -> bool) (w : str) :
  forallb p w = true ->
  forall n st t, List.length w <= n -> rest st = w ++ t ->
                 exists st', Run (UpTo n (Chr p)) st st' /\ rest st' = t.
Proof.
  induction w as [|c w IH]; intros Hw n st t Hn Hr.
  - exists st. split; [|exact Hr]. destruct n; simpl; [constructor|].
    apply Run_AltR. constructor.
  - simpl in Hw. apply andb_true_iff in Hw as [Hc Hw].
    destruct n as [|n]; [simpl in Hn; lia|]. simpl in Hn.
    destruct (IH Hw n (advance c (w ++ t) st) t ltac:(lia) eq_refl) as (st' & R & Hr').
    exists st'. split; [|exact Hr']. simpl. apply Run_AltL.
    econstructor; [|exact R]. now constructor.
Qed.

Lemma range_Run (p : char -> bool) (lo hi : nat) (w : str) :
  forallb p w = true -> lo <= List.length w <= hi ->
  forall st t, rest st = w ++ t ->
               exists st', Run (Range lo hi (Chr p)) st st' /\ rest st' = t.
Proof.
  intros Hw Hl st t Hr.
  rewrite <- (firstn_skipn lo w) in Hr, Hw. rewrite forallb_app in Hw.
  apply andb_true_iff in Hw as [H1 H2]. rewrite <- app_assoc in Hr.
  destruct (rep_Run p (firstn lo w) H1 st _ Hr) as (s1 & R1 & E1).
  rewrite firstn_length_le in R1 by lia.
  destruct (upto_Run p (skipn lo w) H2 (hi - lo) s1 t) as (s2 & R2 & E2).
  { rewrite length_skipn. lia. }
  { exact E1. }
  exists s2. split; [|exact E2]. unfold Range. econstructor; eassumption.
Qed.

Lemma star_Run (g : bool) (p : char -> bool) (w : str) (st : state) (t : str) :
  forallb p w = true -> rest st = w ++ t ->
  exists st', Run (Star g (Chr p)) st st' /\ rest st' = t.
Proof.
  intros Hw Hr. eexists. split; [apply (star_chr_Run g p w); eassumption | reflexivity].
Qed.

Lemma plus_Run (g : bool) (p : char -> bool) (c : char) (w : str) (st : state) (t : str) :
  p c = true -> forallb p w = true -> rest st = (c :: w) ++ t ->
  exists st', Run (Plus g (Chr p)) st st' /\ rest st' = t.
Proof.
  intros Hc Hw Hr. eexists. split.
  - unfold Plus. econstructor; [constructor; [exact Hr | exact Hc]|].
    apply (star_chr_Run g p w); [exact Hw | reflexivity].
  - reflexivity.
Qed.

Lemma lit_Run (w : string) (st : state) (t : str) :
  rest st = u w ++ t -> exists st', Run (Lit w) st st' /\ rest st' = t.
Proof.
  intros Hr. unfold Lit. rewrite <- (map_map N.eqb Chr). eexists. split.
  - apply (chars_Run (map N.eqb (u w)) (u w) st); [|exact Hr].
    apply Forall2_map_l. clear. induction (u w); constructor; auto. apply N.eqb_refl.
  - reflexivity.
Qed.

Lemma ci_refl (c : char) : ci c c = true.
Proof. unfold ci. now rewrite N.eqb_refl. Qed.

Lemma litI_Run (w : string) (st : state) (t : str) :
  rest st = u w ++ t ->
  Run (LitI w) st (mkState t (last_of (prev st) (u w))
                           (pos st + List.length (u w)) (caps st)).
Proof.
  intros Hr. unfold LitI. rewrite <- (map_map ci Chr).
  apply (chars_Run (map ci (u w)) (u w) st); [|exact Hr].
  apply Forall2_map_l. clear. induction (u w); constructor; auto. apply ci_refl.
Qed.

Lemma space_not_paren (c : char) : is_space c = true -> not_paren c = true.
Proof.
  intros H. unfold not_paren. apply negb_true_iff, orb_false_iff.
  split; apply N.eqb_neq; intros ->; vm_compute in H; discriminate.
Qed.

Lemma space_not_code (c : char) : is_space c = true -> code_char c = false.
Proof.
  intros H. destruct (code_char c) eqn:E; [|reflexivity].
  apply code_not_space in E. congruence.
Qed.

Lemma forallb_impl (p q : char -> bool) (w : str) :
  (forall c, p c = true -> q c = true) -> forallb p w = true -> forallb q w = true.
Proof.
  intros H. rewrite !forallb_forall. auto.
Qed.

(** Where a run of one class ends before a character outside another. *)
Lemma span_stop (q p : char -> bool) (ws : str) (d : char) (r : str) :
  (forall c, p c = true -> q c = false) -> q d = false -> forallb p ws = true ->
  match ws ++ d :: r with c :: _ => q c = false | [] => True end.
Proof.
  intros H Hd Hws. destruct ws as [|c ws]; simpl; [exact Hd|].
  simpl in Hws. apply andb_true_iff in Hws as [Hc _]. auto.
Qed.

Lemma ci_head (a0 : char) (a w t : str) (c : char) (x : str) :
  Forall2 (fun a c => ci a c = true) (a0 :: a) w -> w ++ t = c :: x -> ci a0 c = true.
Proof.
  intros F E. inversion F; subst. simpl in E. now inversion E; subst.
Qed.

Lemma app_same_length (a b x y : str) :
  List.length a = List.length b -> a ++ x = b ++ y -> a = b /\ x = y.
Proof.
  revert b. induction a as [|c a IH]; intros [|d b] L E; simpl in *; try discriminate.
  - auto.
  - inversion E; subst. destruct (IH b ltac:(lia) H1) as [-> ->]. auto.
Qed.

Lemma ci_word (a w t a' x : str) :
  Forall2 (fun a c => ci a c = true) a w -> List.length a' = List.length a ->
  w ++ t = a' ++ x -> w = a' /\ t = x.
Proof.
  intros F L E. apply app_same_length; [|exact E].
  apply Forall2_length in F. lia.
Qed.

(** The text of a line of the first tier: the verb, [from] or [at], the
    station, and the code between parentheses. *)
Lemma tier_a_line_Run (V F S C ws1 ws2 ws3 post : str) :
  V = u "Departed" \/ V = u "Arrived" ->
  F = u "from" \/ F = u "at" ->
  S <> [] -> forallb not_paren S = true ->
  1 <= List.length C <= 6 -> forallb code_char C = true ->
  forallb is_space ws1 = true -> forallb is_space ws2 = true ->
  forallb is_space ws3 = true ->
  exists st',
    Run tier_a_re
        (mkState (V ++ u " " ++ F ++ u " " ++ S ++ ws1 ++ u "(" ++ ws2 ++ C ++ ws3
                    ++ u ")" ++ post) None 0 []) st'.
Proof.
  intros HV HF HS FS LC FC F1 F2 F3.
  destruct S as [|s0 S]; [congruence|]. simpl in FS.
  apply andb_true_iff in FS as [Fs0 FS].
  set (T10 := u ")" ++ post).
  set (T9 := ws3 ++ T10).
  set (T8 := C ++ T9).
  set (T7 := ws2 ++ T8).
  set (T6 := u "(" ++ T7).
  set (T5 := ws1 ++ T6).
  set (T4 := (s0 :: S) ++ T5).
  set (T3 := u " " ++ T4).
  set (T2 := F ++ T3).
  set (T1 := u " " ++ T2).
  assert (RV : exists st2, Run (Seq Bnd (Seq verb Bnd)) (mkState (V ++ T1) None 0 []) st2 /\
                           rest st2 = T1).
  { destruct HV as [-> | ->].
    - eexists. split.
      + eapply Run_Seq; [apply Run_Bnd; reflexivity|].
        eapply Run_Seq; [apply Run_Grp, Run_AltL, litI_Run; reflexivity|].
        apply Run_Bnd. reflexivity.
      + reflexivity.
    - eexists. split.
      + eapply Run_Seq; [apply Run_Bnd; reflexivity|].
        eapply Run_Seq; [apply Run_Grp, Run_AltR, litI_Run; reflexivity|].
        apply Run_Bnd. reflexivity.
      + reflexivity. }
  destruct RV as (st2 & RV & E2).
  apply Run_Seq_inv in RV as (sa & Ra & RV). apply Run_Seq_inv in RV as (sb & Rb & Rc).
  destruct (plus_Run true is_space 32%N [] st2 T2 eq_refl eq_refl E2) as (st3 & R3 & E3).
  assert (R4 : exists st4, Run from_at st3 st4 /\ rest st4 = T3).
  { destruct HF as [HF | HF].
    - exists (mkState T3 (last_of (prev st3) (u "from"))
                      (pos st3 + List.length (u "from")) (caps st3)).
      split; [|reflexivity].
      apply Run_AltL, litI_Run. rewrite E3. unfold T2. now rewrite HF.
    - exists (mkState T3 (last_of (prev st3) (u "at"))
                      (pos st3 + List.length (u "at")) (caps st3)).
      split; [|reflexivity].
      apply Run_AltR, litI_Run. rewrite E3. unfold T2. now rewrite HF. }
  destruct R4 as (st4 & R4 & E4).
  destruct (plus_Run true is_space 32%N [] st4 T4 eq_refl eq_refl E4) as (st5 & R5 & E5).
  destruct (plus_Run false not_paren s0 S st5 T5 Fs0 FS E5) as (st6 & R6 & E6).
  pose proof (Run_Grp 2 _ _ _ R6) as R6'.
  destruct (star_Run true is_space ws1 (set_cap 2 (pos st5) (pos st6) st6) T6 F1 E6)
    as (st7 & R7 & E7).
  destruct (lit_Run "(" st7 T7 E7) as (st8 & R8 & E8).
  destruct (star_Run true is_space ws2 st8 T8 F2 E8) as (st9 & R9 & E9).
  destruct (range_Run code_char 1 6 C FC LC st9 T9 E9) as (st10 & R10 & E10).
  pose proof (Run_Grp 3 _ _ _ R10) as R10'.
  destruct (star_Run true is_space ws3 (set_cap 3 (pos st9) (pos st10) st10) T10 F3 E10)
    as (st11 & R11 & E11).
  destruct (lit_Run ")" st11 post E11) as (st12 & R12 & E12).
  exists st12. unfold tier_a_re. cbn [SeqL].
  repeat (eapply Run_Seq; [eassumption|]). exact R12.
Qed.
Lemma ci_from_at_not_space (c : char) :
  ci 102%N c = true \/ ci 97%N c = true -> is_space c = false.
Proof.
  intros [H | H]; apply ci_cases in H; simpl in H;
    destruct H as [-> | [-> | []]]; reflexivity.
Qed.

(** The groups of any run of the first tier over such a line. *)
Lemma tier_a_line_groups (V F S C ws1 ws2 ws3 post : str) (st' : state) :
  V = u "Departed" \/ V = u "Arrived" ->
  F = u "from" \/ F = u "at" ->
  S <> [] -> forallb not_paren S = true -> strip S = S ->
  C <> [] -> forallb code_char C = true ->
  forallb is_space ws1 = true -> forallb is_space ws2 = true ->
  forallb is_space ws3 = true ->
  forall ln,
    ln = V ++ u " " ++ F ++ u " " ++ S ++ ws1 ++ u "(" ++ ws2 ++ C ++ ws3
           ++ u ")" ++ post ->
    Run tier_a_re (mkState ln None 0 []) st' ->
    exists w2 a1 b1 a2 b2 a3 b3,
      lookup_cap 1 (caps st') = Some (a1, b1) /\ slice ln a1 b1 = V /\
      lookup_cap 2 (caps st') = Some (a2, b2) /\ slice ln a2 b2 = w2 /\
      lookup_cap 3 (caps st') = Some (a3, b3) /\ slice ln a3 b3 = C /\
      strip w2 = S.
Proof.
  intros HV HF HS FS SS HC FC F1 F2 F3 ln Hln R.
  pose proof (Sync_start ln None []) as S0.
  unfold tier_a_re in R. cbn [SeqL] in R.
  apply Run_Seq_inv in R as (st1 & R1 & R). apply Run_Bnd_inv in R1 as [-> _].
  apply Run_Seq_inv in R as (st2 & R2 & R). pose proof (Sync_Run _ _ _ _ S0 R2) as S2.
  pose proof (Run_grp_free 1 _ _ _ R eq_refl) as K1.
  apply Run_Seq_inv in R as (st3 & R3 & R). apply Run_Bnd_inv in R3 as [-> _].
  apply Run_Seq_inv in R as (st4 & R4 & R). pose proof (Sync_Run _ _ _ _ S2 R4) as S4.
  apply Run_Seq_inv in R as (st5 & R5 & R). pose proof (Sync_Run _ _ _ _ S4 R5) as S5.
  apply Run_Seq_inv in R as (st6 & R6 & R). pose proof (Sync_Run _ _ _ _ S5 R6) as S6.
  apply Run_Seq_inv in R as (st7 & R7 & R). pose proof (Sync_Run _ _ _ _ S6 R7) as S7.
  pose proof (Run_grp_free 2 _ _ _ R eq_refl) as K2.
  apply Run_Seq_inv in R as (st8 & R8 & R). pose proof (Sync_Run _ _ _ _ S7 R8) as S8.
  apply Run_Seq_inv in R as (st9 & R9 & R). pose proof (Sync_Run _ _ _ _ S8 R9) as S9.
  apply Run_Seq_inv in R as (st10 & R10 & R). pose proof (Sync_Run _ _ _ _ S9 R10) as S10.
  apply Run_Seq_inv in R as (st11 & R11 & R).
  pose proof (Run_grp_free 3 _ _ _ R eq_refl) as K3.
  apply Run_Seq_inv in R as (st12 & R12 & R13).
  destruct (Run_Grp_word ln 1 _ _ _ S0 R2) as (w1 & st2' & Rv & -> & Hr1 & Hl1 & Hs1).
  destruct (Run_Grp_word ln 2 _ _ _ S6 R7) as (w2 & st7' & Rs & -> & Hr7 & Hl2 & Hs2).
  destruct (Run_Grp_word ln 3 _ _ _ S10 R11) as (w3 & st11' & Rc & -> & Hr11 & Hl3 & Hs3).
  cbn [rest set_cap] in *.
  (* the verb *)
  set (T2 := F ++ u " " ++ S ++ ws1 ++ u "(" ++ ws2 ++ C ++ ws3 ++ u ")" ++ post) in Hln.
  assert (E1 : w1 = V /\ rest st2' = u " " ++ T2).
  { assert (E : w1 ++ rest st2' = V ++ u " " ++ T2) by now rewrite <- Hr1.
    apply Run_Alt_inv in Rv as [Rv | Rv];
      apply Run_LitI_chars in Rv as (w & Fw & Hr & _); cbn [rest] in Hr;
      rewrite Hr1 in Hr; apply app_inv_tail in Hr; subst w;
      destruct HV as [HV | HV]; rewrite HV in E |- *;
      first [ exact (ci_word _ _ _ _ _ Fw eq_refl E)
            | exfalso; pose proof (ci_head _ _ _ _ _ _ Fw E) as B;
              vm_compute in B; discriminate ]. }
  destruct E1 as [-> E1].
  (* from or at, between single spaces *)
  apply Run_plus_chr in R4 as (ws4 & Hne4 & Fw4 & Hr4). cbn [rest set_cap] in Hr4.
  set (T4 := S ++ ws1 ++ u "(" ++ ws2 ++ C ++ ws3 ++ u ")" ++ post) in *.
  assert (E5 : rest st5 = u " " ++ T4).
  { assert (Hw5 : exists w5, rest st4 = w5 ++ rest st5 /\
                             (Forall2 (fun a c => ci a c = true) (u "from") w5 \/
                              Forall2 (fun a c => ci a c = true) (u "at") w5)).
    { apply Run_Alt_inv in R5 as [R5 | R5];
        apply Run_LitI_chars in R5 as (w & Fw & Hr & _); exists w; auto. }
    destruct Hw5 as (w5 & Hr5 & Fw5).
    assert (E : [32%N] ++ T2 = ws4 ++ w5 ++ rest st5) by now rewrite <- Hr5, <- Hr4, E1.
    apply class_span_unique with (q := is_space) in E as [_ E];
      [| reflexivity | exact Fw4
       | unfold T2; destruct HF as [-> | ->]; reflexivity
       | destruct Fw5 as [Fw5 | Fw5]; inversion Fw5; subst; simpl;
         apply ci_from_at_not_space; auto ].
    unfold T2 in E. symmetry in E.
    destruct Fw5 as [Fw5 | Fw5]; destruct HF as [HF | HF]; rewrite HF in E;
      first [ exact (proj2 (ci_word _ _ _ _ _ Fw5 eq_refl E))
            | exfalso; pose proof (ci_head _ _ _ _ _ _ Fw5 E) as B;
              vm_compute in B; discriminate ]. }
  (* the station *)
  destruct (strip_fix_ends is_space S SS) as [Hhd _].
  apply Run_plus_chr in R6 as (ws6 & Hne6 & Fw6 & Hr6).
  assert (E7 : S ++ ws1 ++ u "(" ++ ws2 ++ C ++ ws3 ++ u ")" ++ post = w2 ++ rest st7').
  { rewrite <- Hr7. rewrite E5 in Hr6.
    destruct ws6 as [|c6 [|d6 ws6]]; [congruence | now inversion Hr6 |].
    exfalso. inversion Hr6 as [[Hc Hd]]. unfold T4 in Hd.
    destruct S as [|s0 S']; [congruence|]. inversion Hd; subst d6.
    specialize (Hhd s0 S' eq_refl). simpl in Fw6. rewrite Hhd in Fw6.
    rewrite andb_false_r in Fw6. discriminate. }
  apply Run_star_chr in R8 as (ws8 & Fw8 & Hr8 & _). cbn [rest set_cap] in Hr8.
  apply Run_Lit_chars in R9 as [Hr9 _].
  assert (E9 : S ++ ws1 = w2 ++ ws8 /\
               u "(" ++ ws2 ++ C ++ ws3 ++ u ")" ++ post = u "(" ++ rest st9).
  { rewrite Hr8, Hr9 in E7. rewrite !app_assoc in E7. rewrite <- !app_assoc in E7.
    rewrite (app_assoc S), (app_assoc w2) in E7.
    apply Run_plus_chr in Rs as (w2' & _ & Fw2 & Hr2).
    rewrite Hr7 in Hr2. apply app_inv_tail in Hr2. subst w2'.
    apply class_span_unique with (q := not_paren) in E7;
      [exact E7 | | | reflexivity | reflexivity].
    - rewrite forallb_app, FS. apply (forallb_impl _ _ _ space_not_paren F1).
    - rewrite forallb_app, Fw2. apply (forallb_impl _ _ _ space_not_paren Fw8). }
  destruct E9 as [E9 E10].
  pose proof (stripped_word is_space S ws1 w2 ws8 SS HS F1 Fw8 E9) as Hstrip.
  (* the code *)
  apply app_inv_head in E10.
  apply Run_star_chr in R10 as (ws10 & Fw10 & Hr10 & _).
  apply Run_lang in Rc as (w3' & L & Hr3 & _); [|reflexivity].
  rewrite Hr11 in Hr3. apply app_inv_tail in Hr3. subst w3'.
  apply lang_range_chr in L as [L3 Fw3].
  apply Run_star_chr in R12 as (ws12 & Fw12 & Hr12 & _). cbn [rest set_cap] in Hr12.
  apply Run_Lit_chars in R13 as [Hr13 _].
  assert (E11 : C = w3).
  { rewrite Hr10, Hr11, Hr12, Hr13 in E10.
    apply class_span_unique with (q := is_space) in E10 as [_ E10];
      [ | exact F2 | exact Fw10 | | ].
    - apply class_span_unique with (q := code_char) in E10 as [E10 _];
        [exact E10 | exact FC | exact Fw3 | | ];
        apply span_stop with (p := is_space); auto using space_not_code.
    - destruct C as [|c0 C']; [congruence|]. simpl in FC |- *.
      apply andb_true_iff in FC as [FC _]. now apply code_not_space.
    - destruct w3 as [|c0 w3']; [simpl in L3; lia|]. simpl in Fw3 |- *.
      apply andb_true_iff in Fw3 as [Fw3 _]. now apply code_not_space. }
  exists w2, 0, (pos st2'), (pos st6), (pos st7'), (pos st10), (pos st11').
  rewrite K1, K2, K3, Hl1, Hl2, Hl3, Hs3, E11.
  repeat split; auto.
Qed.

Lemma verb_line_search (V T : str) :
  V = u "Departed" \/ V = u "Arrived" ->
  re_search candidate_re (V ++ u " " ++ T) <> None.
Proof.
  intros HV.
  assert (R : exists st, Run tier_c_re (mkState (V ++ u " " ++ T) None 0 []) st).
  { unfold tier_c_re. cbn [SeqL]. destruct HV as [-> | ->]; eexists.
    - eapply Run_Seq; [apply Run_Bnd; reflexivity|].
      eapply Run_Seq; [apply Run_Grp, Run_AltL, litI_Run; reflexivity|].
      apply Run_Bnd. reflexivity.
    - eapply Run_Seq; [apply Run_Bnd; reflexivity|].
      eapply Run_Seq; [apply Run_Grp, Run_AltR, litI_Run; reflexivity|].
      apply Run_Bnd. reflexivity. }
  destruct R as (st & R).
  pose proof (match_at_complete tier_c_re None _ 0 st eq_refl R) as HM.
  destruct (match_at tier_c_re None (V ++ u " " ++ T) 0) as [m|] eqn:EM; [|congruence].
  apply (verb_is_candidate _ m). now apply search_from_hit.
Qed.

(** X22.  A line that starts with [Departed] or [Arrived], one space, [from]
    or [at], one space, a station name without parentheses and without white
    space at its ends, optional white space, and a code of one to six ASCII
    letters or digits between parentheses (white space allowed inside them),
    whatever follows: the line yields an event, with that verb as type, that
    station, that code, the timestamp of the line and its delay. *)
Theorem station_and_code_are_read (now : datetime) (lu : option datetime)
    (V F S C ws1 ws2 ws3 post : str) :
  V = u "Departed" \/ V = u "Arrived" ->
  F = u "from" \/ F = u "at" ->
  S <> [] -> forallb not_paren S = true -> strip S = S ->
  1 <= List.length C <= 6 ->
  forallb (fun c => is_ascii_digit c || is_ascii_alpha c) C = true ->
  forallb is_space ws1 = true -> forallb is_space ws2 = true ->
  forallb is_space ws3 = true ->
  let ln := V ++ u " " ++ F ++ u " " ++ S ++ ws1 ++ u "(" ++ ws2 ++ C ++ ws3
              ++ u ")" ++ post in
  parse_line now lu ln
  = Some (mkEvent ln (Some V) (Some S) (Some C) (line_dt now lu ln)
                  (token delay_re ln)).
Proof.
  intros HV HF HS FS SS LC FC0 F1 F2 F3 ln.
  assert (FC : forallb code_char C = true).
  { revert FC0. apply forallb_impl. intros c H. unfold code_char, is_alpha_i.
    apply orb_true_iff in H as [-> | ->]; [reflexivity|].
    now rewrite orb_true_r. }
  assert (HC : C <> []) by (intros ->; simpl in LC; lia).
  destruct (tier_a_line_Run V F S C ws1 ws2 ws3 post HV HF HS FS LC FC F1 F2 F3)
    as (st0 & R0).
  fold ln in R0.
  pose proof (match_at_complete tier_a_re None ln 0 st0 eq_refl R0) as HM.
  destruct (match_at tier_a_re None ln 0) as [m|] eqn:EM; [|congruence].
  assert (HA : re_search tier_a_re ln = Some m) by now apply search_from_hit.
  apply match_at_Run in EM as (st' & R & Hm).
  destruct (tier_a_line_groups V F S C ws1 ws2 ws3 post st' HV HF HS FS SS HC FC
              F1 F2 F3 ln eq_refl R)
    as (w2 & a1 & b1 & a2 & b2 & a3 & b3 & L1 & E1 & L2 & E2 & L3 & E3 & Hstrip).
  assert (Hcaps : m_caps m = caps st') by now rewrite Hm.
  rewrite <- Hcaps in L1, L2, L3.
  unfold parse_line.
  destruct (re_search candidate_re ln) eqn:Hc;
    [|now apply (verb_line_search V _ HV) in Hc].
  rewrite HA.
  rewrite (group_of_caps ln m 1 _ _ L1), (group_of_caps ln m 2 _ _ L2),
    (group_of_caps ln m 3 _ _ L3), E1, E2, E3.
  cbn [opt_map_str]. fold strip in Hstrip. rewrite Hstrip.
  assert (HT : title V = V) by (destruct HV as [-> | ->]; reflexivity).
  rewrite HT.
  assert (HCs : strip C = C).
  { apply strip_by_id. revert FC. apply forallb_impl. intros c H.
    now rewrite (code_not_space c H). }
  rewrite HCs.
  assert (T1 : truthy (Some V) = true) by (destruct HV as [-> | ->]; reflexivity).
  assert (T2 : truthy (Some S) = true) by (destruct S; [congruence | reflexivity]).
  now rewrite T1, T2.
Qed.

Lemma station_and_code_are_read_witness :
  parse_line (mkDT 2026 1 16 9 0 0 0 None) None
             (u "Departed from New Delhi (NDLS) 15-Jan-2026 10:05 Delay 00:10")
  = Some (mkEvent (u "Departed from New Delhi (NDLS) 15-Jan-2026 10:05 Delay 00:10")
                  (Some (u "Departed")) (Some (u "New Delhi")) (Some (u "NDLS"))
                  (Some (mkDT 2026 1 15 10 5 0 0 None)) (Some (u "00:10"))).
Proof.
  pose proof (station_and_code_are_read (mkDT 2026 1 16 9 0 0 0 None) None
                (u "Departed") (u "from") (u "New Delhi") (u "NDLS")
                (u " ") [] [] (u " 15-Jan-2026 10:05 Delay 00:10")
                (or_introl eq_refl) (or_introl eq_refl)) as H.
  vm_compute in H. vm_compute. apply H; try reflexivity; try discriminate; lia.
Defined.
(** ** [html.unescape] and [_clean_line]: when they raise *)

Lemma last_of_app (pv : option char) (a b : str) :
  last_of pv (a ++ b) = last_of (last_of pv a) b.
Proof. unfold last_of. apply fold_left_app. Qed.

(** A substitution raises only where the replacement raises on a match. *)
Lemma sub_loop_r_raise (fuel : nat) (r : re) (repl : mobj -> result str) :
  forall pv s p e,
    sub_loop_r fuel r repl pv s p = Raise e ->
    exists pre suf m,
      s = pre ++ suf /\
      match_at r (last_of pv pre) suf (p + List.length pre) = Some m /\
      repl m = Raise e.
Proof.
  induction fuel as [|fuel IH]; intros pv s p e H; [discriminate|].
  cbn [sub_loop_r] in H.
  assert (Hstep : forall c t,
             s = c :: t ->
             sub_loop_r fuel r repl (Some c) t (S p) = Raise e ->
             exists pre suf m,
               s = pre ++ suf /\
               match_at r (last_of pv pre) suf (p + List.length pre) = Some m /\
               repl m = Raise e).
  { intros c t -> R.
    destruct (IH _ _ _ _ R) as (pre & suf & m & -> & Hm & Hr).
    exists (c :: pre), suf, m. split; [reflexivity|]. split; [|exact Hr].
    simpl. now rewrite Nat.add_succ_r. }
  destruct (match_at r pv s p) as [m|] eqn:M.
  - destruct (repl m) as [w|e'] eqn:Rm; cbn [bind] in H.
    + destruct (Nat.ltb p (m_end m)) eqn:L.
      * destruct (sub_loop_r fuel r repl (m_last m) (m_rest m) (m_end m)) as [x|e'] eqn:R;
          [discriminate|].
        inversion H; subst e'.
        destruct (IH _ _ _ _ R) as (pre & suf & m' & Hrest & Hm & Hr).
        apply match_at_Run in M as (st' & Run0 & ->).
        destruct (Run_Reach _ _ _ Run0) as (w0 & new & Hw & Hp & Hv & _).
        cbn [rest pos prev m_rest m_end m_last] in *.
        exists (w0 ++ pre), suf, m'. split; [now rewrite Hw, Hrest, app_assoc|].
        split; [|exact Hr].
        rewrite last_of_app, <- Hv, length_app, Nat.add_assoc, <- Hp. exact Hm.
      * destruct s as [|c t]; [discriminate|].
        destruct (sub_loop_r fuel r repl (Some c) t (S p)) as [x|e'] eqn:R;
          [discriminate|].
        inversion H; subst e'. exact (Hstep c t eq_refl R).
    + inversion H; subst e'. exists [], s, m. simpl. rewrite Nat.add_0_r. auto.
  - destruct s as [|c t]; [discriminate|].
    destruct (sub_loop_r fuel r repl (Some c) t (S p)) as [x|e'] eqn:R;
      [discriminate|].
    inversion H; subst e'. exact (Hstep c t eq_refl R).
Qed.

(** The replacement of a reference raises only in the decimal conversion,
    on more digits than [int] takes. *)
Lemma replace_charref_raise (g : str) (e : exn) :
  replace_charref g = Raise e ->
  e = ValueError /\
  exists c t, g = 35%N :: c :: t /\ mem_char c (u "xX") = false /\
              int_max_str_digits < List.length (rstrip_by semicolon (c :: t)).
Proof.
  unfold replace_charref. intros H.
  destruct g as [|c0 t]; [discriminate|].
  destruct c0 as [|p]; [discriminate|].
  do 6 (destruct p as [p|p|]; cbv beta iota in H; try discriminate).
  destruct t as [|c t]; [discriminate|].
  destruct (mem_char c (u "xX")) eqn:X; [discriminate|].
  unfold py_int10 in H.
  destruct (Nat.ltb int_max_str_digits (List.length (rstrip_by semicolon (c :: t)))) eqn:L;
    [|discriminate].
  cbn [bind] in H. inversion H. split; [reflexivity|].
  exists c, t. split; [reflexivity|]. split; [exact X|]. now apply Nat.ltb_lt.
Qed.

Lemma digit_not_semicolon (c : char) : is_ascii_digit c = true -> semicolon c = false.
Proof.
  unfold is_ascii_digit, semicolon. intros H. apply andb_true_iff in H as [_ H].
  apply N.leb_le in H. apply N.eqb_neq. lia.
Qed.

(** The text of a decimal reference, without the semicolon. *)
Lemma rstrip_digits (ds sc : str) :
  ds <> [] -> forallb is_ascii_digit ds = true ->
  sc = [] \/ sc = [59%N] ->
  rstrip_by semicolon (ds ++ sc) = ds.
Proof.
  intros Hne Hd Hsc.
  assert (E : rstrip_by semicolon ds = ds).
  { destruct ds as [|c ds] using rev_ind; [congruence|].
    apply rstrip_snoc, digit_not_semicolon.
    rewrite forallb_app in Hd. apply andb_true_iff in Hd as [_ Hd].
    simpl in Hd. now rewrite andb_true_r in Hd. }
  destruct Hsc as [-> | ->]; [now rewrite app_nil_r|].
  unfold rstrip_by in *. rewrite rev_app_distr. simpl. exact E.
Qed.

(** [html.unescape] raises only [ValueError], and only on a text that holds
    [&#] followed by more decimal digits than [int] takes. *)
Lemma unescape_raise (s : str) (e : exn) :
  unescape s = Raise e ->
  e = ValueError /\
  exists pre ds post,
    s = pre ++ u "&#" ++ ds ++ post /\
    forallb is_ascii_digit ds = true /\
    int_max_str_digits < List.length ds.
Proof.
  unfold unescape. destruct (negb (mem_char 38%N s)); [discriminate|].
  unfold re_sub_r. intros H.
  apply sub_loop_r_raise in H as (pre & suf & m & Hs & Hm & Hr).
  simpl in Hm.
  apply match_at_Run in Hm as (st' & R & ->).
  pose proof (Sync_init pre suf (last_of None pre) []) as S0. rewrite <- Hs in S0.
  unfold charref_re in R.
  apply Run_Seq_inv in R as (st1 & R1 & R).
  pose proof (Sync_Run _ _ _ _ S0 R1) as S1.
  apply Run_Lit_chars in R1 as [Hr1 _]. cbn [rest] in Hr1.
  destruct (Run_Grp_word s 1 _ _ _ S1 R) as (g & st2 & RA & -> & Hg & Hl & Hsl).
  unfold group in Hr. cbn [m_caps] in Hr. rewrite Hl, Hsl in Hr.
  apply replace_charref_raise in Hr as (-> & c & t & Eg & X & L).
  split; [reflexivity|].
  cbn [AltL] in RA.
  apply Run_Alt_inv in RA as [RA | RA].
  - (* the decimal reference *)
    cbn [SeqL] in RA.
    apply Run_Seq_inv in RA as (sa & Ra & RA).
    apply Run_Lit_chars in Ra as [Hra _].
    apply Run_Seq_inv in RA as (sb & Rb & Rc).
    apply Run_plus_chr in Rb as (ds & Hne & Fd & Hrb).
    assert (Hsc : exists sc, (sc = [] \/ sc = [59%N]) /\ rest sb = sc ++ rest st2).
    { unfold Opt in Rc. apply Run_Alt_inv in Rc as [Rc | Rc].
      - apply Run_Lit_chars in Rc as [Hrc _]. exists [59%N]. auto.
      - apply Run_Eps_inv in Rc. subst st2. exists []. auto. }
    destruct Hsc as (sc & Hsc & Hrsc).
    assert (E : g = u "#" ++ ds ++ sc).
    { apply (app_inv_tail (rest st2)). rewrite <- Hg, Hra, Hrb, Hrsc.
      now rewrite <- !app_assoc. }
    rewrite Eg in E. inversion E as [E'].
    rewrite E', (rstrip_digits ds sc Hne Fd Hsc) in L.
    exists pre, ds, (sc ++ rest st2). split; [|auto].
    rewrite Hs, Hr1, Hg, Eg, E'. cbn [app u map list_ascii_of_string].
    now rewrite <- !app_assoc.
  - exfalso. apply Run_Alt_inv in RA as [RA | RA].
    + (* the hexadecimal reference: the second character is x or X *)
      cbn [SeqL] in RA.
      apply Run_Seq_inv in RA as (sa & Ra & RA).
      apply Run_Lit_chars in Ra as [Hra _].
      apply Run_Seq_inv in RA as (sb & Rb & _).
      apply Run_Chr_inv in Rb as (x & tx & Hx & Px & _).
      rewrite Hra, Hx, Eg in Hg. inversion Hg; subst. congruence.
    + (* a named reference does not start with # *)
      cbn [SeqL] in RA.
      apply Run_Seq_inv in RA as (sa & Ra & _).
      apply Run_lang in Ra as (w & Lw & Hw & _); [|reflexivity].
      apply lang_range_chr in Lw as [Ll Fw].
      destruct w as [|x w]; [simpl in Ll; lia|].
      rewrite Hw, Eg in Hg. inversion Hg; subst x.
      simpl in Fw. discriminate.
Qed.

(** C8 (as amended).  [_clean_line] returns a line, or it raises
    [ValueError], and this only for a line that holds [&#] followed by more
    than 4300 decimal digits: a line of at most 4300 characters is always
    cleaned.  Cleaning a cleaned line returns it unchanged whenever
    [html.unescape] leaves the cleaned line as it is, in particular when it
    holds no ampersand. *)
Theorem clean_line_idempotent_when_decoded (line : str) :
  (forall e, _clean_line line = Raise e ->
     e = ValueError /\
     exists pre ds post,
       line = pre ++ u "&#" ++ ds ++ post /\
       forallb is_ascii_digit ds = true /\
       int_max_str_digits < List.length ds) /\
  (List.length line <= int_max_str_digits -> exists y, _clean_line line = Ok y) /\
  (forall y, _clean_line line = Ok y -> unescape y = Ok y -> _clean_line y = Ok y) /\
  (forall y, _clean_line line = Ok y -> mem_char 38%N y = false -> _clean_line y = Ok y).
Proof.
  assert (Hr : forall e, _clean_line line = Raise e ->
                         e = ValueError /\
                         exists pre ds post,
                           line = pre ++ u "&#" ++ ds ++ post /\
                           forallb is_ascii_digit ds = true /\
                           int_max_str_digits < List.length ds).
  { intros e H. unfold _clean_line in H.
    destruct (unescape line) as [z|e'] eqn:U; [discriminate|].
    inversion H; subst e'. now apply unescape_raise. }
  assert (Hf : forall y, _clean_line line = Ok y -> unescape y = Ok y ->
                         _clean_line y = Ok y).
  { intros y Hy Hu. destruct (clean_line_normal line y Hy) as (Hn & Hg & Hs).
    now apply clean_line_fixed. }
  split; [exact Hr|]. split; [|split; [exact Hf|]].
  - intros Hl. destruct (_clean_line line) as [y|e] eqn:E; [eauto|].
    destruct (Hr e eq_refl) as (_ & pre & ds & post & -> & _ & Hd).
    exfalso. rewrite !length_app in Hl.
    unfold int_max_str_digits in *. lia.
  - intros y Hy Hamp. apply Hf; [exact Hy|].
    unfold unescape. now rewrite Hamp.
Qed.

Lemma clean_line_idempotent_when_decoded_witness :
  _clean_line (u "  A &amp;&nbsp; B ") = Ok (u "A & B") /\
  _clean_line (u "A & B") = Ok (u "A & B").
Proof.
  assert (E : _clean_line (u "  A &amp;&nbsp; B ") = Ok (u "A & B"))
    by (vm_compute; reflexivity).
  split; [exact E|].
  apply (proj1 (proj2 (proj2 (clean_line_idempotent_when_decoded
                                (u "  A &amp;&nbsp; B "))))).
  - exact E.
  - vm_compute. reflexivity.
Defined.

(** C8 as stated fails twice.  Decoding entities is not idempotent: a line
    that spells an entity with an escaped ampersand changes again.  And the
    function does fail: on a decimal reference of 4301 digits [int]
    raises. *)
Lemma clean_line_not_idempotent :
  _clean_line (u "&amp;lt;") = Ok (u "&lt;") /\
  _clean_line (u "&lt;") = Ok (u "<") /\
  u "<" <> u "&lt;" /\
  _clean_line (u "&#" ++ repeat 57%N 4301) = Raise ValueError.
Proof.
  split; [vm_compute; reflexivity|]. split; [vm_compute; reflexivity|].
  split; [vm_compute; discriminate|]. vm_compute. reflexivity.
Qed.
